(** * WebRTC call multiplexer: [webrtc/call/call.cc] and the RTX path of
    [webrtc/video_engine/vie_receiver.cc]

    A shallow embedding of [webrtc::internal::Call] and of the encapsulation
    handling of [ViEReceiver], followed by the properties of the stream
    registry, the packet demultiplexer, the sync resolver and the bitrate
    governor.

    Conventions.
    - [std::map<K, V>] is a [gmap K V] together with its traversal in
      ascending key order ([StdMap.items]); [std::set<T*>] is a [gset] of
      addresses traversed in ascending order ([StdSet.items]).
    - Stream objects live in a heap from addresses to their configuration;
      the registries hold addresses, as the C++ members hold raw pointers.
    - The calls into the streams, the congestion controller, the event log
      and the logger are appended to a trace, each with the value that came
      back when one does.
    - The model is sequential: locks and the thread checker do not appear. *)

From Stdlib Require Import ZArith NArith Strings.Byte List Bool Lia.
From stdpp Require Import gmap strings list fin_maps sorting.

Local Open Scope Z_scope.

(** ** Containers *)

Module StdMap.

(** Order of the keys of a [std::map<uint32_t, V>]. *)
Definition key_le {V : Type} : relation (N * V) := fun a b => (a.1 <= b.1)%N.

#[global] Instance key_le_dec {V : Type} (a b : N * V) : Decision (key_le a b) :=
  N.le_dec a.1 b.1.

(** [for (auto& kv : m)]: the entries in ascending key order. *)
Definition items {V : Type} (m : gmap N V) : list (N * V) :=
  merge_sort key_le (map_to_list m).

(** Order of the keys of a [std::map<int, V>]. *)
Definition zkey_le {V : Type} : relation (Z * V) := fun a b => (a.1 <= b.1)%Z.

#[global] Instance zkey_le_dec {V : Type} (a b : Z * V) : Decision (zkey_le a b) :=
  Z.le_dec a.1 b.1.

Definition zitems {V : Type} (m : gmap Z V) : list (Z * V) :=
  merge_sort zkey_le (map_to_list m).

(** [m.begin()], [None] when it equals [m.end()]. *)
Definition zbegin {V : Type} (m : gmap Z V) : option (Z * V) := head (zitems m).

(** [m.erase(key)]: the number of erased entries and the new map. *)
Definition erase {V : Type} (k : N) (m : gmap N V) : nat * gmap N V :=
  match m !! k with
  | Some _ => (1%nat, delete k m)
  | None => (0%nat, m)
  end.

End StdMap.

Module StdSet.

(** [for (T* x : s)]: the addresses in ascending order. *)
Definition items (s : gset positive) : list positive :=
  merge_sort Pos.le (elements s).

End StdSet.

(** ** Data *)

(** The address of a stream object; [nullptr] is [None] where a pointer may
    be null. *)
Abbreviation ptr := positive.

Inductive StreamKind := AudioSend | AudioReceive | VideoSend | VideoReceive.

Inductive NetworkState := kNetworkUp | kNetworkDown.

Inductive MediaType := ANY | AUDIO | VIDEO.

Inductive DeliveryStatus :=
| DELIVERY_OK
| DELIVERY_UNKNOWN_SSRC
| DELIVERY_PACKET_ERROR.

Definition NetworkState_eqb (a b : NetworkState) : bool :=
  match a, b with
  | kNetworkUp, kNetworkUp | kNetworkDown, kNetworkDown => true
  | _, _ => false
  end.

Definition MediaType_eqb (a b : MediaType) : bool :=
  match a, b with
  | ANY, ANY | AUDIO, AUDIO | VIDEO, VIDEO => true
  | _, _ => false
  end.

(** [Call::Config::BitrateConfig]: three [int] fields. *)
Record BitrateConfig := {
  min_bitrate_bps : Z;
  start_bitrate_bps : Z;
  max_bitrate_bps : Z
}.

(** [rtc::PacketTime]. *)
Record PacketTime := {
  timestamp : Z;
  not_before : Z
}.

(** The fields of [AudioSendStream::Config] that the call reads. *)
Record AudioSendStream_Config := {
  as_rtp_ssrc : N
}.

(** The fields of [AudioReceiveStream::Config] that the call reads. *)
Record AudioReceiveStream_Config := {
  ar_rtp_remote_ssrc : N;
  ar_sync_group : string;
  ar_voe_channel_id : Z
}.

(** The fields of [VideoSendStream::Config] that the call reads. *)
Record VideoSendStream_Config := {
  vs_rtp_ssrcs : list N
}.

(** [VideoReceiveStream::Config::Rtp::Rtx]. *)
Record Rtx := {
  rtx_ssrc : N;
  rtx_payload_type : Z
}.

(** The fields of [VideoReceiveStream::Config] that the call reads;
    [vr_rtp_rtx] is the [RtxMap], a [std::map<int, Rtx>]. *)
Record VideoReceiveStream_Config := {
  vr_rtp_remote_ssrc : N;
  vr_rtp_rtx : gmap Z Rtx;
  vr_sync_group : string
}.

(** [sync_group.empty()]. *)
Definition string_empty (s : string) : bool :=
  match s with
  | EmptyString => true
  | String _ _ => false
  end.

(** [++n] on a [size_t]. *)
Definition size_t_incr (n : Z) : Z := (n + 1) mod 2 ^ 64.

(** Modelled from the spec: [ByteReader<uint32_t>::ReadBigEndian] of
    [byte_io.h] is not part of the sources at hand; the spec has the SSRC
    read as a big-endian 32-bit integer. *)
Definition ReadBigEndian32 (b0 b1 b2 b3 : byte) : N :=
  N.lor (N.shiftl (Byte.to_N b0) 24)
    (N.lor (N.shiftl (Byte.to_N b1) 16)
       (N.lor (N.shiftl (Byte.to_N b2) 8) (Byte.to_N b3))).

(** [packet[i]]. *)
Definition byte_at (packet : list byte) (i : nat) : byte := nth i packet x00.

(** [ByteReader<uint32_t>::ReadBigEndian(&packet[8])]. *)
Definition packet_ssrc (packet : list byte) : N :=
  ReadBigEndian32 (byte_at packet 8) (byte_at packet 9)
    (byte_at packet 10) (byte_at packet 11).

(** ** A state and failure monad

    [None] is an execution that does not return: a failed [RTC_CHECK], a
    failed [RTC_DCHECK] in a build that has them, the use of a dangling
    pointer, or an allocation at an address that is still live. *)

Definition M (St A : Type) : Type := St -> option (A * St).

Definition ret {St A : Type} (a : A) : M St A := fun s => Some (a, s).

Definition bind {St A B : Type} (m : M St A) (f : A -> M St B) : M St B :=
  fun s => match m s with
           | Some (a, s') => f a s'
           | None => None
           end.

Definition abort {St A : Type} : M St A := fun _ => None.

Definition get {St : Type} : M St St := fun s => Some (s, s).

Definition modify {St : Type} (f : St -> St) : M St unit :=
  fun s => Some (tt, f s).

Definition when {St : Type} (b : bool) (m : M St unit) : M St unit :=
  if b then m else ret tt.

(** [RTC_CHECK(b)]: aborts in every build. *)
Definition RTC_CHECK {St : Type} (b : bool) : M St unit :=
  if b then ret tt else abort.

(** [for (x : l) body(x)]. *)
Fixpoint for_each {St A : Type} (l : list A) (body : A -> M St unit)
  : M St unit :=
  match l with
  | [] => ret tt
  | x :: l' => bind (body x) (fun _ => for_each l' body)
  end.

(** A loop over [l] that carries the local variable [acc]. *)
Fixpoint for_each_acc {St A B : Type} (l : list A) (acc : B)
  (body : B -> A -> M St B) : M St B :=
  match l with
  | [] => ret acc
  | x :: l' => bind (body acc x) (fun acc' => for_each_acc l' acc' body)
  end.

(** [m] leaves the component [f] of the state as it found it. *)
Definition preserves {St A X : Type} (f : St -> X) (m : M St A) : Prop :=
  forall s a s', m s = Some (a, s') -> f s' = f s.

Notation "'let*' x ':=' m 'in' k" := (bind m (fun x => k))
  (at level 10, x name, m at level 100, k at level 200).
Notation "m ';;;' k" := (bind m (fun _ => k))
  (at level 100, k at level 200, right associativity).

Section CallModel.

(** [RtpState] of [rtp_rtcp_defines.h], opaque to the call. *)
Context {RtpState : Type}.

(** ** Calls into collaborators *)

Inductive Event :=
| EvNew (k : StreamKind) (p : ptr)
| EvDelete (k : StreamKind) (p : ptr)
| EvStop (k : StreamKind) (p : ptr)
| EvSignalNetworkState (k : StreamKind) (p : ptr) (state : NetworkState)
| EvDeliverRtp (k : StreamKind) (p : ptr) (packet : list byte)
    (time : PacketTime) (accepted : bool)
| EvDeliverRtcp (k : StreamKind) (p : ptr) (packet : list byte)
    (accepted : bool)
| EvSetSyncChannel (p : ptr) (channel : Z)
| EvGetRtpStates (p : ptr) (snapshot : gmap N RtpState)
| EvSetBweBitrates (min_bps start_bps max_bps : Z)
| EvCongestionSignalNetworkState (state : NetworkState)
| EvOnSentPacket (packet_id send_time_ms : Z)
| EvLogWarning
| EvLogRtcpPacket (incoming : bool) (media_type : MediaType)
    (packet : list byte)
| EvLogRtpHeader (incoming : bool) (media_type : MediaType)
    (packet : list byte)
| EvLogVideoSendStreamConfig (p : ptr)
| EvLogVideoReceiveStreamConfig (p : ptr).

(** ** The call and its surroundings *)

Record State := {
  (* members of internal::Call *)
  bitrate_config_ : BitrateConfig;        (* config_.bitrate_config *)
  voice_engine_ : bool;                   (* config_.voice_engine != nullptr *)
  network_enabled_ : bool;
  audio_receive_ssrcs_ : gmap N ptr;
  video_receive_ssrcs_ : gmap N ptr;
  video_receive_streams_ : gset ptr;
  sync_stream_mapping_ : gmap string ptr;
  audio_send_ssrcs_ : gmap N ptr;
  video_send_ssrcs_ : gmap N ptr;
  video_send_streams_ : gset ptr;
  suspended_video_send_ssrcs_ : gmap N RtpState;
  event_log_ : bool;                      (* event_log_ != nullptr *)
  (* the live stream objects, by address *)
  audio_send_heap : gmap ptr AudioSendStream_Config;
  audio_receive_heap : gmap ptr AudioReceiveStream_Config;
  video_send_heap : gmap ptr VideoSendStream_Config;
  video_receive_heap : gmap ptr VideoReceiveStream_Config;
  (* the calls made into collaborators so far, oldest first *)
  trace : list Event
}.

Definition with_bitrate_config (v : BitrateConfig) (s : State) : State :=
  {| bitrate_config_ := v; voice_engine_ := voice_engine_ s;
     network_enabled_ := network_enabled_ s;
     audio_receive_ssrcs_ := audio_receive_ssrcs_ s;
     video_receive_ssrcs_ := video_receive_ssrcs_ s;
     video_receive_streams_ := video_receive_streams_ s;
     sync_stream_mapping_ := sync_stream_mapping_ s;
     audio_send_ssrcs_ := audio_send_ssrcs_ s;
     video_send_ssrcs_ := video_send_ssrcs_ s;
     video_send_streams_ := video_send_streams_ s;
     suspended_video_send_ssrcs_ := suspended_video_send_ssrcs_ s;
     event_log_ := event_log_ s;
     audio_send_heap := audio_send_heap s;
     audio_receive_heap := audio_receive_heap s;
     video_send_heap := video_send_heap s;
     video_receive_heap := video_receive_heap s;
     trace := trace s |}.

Definition with_network_enabled (v : bool) (s : State) : State :=
  {| bitrate_config_ := bitrate_config_ s; voice_engine_ := voice_engine_ s;
     network_enabled_ := v;
     audio_receive_ssrcs_ := audio_receive_ssrcs_ s;
     video_receive_ssrcs_ := video_receive_ssrcs_ s;
     video_receive_streams_ := video_receive_streams_ s;
     sync_stream_mapping_ := sync_stream_mapping_ s;
     audio_send_ssrcs_ := audio_send_ssrcs_ s;
     video_send_ssrcs_ := video_send_ssrcs_ s;
     video_send_streams_ := video_send_streams_ s;
     suspended_video_send_ssrcs_ := suspended_video_send_ssrcs_ s;
     event_log_ := event_log_ s;
     audio_send_heap := audio_send_heap s;
     audio_receive_heap := audio_receive_heap s;
     video_send_heap := video_send_heap s;
     video_receive_heap := video_receive_heap s;
     trace := trace s |}.

Definition with_audio_receive_ssrcs (v : gmap N ptr) (s : State) : State :=
  {| bitrate_config_ := bitrate_config_ s; voice_engine_ := voice_engine_ s;
     network_enabled_ := network_enabled_ s;
     audio_receive_ssrcs_ := v;
     video_receive_ssrcs_ := video_receive_ssrcs_ s;
     video_receive_streams_ := video_receive_streams_ s;
     sync_stream_mapping_ := sync_stream_mapping_ s;
     audio_send_ssrcs_ := audio_send_ssrcs_ s;
     video_send_ssrcs_ := video_send_ssrcs_ s;
     video_send_streams_ := video_send_streams_ s;
     suspended_video_send_ssrcs_ := suspended_video_send_ssrcs_ s;
     event_log_ := event_log_ s;
     audio_send_heap := audio_send_heap s;
     audio_receive_heap := audio_receive_heap s;
     video_send_heap := video_send_heap s;
     video_receive_heap := video_receive_heap s;
     trace := trace s |}.

Definition with_video_receive_ssrcs (v : gmap N ptr) (s : State) : State :=
  {| bitrate_config_ := bitrate_config_ s; voice_engine_ := voice_engine_ s;
     network_enabled_ := network_enabled_ s;
     audio_receive_ssrcs_ := audio_receive_ssrcs_ s;
     video_receive_ssrcs_ := v;
     video_receive_streams_ := video_receive_streams_ s;
     sync_stream_mapping_ := sync_stream_mapping_ s;
     audio_send_ssrcs_ := audio_send_ssrcs_ s;
     video_send_ssrcs_ := video_send_ssrcs_ s;
     video_send_streams_ := video_send_streams_ s;
     suspended_video_send_ssrcs_ := suspended_video_send_ssrcs_ s;
     event_log_ := event_log_ s;
     audio_send_heap := audio_send_heap s;
     audio_receive_heap := audio_receive_heap s;
     video_send_heap := video_send_heap s;
     video_receive_heap := video_receive_heap s;
     trace := trace s |}.

Definition with_video_receive_streams (v : gset ptr) (s : State) : State :=
  {| bitrate_config_ := bitrate_config_ s; voice_engine_ := voice_engine_ s;
     network_enabled_ := network_enabled_ s;
     audio_receive_ssrcs_ := audio_receive_ssrcs_ s;
     video_receive_ssrcs_ := video_receive_ssrcs_ s;
     video_receive_streams_ := v;
     sync_stream_mapping_ := sync_stream_mapping_ s;
     audio_send_ssrcs_ := audio_send_ssrcs_ s;
     video_send_ssrcs_ := video_send_ssrcs_ s;
     video_send_streams_ := video_send_streams_ s;
     suspended_video_send_ssrcs_ := suspended_video_send_ssrcs_ s;
     event_log_ := event_log_ s;
     audio_send_heap := audio_send_heap s;
     audio_receive_heap := audio_receive_heap s;
     video_send_heap := video_send_heap s;
     video_receive_heap := video_receive_heap s;
     trace := trace s |}.

Definition with_sync_stream_mapping (v : gmap string ptr) (s : State) : State :=
  {| bitrate_config_ := bitrate_config_ s; voice_engine_ := voice_engine_ s;
     network_enabled_ := network_enabled_ s;
     audio_receive_ssrcs_ := audio_receive_ssrcs_ s;
     video_receive_ssrcs_ := video_receive_ssrcs_ s;
     video_receive_streams_ := video_receive_streams_ s;
     sync_stream_mapping_ := v;
     audio_send_ssrcs_ := audio_send_ssrcs_ s;
     video_send_ssrcs_ := video_send_ssrcs_ s;
     video_send_streams_ := video_send_streams_ s;
     suspended_video_send_ssrcs_ := suspended_video_send_ssrcs_ s;
     event_log_ := event_log_ s;
     audio_send_heap := audio_send_heap s;
     audio_receive_heap := audio_receive_heap s;
     video_send_heap := video_send_heap s;
     video_receive_heap := video_receive_heap s;
     trace := trace s |}.

Definition with_audio_send_ssrcs (v : gmap N ptr) (s : State) : State :=
  {| bitrate_config_ := bitrate_config_ s; voice_engine_ := voice_engine_ s;
     network_enabled_ := network_enabled_ s;
     audio_receive_ssrcs_ := audio_receive_ssrcs_ s;
     video_receive_ssrcs_ := video_receive_ssrcs_ s;
     video_receive_streams_ := video_receive_streams_ s;
     sync_stream_mapping_ := sync_stream_mapping_ s;
     audio_send_ssrcs_ := v;
     video_send_ssrcs_ := video_send_ssrcs_ s;
     video_send_streams_ := video_send_streams_ s;
     suspended_video_send_ssrcs_ := suspended_video_send_ssrcs_ s;
     event_log_ := event_log_ s;
     audio_send_heap := audio_send_heap s;
     audio_receive_heap := audio_receive_heap s;
     video_send_heap := video_send_heap s;
     video_receive_heap := video_receive_heap s;
     trace := trace s |}.

Definition with_video_send_ssrcs (v : gmap N ptr) (s : State) : State :=
  {| bitrate_config_ := bitrate_config_ s; voice_engine_ := voice_engine_ s;
     network_enabled_ := network_enabled_ s;
     audio_receive_ssrcs_ := audio_receive_ssrcs_ s;
     video_receive_ssrcs_ := video_receive_ssrcs_ s;
     video_receive_streams_ := video_receive_streams_ s;
     sync_stream_mapping_ := sync_stream_mapping_ s;
     audio_send_ssrcs_ := audio_send_ssrcs_ s;
     video_send_ssrcs_ := v;
     video_send_streams_ := video_send_streams_ s;
     suspended_video_send_ssrcs_ := suspended_video_send_ssrcs_ s;
     event_log_ := event_log_ s;
     audio_send_heap := audio_send_heap s;
     audio_receive_heap := audio_receive_heap s;
     video_send_heap := video_send_heap s;
     video_receive_heap := video_receive_heap s;
     trace := trace s |}.

Definition with_video_send_streams (v : gset ptr) (s : State) : State :=
  {| bitrate_config_ := bitrate_config_ s; voice_engine_ := voice_engine_ s;
     network_enabled_ := network_enabled_ s;
     audio_receive_ssrcs_ := audio_receive_ssrcs_ s;
     video_receive_ssrcs_ := video_receive_ssrcs_ s;
     video_receive_streams_ := video_receive_streams_ s;
     sync_stream_mapping_ := sync_stream_mapping_ s;
     audio_send_ssrcs_ := audio_send_ssrcs_ s;
     video_send_ssrcs_ := video_send_ssrcs_ s;
     video_send_streams_ := v;
     suspended_video_send_ssrcs_ := suspended_video_send_ssrcs_ s;
     event_log_ := event_log_ s;
     audio_send_heap := audio_send_heap s;
     audio_receive_heap := audio_receive_heap s;
     video_send_heap := video_send_heap s;
     video_receive_heap := video_receive_heap s;
     trace := trace s |}.

Definition with_suspended_video_send_ssrcs (v : gmap N RtpState) (s : State)
  : State :=
  {| bitrate_config_ := bitrate_config_ s; voice_engine_ := voice_engine_ s;
     network_enabled_ := network_enabled_ s;
     audio_receive_ssrcs_ := audio_receive_ssrcs_ s;
     video_receive_ssrcs_ := video_receive_ssrcs_ s;
     video_receive_streams_ := video_receive_streams_ s;
     sync_stream_mapping_ := sync_stream_mapping_ s;
     audio_send_ssrcs_ := audio_send_ssrcs_ s;
     video_send_ssrcs_ := video_send_ssrcs_ s;
     video_send_streams_ := video_send_streams_ s;
     suspended_video_send_ssrcs_ := v;
     event_log_ := event_log_ s;
     audio_send_heap := audio_send_heap s;
     audio_receive_heap := audio_receive_heap s;
     video_send_heap := video_send_heap s;
     video_receive_heap := video_receive_heap s;
     trace := trace s |}.

Definition with_audio_send_heap (v : gmap ptr AudioSendStream_Config)
  (s : State) : State :=
  {| bitrate_config_ := bitrate_config_ s; voice_engine_ := voice_engine_ s;
     network_enabled_ := network_enabled_ s;
     audio_receive_ssrcs_ := audio_receive_ssrcs_ s;
     video_receive_ssrcs_ := video_receive_ssrcs_ s;
     video_receive_streams_ := video_receive_streams_ s;
     sync_stream_mapping_ := sync_stream_mapping_ s;
     audio_send_ssrcs_ := audio_send_ssrcs_ s;
     video_send_ssrcs_ := video_send_ssrcs_ s;
     video_send_streams_ := video_send_streams_ s;
     suspended_video_send_ssrcs_ := suspended_video_send_ssrcs_ s;
     event_log_ := event_log_ s;
     audio_send_heap := v;
     audio_receive_heap := audio_receive_heap s;
     video_send_heap := video_send_heap s;
     video_receive_heap := video_receive_heap s;
     trace := trace s |}.

Definition with_audio_receive_heap (v : gmap ptr AudioReceiveStream_Config)
  (s : State) : State :=
  {| bitrate_config_ := bitrate_config_ s; voice_engine_ := voice_engine_ s;
     network_enabled_ := network_enabled_ s;
     audio_receive_ssrcs_ := audio_receive_ssrcs_ s;
     video_receive_ssrcs_ := video_receive_ssrcs_ s;
     video_receive_streams_ := video_receive_streams_ s;
     sync_stream_mapping_ := sync_stream_mapping_ s;
     audio_send_ssrcs_ := audio_send_ssrcs_ s;
     video_send_ssrcs_ := video_send_ssrcs_ s;
     video_send_streams_ := video_send_streams_ s;
     suspended_video_send_ssrcs_ := suspended_video_send_ssrcs_ s;
     event_log_ := event_log_ s;
     audio_send_heap := audio_send_heap s;
     audio_receive_heap := v;
     video_send_heap := video_send_heap s;
     video_receive_heap := video_receive_heap s;
     trace := trace s |}.

Definition with_video_send_heap (v : gmap ptr VideoSendStream_Config)
  (s : State) : State :=
  {| bitrate_config_ := bitrate_config_ s; voice_engine_ := voice_engine_ s;
     network_enabled_ := network_enabled_ s;
     audio_receive_ssrcs_ := audio_receive_ssrcs_ s;
     video_receive_ssrcs_ := video_receive_ssrcs_ s;
     video_receive_streams_ := video_receive_streams_ s;
     sync_stream_mapping_ := sync_stream_mapping_ s;
     audio_send_ssrcs_ := audio_send_ssrcs_ s;
     video_send_ssrcs_ := video_send_ssrcs_ s;
     video_send_streams_ := video_send_streams_ s;
     suspended_video_send_ssrcs_ := suspended_video_send_ssrcs_ s;
     event_log_ := event_log_ s;
     audio_send_heap := audio_send_heap s;
     audio_receive_heap := audio_receive_heap s;
     video_send_heap := v;
     video_receive_heap := video_receive_heap s;
     trace := trace s |}.

Definition with_video_receive_heap (v : gmap ptr VideoReceiveStream_Config)
  (s : State) : State :=
  {| bitrate_config_ := bitrate_config_ s; voice_engine_ := voice_engine_ s;
     network_enabled_ := network_enabled_ s;
     audio_receive_ssrcs_ := audio_receive_ssrcs_ s;
     video_receive_ssrcs_ := video_receive_ssrcs_ s;
     video_receive_streams_ := video_receive_streams_ s;
     sync_stream_mapping_ := sync_stream_mapping_ s;
     audio_send_ssrcs_ := audio_send_ssrcs_ s;
     video_send_ssrcs_ := video_send_ssrcs_ s;
     video_send_streams_ := video_send_streams_ s;
     suspended_video_send_ssrcs_ := suspended_video_send_ssrcs_ s;
     event_log_ := event_log_ s;
     audio_send_heap := audio_send_heap s;
     audio_receive_heap := audio_receive_heap s;
     video_send_heap := video_send_heap s;
     video_receive_heap := v;
     trace := trace s |}.

Definition with_trace (v : list Event) (s : State) : State :=
  {| bitrate_config_ := bitrate_config_ s; voice_engine_ := voice_engine_ s;
     network_enabled_ := network_enabled_ s;
     audio_receive_ssrcs_ := audio_receive_ssrcs_ s;
     video_receive_ssrcs_ := video_receive_ssrcs_ s;
     video_receive_streams_ := video_receive_streams_ s;
     sync_stream_mapping_ := sync_stream_mapping_ s;
     audio_send_ssrcs_ := audio_send_ssrcs_ s;
     video_send_ssrcs_ := video_send_ssrcs_ s;
     video_send_streams_ := video_send_streams_ s;
     suspended_video_send_ssrcs_ := suspended_video_send_ssrcs_ s;
     event_log_ := event_log_ s;
     audio_send_heap := audio_send_heap s;
     audio_receive_heap := audio_receive_heap s;
     video_send_heap := video_send_heap s;
     video_receive_heap := video_receive_heap s;
     trace := v |}.

(** ** Collaborators

    What the code outside [call.cc] answers when the call asks.  Each answer
    may depend on everything that happened before, hence on the state. *)

Record Env := {
  (* RTC_DCHECK_IS_ON: whether RTC_DCHECK aborts or is compiled out *)
  dcheck_is_on : bool;
  (* RtpHeaderParser::IsRtcp(packet, length) *)
  IsRtcp : list byte -> bool;
  AudioReceiveStream_DeliverRtp : State -> ptr -> list byte -> PacketTime -> bool;
  VideoReceiveStream_DeliverRtp : State -> ptr -> list byte -> PacketTime -> bool;
  VideoReceiveStream_DeliverRtcp : State -> ptr -> list byte -> bool;
  VideoSendStream_DeliverRtcp : State -> ptr -> list byte -> bool;
  VideoSendStream_GetRtpStates : State -> ptr -> gmap N RtpState
}.

Variable E : Env.

Definition emit (e : Event) : M State unit :=
  modify (fun s => with_trace (trace s ++ [e]) s).

(** [RTC_DCHECK(b)]: [RTC_CHECK(b)] where the build has it, nothing otherwise. *)
Definition RTC_DCHECK (b : bool) : M State unit :=
  if dcheck_is_on E then RTC_CHECK b else ret tt.

(** [p->...] on a pointer that must point to a live object. *)
Definition deref {A : Type} (h : State -> gmap ptr A) (p : ptr) : M State A :=
  fun s => match h s !! p with
           | Some a => Some (a, s)
           | None => None
           end.

(** [o == m.end()] for the result [o] of a [find]. *)
Definition is_end {A : Type} (o : option A) : bool :=
  match o with
  | Some _ => false
  | None => true
  end.

(** Whether some live stream object sits at address [p]. *)
Definition is_live (s : State) (p : ptr) : bool :=
  negb (is_end (audio_send_heap s !! p))
  || negb (is_end (audio_receive_heap s !! p))
  || negb (is_end (video_send_heap s !! p))
  || negb (is_end (video_receive_heap s !! p)).

(** [new T(...)] returning the address [p]: the allocator hands out no
    address that is still live. *)
Definition new_object (k : StreamKind) (p : ptr) (store : State -> State)
  : M State unit :=
  let* s := get in
  if is_live s p then abort
  else modify store ;;; emit (EvNew k p).

(** [delete p]. *)
Definition delete_object (k : StreamKind) (p : ptr) (release : State -> State)
  : M State unit :=
  modify release ;;; emit (EvDelete k p).

(** ** [Call::Call] *)

Definition Call_new (bitrate_config : BitrateConfig) (voice_engine : bool)
  (voe_event_log : bool) : option State :=
  let s0 :=
    {| bitrate_config_ := bitrate_config; voice_engine_ := voice_engine;
       network_enabled_ := true;
       audio_receive_ssrcs_ := ∅; video_receive_ssrcs_ := ∅;
       video_receive_streams_ := ∅; sync_stream_mapping_ := ∅;
       audio_send_ssrcs_ := ∅; video_send_ssrcs_ := ∅;
       video_send_streams_ := ∅; suspended_video_send_ssrcs_ := ∅;
       event_log_ := voice_engine && voe_event_log;
       audio_send_heap := ∅; audio_receive_heap := ∅;
       video_send_heap := ∅; video_receive_heap := ∅;
       trace := [] |} in
  let body : M State unit :=
    RTC_DCHECK (0 <=? min_bitrate_bps bitrate_config) ;;;
    RTC_DCHECK (min_bitrate_bps bitrate_config
                <=? start_bitrate_bps bitrate_config) ;;;
    when (negb (max_bitrate_bps bitrate_config =? -1))
      (RTC_DCHECK (start_bitrate_bps bitrate_config
                   <=? max_bitrate_bps bitrate_config)) ;;;
    emit (EvSetBweBitrates (min_bitrate_bps bitrate_config)
            (start_bitrate_bps bitrate_config)
            (max_bitrate_bps bitrate_config)) in
  match body s0 with
  | Some (_, s) => Some s
  | None => None
  end.

(** ** [Call::ConfigureSync] *)

(** The scan of [audio_receive_ssrcs_] for a stream of the group; the
    second stream found logs a warning and ends the scan. *)
Fixpoint find_sync_audio (sync_group : string) (kvs : list (N * ptr))
  (sync_audio_stream : option ptr) : M State (option ptr) :=
  match kvs with
  | [] => ret sync_audio_stream
  | kv :: rest =>
      let* cfg := deref audio_receive_heap kv.2 in
      if String.eqb (ar_sync_group cfg) sync_group then
        match sync_audio_stream with
        | Some _ => emit EvLogWarning ;;; ret sync_audio_stream
        | None => find_sync_audio sync_group rest (Some kv.2)
        end
      else find_sync_audio sync_group rest sync_audio_stream
  end.

(** The body of the loop over [video_receive_streams_]. *)
Definition sync_video_stream (sync_group : string)
  (sync_audio_stream : option ptr) (num_synced_streams : Z)
  (video_stream : ptr) : M State Z :=
  let* cfg := deref video_receive_heap video_stream in
  if negb (String.eqb (vr_sync_group cfg) sync_group) then
    ret num_synced_streams
  else
    let num_synced_streams := size_t_incr num_synced_streams in
    when (1 <? num_synced_streams) (emit EvLogWarning) ;;;
    match sync_audio_stream with
    | Some audio =>
        if num_synced_streams =? 1 then
          let* acfg := deref audio_receive_heap audio in
          emit (EvSetSyncChannel video_stream (ar_voe_channel_id acfg))
        else emit (EvSetSyncChannel video_stream (-1))
    | None => emit (EvSetSyncChannel video_stream (-1))
    end ;;;
    ret num_synced_streams.

Definition ConfigureSync (sync_group : string) : M State unit :=
  let* s := get in
  if negb (voice_engine_ s) || string_empty sync_group then ret tt
  else
    let* sync_audio_stream :=
      match sync_stream_mapping_ s !! sync_group with
      | Some audio => ret (Some audio)
      | None =>
          find_sync_audio sync_group (StdMap.items (audio_receive_ssrcs_ s))
            None
      end in
    match sync_audio_stream with
    | Some audio =>
        modify (fun s => with_sync_stream_mapping
                           (<[sync_group := audio]> (sync_stream_mapping_ s)) s)
    | None => ret tt
    end ;;;
    let* s := get in
    let* _ := for_each_acc (StdSet.items (video_receive_streams_ s)) 0
                (sync_video_stream sync_group sync_audio_stream) in
    ret tt.

(** ** Audio send streams *)

Definition CreateAudioSendStream (send_stream : ptr)
  (config : AudioSendStream_Config) : M State ptr :=
  new_object AudioSend send_stream
    (fun s => with_audio_send_heap
                (<[send_stream := config]> (audio_send_heap s)) s) ;;;
  let* s := get in
  RTC_DCHECK (is_end (audio_send_ssrcs_ s !! as_rtp_ssrc config)) ;;;
  modify (fun s => with_audio_send_ssrcs
                     (<[as_rtp_ssrc config := send_stream]>
                        (audio_send_ssrcs_ s)) s) ;;;
  let* s := get in
  when (negb (network_enabled_ s))
    (emit (EvSignalNetworkState AudioSend send_stream kNetworkDown)) ;;;
  ret send_stream.

Definition DestroyAudioSendStream (send_stream : ptr) : M State unit :=
  let* _ := deref audio_send_heap send_stream in
  emit (EvStop AudioSend send_stream) ;;;
  let* config := deref audio_send_heap send_stream in
  let* s := get in
  let erased := StdMap.erase (as_rtp_ssrc config) (audio_send_ssrcs_ s) in
  modify (with_audio_send_ssrcs erased.2) ;;;
  RTC_DCHECK (Nat.eqb erased.1 1) ;;;
  delete_object AudioSend send_stream
    (fun s => with_audio_send_heap (delete send_stream (audio_send_heap s)) s).

(** ** Audio receive streams *)

Definition CreateAudioReceiveStream (receive_stream : ptr)
  (config : AudioReceiveStream_Config) : M State ptr :=
  new_object AudioReceive receive_stream
    (fun s => with_audio_receive_heap
                (<[receive_stream := config]> (audio_receive_heap s)) s) ;;;
  let* s := get in
  RTC_DCHECK (is_end (audio_receive_ssrcs_ s !! ar_rtp_remote_ssrc config)) ;;;
  modify (fun s => with_audio_receive_ssrcs
                     (<[ar_rtp_remote_ssrc config := receive_stream]>
                        (audio_receive_ssrcs_ s)) s) ;;;
  ConfigureSync (ar_sync_group config) ;;;
  ret receive_stream.

Definition DestroyAudioReceiveStream (receive_stream : ptr) : M State unit :=
  let* config := deref audio_receive_heap receive_stream in
  let* s := get in
  let erased :=
    StdMap.erase (ar_rtp_remote_ssrc config) (audio_receive_ssrcs_ s) in
  modify (with_audio_receive_ssrcs erased.2) ;;;
  RTC_DCHECK (Nat.eqb erased.1 1) ;;;
  let sync_group := ar_sync_group config in
  let* s := get in
  match sync_stream_mapping_ s !! sync_group with
  | Some audio =>
      if Pos.eqb audio receive_stream then
        modify (fun s => with_sync_stream_mapping
                           (delete sync_group (sync_stream_mapping_ s)) s) ;;;
        ConfigureSync sync_group
      else ret tt
  | None => ret tt
  end ;;;
  delete_object AudioReceive receive_stream
    (fun s => with_audio_receive_heap
                (delete receive_stream (audio_receive_heap s)) s).

(** ** Video send streams *)

(** The body of [for (uint32_t ssrc : config.rtp.ssrcs)]. *)
Definition register_video_send_ssrc (send_stream : ptr) (ssrc : N)
  : M State unit :=
  let* s := get in
  RTC_DCHECK (is_end (video_send_ssrcs_ s !! ssrc)) ;;;
  modify (fun s => with_video_send_ssrcs
                     (<[ssrc := send_stream]> (video_send_ssrcs_ s)) s).

Definition CreateVideoSendStream (send_stream : ptr)
  (config : VideoSendStream_Config) : M State ptr :=
  new_object VideoSend send_stream
    (fun s => with_video_send_heap
                (<[send_stream := config]> (video_send_heap s)) s) ;;;
  for_each (vs_rtp_ssrcs config) (register_video_send_ssrc send_stream) ;;;
  modify (fun s => with_video_send_streams
                     ({[send_stream]} ∪ video_send_streams_ s) s) ;;;
  let* s := get in
  when (event_log_ s) (emit (EvLogVideoSendStreamConfig send_stream)) ;;;
  when (negb (network_enabled_ s))
    (emit (EvSignalNetworkState VideoSend send_stream kNetworkDown)) ;;;
  ret send_stream.

(** The body of the [while] loop of [DestroyVideoSendStream], at the entry
    [kv] of [video_send_ssrcs_]. *)
Definition erase_video_send_entry (send_stream : ptr)
  (send_stream_impl : option ptr) (kv : N * ptr) : M State (option ptr) :=
  if Pos.eqb kv.2 send_stream then
    modify (fun s => with_video_send_ssrcs
                       (delete kv.1 (video_send_ssrcs_ s)) s) ;;;
    ret (Some kv.2)
  else ret send_stream_impl.

(** The body of the loop that copies the snapshot into
    [suspended_video_send_ssrcs_]. *)
Definition suspend_rtp_state (kv : N * RtpState) : M State unit :=
  modify (fun s => with_suspended_video_send_ssrcs
                     (<[kv.1 := kv.2]> (suspended_video_send_ssrcs_ s)) s).

Definition DestroyVideoSendStream (send_stream : ptr) : M State unit :=
  let* _ := deref video_send_heap send_stream in
  emit (EvStop VideoSend send_stream) ;;;
  let* s := get in
  let* send_stream_impl :=
    for_each_acc (StdMap.items (video_send_ssrcs_ s)) None
      (erase_video_send_entry send_stream) in
  match send_stream_impl with
  | Some impl =>
      modify (fun s => with_video_send_streams
                         (video_send_streams_ s ∖ {[impl]}) s)
  | None => ret tt
  end ;;;
  RTC_CHECK (negb (is_end send_stream_impl)) ;;;
  match send_stream_impl with
  | Some impl =>
      let* s := get in
      let rtp_state := VideoSendStream_GetRtpStates E s impl in
      emit (EvGetRtpStates impl rtp_state) ;;;
      for_each (StdMap.items rtp_state) suspend_rtp_state ;;;
      delete_object VideoSend impl
        (fun s => with_video_send_heap (delete impl (video_send_heap s)) s)
  | None => abort
  end.

(** ** Video receive streams *)

Definition CreateVideoReceiveStream (receive_stream : ptr)
  (config : VideoReceiveStream_Config) : M State ptr :=
  new_object VideoReceive receive_stream
    (fun s => with_video_receive_heap
                (<[receive_stream := config]> (video_receive_heap s)) s) ;;;
  let* s := get in
  RTC_DCHECK (is_end (video_receive_ssrcs_ s !! vr_rtp_remote_ssrc config)) ;;;
  modify (fun s => with_video_receive_ssrcs
                     (<[vr_rtp_remote_ssrc config := receive_stream]>
                        (video_receive_ssrcs_ s)) s) ;;;
  match StdMap.zbegin (vr_rtp_rtx config) with
  | Some it =>
      modify (fun s => with_video_receive_ssrcs
                         (<[rtx_ssrc it.2 := receive_stream]>
                            (video_receive_ssrcs_ s)) s)
  | None => ret tt
  end ;;;
  modify (fun s => with_video_receive_streams
                     ({[receive_stream]} ∪ video_receive_streams_ s) s) ;;;
  ConfigureSync (vr_sync_group config) ;;;
  let* s := get in
  when (negb (network_enabled_ s))
    (emit (EvSignalNetworkState VideoReceive receive_stream kNetworkDown)) ;;;
  when (event_log_ s) (emit (EvLogVideoReceiveStreamConfig receive_stream)) ;;;
  ret receive_stream.

(** The body of the [while] loop of [DestroyVideoReceiveStream], at the
    entry [kv] of [video_receive_ssrcs_]. *)
Definition erase_video_receive_entry (receive_stream : ptr)
  (receive_stream_impl : option ptr) (kv : N * ptr) : M State (option ptr) :=
  if Pos.eqb kv.2 receive_stream then
    match receive_stream_impl with
    | Some impl => RTC_DCHECK (Pos.eqb impl kv.2)
    | None => ret tt
    end ;;;
    modify (fun s => with_video_receive_ssrcs
                       (delete kv.1 (video_receive_ssrcs_ s)) s) ;;;
    ret (Some kv.2)
  else ret receive_stream_impl.

Definition DestroyVideoReceiveStream (receive_stream : ptr) : M State unit :=
  let* s := get in
  let* receive_stream_impl :=
    for_each_acc (StdMap.items (video_receive_ssrcs_ s)) None
      (erase_video_receive_entry receive_stream) in
  match receive_stream_impl with
  | Some impl =>
      modify (fun s => with_video_receive_streams
                         (video_receive_streams_ s ∖ {[impl]}) s)
  | None => ret tt
  end ;;;
  RTC_CHECK (negb (is_end receive_stream_impl)) ;;;
  match receive_stream_impl with
  | Some impl =>
      let* config := deref video_receive_heap impl in
      ConfigureSync (vr_sync_group config) ;;;
      delete_object VideoReceive impl
        (fun s => with_video_receive_heap
                    (delete impl (video_receive_heap s)) s)
  | None => abort
  end.

(** ** [Call::SetBitrateConfig] *)

Definition SetBitrateConfig (bitrate_config : BitrateConfig) : M State unit :=
  RTC_DCHECK (0 <=? min_bitrate_bps bitrate_config) ;;;
  when (negb (max_bitrate_bps bitrate_config =? -1))
    (RTC_DCHECK (0 <? max_bitrate_bps bitrate_config)) ;;;
  let* s := get in
  if (min_bitrate_bps (bitrate_config_ s) =? min_bitrate_bps bitrate_config)
     && ((start_bitrate_bps bitrate_config <=? 0)
         || (start_bitrate_bps (bitrate_config_ s)
             =? start_bitrate_bps bitrate_config))
     && (max_bitrate_bps (bitrate_config_ s) =? max_bitrate_bps bitrate_config)
  then ret tt
  else
    modify (with_bitrate_config bitrate_config) ;;;
    emit (EvSetBweBitrates (min_bitrate_bps bitrate_config)
            (start_bitrate_bps bitrate_config)
            (max_bitrate_bps bitrate_config)).

(** ** [Call::SignalNetworkState] and [Call::OnSentPacket] *)

Definition SignalNetworkState (state : NetworkState) : M State unit :=
  modify (with_network_enabled (NetworkState_eqb state kNetworkUp)) ;;;
  emit (EvCongestionSignalNetworkState state) ;;;
  let* s := get in
  for_each (StdMap.items (audio_send_ssrcs_ s))
    (fun kv => emit (EvSignalNetworkState AudioSend kv.2 state)) ;;;
  for_each (StdMap.items (video_send_ssrcs_ s))
    (fun kv => emit (EvSignalNetworkState VideoSend kv.2 state)) ;;;
  for_each (StdMap.items (video_receive_ssrcs_ s))
    (fun kv => emit (EvSignalNetworkState VideoReceive kv.2 state)).

Definition OnSentPacket (packet_id send_time_ms : Z) : M State unit :=
  emit (EvOnSentPacket packet_id send_time_ms).

(** ** Packet delivery *)

(** [media_type == MediaType::ANY || media_type == MediaType::VIDEO]. *)
Definition any_or_video (media_type : MediaType) : bool :=
  MediaType_eqb media_type ANY || MediaType_eqb media_type VIDEO.

(** [media_type == MediaType::ANY || media_type == MediaType::AUDIO]. *)
Definition any_or_audio (media_type : MediaType) : bool :=
  MediaType_eqb media_type ANY || MediaType_eqb media_type AUDIO.

(** The body of the loop of [DeliverRtcp] over [video_receive_streams_]. *)
Definition deliver_rtcp_receive (media_type : MediaType) (packet : list byte)
  (rtcp_delivered : bool) (stream : ptr) : M State bool :=
  let* s := get in
  let accepted := VideoReceiveStream_DeliverRtcp E s stream packet in
  emit (EvDeliverRtcp VideoReceive stream packet accepted) ;;;
  if accepted then
    when (event_log_ s) (emit (EvLogRtcpPacket true media_type packet)) ;;;
    ret true
  else ret rtcp_delivered.

(** The body of the loop of [DeliverRtcp] over [video_send_streams_]. *)
Definition deliver_rtcp_send (media_type : MediaType) (packet : list byte)
  (rtcp_delivered : bool) (stream : ptr) : M State bool :=
  let* s := get in
  let accepted := VideoSendStream_DeliverRtcp E s stream packet in
  emit (EvDeliverRtcp VideoSend stream packet accepted) ;;;
  if accepted then
    when (event_log_ s) (emit (EvLogRtcpPacket false media_type packet)) ;;;
    ret true
  else ret rtcp_delivered.

Definition DeliverRtcp (media_type : MediaType) (packet : list byte)
  : M State DeliveryStatus :=
  let rtcp_delivered := false in
  let* rtcp_delivered :=
    if any_or_video media_type then
      let* s := get in
      for_each_acc (StdSet.items (video_receive_streams_ s)) rtcp_delivered
        (deliver_rtcp_receive media_type packet)
    else ret rtcp_delivered in
  let* rtcp_delivered :=
    if any_or_video media_type then
      let* s := get in
      for_each_acc (StdSet.items (video_send_streams_ s)) rtcp_delivered
        (deliver_rtcp_send media_type packet)
    else ret rtcp_delivered in
  ret (if rtcp_delivered then DELIVERY_OK else DELIVERY_PACKET_ERROR).

(** The delivery to the stream found in an index, shared by the two
    branches of [DeliverRtp]. *)
Definition deliver_rtp_to (k : StreamKind)
  (DeliverRtp_of : State -> ptr -> list byte -> PacketTime -> bool)
  (media_type : MediaType) (stream : ptr) (packet : list byte)
  (packet_time : PacketTime) : M State DeliveryStatus :=
  let* s := get in
  let accepted := DeliverRtp_of s stream packet packet_time in
  emit (EvDeliverRtp k stream packet packet_time accepted) ;;;
  let status := if accepted then DELIVERY_OK else DELIVERY_PACKET_ERROR in
  when (accepted && event_log_ s)
    (emit (EvLogRtpHeader true media_type packet)) ;;;
  ret status.

Definition DeliverRtp (media_type : MediaType) (packet : list byte)
  (packet_time : PacketTime) : M State DeliveryStatus :=
  if Nat.ltb (length packet) 12 then ret DELIVERY_PACKET_ERROR
  else
    let ssrc := packet_ssrc packet in
    let* s := get in
    match (if any_or_audio media_type then audio_receive_ssrcs_ s !! ssrc
           else None) with
    | Some stream =>
        deliver_rtp_to AudioReceive (AudioReceiveStream_DeliverRtp E)
          media_type stream packet packet_time
    | None =>
        match (if any_or_video media_type then video_receive_ssrcs_ s !! ssrc
               else None) with
        | Some stream =>
            deliver_rtp_to VideoReceive (VideoReceiveStream_DeliverRtp E)
              media_type stream packet packet_time
        | None => ret DELIVERY_UNKNOWN_SSRC
        end
    end.

Definition DeliverPacket (media_type : MediaType) (packet : list byte)
  (packet_time : PacketTime) : M State DeliveryStatus :=
  if IsRtcp E packet then DeliverRtcp media_type packet
  else DeliverRtp media_type packet packet_time.

(** ** The operations of a call, as data *)

Inductive Op :=
| OpCreateAudioSendStream (p : ptr) (config : AudioSendStream_Config)
| OpDestroyAudioSendStream (p : ptr)
| OpCreateAudioReceiveStream (p : ptr) (config : AudioReceiveStream_Config)
| OpDestroyAudioReceiveStream (p : ptr)
| OpCreateVideoSendStream (p : ptr) (config : VideoSendStream_Config)
| OpDestroyVideoSendStream (p : ptr)
| OpCreateVideoReceiveStream (p : ptr) (config : VideoReceiveStream_Config)
| OpDestroyVideoReceiveStream (p : ptr)
| OpDeliverPacket (media_type : MediaType) (packet : list byte)
    (packet_time : PacketTime)
| OpSetBitrateConfig (bitrate_config : BitrateConfig)
| OpSignalNetworkState (state : NetworkState)
| OpOnSentPacket (packet_id send_time_ms : Z).

(** One call of the public interface, its result dropped. *)
Definition step (op : Op) : M State unit :=
  match op with
  | OpCreateAudioSendStream p config =>
      let* _ := CreateAudioSendStream p config in ret tt
  | OpDestroyAudioSendStream p => DestroyAudioSendStream p
  | OpCreateAudioReceiveStream p config =>
      let* _ := CreateAudioReceiveStream p config in ret tt
  | OpDestroyAudioReceiveStream p => DestroyAudioReceiveStream p
  | OpCreateVideoSendStream p config =>
      let* _ := CreateVideoSendStream p config in ret tt
  | OpDestroyVideoSendStream p => DestroyVideoSendStream p
  | OpCreateVideoReceiveStream p config =>
      let* _ := CreateVideoReceiveStream p config in ret tt
  | OpDestroyVideoReceiveStream p => DestroyVideoReceiveStream p
  | OpDeliverPacket media_type packet packet_time =>
      let* _ := DeliverPacket media_type packet packet_time in ret tt
  | OpSetBitrateConfig bitrate_config => SetBitrateConfig bitrate_config
  | OpSignalNetworkState state => SignalNetworkState state
  | OpOnSentPacket packet_id send_time_ms =>
      OnSentPacket packet_id send_time_ms
  end.

(** A sequence of calls on the configuration and network threads, run one
    after the other. *)
Definition run (ops : list Op) : M State unit := for_each ops step.

End CallModel.

Arguments Event : clear implicits.
Arguments State : clear implicits.
Arguments Env : clear implicits.
Arguments Op : clear implicits.

(** * [ViEReceiver]: the handling of encapsulated packets *)

Module ViEReceiver.

(** The fields of [RTPHeader] that the receiver reads; the two lengths are
    [size_t]. *)
Record RTPHeader := {
  payloadType : Z;
  sequenceNumber : Z;
  rtp_timestamp : Z;
  ssrc : N;
  paddingLength : Z;
  headerLength : Z;
  payload_type_frequency : Z;
  hasVideoRotation : bool;
  videoRotation : Z
}.

Definition with_payload_type_frequency (v : Z) (h : RTPHeader) : RTPHeader :=
  {| payloadType := payloadType h; sequenceNumber := sequenceNumber h;
     rtp_timestamp := rtp_timestamp h; ssrc := ssrc h;
     paddingLength := paddingLength h; headerLength := headerLength h;
     payload_type_frequency := v; hasVideoRotation := hasVideoRotation h;
     videoRotation := videoRotation h |}.

(** The header of the empty media packet that announces a FEC packet. *)
Definition fake_media_header (last_media_payload_type : Z) (h : RTPHeader)
  : RTPHeader :=
  {| payloadType := last_media_payload_type;
     sequenceNumber := sequenceNumber h;
     rtp_timestamp := rtp_timestamp h; ssrc := ssrc h;
     paddingLength := 0; headerLength := headerLength h;
     payload_type_frequency := payload_type_frequency h;
     hasVideoRotation := hasVideoRotation h;
     videoRotation := videoRotation h |}.

Definition kVideoPayloadTypeFrequency : Z := 90000.

(** [a + b] on two [size_t]. *)
Definition size_t_add (a b : Z) : Z := (a + b) mod 2 ^ 64.

(** [a - b] on two [size_t]. *)
Definition size_t_sub (a b : Z) : Z := (a - b) mod 2 ^ 64.

Section Receiver.

(** [PayloadUnion], opaque to the receiver. *)
Context {PayloadUnion : Type}.

Inductive Event :=
| EvFecPacketReceived (header : RTPHeader) (packet_length : Z)
| EvAddReceivedRedPacket (header : RTPHeader) (packet : list byte)
    (packet_length : Z) (ulpfec_pt : Z) (result : Z)
| EvProcessReceivedFec (result : Z)
| EvRestoreOriginalPacket (packet : list byte) (packet_length : Z)
    (original_ssrc : N) (header : RTPHeader) (restored : bool)
| EvIncomingRtpPacket (header : RTPHeader) (payload : list byte)
    (payload_length : Z) (in_order : bool) (accepted : bool)
| EvVcmIncomingPacket (payload : list byte) (payload_size : Z)
    (header : RTPHeader) (ntp_time_ms : Z) (result : Z)
| EvLogWarning.

Record State := {
  restored_packet_ : list byte;
  restored_packet_in_use_ : bool;
  trace : list Event
}.

Definition with_restored_packet (v : list byte) (s : State) : State :=
  {| restored_packet_ := v;
     restored_packet_in_use_ := restored_packet_in_use_ s;
     trace := trace s |}.

Definition with_restored_packet_in_use (v : bool) (s : State) : State :=
  {| restored_packet_ := restored_packet_ s;
     restored_packet_in_use_ := v;
     trace := trace s |}.

Definition with_trace (v : list Event) (s : State) : State :=
  {| restored_packet_ := restored_packet_ s;
     restored_packet_in_use_ := restored_packet_in_use_ s;
     trace := v |}.

(** What the collaborators of the receiver answer: the header parser, the
    payload registry, the FEC receiver, the RTP receiver, the receive
    statistics, the NTP estimator and the video coding module. *)
Record Env := {
  (* whether assert() aborts (no NDEBUG) or is compiled out *)
  assert_is_on : bool;
  (* sizeof(restored_packet_) *)
  restored_packet_size : Z;
  (* rtp_header_parser_->Parse(packet, length, &header) *)
  Parse : State -> list byte -> Z -> option RTPHeader;
  IsEncapsulated : State -> RTPHeader -> bool;
  IsRed : State -> RTPHeader -> bool;
  IsRtx : State -> RTPHeader -> bool;
  ulpfec_payload_type : State -> Z;
  last_received_media_payload_type : State -> Z;
  GetPayloadSpecifics : State -> Z -> option PayloadUnion;
  (* the writes to the destination buffer, the new length, the result *)
  RestoreOriginalPacket :
    State -> list byte -> Z -> N -> RTPHeader -> list byte * Z * bool;
  AddReceivedRedPacket : State -> RTPHeader -> list byte -> Z -> Z -> Z;
  (* the packets that ProcessReceivedFec hands back *)
  ProcessReceivedFec_packets : State -> list (list byte * Z);
  (* its result, given whether every packet handed back was accepted *)
  ProcessReceivedFec_result : State -> bool -> Z;
  rtp_receiver_SSRC : State -> N;
  IncomingRtpPacket :
    State -> RTPHeader -> list byte -> Z -> PayloadUnion -> bool -> bool;
  (* GetStatistician(ssrc), then IsPacketInOrder(sequenceNumber) *)
  StatisticianIsPacketInOrder : State -> N -> option (Z -> bool);
  ntp_Estimate : State -> Z -> Z;
  vcm_IncomingPacket : State -> list byte -> Z -> RTPHeader -> Z -> Z
}.

Variable E : Env.

Definition emit (e : Event) : M State unit :=
  modify (fun s => with_trace (trace s ++ [e]) s).

(** [assert(b)]. *)
Definition assert_ (b : bool) : M State unit :=
  if assert_is_on E then RTC_CHECK b else ret tt.

Definition IsPacketInOrder (header : RTPHeader) : M State bool :=
  let* s := get in
  match StatisticianIsPacketInOrder E s (ssrc header) with
  | None => ret false
  | Some statistician => ret (statistician (sequenceNumber header))
  end.

Definition OnReceivedPayloadData (payload_data : list byte) (payload_size : Z)
  (rtp_header : RTPHeader) : M State Z :=
  let* s := get in
  let ntp_time_ms := ntp_Estimate E s (rtp_timestamp rtp_header) in
  let result :=
    vcm_IncomingPacket E s payload_data payload_size rtp_header ntp_time_ms in
  emit (EvVcmIncomingPacket payload_data payload_size rtp_header ntp_time_ms
          result) ;;;
  ret (if result =? 0 then 0 else -1).

Definition NotifyReceiverOfFecPacket (header : RTPHeader) : M State unit :=
  let* s := get in
  let last_media_payload_type := last_received_media_payload_type E s in
  if last_media_payload_type <? 0 then emit EvLogWarning
  else
    match GetPayloadSpecifics E s last_media_payload_type with
    | None => emit EvLogWarning
    | Some _ =>
        let* _ := OnReceivedPayloadData [] 0
                    (fake_media_header last_media_payload_type header) in
        ret tt
    end.

(** Modelled from the spec: [FecReceiver::ProcessReceivedFec] is not part of
    the sources at hand; by the spec every packet it produces re-enters the
    receiver through [OnRecoveredPacket]. *)
Definition ProcessReceivedFec
  (OnRecoveredPacket : list byte -> Z -> M State bool) : M State Z :=
  let* s := get in
  let* all_accepted :=
    for_each_acc (ProcessReceivedFec_packets E s) true
      (fun ok pkt =>
         let* accepted := OnRecoveredPacket pkt.1 pkt.2 in
         ret (ok && accepted)) in
  let* s := get in
  let result := ProcessReceivedFec_result E s all_accepted in
  emit (EvProcessReceivedFec result) ;;;
  ret result.

(** [ViEReceiver::ParseAndHandleEncapsulatingHeader], given the method
    [OnRecoveredPacket] that it calls back. *)
Definition ParseAndHandleEncapsulatingHeader_with
  (OnRecoveredPacket : list byte -> Z -> M State bool)
  (packet : list byte) (packet_length : Z) (header : RTPHeader)
  : M State bool :=
  let* s := get in
  if IsRed E s header then
    let ulpfec_pt := ulpfec_payload_type E s in
    when (Z.of_N (Byte.to_N (byte_at packet (Z.to_nat (headerLength header))))
          =? ulpfec_pt)
      (emit (EvFecPacketReceived header packet_length) ;;;
       NotifyReceiverOfFecPacket header) ;;;
    let* s := get in
    let added := AddReceivedRedPacket E s header packet packet_length ulpfec_pt in
    emit (EvAddReceivedRedPacket header packet packet_length ulpfec_pt added) ;;;
    if negb (added =? 0) then ret false
    else
      let* result := ProcessReceivedFec OnRecoveredPacket in
      ret (result =? 0)
  else if IsRtx E s header then
    if size_t_add (headerLength header) (paddingLength header) =? packet_length
    then ret true
    else if packet_length <? headerLength header then ret false
    else if restored_packet_size E <? packet_length then ret false
    else if restored_packet_in_use_ s then emit EvLogWarning ;;; ret false
    else
      let original_ssrc := rtp_receiver_SSRC E s in
      let restored :=
        RestoreOriginalPacket E s packet packet_length original_ssrc header in
      modify (with_restored_packet restored.1.1) ;;;
      emit (EvRestoreOriginalPacket packet packet_length original_ssrc header
              restored.2) ;;;
      if negb restored.2 then emit EvLogWarning ;;; ret false
      else
        modify (with_restored_packet_in_use true) ;;;
        let* s := get in
        let* ret_ := OnRecoveredPacket (restored_packet_ s) restored.1.2 in
        modify (with_restored_packet_in_use false) ;;;
        ret ret_
  else ret false.

(** [ViEReceiver::ReceivePacket], given [OnRecoveredPacket]. *)
Definition ReceivePacket_with
  (OnRecoveredPacket : list byte -> Z -> M State bool)
  (packet : list byte) (packet_length : Z) (header : RTPHeader)
  (in_order : bool) : M State bool :=
  let* s := get in
  if IsEncapsulated E s header then
    ParseAndHandleEncapsulatingHeader_with OnRecoveredPacket packet
      packet_length header
  else
    let payload := drop (Z.to_nat (headerLength header)) packet in
    assert_ (headerLength header <=? packet_length) ;;;
    let payload_length := size_t_sub packet_length (headerLength header) in
    match GetPayloadSpecifics E s (payloadType header) with
    | None => ret false
    | Some payload_specific =>
        let accepted :=
          IncomingRtpPacket E s header payload payload_length payload_specific
            in_order in
        emit (EvIncomingRtpPacket header payload payload_length in_order
                accepted) ;;;
        ret accepted
    end.

(** [ViEReceiver::OnRecoveredPacket]: [fuel] bounds the depth of the
    re-entry through recovered and restored packets; [None] when it runs
    out. *)
Fixpoint OnRecoveredPacket (fuel : nat) (rtp_packet : list byte)
  (rtp_packet_length : Z) : M State bool :=
  match fuel with
  | O => abort
  | S fuel' =>
      let* s := get in
      match Parse E s rtp_packet rtp_packet_length with
      | None => ret false
      | Some header =>
          let header :=
            with_payload_type_frequency kVideoPayloadTypeFrequency header in
          let* in_order := IsPacketInOrder header in
          ReceivePacket_with (OnRecoveredPacket fuel') rtp_packet
            rtp_packet_length header in_order
      end
  end.

Definition ReceivePacket (fuel : nat) :=
  ReceivePacket_with (OnRecoveredPacket fuel).

Definition ParseAndHandleEncapsulatingHeader (fuel : nat) :=
  ParseAndHandleEncapsulatingHeader_with (OnRecoveredPacket fuel).

End Receiver.

Arguments Event : clear implicits.
Arguments State : clear implicits.
Arguments Env : clear implicits.

End ViEReceiver.

(** * Concrete collaborators and runs *)

Module Examples.

(** The packet-type byte, at offset 1, is one of the RTCP types 200-207. *)
Definition has_rtcp_type (packet : list byte) : bool :=
  let pt := Byte.to_N (byte_at packet 1) in
  (N.leb 200 pt) && (N.leb pt 207).

(** Streams that accept every packet; a video send stream reports the
    states [S100] and [S101] of the fifth scenario of the spec, here the
    numbers 1100 and 1101. *)
Definition accepting (dcheck : bool) : Env N :=
  {| dcheck_is_on := dcheck;
     IsRtcp := has_rtcp_type;
     AudioReceiveStream_DeliverRtp := fun _ _ _ _ => true;
     VideoReceiveStream_DeliverRtp := fun _ _ _ _ => true;
     VideoReceiveStream_DeliverRtcp := fun _ _ _ => true;
     VideoSendStream_DeliverRtcp := fun _ _ _ => true;
     VideoSendStream_GetRtpStates :=
       fun _ _ => {[ 100%N := 1100%N; 101%N := 1101%N ]} |}.

(** The bitrates of the sixth scenario of the spec. *)
Definition stored_bitrates : BitrateConfig :=
  {| min_bitrate_bps := 100000; start_bitrate_bps := 300000;
     max_bitrate_bps := 1000000 |}.

Definition same_bitrates_no_start : BitrateConfig :=
  {| min_bitrate_bps := 100000; start_bitrate_bps := -1;
     max_bitrate_bps := 1000000 |}.

(** A call with no stream, a voice engine, an event log, the network up. *)
Definition idle : State N :=
  {| bitrate_config_ := stored_bitrates;
     voice_engine_ := true; network_enabled_ := true;
     audio_receive_ssrcs_ := ∅; video_receive_ssrcs_ := ∅;
     video_receive_streams_ := ∅; sync_stream_mapping_ := ∅;
     audio_send_ssrcs_ := ∅; video_send_ssrcs_ := ∅;
     video_send_streams_ := ∅; suspended_video_send_ssrcs_ := ∅;
     event_log_ := true;
     audio_send_heap := ∅; audio_receive_heap := ∅;
     video_send_heap := ∅; video_receive_heap := ∅;
     trace := [] |}.

(** The state after [ops] on the idle call, if they all return. *)
Definition after (dcheck : bool) (ops : list Op) : option (State N) :=
  match run (accepting dcheck) ops idle with
  | Some (_, s') => Some s'
  | None => None
  end.

(** The idle call after [SignalNetworkState(kNetworkDown)]. *)
Definition network_down : State N :=
  with_trace [EvCongestionSignalNetworkState kNetworkDown]
    (with_network_enabled false idle).

Definition audio_send_7 : AudioSendStream_Config := {| as_rtp_ssrc := 7 |}.

Definition audio_receive_g : AudioReceiveStream_Config :=
  {| ar_rtp_remote_ssrc := 1; ar_sync_group := "g"; ar_voe_channel_id := 3 |}.

Definition video_send_100_101 : VideoSendStream_Config :=
  {| vs_rtp_ssrcs := [100%N; 101%N] |}.

(** Primary SSRC [0xA], RTX map [{96 -> {ssrc: 0xB}}]. *)
Definition video_receive_a_b : VideoReceiveStream_Config :=
  {| vr_rtp_remote_ssrc := 10;
     vr_rtp_rtx := {[ 96 := {| rtx_ssrc := 11; rtx_payload_type := 96 |} ]};
     vr_sync_group := "g" |}.

(** Another stream, whose RTX SSRC is the primary SSRC of the one above. *)
Definition video_receive_c_a : VideoReceiveStream_Config :=
  {| vr_rtp_remote_ssrc := 12;
     vr_rtp_rtx := {[ 96 := {| rtx_ssrc := 10; rtx_payload_type := 96 |} ]};
     vr_sync_group := "g" |}.

(** Another stream, with SSRCs of its own. *)
Definition video_receive_c_d : VideoReceiveStream_Config :=
  {| vr_rtp_remote_ssrc := 12;
     vr_rtp_rtx := {[ 96 := {| rtx_ssrc := 13; rtx_payload_type := 96 |} ]};
     vr_sync_group := "g" |}.

(** One video receive stream at SSRC [0x11111111], as in the first
    scenario of the spec. *)
Definition one_video_receive : State N :=
  with_video_receive_heap
    {[ 9%positive := {| vr_rtp_remote_ssrc := 286331153; vr_rtp_rtx := ∅;
                        vr_sync_group := EmptyString |} ]}
    (with_video_receive_streams {[ 9%positive ]}
       (with_video_receive_ssrcs {[ 286331153%N := 9%positive ]} idle)).

(** One video send stream with the SSRCs 100 and 101. *)
Definition one_video_send : State N :=
  with_video_send_heap {[ 4%positive := video_send_100_101 ]}
    (with_video_send_streams {[ 4%positive ]}
       (with_video_send_ssrcs
          {[ 100%N := 4%positive; 101%N := 4%positive ]}
          (with_suspended_video_send_ssrcs {[ 100%N := 55%N; 7%N := 77%N ]}
             idle))).

(** One audio receive stream and two video receive streams, all of the
    group [g]. *)
Definition one_audio_two_videos : State N :=
  with_audio_receive_heap {[ 5%positive := audio_receive_g ]}
    (with_audio_receive_ssrcs {[ 1%N := 5%positive ]}
       (with_video_receive_heap
          {[ 8%positive := video_receive_a_b; 9%positive := video_receive_c_d ]}
          (with_video_receive_streams {[ 8%positive; 9%positive ]}
             (with_video_receive_ssrcs
                {[ 10%N := 8%positive; 11%N := 8%positive;
                   12%N := 9%positive; 13%N := 9%positive ]} idle)))).

(** The state above after a run of the sync resolver for [g]. *)
Definition synced : State N :=
  Eval vm_compute in
    match ConfigureSync "g" one_audio_two_videos with
    | Some (_, s') => s'
    | None => one_audio_two_videos
    end.

(** The idle call after the creation of the stream [video_receive_a_b]. *)
Definition with_a_b : State N :=
  Eval vm_compute in
    match CreateVideoReceiveStream (accepting true) 8%positive
            video_receive_a_b idle with
    | Some (_, s') => s'
    | None => idle
    end.

(** Twelve zero bytes but for the SSRC [0x22222222] at offset 8. *)
Definition rtp_packet : list byte :=
  [x00; x00; x00; x00; x00; x00; x00; x00; x22; x22; x22; x22].

Definition no_time : PacketTime := {| timestamp := -1; not_before := -1 |}.

(** Operations that leave the stream [video_receive_a_b] at address 8
    alone. *)
Definition other_ops : list Op :=
  [OpSignalNetworkState kNetworkDown;
   OpCreateVideoReceiveStream 9%positive video_receive_c_d;
   OpDeliverPacket ANY rtp_packet no_time;
   OpDestroyVideoReceiveStream 9%positive].

(** The state [with_a_b] after [other_ops]. *)
Definition with_a_b_later : State N :=
  Eval vm_compute in
    match run (accepting true) other_ops with_a_b with
    | Some (_, s') => s'
    | None => with_a_b
    end.

(** The first entry of the RTX map of [video_receive_a_b]. *)
Definition first_rtx_a_b : Z * Rtx :=
  (96, {| rtx_ssrc := 11; rtx_payload_type := 96 |}).


(** A buffer too short for an RTP header, not of an RTCP type. *)
Definition short_packet : list byte := [x80; x60; x00].

(** A sender report: version 2, packet type 200. *)
Definition rtcp_packet : list byte := [x80; xc8; x00; x01; x00; x00; x00; x01].

(** A receiver whose registry classifies every header as RTX and none as
    RED. *)
Definition rtx_only : ViEReceiver.Env unit :=
  {| ViEReceiver.assert_is_on := true;
     ViEReceiver.restored_packet_size := 1500;
     ViEReceiver.Parse := fun _ _ _ => None;
     ViEReceiver.IsEncapsulated := fun _ _ => true;
     ViEReceiver.IsRed := fun _ _ => false;
     ViEReceiver.IsRtx := fun _ _ => true;
     ViEReceiver.ulpfec_payload_type := fun _ => -1;
     ViEReceiver.last_received_media_payload_type := fun _ => -1;
     ViEReceiver.GetPayloadSpecifics := fun _ _ => None;
     ViEReceiver.RestoreOriginalPacket := fun _ _ n _ _ => ([], n, false);
     ViEReceiver.AddReceivedRedPacket := fun _ _ _ _ _ => 0;
     ViEReceiver.ProcessReceivedFec_packets := fun _ => [];
     ViEReceiver.ProcessReceivedFec_result := fun _ _ => 0;
     ViEReceiver.rtp_receiver_SSRC := fun _ => 10%N;
     ViEReceiver.IncomingRtpPacket := fun _ _ _ _ _ _ => true;
     ViEReceiver.StatisticianIsPacketInOrder := fun _ _ => None;
     ViEReceiver.ntp_Estimate := fun _ _ => 0;
     ViEReceiver.vcm_IncomingPacket := fun _ _ _ _ _ => 0 |}.

(** A header of twelve bytes on the RTX SSRC, without padding. *)
Definition keepalive_header : ViEReceiver.RTPHeader :=
  {| ViEReceiver.payloadType := 97; ViEReceiver.sequenceNumber := 1;
     ViEReceiver.rtp_timestamp := 0; ViEReceiver.ssrc := 11;
     ViEReceiver.paddingLength := 0; ViEReceiver.headerLength := 12;
     ViEReceiver.payload_type_frequency := 90000;
     ViEReceiver.hasVideoRotation := false; ViEReceiver.videoRotation := 0 |}.

Definition receiver_idle : ViEReceiver.State :=
  {| ViEReceiver.restored_packet_ := [];
     ViEReceiver.restored_packet_in_use_ := false;
     ViEReceiver.trace := [] |}.

End Examples.


(** * Properties *)

(** ** Reading a trace *)

Section Projections.

Context {RtpState : Type}.

(** The streams that were handed an RTP packet, oldest first. *)
Fixpoint rtp_deliveries (evs : list (Event RtpState))
  : list (StreamKind * ptr) :=
  match evs with
  | [] => []
  | EvDeliverRtp k p _ _ _ :: evs' => (k, p) :: rtp_deliveries evs'
  | _ :: evs' => rtp_deliveries evs'
  end.

(** The streams that were offered an RTCP packet, each with its answer. *)
Fixpoint rtcp_offers (evs : list (Event RtpState))
  : list (StreamKind * ptr * bool) :=
  match evs with
  | [] => []
  | EvDeliverRtcp k p _ accepted :: evs' => (k, p, accepted) :: rtcp_offers evs'
  | _ :: evs' => rtcp_offers evs'
  end.

(** The network states signalled to the stream at [p]. *)
Fixpoint network_signals (p : ptr) (evs : list (Event RtpState))
  : list NetworkState :=
  match evs with
  | [] => []
  | EvSignalNetworkState _ q state :: evs' =>
      if Pos.eqb q p then state :: network_signals p evs'
      else network_signals p evs'
  | _ :: evs' => network_signals p evs'
  end.

(** The calls of [SetSyncChannel], as the stream and the channel. *)
Fixpoint sync_channel_calls (evs : list (Event RtpState)) : list (ptr * Z) :=
  match evs with
  | [] => []
  | EvSetSyncChannel p channel :: evs' => (p, channel) :: sync_channel_calls evs'
  | _ :: evs' => sync_channel_calls evs'
  end.

(** Whether the video receive stream at [v] is configured with the sync
    group [g]. *)
Definition in_sync_group (s : State RtpState) (g : string) (v : ptr) : bool :=
  match video_receive_heap s !! v with
  | Some config => String.eqb (vr_sync_group config) g
  | None => false
  end.

(** The channel that binds a video stream to the audio anchor: the
    anchor's [voe_channel_id]; [-1], which unbinds, without an anchor. *)
Definition anchor_channel (s : State RtpState) (anchor : option ptr) : Z :=
  match anchor with
  | Some audio =>
      match audio_receive_heap s !! audio with
      | Some config => ar_voe_channel_id config
      | None => -1
      end
  | None => -1
  end.

(** The calls of [SetSyncChannel] that the spec describes for the video
    streams of one group, in the order of their enumeration: the first is
    given [channel], every later one [-1]. *)
Definition first_bound_rest_unbound (channel : Z) (matching : list ptr)
  : list (ptr * Z) :=
  match matching with
  | [] => []
  | first :: rest => (first, channel) :: map (fun v => (v, -1)) rest
  end.

(** The channel of the last call of [SetSyncChannel] on the stream at [v]
    among [calls], [acc] when there is none. *)
Fixpoint last_channel (v : ptr) (calls : list (ptr * Z)) (acc : option Z)
  : option Z :=
  match calls with
  | [] => acc
  | c :: calls' =>
      last_channel v calls' (if Pos.eqb c.1 v then Some c.2 else acc)
  end.

(** A stream is bound when its last [SetSyncChannel] gave it a channel
    other than [-1]. *)
Definition bound_by (calls : list (ptr * Z)) (v : ptr) : bool :=
  match last_channel v calls None with
  | Some channel => negb (channel =? -1)
  | None => false
  end.

(** Whether, by the whole trace of [s], the video receive stream at [v] is
    bound to a voice-engine channel. *)
Definition bound_to_audio (s : State RtpState) (v : ptr) : bool :=
  bound_by (sync_channel_calls (trace s)) v.

(** The calls that leave a stream bound to a channel. *)
Definition binding_calls (calls : list (ptr * Z)) : list (ptr * Z) :=
  filter (fun c => c.2 <> -1) calls.

(** The keys under which [CreateVideoReceiveStream] registers a stream of
    configuration [config]: the remote SSRC and, when the RTX map is not
    empty, the SSRC of its first entry. *)
Definition receive_keys (config : VideoReceiveStream_Config) : list N :=
  vr_rtp_remote_ssrc config
  :: match StdMap.zbegin (vr_rtp_rtx config) with
     | Some it => [rtx_ssrc it.2]
     | None => []
     end.

(** Every key of [keys] resolves to the stream at [v]. *)
Definition keys_resolve_to (s : State RtpState) (keys : list N) (v : ptr)
  : Prop :=
  forall k, k ∈ keys -> video_receive_ssrcs_ s !! k = Some v.

(** An operation that neither destroys the video receive stream at [v] nor
    creates a video receive stream under one of [keys]. *)
Definition leaves_alone (v : ptr) (keys : list N) (op : Op) : Prop :=
  match op with
  | OpDestroyVideoReceiveStream p => p <> v
  | OpCreateVideoReceiveStream _ config =>
      forall k, k ∈ receive_keys config -> k ∉ keys
  | _ => True
  end.

(** A component that neither the trace nor [sync_stream_mapping_] is part
    of. *)
Definition apart_from_sync {X : Type} (f : State RtpState -> X) : Prop :=
  (forall t s, f (with_trace t s) = f s)
  /\ (forall m s, f (with_sync_stream_mapping m s) = f s).

(** [m] appends to the trace, and only events that satisfy [P]. *)
Definition emits_only {A : Type} (P : Event RtpState -> Prop)
  (m : M (State RtpState) A) : Prop :=
  forall s a s', m s = Some (a, s') ->
    exists evs, trace s' = trace s ++ evs /\ Forall P evs.

(** The events of the sync resolver: a warning or a call of
    [SetSyncChannel]. *)
Definition sync_event (e : Event RtpState) : Prop :=
  match e with
  | EvLogWarning | EvSetSyncChannel _ _ => True
  | _ => False
  end.

(** The part of the trace of [s'] that was added after [s]. *)
Definition events_since (s s' : State RtpState) : list (Event RtpState) :=
  drop (length (trace s)) (trace s').

(** The triple of the spec: equal to the stored one, a start that is not
    positive standing for any stored start. *)
Definition same_bitrates (stored new : BitrateConfig) : Prop :=
  min_bitrate_bps stored = min_bitrate_bps new
  /\ (start_bitrate_bps new <= 0
      \/ start_bitrate_bps stored = start_bitrate_bps new)
  /\ max_bitrate_bps stored = max_bitrate_bps new.

(** The inputs that [SetBitrateConfig] checks for in a build with
    [RTC_DCHECK]. *)
Definition valid_bitrates (E : Env RtpState) (c : BitrateConfig) : Prop :=
  dcheck_is_on E = true ->
  0 <= min_bitrate_bps c /\ (max_bitrate_bps c = -1 \/ 0 < max_bitrate_bps c).

End Projections.

(** ** Well-formed registries *)

Section Registry.

Context {RtpState : Type}.

Implicit Types s : State RtpState.

(** Every indexed audio send stream is live and indexed under the SSRC of
    its configuration. *)
Definition audio_send_ok (index : gmap N ptr)
  (heap : gmap ptr AudioSendStream_Config) : Prop :=
  forall k p, index !! k = Some p ->
    exists c, heap !! p = Some c /\ as_rtp_ssrc c = k.

(** Every indexed audio receive stream is live and indexed under the
    remote SSRC of its configuration. *)
Definition audio_receive_ok (index : gmap N ptr)
  (heap : gmap ptr AudioReceiveStream_Config) : Prop :=
  forall k p, index !! k = Some p ->
    exists c, heap !! p = Some c /\ ar_rtp_remote_ssrc c = k.

(** Every indexed video send stream is live, in the set of video send
    streams and indexed under an SSRC of its configuration; every stream
    of the set is live. *)
Definition video_send_ok (index : gmap N ptr) (streams : gset ptr)
  (heap : gmap ptr VideoSendStream_Config) : Prop :=
  (forall k p, index !! k = Some p ->
     p ∈ streams /\ exists c, heap !! p = Some c /\ k ∈ vs_rtp_ssrcs c)
  /\ (forall p, p ∈ streams -> is_Some (heap !! p)).

(** The same for the video receive streams, whose keys are the remote SSRC
    and the first RTX SSRC. *)
Definition video_receive_ok (index : gmap N ptr) (streams : gset ptr)
  (heap : gmap ptr VideoReceiveStream_Config) : Prop :=
  (forall k p, index !! k = Some p ->
     p ∈ streams /\ exists c, heap !! p = Some c /\ k ∈ receive_keys c)
  /\ (forall p, p ∈ streams -> is_Some (heap !! p)).

(** The audio anchor of every sync group is live and configured with the
    group. *)
Definition sync_anchor_ok (mapping : gmap string ptr)
  (heap : gmap ptr AudioReceiveStream_Config) : Prop :=
  forall g a, mapping !! g = Some a ->
    exists c, heap !! a = Some c /\ ar_sync_group c = g.

(** No registry of the call holds the address of a released stream, and
    the registries agree with one another. *)
Definition registry_ok s : Prop :=
  audio_send_ok (audio_send_ssrcs_ s) (audio_send_heap s)
  /\ audio_receive_ok (audio_receive_ssrcs_ s) (audio_receive_heap s)
  /\ video_send_ok (video_send_ssrcs_ s) (video_send_streams_ s)
       (video_send_heap s)
  /\ video_receive_ok (video_receive_ssrcs_ s) (video_receive_streams_ s)
       (video_receive_heap s)
  /\ sync_anchor_ok (sync_stream_mapping_ s) (audio_receive_heap s).

(** The registries and heaps of the call but for the anchors of the sync
    groups. *)
Definition registries_but_sync s :=
  (audio_send_ssrcs_ s, audio_receive_ssrcs_ s, video_send_ssrcs_ s,
   video_receive_ssrcs_ s, video_send_streams_ s, video_receive_streams_ s,
   suspended_video_send_ssrcs_ s,
   (audio_send_heap s, audio_receive_heap s, video_send_heap s,
    video_receive_heap s)).

(** The registries and heaps of the call. *)
Definition registries s := (registries_but_sync s, sync_stream_mapping_ s).

(** The members that no operation but the constructor writes. *)
Definition fixed_members s := (voice_engine_ s, event_log_ s).

(** The members that are neither a registry, nor a heap, nor the trace. *)
Definition settings s :=
  (bitrate_config_ s, network_enabled_ s, voice_engine_ s, event_log_ s).

(** The streams signalled by [evs], with the kind and the state. *)
Fixpoint signalled (evs : list (Event RtpState))
  : list (StreamKind * ptr * NetworkState) :=
  match evs with
  | [] => []
  | EvSignalNetworkState k p state :: evs' => (k, p, state) :: signalled evs'
  | _ :: evs' => signalled evs'
  end.

(** The number of RTP headers and of RTCP packets handed to the event log. *)
Fixpoint logged_rtp (evs : list (Event RtpState)) : nat :=
  match evs with
  | [] => 0%nat
  | EvLogRtpHeader _ _ _ :: evs' => S (logged_rtp evs')
  | _ :: evs' => logged_rtp evs'
  end.

Fixpoint logged_rtcp (evs : list (Event RtpState)) : nat :=
  match evs with
  | [] => 0%nat
  | EvLogRtcpPacket _ _ _ :: evs' => S (logged_rtcp evs')
  | _ :: evs' => logged_rtcp evs'
  end.

(** Whether the audio receive stream at [a] is configured with the sync
    group [g]. *)
Definition audio_has_group s (g : string) (a : ptr) : bool :=
  match audio_receive_heap s !! a with
  | Some c => String.eqb (ar_sync_group c) g
  | None => false
  end.

(** The indexed audio receive streams of the group [g], in the order of
    their SSRCs. *)
Definition audio_in_group s (g : string) : list ptr :=
  filter (fun a => audio_has_group s g a = true)
    (StdMap.items (audio_receive_ssrcs_ s)).*2.

(** The index after the loop of a destroy operation over the entries [l]:
    the entries of [l] that point to [p] are gone, the others are as they
    were. *)
Definition erase_entries (p : ptr) (l : list (N * ptr)) (m : gmap N ptr)
  : gmap N ptr :=
  foldl (fun m kv => if Pos.eqb kv.2 p then delete kv.1 m else m) m l.

(** The index after the loop of [CreateVideoSendStream] over [ssrcs]. *)
Definition register_entries (p : ptr) (ssrcs : list N) (m : gmap N ptr)
  : gmap N ptr :=
  foldl (fun m k => <[k := p]> m) m ssrcs.

(** The index after [CreateVideoReceiveStream]. *)
Definition receive_entries (p : ptr) (c : VideoReceiveStream_Config)
  (m : gmap N ptr) : gmap N ptr :=
  match StdMap.zbegin (vr_rtp_rtx c) with
  | Some it => <[rtx_ssrc it.2 := p]> (<[vr_rtp_remote_ssrc c := p]> m)
  | None => <[vr_rtp_remote_ssrc c := p]> m
  end.

(** The events of a creation after the constructor: the state of the
    network, when it is down. *)
Definition down_signal (k : StreamKind) (p : ptr) (s : State RtpState)
  : list (Event RtpState) :=
  if network_enabled_ s then [] else [EvSignalNetworkState k p kNetworkDown].

(** [Call::~Call]: the six registries must be empty. The calls on the
    process thread and on the voice engine leave no mark on the state of
    the call. *)
Definition Call_delete : M (State RtpState) unit :=
  let* s := get in
  RTC_CHECK (bool_decide (audio_send_ssrcs_ s = ∅)) ;;;
  RTC_CHECK (bool_decide (video_send_ssrcs_ s = ∅)) ;;;
  RTC_CHECK (bool_decide (video_send_streams_ s = ∅)) ;;;
  RTC_CHECK (bool_decide (audio_receive_ssrcs_ s = ∅)) ;;;
  RTC_CHECK (bool_decide (video_receive_ssrcs_ s = ∅)) ;;;
  RTC_CHECK (bool_decide (video_receive_streams_ s = ∅)).

(** The network flag after [ops], when it was [enabled] before: the state
    of the last call of [SignalNetworkState]. *)
Fixpoint last_network_state (ops : list Op) (enabled : bool) : bool :=
  match ops with
  | [] => enabled
  | OpSignalNetworkState state :: ops' =>
      last_network_state ops' (NetworkState_eqb state kNetworkUp)
  | _ :: ops' => last_network_state ops' enabled
  end.


(** The streams that [SignalNetworkState] notifies, in its order: one
    entry for every SSRC of the three indices that it walks. *)
Definition signal_targets s : list (StreamKind * ptr) :=
  (pair AudioSend <$> (StdMap.items (audio_send_ssrcs_ s)).*2)
  ++ (pair VideoSend <$> (StdMap.items (video_send_ssrcs_ s)).*2)
  ++ (pair VideoReceive <$> (StdMap.items (video_receive_ssrcs_ s)).*2).

(** The operations other than the destruction of a video send stream. *)
Definition keeps_rtp_states (op : Op) : Prop :=
  match op with
  | OpDestroyVideoSendStream _ => False
  | _ => True
  end.

(** What one loop of [DeliverRtcp] leaves in the trace. *)
Definition rtcp_loop_trace s (k : StreamKind) (l : list ptr)
  (evs : list (Event RtpState)) : Prop :=
  (rtcp_offers evs).*1 = pair k <$> l
  /\ rtp_deliveries evs = []
  /\ logged_rtp evs = 0%nat
  /\ logged_rtcp evs
     = if event_log_ s
       then length (filter (fun o => o.2 = true) (rtcp_offers evs))
       else 0%nat.

(** The trace of one call of [DeliverPacket]. *)
Definition delivery_trace (E : Env RtpState) s (media_type : MediaType) (packet : list byte)
  (status : DeliveryStatus) (evs : list (Event RtpState)) : Prop :=
  (* the streams reached are indexed, or members of the two sets *)
  (forall k p, (k, p) ∈ rtp_deliveries evs ->
     (k = AudioReceive /\ audio_receive_ssrcs_ s !! packet_ssrc packet = Some p)
     \/ (k = VideoReceive
         /\ video_receive_ssrcs_ s !! packet_ssrc packet = Some p))
  /\ (forall k p, (k, p) ∈ (rtcp_offers evs).*1 ->
        (k = VideoReceive /\ p ∈ video_receive_streams_ s)
        \/ (k = VideoSend /\ p ∈ video_send_streams_ s))
  (* an RTP header is logged once, when its packet was accepted *)
  /\ logged_rtp evs
     = (if event_log_ s && negb (IsRtcp E packet)
        then match status with DELIVERY_OK => 1%nat | _ => 0%nat end
        else 0%nat)
  (* an RTCP packet is logged once for every stream that accepted it *)
  /\ logged_rtcp evs
     = (if event_log_ s
        then length (filter (fun o => o.2 = true) (rtcp_offers evs))
        else 0%nat)
  /\ (IsRtcp E packet = true -> rtp_deliveries evs = [])
  /\ (IsRtcp E packet = false -> rtcp_offers evs = []).

(** [Call::GetStats], for the one field that it computes from the state of
    the call: [rtt_ms] is the value that a new [Stats] has in the field,
    [GetRtt] what the video send streams answer. The three other fields
    are copied from the congestion controller. *)
Definition GetStats_rtt_ms (rtt_ms : Z) (GetRtt : ptr -> Z) s : Z :=
  foldl (fun stats_rtt_ms kv =>
           let rtt_ms := GetRtt kv.2 in
           if 0 <? rtt_ms then rtt_ms else stats_rtt_ms)
    rtt_ms (StdMap.items (video_send_ssrcs_ s)).

(** The call at the moment when [DestroyVideoSendStream] asks the stream
    at [p] for its RTP states: the stream is stopped, no entry of
    [video_send_ssrcs_] points to it any more and it has left
    [video_send_streams_]; it is not released yet. *)
Definition unregistered_video_send (p : ptr) s : State RtpState :=
  with_video_send_streams (video_send_streams_ s ∖ {[p]})
    (with_video_send_ssrcs
       (erase_entries p (StdMap.items (video_send_ssrcs_ s))
          (video_send_ssrcs_ s))
       (with_trace (trace s ++ [EvStop VideoSend p]) s)).

(** The answer that the event [e] records is the one that the stream gave
    when the call was in the state [s]: what the collaborator of [E] for the
    kind of the stream answers in [s] to the packet of the event. *)
Definition answer_recorded (E : Env RtpState) s (e : Event RtpState) : Prop :=
  match e with
  | EvDeliverRtp k p packet packet_time accepted =>
      accepted
      = match k with
        | AudioReceive => AudioReceiveStream_DeliverRtp E s p packet packet_time
        | _ => VideoReceiveStream_DeliverRtp E s p packet packet_time
        end
  | EvDeliverRtcp k p packet accepted =>
      accepted
      = match k with
        | VideoReceive => VideoReceiveStream_DeliverRtcp E s p packet
        | _ => VideoSendStream_DeliverRtcp E s p packet
        end
  | _ => True
  end.

(** Every answer among [evs], the events that followed the state [s], is
    the one that the stream gave at its turn: the call was then in the
    state [s] with the events before that one added to its trace. *)
Definition answers_recorded (E : Env RtpState) s
  (evs : list (Event RtpState)) : Prop :=
  forall pre e post,
    evs = pre ++ e :: post ->
    answer_recorded E (with_trace (trace s ++ pre) s) e.

(** The packet that the event [e] hands to a stream, if it hands one. *)
Definition handed_packet (e : Event RtpState) : option (list byte) :=
  match e with
  | EvDeliverRtp _ _ packet _ _ | EvDeliverRtcp _ _ packet _ => Some packet
  | _ => None
  end.

End Registry.

(** ** Reading the trace of a receiver *)

Section ReceiverTrace.

Context {PayloadUnion : Type}.

(** The calls of [RestoreOriginalPacket], as the length of the packet and
    its header. *)
Fixpoint restore_calls (evs : list ViEReceiver.Event)
  : list (Z * ViEReceiver.RTPHeader) :=
  match evs with
  | [] => []
  | ViEReceiver.EvRestoreOriginalPacket _ packet_length _ header _ :: evs' =>
      (packet_length, header) :: restore_calls evs'
  | _ :: evs' => restore_calls evs'
  end.

(** A packet that holds its header and that the buffer of the restored
    packet can hold. *)
Definition fits_buffer (E : ViEReceiver.Env PayloadUnion)
  (call : Z * ViEReceiver.RTPHeader) : Prop :=
  ViEReceiver.headerLength call.2 <= call.1
  <= ViEReceiver.restored_packet_size E.

(** [m], run on [s], respects the guard of the buffer of the restored
    packet: it hands the flag back as it found it, it restores only packets
    that fit the buffer, and when the flag is set it neither writes the
    buffer nor restores a packet. *)
Definition guard_at (E : ViEReceiver.Env PayloadUnion) {A : Type}
  (s : ViEReceiver.State) (m : M ViEReceiver.State A) : Prop :=
  forall a s', m s = Some (a, s') ->
    ViEReceiver.restored_packet_in_use_ s'
    = ViEReceiver.restored_packet_in_use_ s
    /\ exists evs,
         ViEReceiver.trace s' = ViEReceiver.trace s ++ evs
         /\ Forall (fits_buffer E) (restore_calls evs)
         /\ (ViEReceiver.restored_packet_in_use_ s = true ->
             ViEReceiver.restored_packet_ s' = ViEReceiver.restored_packet_ s
             /\ restore_calls evs = []).

Definition keeps_guard (E : ViEReceiver.Env PayloadUnion) {A : Type}
  (m : M ViEReceiver.State A) : Prop :=
  forall s, guard_at E s m.

(** The part of the trace of [s'] that was added after [s]. *)
Definition received_since (s s' : ViEReceiver.State)
  : list ViEReceiver.Event :=
  drop (length (ViEReceiver.trace s)) (ViEReceiver.trace s').

(** [m] appends to the trace of the receiver, and only events that
    satisfy [P]. *)
Definition receiver_emits {A : Type} (P : ViEReceiver.Event -> Prop)
  (m : M ViEReceiver.State A) : Prop :=
  forall s a s', m s = Some (a, s') ->
    exists evs,
      ViEReceiver.trace s' = ViEReceiver.trace s ++ evs /\ Forall P evs.

(** A packet that is handed to the RTP receiver with the clock rate of
    video in its header. *)
Definition at_video_frequency (e : ViEReceiver.Event) : Prop :=
  match e with
  | ViEReceiver.EvIncomingRtpPacket header _ _ _ _ =>
      ViEReceiver.payload_type_frequency header
      = ViEReceiver.kVideoPayloadTypeFrequency
  | _ => True
  end.

End ReceiverTrace.

(** * [ViEReceiver]: the way in of the packets *)

Module ViEReceiverIngress.

Definition kPacketLogIntervalMs : Z := 10000.

(** Whether [z] is an [int64_t]; an addition or subtraction of two
    [int64_t] that leaves the range is undefined. *)
Definition in_int64 (z : Z) : bool := (- 2 ^ 63 <=? z) && (z <? 2 ^ 63).

(** [(packet_time.timestamp + 500) / 1000] when the packet carries a
    timestamp, in microseconds, and the clock otherwise. *)
Definition arrival_time_ms (packet_time : PacketTime) (now_ms : Z)
  : option Z :=
  if negb (timestamp packet_time =? -1) then
    if in_int64 (timestamp packet_time + 500)
    then Some (Z.quot (timestamp packet_time + 500) 1000)
    else None
  else Some now_ms.

Section Ingress.

Context {PayloadUnion : Type}.

(** The calls that the receiver makes on the way in; the calls made below
    [ReceivePacket] are those of the trace of [ViEReceiver]. *)
Inductive Event :=
| EvReceiver (e : ViEReceiver.Event)
| EvLogInfo (header : ViEReceiver.RTPHeader) (arrival_time_ms : Z)
| EvRbeIncomingPacket (arrival_time_ms : Z) (payload_length : Z)
    (header : ViEReceiver.RTPHeader)
| EvSetIncomingPayloadType (header : ViEReceiver.RTPHeader)
| EvStatisticsIncomingPacket (header : ViEReceiver.RTPHeader)
    (packet_length : Z) (retransmitted : bool)
| EvIncomingRtcpPacket (module : ptr) (packet : list byte)
    (packet_length : Z) (result : Z)
| EvUpdateRtcpTimestamp (rtt : Z) (ntp_secs ntp_frac rtp_timestamp : N).

Record State := {
  receiver_ : ViEReceiver.State;
  receiving_ : bool;
  last_packet_log_ms_ : Z;
  rtp_rtcp_ : option ptr;
  rtp_rtcp_simulcast_ : list ptr;
  (* the calls made into collaborators so far, oldest first *)
  calls : list Event
}.

Definition with_receiver (v : ViEReceiver.State) (s : State) : State :=
  {| receiver_ := v; receiving_ := receiving_ s;
     last_packet_log_ms_ := last_packet_log_ms_ s;
     rtp_rtcp_ := rtp_rtcp_ s; rtp_rtcp_simulcast_ := rtp_rtcp_simulcast_ s;
     calls := calls s |}.

Definition with_receiving (v : bool) (s : State) : State :=
  {| receiver_ := receiver_ s; receiving_ := v;
     last_packet_log_ms_ := last_packet_log_ms_ s;
     rtp_rtcp_ := rtp_rtcp_ s; rtp_rtcp_simulcast_ := rtp_rtcp_simulcast_ s;
     calls := calls s |}.

Definition with_last_packet_log_ms (v : Z) (s : State) : State :=
  {| receiver_ := receiver_ s; receiving_ := receiving_ s;
     last_packet_log_ms_ := v;
     rtp_rtcp_ := rtp_rtcp_ s; rtp_rtcp_simulcast_ := rtp_rtcp_simulcast_ s;
     calls := calls s |}.

Definition with_rtp_rtcp (v : option ptr) (s : State) : State :=
  {| receiver_ := receiver_ s; receiving_ := receiving_ s;
     last_packet_log_ms_ := last_packet_log_ms_ s;
     rtp_rtcp_ := v; rtp_rtcp_simulcast_ := rtp_rtcp_simulcast_ s;
     calls := calls s |}.

Definition with_rtp_rtcp_simulcast (v : list ptr) (s : State) : State :=
  {| receiver_ := receiver_ s; receiving_ := receiving_ s;
     last_packet_log_ms_ := last_packet_log_ms_ s;
     rtp_rtcp_ := rtp_rtcp_ s; rtp_rtcp_simulcast_ := v;
     calls := calls s |}.

Definition with_calls (v : list Event) (s : State) : State :=
  {| receiver_ := receiver_ s; receiving_ := receiving_ s;
     last_packet_log_ms_ := last_packet_log_ms_ s;
     rtp_rtcp_ := rtp_rtcp_ s; rtp_rtcp_simulcast_ := rtp_rtcp_simulcast_ s;
     calls := v |}.

(** What the collaborators answer on the way in: those of [ViEReceiver],
    the clock, the payload registry, the receive statistics and the RTP/RTCP
    modules. *)
Record Env := {
  receiver_env : ViEReceiver.Env PayloadUnion;
  (* clock_->TimeInMilliseconds() *)
  TimeInMilliseconds : State -> Z;
  RtxEnabled : State -> bool;
  (* GetStatistician(ssrc), then IsRetransmitOfOldPacket(header, min_rtt) *)
  StatisticianIsRetransmitOfOldPacket :
    State -> N -> option (ViEReceiver.RTPHeader -> Z -> bool);
  (* module->RTT(ssrc, &rtt, NULL, &min_rtt, NULL): the two times after *)
  RTT : State -> ptr -> N -> Z * Z;
  (* module->RemoteNTP(...): the result, then seconds, fraction, timestamp *)
  RemoteNTP : State -> ptr -> Z * (N * N * N);
  IncomingRtcpPacket : State -> ptr -> list byte -> Z -> Z
}.

Variable E : Env.

Definition emit (e : Event) : M State unit :=
  modify (fun s => with_calls (calls s ++ [e]) s).

(** An operation that is defined when [b] holds and undefined otherwise. *)
Definition defined (b : bool) : M State unit :=
  if b then ret tt else abort.

(** A method of [ViEReceiver] that is called on the way in: it runs on
    the inner state, and the calls that it makes are added to the calls of
    the way in. *)
Definition lift {A : Type} (m : M ViEReceiver.State A) : M State A :=
  fun s =>
    match m (receiver_ s) with
    | Some (a, r) =>
        Some (a, with_calls
                   (calls s
                    ++ (EvReceiver
                        <$> drop (length (ViEReceiver.trace (receiver_ s)))
                              (ViEReceiver.trace r)))
                   (with_receiver r s))
    | None => None
    end.

(** [ViEReceiver::ViEReceiver]. *)
Definition ViEReceiver_new (remote_bitrate_estimator : bool) : option State :=
  if ViEReceiver.assert_is_on (receiver_env E)
     && negb remote_bitrate_estimator
  then None
  else
    Some {| receiver_ :=
              {| ViEReceiver.restored_packet_ := [];
                 ViEReceiver.restored_packet_in_use_ := false;
                 ViEReceiver.trace := [] |};
            receiving_ := false;
            last_packet_log_ms_ := -1;
            rtp_rtcp_ := None;
            rtp_rtcp_simulcast_ := [];
            calls := [] |}.

Definition SetRtpRtcpModule (module : option ptr) : M State unit :=
  modify (with_rtp_rtcp module).

(** [rtp_rtcp_simulcast_] becomes the modules after the first; without a
    first there is no iterator [begin() + 1]. *)
Definition RegisterRtpRtcpModules (rtp_modules : list ptr) : M State unit :=
  match rtp_modules with
  | [] => abort
  | _ :: simulcast => modify (with_rtp_rtcp_simulcast simulcast)
  end.

Definition StartReceive : M State unit := modify (with_receiving true).

Definition StopReceive : M State unit := modify (with_receiving false).

Definition IsPacketRetransmitted (header : ViEReceiver.RTPHeader)
  (in_order : bool) : M State bool :=
  let* s := get in
  if RtxEnabled E s then ret false
  else
    match StatisticianIsRetransmitOfOldPacket E s (ViEReceiver.ssrc header)
    with
    | None => ret false
    | Some IsRetransmitOfOldPacket =>
        match rtp_rtcp_ s with
        | None => abort
        | Some module =>
            let min_rtt :=
              (RTT E s module
                 (ViEReceiver.rtp_receiver_SSRC (receiver_env E)
                    (receiver_ s))).2 in
            ret (negb in_order && IsRetransmitOfOldPacket header min_rtt)
        end
    end.

Definition InsertRTPPacket (fuel : nat) (rtp_packet : list byte)
  (rtp_packet_length : Z) (packet_time : PacketTime) : M State Z :=
  let* s := get in
  if negb (receiving_ s) then ret (-1)
  else
    match ViEReceiver.Parse (receiver_env E) (receiver_ s) rtp_packet
            rtp_packet_length with
    | None => ret (-1)
    | Some header =>
        let payload_length :=
          ViEReceiver.size_t_sub rtp_packet_length
            (ViEReceiver.headerLength header) in
        let now_ms := TimeInMilliseconds E s in
        match arrival_time_ms packet_time now_ms with
        | None => abort
        | Some arrival_time_ms =>
            defined (in_int64 (now_ms - last_packet_log_ms_ s)) ;;;
            when (kPacketLogIntervalMs <? now_ms - last_packet_log_ms_ s)
              (emit (EvLogInfo header arrival_time_ms) ;;;
               modify (with_last_packet_log_ms now_ms)) ;;;
            emit (EvRbeIncomingPacket arrival_time_ms payload_length header) ;;;
            let header :=
              ViEReceiver.with_payload_type_frequency
                ViEReceiver.kVideoPayloadTypeFrequency header in
            let* in_order :=
              lift (ViEReceiver.IsPacketInOrder (receiver_env E) header) in
            emit (EvSetIncomingPayloadType header) ;;;
            let* received :=
              lift (ViEReceiver.ReceivePacket (receiver_env E) fuel rtp_packet
                      rtp_packet_length header in_order) in
            let ret_ := if received then 0 else -1 in
            let* retransmitted := IsPacketRetransmitted header in_order in
            emit (EvStatisticsIncomingPacket header rtp_packet_length
                    retransmitted) ;;;
            ret ret_
        end
    end.

Definition InsertRTCPPacket (rtcp_packet : list byte)
  (rtcp_packet_length : Z) : M State Z :=
  let* s := get in
  if negb (receiving_ s) then ret (-1)
  else
    for_each (rtp_rtcp_simulcast_ s)
      (fun rtp_rtcp =>
         let* s := get in
         emit (EvIncomingRtcpPacket rtp_rtcp rtcp_packet rtcp_packet_length
                 (IncomingRtcpPacket E s rtp_rtcp rtcp_packet
                    rtcp_packet_length))) ;;;
    let* s := get in
    match rtp_rtcp_ s with
    | None => abort
    | Some module =>
        let ret_ :=
          IncomingRtcpPacket E s module rtcp_packet rtcp_packet_length in
        emit (EvIncomingRtcpPacket module rtcp_packet rtcp_packet_length
                ret_) ;;;
        if negb (ret_ =? 0) then ret ret_
        else
          let* s := get in
          let rtt :=
            (RTT E s module
               (ViEReceiver.rtp_receiver_SSRC (receiver_env E)
                  (receiver_ s))).1 in
          if rtt =? 0 then ret 0
          else
            let ntp := RemoteNTP E s module in
            if negb (ntp.1 =? 0) then ret 0
            else
              emit (EvUpdateRtcpTimestamp rtt ntp.2.1.1 ntp.2.1.2 ntp.2.2) ;;;
              ret 0
    end.

Definition ReceivedRTPPacket := InsertRTPPacket.

Definition ReceivedRTCPPacket := InsertRTCPPacket.

(** The modules that were handed an RTCP packet, oldest first. *)
Fixpoint rtcp_modules (evs : list Event) : list ptr :=
  match evs with
  | [] => []
  | EvIncomingRtcpPacket module _ _ _ :: evs' => module :: rtcp_modules evs'
  | _ :: evs' => rtcp_modules evs'
  end.

(** The part of the calls of [s'] that was added after [s]. *)
Definition calls_since (s s' : State) : list Event :=
  drop (length (calls s)) (calls s').

(** The number of headers written to the log. *)
Fixpoint logged_headers (evs : list Event) : nat :=
  match evs with
  | [] => 0%nat
  | EvLogInfo _ _ :: evs' => S (logged_headers evs')
  | _ :: evs' => logged_headers evs'
  end.

(** The round-trip times handed to the NTP estimator. *)
Fixpoint ntp_updates (evs : list Event) : list Z :=
  match evs with
  | [] => []
  | EvUpdateRtcpTimestamp rtt _ _ _ :: evs' => rtt :: ntp_updates evs'
  | _ :: evs' => ntp_updates evs'
  end.

End Ingress.

Arguments Event : clear implicits.
Arguments State : clear implicits.
Arguments Env : clear implicits.

End ViEReceiverIngress.

(** * More concrete collaborators and runs *)

Module Scenarios.

Import Examples.

(** The call that the constructor returns for the bitrates of the sixth
    scenario of the spec, with a voice engine and its event log. *)
Definition fresh : State N :=
  Eval vm_compute in
    match Call_new (accepting true) stored_bitrates true true with
    | Some s => s
    | None => idle
    end.

(** Four streams come, two of them go. *)
Definition lifecycle : list Op :=
  [OpCreateAudioReceiveStream 5%positive audio_receive_g;
   OpCreateVideoReceiveStream 8%positive video_receive_a_b;
   OpCreateVideoSendStream 4%positive video_send_100_101;
   OpCreateAudioSendStream 3%positive audio_send_7;
   OpSetBitrateConfig same_bitrates_no_start;
   OpDestroyAudioReceiveStream 5%positive;
   OpDestroyVideoSendStream 4%positive].

Definition lifecycle_end : State N :=
  Eval vm_compute in
    match run (accepting true) lifecycle fresh with
    | Some (_, s) => s
    | None => fresh
    end.

(** The idle call after the creation of one stream of each kind. *)
Definition with_audio_send_7 : State N :=
  Eval vm_compute in
    match CreateAudioSendStream (accepting true) 3%positive audio_send_7
            idle with
    | Some (_, s) => s
    | None => idle
    end.

Definition with_audio_receive_g : State N :=
  Eval vm_compute in
    match CreateAudioReceiveStream (accepting true) 5%positive
            audio_receive_g idle with
    | Some (_, s) => s
    | None => idle
    end.

Definition with_video_send_100_101 : State N :=
  Eval vm_compute in
    match CreateVideoSendStream (accepting true) 4%positive
            video_send_100_101 idle with
    | Some (_, s) => s
    | None => idle
    end.

(** A video receive stream with the primary SSRC [0xA] and no RTX. *)
Definition video_receive_a : VideoReceiveStream_Config :=
  {| vr_rtp_remote_ssrc := 10; vr_rtp_rtx := ∅; vr_sync_group := "g" |}.

(** In a build with [RTC_DCHECK]: the stream at 8 loses its only SSRC to
    the RTX SSRC of the stream at 9. *)
Definition key_lost : State N :=
  Eval vm_compute in
    match run (accepting true)
            [OpCreateVideoReceiveStream 8%positive video_receive_a;
             OpCreateVideoReceiveStream 9%positive video_receive_c_a] idle with
    | Some (_, s) => s
    | None => idle
    end.

Definition later : list Op :=
  [OpDestroyVideoReceiveStream 9%positive;
   OpSignalNetworkState kNetworkDown;
   OpCreateVideoReceiveStream 9%positive video_receive_c_a].

Definition key_lost_later : State N :=
  Eval vm_compute in
    match run (accepting true) later key_lost with
    | Some (_, s) => s
    | None => key_lost
    end.

(** The state [one_video_send] after the destruction of its stream. *)
Definition video_send_gone : State N :=
  Eval vm_compute in
    match run (accepting true) [OpDestroyVideoSendStream 4%positive]
            one_video_send with
    | Some (_, s) => s
    | None => one_video_send
    end.

(** The state [synced] after the destruction of the audio anchor. *)
Definition anchor_gone : State N :=
  Eval vm_compute in
    match DestroyAudioReceiveStream (accepting true) 5%positive synced with
    | Some (_, s) => s
    | None => synced
    end.

(** Twelve zero bytes but for the SSRC [0xA] at offset 8. *)
Definition packet_to_a : list byte :=
  [x00; x00; x00; x00; x00; x00; x00; x00; x00; x00; x00; x0a].

(** Bitrates that the constructor turns away and [SetBitrateConfig]
    takes: the start is above the maximum. *)
Definition start_above_max : BitrateConfig :=
  {| min_bitrate_bps := 100000; start_bitrate_bps := 300000;
     max_bitrate_bps := 200000 |}.

(** The header of a media packet on the SSRC [0xA], as the parser leaves
    it. *)
Definition media_header : ViEReceiver.RTPHeader :=
  {| ViEReceiver.payloadType := 96; ViEReceiver.sequenceNumber := 2;
     ViEReceiver.rtp_timestamp := 0; ViEReceiver.ssrc := 10;
     ViEReceiver.paddingLength := 0; ViEReceiver.headerLength := 12;
     ViEReceiver.payload_type_frequency := 0;
     ViEReceiver.hasVideoRotation := false; ViEReceiver.videoRotation := 0 |}.

(** A receiver whose registry takes the SSRC [0xB] for RTX, whose
    parser reads every packet as a media packet and whose restoration
    drops the two bytes of the RTX header. *)
Definition restoring : ViEReceiver.Env unit :=
  {| ViEReceiver.assert_is_on := true;
     ViEReceiver.restored_packet_size := 1500;
     ViEReceiver.Parse := fun _ _ _ => Some media_header;
     ViEReceiver.IsEncapsulated := fun _ h => N.eqb (ViEReceiver.ssrc h) 11;
     ViEReceiver.IsRed := fun _ _ => false;
     ViEReceiver.IsRtx := fun _ h => N.eqb (ViEReceiver.ssrc h) 11;
     ViEReceiver.ulpfec_payload_type := fun _ => -1;
     ViEReceiver.last_received_media_payload_type := fun _ => -1;
     ViEReceiver.GetPayloadSpecifics := fun _ _ => Some tt;
     ViEReceiver.RestoreOriginalPacket :=
       fun _ packet n _ _ => (packet, n - 2, true);
     ViEReceiver.AddReceivedRedPacket := fun _ _ _ _ _ => 0;
     ViEReceiver.ProcessReceivedFec_packets := fun _ => [];
     ViEReceiver.ProcessReceivedFec_result := fun _ _ => 0;
     ViEReceiver.rtp_receiver_SSRC := fun _ => 10%N;
     ViEReceiver.IncomingRtpPacket := fun _ _ _ _ _ _ => true;
     ViEReceiver.StatisticianIsPacketInOrder :=
       fun _ _ => Some (fun _ => true);
     ViEReceiver.ntp_Estimate := fun _ _ => 0;
     ViEReceiver.vcm_IncomingPacket := fun _ _ _ _ _ => 0 |}.

(** The receiver after an RTX packet of fourteen bytes. *)
Definition restored_once : ViEReceiver.State :=
  Eval vm_compute in
    match ViEReceiver.ReceivePacket restoring 1 rtp_packet 14
            keepalive_header true receiver_idle with
    | Some (_, s) => s
    | None => receiver_idle
    end.

(** A receiver in the middle of a restoration. *)
Definition receiver_busy : ViEReceiver.State :=
  {| ViEReceiver.restored_packet_ := rtp_packet;
     ViEReceiver.restored_packet_in_use_ := true;
     ViEReceiver.trace := [] |}.

Definition receiver_busy_warned : ViEReceiver.State :=
  Eval vm_compute in
    match ViEReceiver.ReceivePacket restoring 1 rtp_packet 14
            keepalive_header true receiver_busy with
    | Some (_, s) => s
    | None => receiver_busy
    end.

(** The receiver after a recovered packet of twelve bytes. *)
Definition recovered_once : ViEReceiver.State :=
  Eval vm_compute in
    match ViEReceiver.OnRecoveredPacket restoring 1 rtp_packet 12
            receiver_idle with
    | Some (_, s) => s
    | None => receiver_idle
    end.

(** The collaborators of the way in: the clock reads twenty seconds, RTX
    is enabled, every module takes every RTCP packet and knows a round-trip
    time of 30 ms. *)
Definition way_in : ViEReceiverIngress.Env unit :=
  {| ViEReceiverIngress.receiver_env := restoring;
     ViEReceiverIngress.TimeInMilliseconds := fun _ => 20000;
     ViEReceiverIngress.RtxEnabled := fun _ => true;
     ViEReceiverIngress.StatisticianIsRetransmitOfOldPacket :=
       fun _ _ => None;
     ViEReceiverIngress.RTT := fun _ _ _ => (30, 10);
     ViEReceiverIngress.RemoteNTP := fun _ _ => (0, (1%N, 2%N, 3%N));
     ViEReceiverIngress.IncomingRtcpPacket := fun _ _ _ _ => 0 |}.

(** The same collaborators, with a base module, at 1, that turns every
    RTCP packet away with [-1]. *)
Definition base_refuses : ViEReceiverIngress.Env unit :=
  {| ViEReceiverIngress.receiver_env := restoring;
     ViEReceiverIngress.TimeInMilliseconds := fun _ => 20000;
     ViEReceiverIngress.RtxEnabled := fun _ => true;
     ViEReceiverIngress.StatisticianIsRetransmitOfOldPacket :=
       fun _ _ => None;
     ViEReceiverIngress.RTT := fun _ _ _ => (30, 10);
     ViEReceiverIngress.RemoteNTP := fun _ _ => (0, (1%N, 2%N, 3%N));
     ViEReceiverIngress.IncomingRtcpPacket :=
       fun _ module _ _ => if Pos.eqb module 1 then -1 else 0 |}.

(** A new receiver. *)
Definition stopped : ViEReceiverIngress.State :=
  Eval vm_compute in
    match ViEReceiverIngress.ViEReceiver_new way_in true with
    | Some s => s
    | None =>
        {| ViEReceiverIngress.receiver_ := receiver_idle;
           ViEReceiverIngress.receiving_ := false;
           ViEReceiverIngress.last_packet_log_ms_ := -1;
           ViEReceiverIngress.rtp_rtcp_ := None;
           ViEReceiverIngress.rtp_rtcp_simulcast_ := [];
           ViEReceiverIngress.calls := [] |}
    end.

(** The receiver after its owner set the modules 1, 2 and 3 and started
    it. *)
Definition started : ViEReceiverIngress.State :=
  {| ViEReceiverIngress.receiver_ := receiver_idle;
     ViEReceiverIngress.receiving_ := true;
     ViEReceiverIngress.last_packet_log_ms_ := -1;
     ViEReceiverIngress.rtp_rtcp_ := Some 1%positive;
     ViEReceiverIngress.rtp_rtcp_simulcast_ := [2%positive; 3%positive];
     ViEReceiverIngress.calls := [] |}.

(** A media packet that arrived at 1500 microseconds. *)
Definition at_1500_us : PacketTime := {| timestamp := 1500; not_before := -1 |}.

Definition inserted : ViEReceiverIngress.State :=
  Eval vm_compute in
    match ViEReceiverIngress.InsertRTPPacket way_in 1 rtp_packet 12
            at_1500_us started with
    | Some (_, s) => s
    | None => started
    end.

End Scenarios.

(** ** Reasoning about computations *)

Section Monad.

Context {St : Type}.

Lemma bind_Some {A B : Type} (m : M St A) (f : A -> M St B) s r :
  bind m f s = Some r ->
  exists a s1, m s = Some (a, s1) /\ f a s1 = Some r.
Proof.
  unfold bind. destruct (m s) as [[a s1]|]; [|done]. eauto.
Qed.

Lemma preserves_ret {A X : Type} (f : St -> X) (a : A) : preserves f (ret a).
Proof. intros s a' s' H. unfold ret in H. by simplify_eq. Qed.

Lemma preserves_abort {A X : Type} (f : St -> X) :
  preserves f (abort : M St A).
Proof. intros s a' s' H. done. Qed.

Lemma preserves_get {X : Type} (f : St -> X) : preserves f get.
Proof. intros s a' s' H. unfold get in H. by simplify_eq. Qed.

Lemma preserves_modify {X : Type} (f : St -> X) (g : St -> St) :
  (forall s, f (g s) = f s) -> preserves f (modify g).
Proof. intros Hg s a' s' H. unfold modify in H. by simplify_eq. Qed.

Lemma preserves_bind {A B X : Type} (f : St -> X) (m : M St A)
  (k : A -> M St B) :
  preserves f m -> (forall a, preserves f (k a)) -> preserves f (bind m k).
Proof.
  intros Hm Hk s b s' H. apply bind_Some in H as (a & s1 & H1 & H2).
  rewrite (Hk a _ _ _ H2). eauto.
Qed.

Lemma preserves_when {X : Type} (f : St -> X) (b : bool) (m : M St unit) :
  preserves f m -> preserves f (when b m).
Proof. destruct b; [done|]. intros _. apply preserves_ret. Qed.

Lemma preserves_RTC_CHECK {X : Type} (f : St -> X) (b : bool) :
  preserves f (RTC_CHECK b).
Proof. destruct b; [apply preserves_ret | apply preserves_abort]. Qed.

Lemma preserves_for_each {A X : Type} (f : St -> X) (l : list A)
  (body : A -> M St unit) :
  (forall x, preserves f (body x)) -> preserves f (for_each l body).
Proof.
  intros Hbody. induction l as [|x l IH]; simpl.
  - apply preserves_ret.
  - apply preserves_bind; [done|]. intros _. exact IH.
Qed.

Lemma preserves_for_each_acc {A B X : Type} (f : St -> X) (l : list A)
  (acc : B) (body : B -> A -> M St B) :
  (forall acc x, preserves f (body acc x)) ->
  preserves f (for_each_acc l acc body).
Proof.
  intros Hbody. revert acc. induction l as [|x l IH]; intros acc; simpl.
  - apply preserves_ret.
  - apply preserves_bind; [done|]. intros acc'. apply IH.
Qed.

End Monad.

Create HintDb call_ops.

Ltac unfold_m :=
  unfold emit, when, RTC_DCHECK, RTC_CHECK, bind, ret, get, modify, abort in *.

Ltac unfold_m_in H :=
  unfold emit, when, RTC_DCHECK, RTC_CHECK, bind, ret, get, modify, abort in H;
  simpl in H.

(** One step of a proof that a computation preserves a component: the
    shape of the computation picks the lemma. *)
Ltac preserves_step :=
  lazymatch goal with
  | |- preserves _ (bind _ _) => apply preserves_bind; [|intros ?]
  | |- preserves _ (ret _) => apply preserves_ret
  | |- preserves _ get => apply preserves_get
  | |- preserves _ abort => apply preserves_abort
  | |- preserves _ (modify _) =>
      apply preserves_modify; intros ?; reflexivity
  | |- preserves _ (emit _) => unfold emit
  | |- preserves _ (when _ _) => apply preserves_when
  | |- preserves _ (RTC_CHECK _) => apply preserves_RTC_CHECK
  | |- preserves _ (RTC_DCHECK _ _) =>
      unfold RTC_DCHECK; destruct (dcheck_is_on _)
  | |- preserves _ (for_each _ _) => apply preserves_for_each; intros ?
  | |- preserves _ (for_each_acc _ _ _) =>
      apply preserves_for_each_acc; intros ? ?
  | |- preserves _ (if ?b then _ else _) => destruct b
  | |- preserves _ (match ?x with _ => _ end) => destruct x
  | |- preserves _ (let _ := _ in _) => cbv zeta
  end.

Section CallProperties.

Context {RtpState : Type}.
Variable E : Env RtpState.

Implicit Types s : State RtpState.

Lemma events_since_app s (evs : list (Event RtpState)) :
  events_since s (with_trace (trace s ++ evs) s) = evs.
Proof.
  unfold events_since. simpl. by rewrite drop_app_length.
Qed.

Lemma rtp_deliveries_app (a b : list (Event RtpState)) :
  rtp_deliveries (a ++ b) = rtp_deliveries a ++ rtp_deliveries b.
Proof.
  induction a as [|e a IH]; [done|].
  destruct e; simpl; rewrite ?IH; done.
Qed.

Lemma rtcp_offers_app (a b : list (Event RtpState)) :
  rtcp_offers (a ++ b) = rtcp_offers a ++ rtcp_offers b.
Proof.
  induction a as [|e a IH]; [done|].
  destruct e; simpl; rewrite ?IH; done.
Qed.

Lemma network_signals_app p (a b : list (Event RtpState)) :
  network_signals p (a ++ b) = network_signals p a ++ network_signals p b.
Proof.
  induction a as [|e a IH]; [done|].
  destruct e; simpl; rewrite ?IH; try done.
  destruct (Pos.eqb _ _); simpl; by rewrite ?IH.
Qed.

Lemma sync_channel_calls_app (a b : list (Event RtpState)) :
  sync_channel_calls (a ++ b) = sync_channel_calls a ++ sync_channel_calls b.
Proof.
  induction a as [|e a IH]; [done|].
  destruct e; simpl; rewrite ?IH; done.
Qed.

Lemma with_trace_nil s : with_trace (trace s ++ []) s = s.
Proof. destruct s. unfold with_trace. simpl. by rewrite app_nil_r. Qed.

Lemma with_trace_app s (a b : list (Event RtpState)) :
  with_trace (trace (with_trace (trace s ++ a) s) ++ b)
    (with_trace (trace s ++ a) s)
  = with_trace (trace s ++ a ++ b) s.
Proof. unfold with_trace. simpl. by rewrite app_assoc. Qed.

(** ** Components that an operation leaves alone *)

Lemma preserves_deref {A X : Type} (f : State RtpState -> X)
  (h : State RtpState -> gmap ptr A) p :
  preserves f (deref h p).
Proof.
  intros s a s' H. unfold deref in H. destruct (h s !! p); by simplify_eq.
Qed.

Lemma find_sync_audio_preserves {X : Type} (f : State RtpState -> X)
  sync_group kvs acc :
  (forall t s, f (with_trace t s) = f s) ->
  preserves f (find_sync_audio sync_group kvs acc).
Proof.
  intros Hf. revert acc. induction kvs as [|kv kvs IH]; intros acc; simpl.
  - apply preserves_ret.
  - apply preserves_bind; [apply preserves_deref|]. intros cfg.
    destruct (String.eqb _ _); [|apply IH].
    destruct acc; [|apply IH].
    apply preserves_bind; [|intros; apply preserves_ret].
    apply preserves_modify. intros s. apply Hf.
Qed.

Lemma sync_video_stream_preserves {X : Type} (f : State RtpState -> X)
  sync_group anchor num video_stream :
  (forall t s, f (with_trace t s) = f s) ->
  preserves f (sync_video_stream sync_group anchor num video_stream).
Proof.
  intros Hf. unfold sync_video_stream.
  assert (Hemit : forall e, preserves f (emit e)).
  { intros e. apply preserves_modify. intros s. apply Hf. }
  apply preserves_bind; [apply preserves_deref|]. intros cfg.
  destruct (negb _); [apply preserves_ret|].
  cbv zeta. apply preserves_bind; [apply preserves_when, Hemit|]. intros _.
  apply preserves_bind; [|intros; apply preserves_ret].
  destruct anchor; [|apply Hemit].
  destruct (_ =? 1); [|apply Hemit].
  apply preserves_bind; [apply preserves_deref|]. intros; apply Hemit.
Qed.

Lemma ConfigureSync_preserves {X : Type} (f : State RtpState -> X) sync_group :
  apart_from_sync f -> preserves f (ConfigureSync sync_group).
Proof.
  intros [Htrace Hsync]. unfold ConfigureSync.
  apply preserves_bind; [apply preserves_get|]. intros s0.
  destruct (_ || _); [apply preserves_ret|].
  apply preserves_bind.
  { destruct (_ !! _); [apply preserves_ret|].
    by apply find_sync_audio_preserves. }
  intros anchor. apply preserves_bind.
  { destruct anchor; [|apply preserves_ret].
    apply preserves_modify. intros s. apply Hsync. }
  intros _. apply preserves_bind; [apply preserves_get|]. intros s1.
  apply preserves_bind; [|intros; apply preserves_ret].
  apply preserves_for_each_acc. intros num v.
  by apply sync_video_stream_preserves.
Qed.

(** ** What an operation adds to the trace *)

Lemma emits_only_silent {A : Type} P (m : M (State RtpState) A) :
  preserves trace m -> emits_only P m.
Proof.
  intros Hm s a s' H. exists []. rewrite app_nil_r. split; [|done].
  by apply (Hm s a s').
Qed.

Lemma emits_only_emit P (e : Event RtpState) : P e -> emits_only P (emit e).
Proof.
  intros He s a s' H. unfold emit, modify in H. simplify_eq.
  exists [e]. split; [done|]. by constructor.
Qed.

Lemma emits_only_bind {A B : Type} P (m : M (State RtpState) A)
  (k : A -> M (State RtpState) B) :
  emits_only P m -> (forall a, emits_only P (k a)) -> emits_only P (bind m k).
Proof.
  intros Hm Hk s b s' H. apply bind_Some in H as (a & s1 & H1 & H2).
  destruct (Hm _ _ _ H1) as (evs1 & Ht1 & HP1).
  destruct (Hk a _ _ _ H2) as (evs2 & Ht2 & HP2).
  exists (evs1 ++ evs2). rewrite Ht2, Ht1, app_assoc.
  split; [done|]. by apply Forall_app.
Qed.

Lemma emits_only_for_each_acc {A B : Type} P (l : list A) (acc : B)
  (body : B -> A -> M (State RtpState) B) :
  (forall acc x, emits_only P (body acc x)) ->
  emits_only P (for_each_acc l acc body).
Proof.
  intros Hbody. revert acc. induction l as [|x l IH]; intros acc; simpl.
  - apply emits_only_silent, preserves_ret.
  - apply emits_only_bind; [done|]. intros acc'. apply IH.
Qed.

Lemma sync_events_no_network_signal p (evs : list (Event RtpState)) :
  Forall sync_event evs -> network_signals p evs = [].
Proof.
  induction 1 as [|e evs He _ IH]; [done|]. by destruct e.
Qed.

Lemma find_sync_audio_emits sync_group kvs acc :
  emits_only (RtpState := RtpState) sync_event
    (find_sync_audio sync_group kvs acc).
Proof.
  revert acc. induction kvs as [|kv kvs IH]; intros acc; simpl.
  - apply emits_only_silent, preserves_ret.
  - apply emits_only_bind; [apply emits_only_silent, preserves_deref|].
    intros cfg. destruct (String.eqb _ _); [|apply IH].
    destruct acc; [|apply IH].
    apply emits_only_bind; [by apply emits_only_emit|].
    intros _. apply emits_only_silent, preserves_ret.
Qed.

Lemma sync_video_stream_emits sync_group anchor num video_stream :
  emits_only (RtpState := RtpState) sync_event
    (sync_video_stream sync_group anchor num video_stream).
Proof.
  unfold sync_video_stream.
  apply emits_only_bind; [apply emits_only_silent, preserves_deref|].
  intros cfg. destruct (negb _); [apply emits_only_silent, preserves_ret|].
  cbv zeta. apply emits_only_bind.
  { destruct (1 <? _); simpl; [by apply emits_only_emit|].
    apply emits_only_silent, preserves_ret. }
  intros _. apply emits_only_bind;
    [|intros; apply emits_only_silent, preserves_ret].
  destruct anchor; [|by apply emits_only_emit].
  destruct (_ =? 1); [|by apply emits_only_emit].
  apply emits_only_bind; [apply emits_only_silent, preserves_deref|].
  intros; by apply emits_only_emit.
Qed.

Lemma ConfigureSync_emits sync_group :
  emits_only (RtpState := RtpState) sync_event (ConfigureSync sync_group).
Proof.
  unfold ConfigureSync.
  apply emits_only_bind; [apply emits_only_silent, preserves_get|]. intros s0.
  destruct (_ || _); [apply emits_only_silent, preserves_ret|].
  apply emits_only_bind.
  { destruct (_ !! _); [apply emits_only_silent, preserves_ret|].
    apply find_sync_audio_emits. }
  intros anchor. apply emits_only_bind.
  { apply emits_only_silent. destruct anchor; [|apply preserves_ret].
    by apply preserves_modify. }
  intros _. apply emits_only_bind; [apply emits_only_silent, preserves_get|].
  intros s1. apply emits_only_bind;
    [|intros; apply emits_only_silent, preserves_ret].
  apply emits_only_for_each_acc. intros num v. apply sync_video_stream_emits.
Qed.

Lemma events_since_extends s s' (evs : list (Event RtpState)) :
  trace s' = trace s ++ evs -> events_since s s' = evs.
Proof.
  intros H. unfold events_since. rewrite H. by rewrite drop_app_length.
Qed.

(** ** The network state at creation *)

Lemma register_video_send_ssrcs_preserves {X : Type}
  (f : State RtpState -> X) send_stream ssrcs :
  (forall m s, f (with_video_send_ssrcs m s) = f s) ->
  preserves f (for_each ssrcs (register_video_send_ssrc E send_stream)).
Proof.
  intros Hf. apply preserves_for_each. intros ssrc.
  unfold register_video_send_ssrc.
  apply preserves_bind; [apply preserves_get|]. intros s0.
  apply preserves_bind.
  { unfold RTC_DCHECK. destruct (dcheck_is_on E);
      [apply preserves_RTC_CHECK | apply preserves_ret]. }
  intros _. apply preserves_modify. intros s. apply Hf.
Qed.

(** What [new_object] does when it returns. *)
Lemma new_object_Some k p store s a s' :
  new_object k p store s = Some (a, s') ->
  is_live s p = false
  /\ s' = with_trace (trace (store s) ++ [EvNew k p]) (store s).
Proof.
  unfold new_object. unfold_m. destruct (is_live s p); [done|].
  intros H. injection H as _ <-. done.
Qed.

Lemma RTC_DCHECK_Some b s a s' :
  RTC_DCHECK E b s = Some (a, s') -> s' = s.
Proof.
  unfold_m. destruct (dcheck_is_on E); [destruct b|]; intros H;
    try discriminate; by injection H as _ <-.
Qed.

(** C1, as the code has it.  With the network down, [CreateAudioSendStream],
    [CreateVideoSendStream] and [CreateVideoReceiveStream] that return have
    signalled [kNetworkDown] to the new stream once, and nothing else;
    [CreateAudioReceiveStream] returns without any network state signalled
    to the new stream. *)
Theorem create_signals_network_down s p :
  network_enabled_ s = false ->
  (forall config r s',
     CreateAudioSendStream E p config s = Some (r, s') ->
     r = p /\ network_signals p (events_since s s') = [kNetworkDown])
  /\ (forall config r s',
        CreateVideoSendStream E p config s = Some (r, s') ->
        r = p /\ network_signals p (events_since s s') = [kNetworkDown])
  /\ (forall config r s',
        CreateVideoReceiveStream E p config s = Some (r, s') ->
        r = p /\ network_signals p (events_since s s') = [kNetworkDown])
  /\ (forall config r s',
        CreateAudioReceiveStream E p config s = Some (r, s') ->
        r = p /\ network_signals p (events_since s s') = []).
Proof.
  intros Hdown. split; [|split; [|split]]; intros config r s' H.
  - unfold CreateAudioSendStream in H.
    apply bind_Some in H as (? & s1 & Hnew & H).
    apply new_object_Some in Hnew as [_ ->].
    apply bind_Some in H as (? & ? & Hget & H). unfold get in Hget.
    simplify_eq.
    apply bind_Some in H as (? & s2 & Hchk & H).
    apply RTC_DCHECK_Some in Hchk as ->.
    unfold_m. simpl in H. rewrite Hdown in H. simpl in H. simplify_eq.
    split; [done|]. erewrite events_since_extends.
    2:{ simpl. rewrite <- app_assoc. reflexivity. }
    simpl. by rewrite Pos.eqb_refl.
  - unfold CreateVideoSendStream in H.
    apply bind_Some in H as (? & s1 & Hnew & H).
    apply new_object_Some in Hnew as [_ ->].
    apply bind_Some in H as (? & s2 & Hloop & H).
    pose proof (register_video_send_ssrcs_preserves trace p _
                  ltac:(done) _ _ _ Hloop) as Htrace.
    pose proof (register_video_send_ssrcs_preserves network_enabled_ p _
                  ltac:(done) _ _ _ Hloop) as Hnet.
    simpl in Htrace, Hnet.
    unfold_m. simpl in H. rewrite Hnet, Hdown in H. simpl in H.
    destruct (event_log_ s2); simpl in H; simplify_eq;
      (split; [done|]); erewrite events_since_extends.
    2:{ simpl. rewrite Htrace. rewrite <- !app_assoc. reflexivity. }
    3:{ simpl. rewrite Htrace. rewrite <- !app_assoc. reflexivity. }
    all: simpl; by rewrite Pos.eqb_refl.
  - unfold CreateVideoReceiveStream in H.
    apply bind_Some in H as (? & s1 & Hnew & H).
    apply new_object_Some in Hnew as [_ ->].
    apply bind_Some in H as (? & ? & Hget & H). unfold get in Hget.
    simplify_eq.
    apply bind_Some in H as (? & s2 & Hchk & H).
    apply RTC_DCHECK_Some in Hchk as ->.
    apply bind_Some in H as (? & s3 & Hmod1 & H).
    apply bind_Some in H as (? & s4 & Hmod2 & H).
    apply bind_Some in H as (? & s5 & Hmod3 & H).
    apply bind_Some in H as (? & s6 & Hsync & H).
    assert (Htrace4 : trace s5 = trace s ++ [EvNew VideoReceive p]
            /\ network_enabled_ s5 = false).
    { unfold modify in Hmod1, Hmod3. simplify_eq.
      destruct (StdMap.zbegin _); unfold_m; simplify_eq; simpl; done. }
    destruct Htrace4 as [Htrace5 Hnet5].
    destruct (ConfigureSync_emits _ _ _ _ Hsync) as (evs & Htrace6 & Hevs).
    pose proof (ConfigureSync_preserves network_enabled_ _
                  ltac:(by split) _ _ _ Hsync) as Hnet6.
    unfold_m. simpl in H. rewrite Hnet6, Hnet5 in H. simpl in H.
    destruct (event_log_ s6); simpl in H; simplify_eq;
      (split; [done|]); erewrite events_since_extends.
    2:{ simpl. rewrite Htrace6, Htrace5. rewrite <- !app_assoc. reflexivity. }
    3:{ simpl. rewrite Htrace6, Htrace5. rewrite <- !app_assoc. reflexivity. }
    all: simpl; rewrite network_signals_app,
           (sync_events_no_network_signal _ _ Hevs); simpl;
           by rewrite Pos.eqb_refl.
  - unfold CreateAudioReceiveStream in H.
    apply bind_Some in H as (? & s1 & Hnew & H).
    apply new_object_Some in Hnew as [_ ->].
    apply bind_Some in H as (? & ? & Hget & H). unfold get in Hget.
    simplify_eq.
    apply bind_Some in H as (? & s2 & Hchk & H).
    apply RTC_DCHECK_Some in Hchk as ->.
    apply bind_Some in H as (? & s3 & Hmod1 & H).
    apply bind_Some in H as (? & s4 & Hsync & H).
    unfold modify in Hmod1. unfold ret in H. simplify_eq.
    destruct (ConfigureSync_emits _ _ _ _ Hsync) as (evs & Htrace & Hevs).
    split; [done|]. erewrite events_since_extends.
    2:{ rewrite Htrace. simpl. rewrite <- !app_assoc. reflexivity. }
    simpl. by apply sync_events_no_network_signal.
Qed.

(** ** The sync resolver *)

Lemma find_sync_audio_Some sync_group kvs acc s r s' :
  find_sync_audio sync_group kvs acc s = Some (r, s') ->
  exists evs, s' = with_trace (trace s ++ evs) s
              /\ sync_channel_calls evs = [].
Proof.
  revert acc s. induction kvs as [|kv kvs IH]; intros acc s H; simpl in H.
  - unfold ret in H. simplify_eq. exists []. by rewrite with_trace_nil.
  - apply bind_Some in H as (cfg & s1 & Hderef & H).
    unfold deref in Hderef. destruct (_ !! _); [|done]. simplify_eq.
    destruct (String.eqb _ _); [|exact (IH _ _ H)].
    destruct acc as [a|].
    + unfold_m. injection H as _ <-. by exists [EvLogWarning].
    + exact (IH _ _ H).
Qed.

Lemma size_t_incr_small n :
  0 <= n -> n + 1 < 2 ^ 64 -> size_t_incr n = n + 1.
Proof. intros. unfold size_t_incr. apply Z.mod_small. lia. Qed.

(** One turn of the loop over the video streams: a stream of another
    group is passed over; a stream of the group is counted and given the
    anchor's channel when it is the first, [-1] otherwise. *)
Lemma sync_video_stream_Some sync_group anchor n v s n1 s1 :
  0 <= n -> n + 1 < 2 ^ 64 ->
  sync_video_stream sync_group anchor n v s = Some (n1, s1) ->
  exists evs,
    s1 = with_trace (trace s ++ evs) s
    /\ ((in_sync_group s sync_group v = false /\ n1 = n
         /\ sync_channel_calls evs = [])
        \/ (in_sync_group s sync_group v = true /\ n1 = n + 1
            /\ sync_channel_calls evs
               = [(v, if n =? 0 then anchor_channel s anchor else -1)])).
Proof.
  intros Hn Hmax H. unfold sync_video_stream in H.
  apply bind_Some in H as (cfg & s0 & Hderef & H).
  unfold deref in Hderef.
  destruct (video_receive_heap s !! v) as [cfg'|] eqn:Hheap; [|done].
  simplify_eq. unfold in_sync_group. rewrite Hheap.
  destruct (String.eqb (vr_sync_group cfg) sync_group); simpl in H.
  2:{ unfold ret in H. simplify_eq. exists []. rewrite with_trace_nil. auto. }
  rewrite (size_t_incr_small n Hn Hmax) in H.
  assert (Hone : (n + 1 =? 1) = (n =? 0)).
  { destruct (Z.eqb_spec n 0), (Z.eqb_spec (n + 1) 1); lia. }
  rewrite Hone in H.
  apply bind_Some in H as ([] & s2 & Hwarn & H).
  assert (Hs2 : exists w, s2 = with_trace (trace s0 ++ w) s0
                          /\ sync_channel_calls w = []).
  { destruct (1 <? n + 1); unfold_m_in Hwarn; simplify_eq.
    - by exists [EvLogWarning].
    - exists []. by rewrite with_trace_nil. }
  destruct Hs2 as (w & -> & Hw).
  apply bind_Some in H as ([] & s3 & Hset & H).
  unfold ret in H. injection H as <- <-.
  assert (Hset' : s3
    = with_trace
        (trace s0
         ++ w ++ [EvSetSyncChannel v (if n =? 0 then anchor_channel s0 anchor
                                      else -1)]) s0).
  { destruct anchor as [a|]; simpl in Hset.
    - destruct (n =? 0).
      + apply bind_Some in Hset as (acfg & s4 & Hderef & Hset).
        unfold deref in Hderef. simpl in Hderef.
        destruct (audio_receive_heap s0 !! a) eqn:Ha; [|done].
        injection Hderef as <- <-.
        unfold_m_in Hset. injection Hset as <-.
        unfold with_trace, anchor_channel; simpl.
        rewrite Ha. by rewrite <- app_assoc.
      + unfold_m_in Hset. injection Hset as <-.
        unfold with_trace; simpl. by rewrite <- app_assoc.
    - unfold_m_in Hset. injection Hset as <-.
      unfold with_trace; simpl. rewrite <- app_assoc. by destruct (n =? 0). }
  eexists. split; [exact Hset'|]. right.
  rewrite sync_channel_calls_app, Hw. auto.
Qed.

(** The whole loop: started with the count [n], it gives the anchor's
    channel to the first stream of the group when [n] is zero, and [-1] to
    every other stream of the group. *)
Lemma sync_video_loop sync_group anchor l n s r s' :
  0 <= n -> n + Z.of_nat (length l) < 2 ^ 64 ->
  for_each_acc l n (sync_video_stream sync_group anchor) s = Some (r, s') ->
  exists evs,
    s' = with_trace (trace s ++ evs) s
    /\ sync_channel_calls evs
       = (if n =? 0
          then first_bound_rest_unbound (anchor_channel s anchor)
                 (filter (fun v => in_sync_group s sync_group v = true) l)
          else map (fun v => (v, -1))
                 (filter (fun v => in_sync_group s sync_group v = true) l)).
Proof.
  revert n s. induction l as [|v l IH]; intros n s Hn Hmax H; simpl in H.
  - unfold ret in H. injection H as <- <-. exists [].
    rewrite with_trace_nil. split; [done|]. by destruct (n =? 0).
  - apply bind_Some in H as (n1 & s1 & Hbody & H).
    simpl in Hmax.
    apply sync_video_stream_Some in Hbody as (evs1 & -> & Hcase);
      [|done|lia].
    destruct Hcase as [(Hout & Hn1 & Hcalls1) | (Hin & Hn1 & Hcalls1)];
      subst n1.
    + apply IH in H as (evs2 & -> & Hcalls2); [|done|lia].
      exists (evs1 ++ evs2). rewrite with_trace_app. split; [done|].
      rewrite sync_channel_calls_app, Hcalls1, Hcalls2. simpl.
      rewrite filter_cons_False; [done|]. by rewrite Hout.
    + apply IH in H as (evs2 & -> & Hcalls2); [|lia|lia].
      exists (evs1 ++ evs2). rewrite with_trace_app. split; [done|].
      rewrite sync_channel_calls_app, Hcalls1, Hcalls2.
      rewrite filter_cons_True by done.
      destruct (Z.eqb_spec (n + 1) 0); [lia|].
      by destruct (n =? 0).
Qed.

Lemma binding_calls_unbound (l : list ptr) :
  binding_calls (map (fun v => (v, -1)) l) = [].
Proof.
  unfold binding_calls. induction l as [|v l IH]; [done|].
  change (map (fun v => (v, -1)) (v :: l))
    with ((v, -1) :: map (fun v => (v, -1)) l).
  rewrite filter_cons_False; [exact IH|].
  simpl. intros H. by apply H.
Qed.

Lemma binding_calls_first_bound channel (l : list ptr) :
  (length (binding_calls (first_bound_rest_unbound channel l)) <= 1)%nat.
Proof.
  destruct l as [|v l]; [simpl; lia|]. unfold first_bound_rest_unbound.
  unfold binding_calls. destruct (decide (channel = -1)).
  - rewrite filter_cons_False by (simpl; intros H; by apply H).
    fold (binding_calls (map (fun v => (v, -1)) l)).
    rewrite binding_calls_unbound. simpl. lia.
  - rewrite filter_cons_True by done.
    fold (binding_calls (map (fun v => (v, -1)) l)).
    by rewrite binding_calls_unbound.
Qed.

Lemma last_channel_app v (a b : list (ptr * Z)) acc :
  last_channel v (a ++ b) acc = last_channel v b (last_channel v a acc).
Proof.
  revert acc. induction a as [|c a IH]; intros acc; [done|]. simpl. apply IH.
Qed.

Lemma last_channel_unbound v (rest : list ptr) acc :
  v ∈ rest ->
  last_channel v (map (fun v => (v, -1)) rest) acc = Some (-1).
Proof.
  revert acc. induction rest as [|w rest IH]; intros acc Hin.
  - by apply elem_of_nil in Hin.
  - simpl. destruct (decide (v ∈ rest)) as [Hrest|Hrest]; [by apply IH|].
    apply elem_of_cons in Hin as [<- | Hin]; [|done].
    rewrite Pos.eqb_refl. clear IH.
    assert (Hkeep : forall acc,
      last_channel v (map (fun v => (v, -1)) rest) acc = acc).
    { induction rest as [|u rest IH]; intros acc'; [done|]. simpl.
      apply not_elem_of_cons in Hrest as [Hne Hrest].
      destruct (Pos.eqb_spec u v); [congruence|]. by apply IH. }
    apply Hkeep.
Qed.

(** After the calls of a run, on top of any earlier calls, at most one
    stream of the group is bound. *)
Lemma at_most_one_bound (calls0 : list (ptr * Z)) channel (m : list ptr) :
  (length (filter
             (fun v => bound_by (calls0 ++ first_bound_rest_unbound channel m) v
                       = true) m) <= 1)%nat.
Proof.
  destruct m as [|first rest]; [simpl; lia|].
  assert (Hrest : forall l, l ⊆ rest ->
            filter
              (fun v => bound_by
                          (calls0 ++ first_bound_rest_unbound channel
                                       (first :: rest)) v = true) l = []).
  { induction l as [|v l IH]; intros Hsub; [done|].
    rewrite filter_cons_False.
    - apply IH. intros x Hx. apply Hsub. by apply elem_of_cons; right.
    - unfold bound_by. rewrite last_channel_app. simpl.
      rewrite last_channel_unbound; [done|].
      apply Hsub. by apply elem_of_cons; left. }
  specialize (Hrest rest ltac:(done)).
  rewrite filter_cons, Hrest. destruct (decide _); simpl; lia.
Qed.

(** C8. A run of the sync resolver for the group [g] that returns has
    called [SetSyncChannel] on the video receive streams of the group and
    on no other, in the order of their enumeration: the first with the
    channel of the audio anchor of the group when there is one (with [-1]
    when there is none), every later one with [-1].  So at most one call
    of the run binds a stream, and after the run at most one video receive
    stream of the group is bound.  Without a voice engine or with an empty
    group name the run changes nothing. *)
Theorem ConfigureSync_binds_at_most_one s g s' :
  Z.of_nat (length (StdSet.items (video_receive_streams_ s))) < 2 ^ 64 ->
  ConfigureSync g s = Some (tt, s') ->
  let calls := sync_channel_calls (events_since s s') in
  let matching :=
    filter (fun v => in_sync_group s g v = true)
      (StdSet.items (video_receive_streams_ s)) in
  (voice_engine_ s = true -> string_empty g = false ->
   calls = first_bound_rest_unbound
             (anchor_channel s (sync_stream_mapping_ s' !! g)) matching
   /\ (length (filter (fun v => bound_to_audio s' v = true)
                 (filter (fun v => in_sync_group s' g v = true)
                    (StdSet.items (video_receive_streams_ s')))) <= 1)%nat)
  /\ (voice_engine_ s = false \/ string_empty g = true -> s' = s)
  /\ (length (binding_calls calls) <= 1)%nat.
Proof.
  intros Hsize H calls matching. unfold ConfigureSync in H.
  apply bind_Some in H as (? & ? & Hget & H). unfold get in Hget.
  injection Hget as <- <-.
  destruct (voice_engine_ s) eqn:Hvoice; simpl in H.
  2:{ unfold ret in H. simplify_eq. subst calls.
      unfold events_since. rewrite drop_all. simpl.
      split; [done|]. split; [done|lia]. }
  destruct (string_empty g) eqn:Hempty.
  { unfold ret in H. simplify_eq. subst calls.
    unfold events_since. rewrite drop_all. simpl.
    split; [done|]. split; [done|lia]. }
  apply bind_Some in H as (anchor & s1 & Hanchor & H).
  assert (Ha : exists evs1,
    s1 = with_trace (trace s ++ evs1) s
    /\ sync_channel_calls evs1 = []
    /\ (anchor = None -> sync_stream_mapping_ s !! g = None)
    /\ (forall a, sync_stream_mapping_ s !! g = Some a -> anchor = Some a)).
  { destruct (sync_stream_mapping_ s !! g) as [a|] eqn:Hmap.
    - unfold ret in Hanchor. simplify_eq. exists [].
      rewrite with_trace_nil. split; [done|]. split; [done|].
      split; [done|]. by intros ? [= ->].
    - apply find_sync_audio_Some in Hanchor as (evs1 & -> & Hcalls).
      exists evs1. done. }
  destruct Ha as (evs1 & -> & Hcalls1 & Hnone & Hsome).
  apply bind_Some in H as ([] & s2 & Hstore & H).
  apply bind_Some in H as (? & ? & Hget & H). unfold get in Hget.
  injection Hget as <- <-.
  apply bind_Some in H as (n & s3 & Hloop & H).
  unfold ret in H. simplify_eq.
  assert (Hs2 : video_receive_streams_ s2 = video_receive_streams_ s
    /\ video_receive_heap s2 = video_receive_heap s
    /\ audio_receive_heap s2 = audio_receive_heap s
    /\ trace s2 = trace s ++ evs1
    /\ sync_stream_mapping_ s2 !! g = anchor).
  { destruct anchor as [a|]; unfold_m; simplify_eq; simpl.
    - by rewrite lookup_insert_eq.
    - by rewrite Hnone. }
  destruct Hs2 as (Hset & Hvheap & Haheap & Htrace2 & Hmap2).
  rewrite Hset in Hloop.
  apply sync_video_loop in Hloop as (evs2 & -> & Hcalls2); [|done|simpl; lia].
  simpl in Hcalls2.
  assert (Hcalls2' : sync_channel_calls evs2
    = first_bound_rest_unbound
        (anchor_channel s (sync_stream_mapping_ s2 !! g)) matching).
  { rewrite Hcalls2. unfold anchor_channel, in_sync_group.
    rewrite Hmap2, Hvheap, Haheap. done. }
  assert (Hcalls : calls
    = first_bound_rest_unbound
        (anchor_channel s (sync_stream_mapping_ s2 !! g)) matching).
  { subst calls. erewrite events_since_extends.
    2:{ simpl. rewrite Htrace2, <- app_assoc. reflexivity. }
    by rewrite sync_channel_calls_app, Hcalls1, Hcalls2'. }
  split; [|split].
  - intros _ _. split; [exact Hcalls|].
    unfold bound_to_audio, in_sync_group. simpl.
    rewrite Hset, Hvheap, Htrace2, <- app_assoc.
    rewrite !sync_channel_calls_app, Hcalls1, Hcalls2'. simpl.
    apply at_most_one_bound.
  - intros [|]; done.
  - rewrite Hcalls. apply binding_calls_first_bound.
Qed.

(** ** Suspended RTP states *)

Lemma StdMap_items_elem {V : Type} (m : gmap N V) k v :
  (k, v) ∈ StdMap.items m <-> m !! k = Some v.
Proof.
  unfold StdMap.items. rewrite merge_sort_Permutation.
  apply elem_of_map_to_list.
Qed.

Lemma StdMap_items_NoDup {V : Type} (m : gmap N V) :
  NoDup (StdMap.items m).*1.
Proof.
  unfold StdMap.items. rewrite merge_sort_Permutation.
  apply NoDup_fst_map_to_list.
Qed.

Lemma with_suspended_id s :
  with_suspended_video_send_ssrcs (suspended_video_send_ssrcs_ s) s = s.
Proof. by destruct s. Qed.

(** The copy loop stores the entries of [l] one after the other. *)
Lemma suspend_loop (l : list (N * RtpState)) s r s' :
  for_each l suspend_rtp_state s = Some (r, s') ->
  s' = with_suspended_video_send_ssrcs
         (foldl (fun m kv => <[kv.1 := kv.2]> m)
            (suspended_video_send_ssrcs_ s) l) s.
Proof.
  revert s. induction l as [|kv l IH]; intros s H; simpl in H.
  - unfold ret in H. injection H as _ <-. simpl.
    by rewrite with_suspended_id.
  - apply bind_Some in H as ([] & s1 & Hput & H).
    unfold suspend_rtp_state, modify in Hput. injection Hput as <-.
    apply IH in H. by rewrite H.
Qed.

Lemma suspend_loop_total (l : list (N * RtpState)) s :
  exists s', for_each l suspend_rtp_state s = Some (tt, s').
Proof.
  revert s. induction l as [|kv l IH]; intros s; simpl.
  - by exists s.
  - unfold bind, suspend_rtp_state, modify. apply IH.
Qed.

Lemma foldl_insert_notin (l : list (N * RtpState)) (m : gmap N RtpState) k :
  k ∉ l.*1 -> foldl (fun m kv => <[kv.1 := kv.2]> m) m l !! k = m !! k.
Proof.
  revert m. induction l as [|[k' v'] l IH]; intros m Hk; [done|].
  simpl in *. apply not_elem_of_cons in Hk as [Hne Hk].
  rewrite IH by done. by rewrite lookup_insert_ne.
Qed.

Lemma foldl_insert_in (l : list (N * RtpState)) (m : gmap N RtpState) k v :
  NoDup l.*1 -> (k, v) ∈ l ->
  foldl (fun m kv => <[kv.1 := kv.2]> m) m l !! k = Some v.
Proof.
  revert m. induction l as [|[k' v'] l IH]; intros m Hnodup Hin.
  - by apply elem_of_nil in Hin.
  - simpl in *. apply NoDup_cons in Hnodup as [Hnotin Hnodup].
    apply elem_of_cons in Hin as [Heq | Hin].
    + injection Heq as <- <-. rewrite foldl_insert_notin by done.
      by rewrite lookup_insert_eq.
    + by apply IH.
Qed.

(** The loop of [DestroyVideoSendStream] over the index never aborts; it
    finds the stream exactly when some entry points to it. *)
Lemma erase_video_send_loop p (l : list (N * ptr)) acc s :
  exists r s',
    for_each_acc l acc (erase_video_send_entry p) s = Some (r, s')
    /\ (r = acc \/ r = Some p)
    /\ (p ∈ l.*2 -> r = Some p).
Proof.
  revert acc s. induction l as [|kv l IH]; intros acc s; simpl.
  - exists acc, s. split; [done|]. split; [by left|].
    intros Hin. by apply elem_of_nil in Hin.
  - unfold bind at 1. unfold erase_video_send_entry at 1.
    destruct (Pos.eqb_spec kv.2 p) as [Heq|Hne].
    + unfold_m.
      destruct (IH (Some kv.2)
                  (with_video_send_ssrcs (delete kv.1 (video_send_ssrcs_ s)) s))
        as (r & s' & Hloop & Hr & Hin).
      exists r, s'. split; [exact Hloop|]. rewrite Heq in Hr.
      assert (r = Some p) by (destruct Hr; done). auto.
    + unfold ret.
      destruct (IH acc s) as (r & s' & Hloop & Hr & Hin).
      exists r, s'. split; [exact Hloop|]. split; [done|].
      intros Hp. apply elem_of_cons in Hp as [Hp|Hp]; [congruence|auto].
Qed.

Lemma erase_video_send_loop_preserves {X : Type} (f : State RtpState -> X)
  p (l : list (N * ptr)) acc :
  (forall m s, f (with_video_send_ssrcs m s) = f s) ->
  preserves f (for_each_acc l acc (erase_video_send_entry p)).
Proof.
  intros Hf. apply preserves_for_each_acc. intros a kv.
  unfold erase_video_send_entry. destruct (Pos.eqb _ _); [|apply preserves_ret].
  apply preserves_bind; [|intros; apply preserves_ret].
  apply preserves_modify. intros s. apply Hf.
Qed.

Lemma with_video_send_ssrcs_id s :
  with_video_send_ssrcs (video_send_ssrcs_ s) s = s.
Proof. by destruct s. Qed.

Lemma erase_video_send_loop_inv p (l : list (N * ptr)) acc s r s' :
  for_each_acc l acc (erase_video_send_entry p) s = Some (r, s') ->
  s' = with_video_send_ssrcs (erase_entries p l (video_send_ssrcs_ s)) s
  /\ r = (if decide (p ∈ l.*2) then Some p else acc).
Proof.
  revert acc s. induction l as [|kv l IH]; intros acc s H; simpl in H.
  - unfold ret in H. injection H as <- <-. unfold erase_entries.
    cbn [foldl]. rewrite with_video_send_ssrcs_id. split; [done|].
    rewrite decide_False; [done|]. rewrite fmap_nil. apply not_elem_of_nil.
  - apply bind_Some in H as (acc1 & s1 & Hbody & H).
    unfold erase_video_send_entry in Hbody. unfold erase_entries. cbn [foldl].
    fold (erase_entries p l).
    destruct (Pos.eqb_spec kv.2 p) as [Heq|Hne].
    + unfold_m_in Hbody. injection Hbody as <- <-.
      apply IH in H as [-> ->]. split; [done|].
      rewrite fmap_cons. rewrite (decide_True (P := p ∈ kv.2 :: l.*2)).
      2:{ apply elem_of_cons. by left. }
      destruct (decide (p ∈ l.*2)); [done|by rewrite Heq].
    + unfold ret in Hbody. injection Hbody as <- <-.
      apply IH in H as [-> ->]. split; [done|].
      rewrite fmap_cons.
      destruct (decide (p ∈ l.*2)) as [Hin|Hnotin].
      * rewrite decide_True; [done|]. by apply elem_of_cons; right.
      * rewrite decide_False; [done|].
        intros Hin. apply elem_of_cons in Hin as [Hin|Hin]; congruence.
Qed.

Lemma StdMap_items_values (m : gmap N ptr) p :
  p ∈ (StdMap.items m).*2 <-> exists k, m !! k = Some p.
Proof.
  split.
  - intros Hin. apply list_elem_of_fmap in Hin as ([k q] & -> & Hin).
    exists k. by apply StdMap_items_elem.
  - intros [k Hk]. apply list_elem_of_fmap. exists (k, p).
    split; [done|]. by apply StdMap_items_elem.
Qed.

(** What a returning [DestroyVideoSendStream] did: the stream was live and
    some key pointed to it; every key that pointed to it is erased, the
    stream is out of the set, the RTP states that it reported when it was
    asked are stored, and it is released. *)
Lemma DestroyVideoSendStream_run p s r s' :
  DestroyVideoSendStream E p s = Some (r, s') ->
  is_Some (video_send_heap s !! p)
  /\ (exists k, video_send_ssrcs_ s !! k = Some p)
  /\ s' = with_trace
            (trace s
             ++ [EvStop VideoSend p;
                 EvGetRtpStates p
                   (VideoSendStream_GetRtpStates E
                      (unregistered_video_send p s) p);
                 EvDelete VideoSend p])
            (with_video_send_heap (delete p (video_send_heap s))
               (with_suspended_video_send_ssrcs
                  (foldl (fun m kv => <[kv.1 := kv.2]> m)
                     (suspended_video_send_ssrcs_ s)
                     (StdMap.items
                        (VideoSendStream_GetRtpStates E
                           (unregistered_video_send p s) p)))
                  (with_video_send_streams (video_send_streams_ s ∖ {[p]})
                     (with_video_send_ssrcs
                        (erase_entries p
                           (StdMap.items (video_send_ssrcs_ s))
                           (video_send_ssrcs_ s)) s)))).
Proof.
  intros H. unfold DestroyVideoSendStream in H.
  apply bind_Some in H as (config & ? & Hderef & H).
  unfold deref in Hderef.
  destruct (video_send_heap s !! p) as [config'|] eqn:Hheap; [|done].
  injection Hderef as -> <-.
  apply bind_Some in H as ([] & s1 & Hstop & H).
  unfold_m_in Hstop. injection Hstop as <-.
  apply bind_Some in H as (? & ? & Hget & H).
  unfold get in Hget. injection Hget as <- <-.
  apply bind_Some in H as (impl & s2 & Hloop & H).
  apply erase_video_send_loop_inv in Hloop as [-> ->]. simpl in H.
  destruct (decide (p ∈ (StdMap.items (video_send_ssrcs_ s)).*2))
    as [Hin|Hnotin].
  2:{ apply bind_Some in H as ([] & ? & _ & H).
      apply bind_Some in H as ([] & ? & Hchk & _). done. }
  apply bind_Some in H as ([] & s3 & Herase & H).
  unfold modify in Herase. injection Herase as <-.
  apply bind_Some in H as ([] & ? & Hchk & H).
  unfold RTC_CHECK, ret in Hchk. simpl in Hchk. injection Hchk as <-.
  apply bind_Some in H as (? & ? & Hget & H).
  unfold get in Hget. injection Hget as <- <-.
  apply bind_Some in H as ([] & s4 & Hemit & H).
  unfold_m_in Hemit. injection Hemit as <-.
  apply bind_Some in H as ([] & s5 & Hcopy & H).
  apply suspend_loop in Hcopy. simpl in Hcopy. subst s5.
  unfold delete_object in H. unfold_m_in H. injection H as _ <-.
  split; [done|]. split; [by apply StdMap_items_values|].
  unfold unregistered_video_send, with_trace; simpl.
  by rewrite <- !app_assoc.
Qed.

(** C6. When [DestroyVideoSendStream] returns, it has asked the stream for
    its RTP states once, after stopping it and before releasing it; the
    snapshot is what [GetRtpStates] of the stream answers at that moment,
    when the stream has left the index and the set. For every SSRC with a
    state in that snapshot (those of the stream's configured SSRCs among
    them) [suspended_video_send_ssrcs_] holds the state of the snapshot,
    whatever it held before; for every other SSRC it holds what it held
    before.  The call returns whenever the stream is live and some entry of
    [video_send_ssrcs_] points to it. *)
Theorem DestroyVideoSendStream_suspends s p :
  let snapshot :=
    VideoSendStream_GetRtpStates E (unregistered_video_send p s) p in
  (forall s',
     DestroyVideoSendStream E p s = Some (tt, s') ->
     events_since s s'
     = [EvStop VideoSend p; EvGetRtpStates p snapshot; EvDelete VideoSend p]
     /\ (forall config ssrc state,
           video_send_heap s !! p = Some config ->
           ssrc ∈ vs_rtp_ssrcs config ->
           snapshot !! ssrc = Some state ->
           suspended_video_send_ssrcs_ s' !! ssrc = Some state)
     /\ (forall ssrc state,
           snapshot !! ssrc = Some state ->
           suspended_video_send_ssrcs_ s' !! ssrc = Some state)
     /\ (forall ssrc,
           snapshot !! ssrc = None ->
           suspended_video_send_ssrcs_ s' !! ssrc
           = suspended_video_send_ssrcs_ s !! ssrc))
  /\ (is_Some (video_send_heap s !! p) ->
      (exists ssrc, video_send_ssrcs_ s !! ssrc = Some p) ->
      exists s', DestroyVideoSendStream E p s = Some (tt, s')).
Proof.
  intros snapshot. split.
  - intros s' H. apply DestroyVideoSendStream_run in H as (_ & _ & ->).
    fold snapshot.
    assert (Hin : forall ssrc state,
      snapshot !! ssrc = Some state ->
      foldl (fun m kv => <[kv.1 := kv.2]> m)
        (suspended_video_send_ssrcs_ s) (StdMap.items snapshot) !! ssrc
      = Some state).
    { intros ssrc state Hsnap.
      apply foldl_insert_in; [apply StdMap_items_NoDup|].
      by apply StdMap_items_elem. }
    split; [|split; [|split]].
    + by apply events_since_extends.
    + intros cfg ssrc state _ _ Hsnap. simpl. by apply Hin.
    + intros ssrc state Hsnap. simpl. by apply Hin.
    + intros ssrc Hsnap. simpl.
      rewrite foldl_insert_notin; [done|].
      intros Hmem. apply list_elem_of_fmap in Hmem as ([k v] & -> & Hmem).
      apply StdMap_items_elem in Hmem. simpl in Hsnap. congruence.
  - intros [config Hheap] [ssrc Hssrc]. unfold DestroyVideoSendStream.
    unfold bind at 1. unfold deref. rewrite Hheap.
    unfold bind at 1. unfold emit, modify.
    unfold bind at 1. unfold get.
    unfold bind at 1.
    destruct (erase_video_send_loop p
                (StdMap.items
                   (video_send_ssrcs_
                      (with_trace (trace s ++ [EvStop VideoSend p]) s)))
                None (with_trace (trace s ++ [EvStop VideoSend p]) s))
      as (r & s2 & Hloop & _ & Hfound).
    rewrite Hloop. rewrite Hfound.
    2:{ apply list_elem_of_fmap. exists (ssrc, p). split; [done|].
        by apply StdMap_items_elem. }
    unfold bind at 1. unfold modify.
    unfold bind at 1. unfold RTC_CHECK, ret. simpl.
    unfold bind at 1. unfold get.
    unfold bind at 1. unfold modify.
    unfold bind at 1.
    match goal with
    | |- context [for_each ?l suspend_rtp_state ?st] =>
        destruct (suspend_loop_total l st) as (s5 & Hcopy); rewrite Hcopy
    end.
    unfold delete_object. unfold_m. eauto.
Qed.

(** ** The two keys of a video receive stream *)

#[local] Hint Unfold new_object delete_object register_video_send_ssrc
  erase_video_send_entry suspend_rtp_state deliver_rtcp_receive
  deliver_rtcp_send deliver_rtp_to CreateAudioSendStream
  DestroyAudioSendStream CreateAudioReceiveStream DestroyAudioReceiveStream
  CreateVideoSendStream DestroyVideoSendStream SetBitrateConfig
  SignalNetworkState OnSentPacket DeliverRtcp DeliverRtp DeliverPacket
  : call_ops.

(** A component that only the operations on video receive streams write:
    proved for each operation by following its shape. *)
Ltac preserves_auto :=
  repeat first
    [ apply preserves_deref
    | apply ConfigureSync_preserves; split; intros; reflexivity
    | preserves_step
    | progress autounfold with call_ops ].

(** The operations that are not about a video receive stream write neither
    the index of video receive streams nor their heap. *)
Lemma step_frame (op : Op) :
  match op with
  | OpCreateVideoReceiveStream _ _ | OpDestroyVideoReceiveStream _ => True
  | _ =>
      preserves video_receive_ssrcs_ (step E op)
      /\ preserves video_receive_heap (step E op)
  end.
Proof.
  destruct op; try done; split; unfold step; preserves_auto.
Qed.

(** The loop of [DestroyVideoReceiveStream] erases entries of the stream
    at [p] only. *)
Lemma erase_video_receive_loop p (l : list (N * ptr)) acc s r s' :
  for_each_acc l acc (erase_video_receive_entry E p) s = Some (r, s') ->
  (r = acc \/ r = Some p)
  /\ video_receive_heap s' = video_receive_heap s
  /\ (forall k, (forall x, (k, x) ∈ l -> x <> p) ->
                video_receive_ssrcs_ s' !! k = video_receive_ssrcs_ s !! k).
Proof.
  revert acc s. induction l as [|kv l IH]; intros acc s H; simpl in H.
  - unfold ret in H. injection H as <- <-. auto.
  - apply bind_Some in H as (acc1 & s1 & Hbody & H).
    apply IH in H as (Hr & Hheap & Hkeep).
    unfold erase_video_receive_entry in Hbody.
    destruct (Pos.eqb_spec kv.2 p) as [Heq|Hne].
    + apply bind_Some in Hbody as ([] & s2 & Hchk & Hbody).
      assert (s2 = s) as ->.
      { destruct acc; [by apply RTC_DCHECK_Some in Hchk|].
        unfold ret in Hchk. by injection Hchk as <-. }
      unfold_m_in Hbody. injection Hbody as <- <-.
      split; [|split].
      * right. destruct Hr as [-> | ->]; [by rewrite Heq|done].
      * by rewrite Hheap.
      * intros k Hk. rewrite Hkeep.
        2:{ intros x Hx. apply Hk. by apply elem_of_cons; right. }
        simpl. apply lookup_delete_ne. intros <-.
        apply (Hk kv.2); [|done]. apply elem_of_cons. left. by destruct kv.
    + unfold ret in Hbody. injection Hbody as <- <-.
      split; [done|]. split; [done|].
      intros k Hk. apply Hkeep. intros x Hx. apply Hk.
      by apply elem_of_cons; right.
Qed.

(** Creating a video receive stream puts its keys in the index; the keys
    already there and not among the new ones stay as they are. *)
Lemma CreateVideoReceiveStream_Some p config s r s' :
  CreateVideoReceiveStream E p config s = Some (r, s') ->
  is_live s p = false
  /\ keys_resolve_to s' (receive_keys config) p
  /\ video_receive_heap s' = <[p := config]> (video_receive_heap s)
  /\ (forall k, k ∉ receive_keys config ->
                video_receive_ssrcs_ s' !! k = video_receive_ssrcs_ s !! k).
Proof.
  intros H. unfold keys_resolve_to. unfold CreateVideoReceiveStream in H.
  apply bind_Some in H as (? & s1 & Hnew & H).
  apply new_object_Some in Hnew as [Hlive ->].
  apply bind_Some in H as (? & ? & Hget & H).
  unfold get in Hget. injection Hget as <- <-.
  apply bind_Some in H as (? & s2 & Hchk & H).
  apply RTC_DCHECK_Some in Hchk as ->.
  apply bind_Some in H as ([] & s3 & Hmod1 & H).
  unfold modify in Hmod1. injection Hmod1 as <-.
  apply bind_Some in H as ([] & s4 & Hmod2 & H).
  apply bind_Some in H as ([] & s5 & Hmod3 & H).
  unfold modify in Hmod3. injection Hmod3 as <-.
  apply bind_Some in H as ([] & s6 & Hsync & H).
  pose proof (ConfigureSync_preserves video_receive_ssrcs_ _
                ltac:(by split) _ _ _ Hsync) as Hssrcs.
  pose proof (ConfigureSync_preserves video_receive_heap _
                ltac:(by split) _ _ _ Hsync) as Hheap.
  assert (Hs' : video_receive_ssrcs_ s' = video_receive_ssrcs_ s6
                /\ video_receive_heap s' = video_receive_heap s6).
  { unfold_m_in H.
    destruct (network_enabled_ s6), (event_log_ s6); simpl in H;
      by injection H as _ <-. }
  destruct Hs' as [-> ->]. rewrite Hssrcs, Hheap. clear H Hsync Hssrcs Hheap.
  unfold receive_keys.
  destruct (StdMap.zbegin (vr_rtp_rtx config)) as [[pt rtx]|].
  - unfold modify in Hmod2. injection Hmod2 as <-. simpl.
    split; [done|]. split; [|split; [done|]].
    + intros k Hk. apply elem_of_cons in Hk as [-> | Hk].
      * destruct (decide (rtx_ssrc rtx = vr_rtp_remote_ssrc config)) as [->|].
        -- by rewrite lookup_insert_eq.
        -- rewrite lookup_insert_ne by done. by rewrite lookup_insert_eq.
      * apply list_elem_of_singleton in Hk as ->. by rewrite lookup_insert_eq.
    + intros k Hk. apply not_elem_of_cons in Hk as [Hk1 Hk2].
      apply not_elem_of_cons in Hk2 as [Hk2 _].
      by rewrite !lookup_insert_ne.
  - unfold ret in Hmod2. injection Hmod2 as <-. simpl.
    split; [done|]. split; [|split; [done|]].
    + intros k Hk. apply list_elem_of_singleton in Hk as ->.
      by rewrite lookup_insert_eq.
    + intros k Hk. apply not_elem_of_cons in Hk as [Hk1 _].
      by rewrite lookup_insert_ne.
Qed.

(** Destroying a video receive stream erases the keys that point to it and
    no other, and releases it and no other stream. *)
Lemma DestroyVideoReceiveStream_Some p s r s' :
  DestroyVideoReceiveStream E p s = Some (r, s') ->
  video_receive_heap s' = delete p (video_receive_heap s)
  /\ (forall k q, q <> p -> video_receive_ssrcs_ s !! k = Some q ->
                  video_receive_ssrcs_ s' !! k = Some q).
Proof.
  intros H. unfold DestroyVideoReceiveStream in H.
  apply bind_Some in H as (? & ? & Hget & H).
  unfold get in Hget. injection Hget as <- <-.
  apply bind_Some in H as (impl & s1 & Hloop & H).
  apply erase_video_receive_loop in Hloop as (Hr & Hheap1 & Hkeep1).
  destruct impl as [impl|].
  2:{ apply bind_Some in H as ([] & ? & _ & H).
      apply bind_Some in H as ([] & ? & Hchk & _). done. }
  destruct Hr as [Hr|Hr]; [done|]. injection Hr as ->.
  apply bind_Some in H as ([] & s2 & Hmod & H).
  unfold modify in Hmod. injection Hmod as <-.
  apply bind_Some in H as ([] & ? & Hchk & H).
  unfold RTC_CHECK, ret in Hchk. simpl in Hchk. injection Hchk as <-.
  apply bind_Some in H as (config & ? & Hderef & H).
  unfold deref in Hderef. destruct (_ !! _); [|done].
  injection Hderef as <- <-.
  apply bind_Some in H as ([] & s3 & Hsync & H).
  pose proof (ConfigureSync_preserves video_receive_ssrcs_ _
                ltac:(by split) _ _ _ Hsync) as Hssrcs.
  pose proof (ConfigureSync_preserves video_receive_heap _
                ltac:(by split) _ _ _ Hsync) as Hheap.
  unfold delete_object in H. unfold_m_in H. injection H as _ <-. simpl.
  rewrite Hssrcs, Hheap. simpl. rewrite Hheap1. split; [done|].
  intros k q Hq Hk. rewrite Hkeep1; [done|].
  intros x Hx. apply StdMap_items_elem in Hx. congruence.
Qed.

(** A stream at [v] that is live and reached through [keys] stays so
    through an operation that leaves it alone. *)
Lemma step_keeps_keys v config keys (op : Op) s r s' :
  leaves_alone v keys op ->
  video_receive_heap s !! v = Some config ->
  keys_resolve_to s keys v ->
  step E op s = Some (r, s') ->
  video_receive_heap s' !! v = Some config /\ keys_resolve_to s' keys v.
Proof.
  intros Halone Hlive Hkeys H.
  pose proof (step_frame op) as Hframe.
  destruct op;
    try (unfold keys_resolve_to;
         rewrite (proj1 Hframe _ _ _ H), (proj2 Hframe _ _ _ H); done).
  - simpl in H, Halone. apply bind_Some in H as (q & s1 & Hcreate & H).
    unfold ret in H. injection H as _ <-.
    apply CreateVideoReceiveStream_Some in Hcreate
      as (Hfresh & _ & Hheap & Hother).
    assert (p <> v) as Hne.
    { intros ->. unfold is_live in Hfresh. rewrite Hlive in Hfresh.
      simpl in Hfresh. by rewrite !orb_true_r in Hfresh. }
    split.
    + rewrite Hheap. by rewrite lookup_insert_ne.
    + intros k Hk. rewrite Hother; [by apply Hkeys|].
      intros Hin. by apply (Halone k).
  - simpl in H, Halone.
    apply DestroyVideoReceiveStream_Some in H as (Hheap & Hkeep).
    split.
    + rewrite Hheap. by rewrite lookup_delete_ne.
    + intros k Hk. apply Hkeep; [done|]. by apply Hkeys.
Qed.

Lemma run_keeps_keys v config keys (ops : list Op) s r s' :
  Forall (leaves_alone v keys) ops ->
  video_receive_heap s !! v = Some config ->
  keys_resolve_to s keys v ->
  run E ops s = Some (r, s') ->
  video_receive_heap s' !! v = Some config /\ keys_resolve_to s' keys v.
Proof.
  intros Hops. revert s. induction Hops as [|op ops Hop Hops IH];
    intros s Hlive Hkeys H; unfold run in H; simpl in H.
  - unfold ret in H. by injection H as _ <-.
  - apply bind_Some in H as ([] & s1 & Hstep & H).
    destruct (step_keeps_keys _ _ _ _ _ _ _ Hop Hlive Hkeys Hstep)
      as [Hlive1 Hkeys1].
    by apply (IH s1).
Qed.

(** C7, as the code has it.  [CreateVideoReceiveStream] that returns has
    put the remote SSRC and, for a non-empty RTX map, the SSRC of its first
    entry in [video_receive_ssrcs_], both pointing to the new stream.  Both
    still point to it, and the stream is still live, after any sequence of
    operations that neither destroys the stream nor creates a video receive
    stream whose remote SSRC or first RTX SSRC is one of the two. *)
Theorem rtx_and_primary_resolve_to_stream s v config it s0 :
  StdMap.zbegin (vr_rtp_rtx config) = Some it ->
  CreateVideoReceiveStream E v config s = Some (v, s0) ->
  let keys := [vr_rtp_remote_ssrc config; rtx_ssrc it.2] in
  (video_receive_ssrcs_ s0 !! vr_rtp_remote_ssrc config = Some v
   /\ video_receive_ssrcs_ s0 !! rtx_ssrc it.2 = Some v)
  /\ (forall ops s1,
        Forall (leaves_alone v keys) ops ->
        run E ops s0 = Some (tt, s1) ->
        video_receive_ssrcs_ s1 !! vr_rtp_remote_ssrc config = Some v
        /\ video_receive_ssrcs_ s1 !! rtx_ssrc it.2 = Some v
        /\ video_receive_heap s1 !! v = Some config).
Proof.
  intros Hrtx Hcreate keys.
  apply CreateVideoReceiveStream_Some in Hcreate as (_ & Hkeys & Hheap & _).
  unfold receive_keys in Hkeys. rewrite Hrtx in Hkeys. fold keys in Hkeys.
  assert (Hlive : video_receive_heap s0 !! v = Some config)
    by (by rewrite Hheap, lookup_insert_eq).
  assert (Hk1 : vr_rtp_remote_ssrc config ∈ keys) by (apply elem_of_cons; auto).
  assert (Hk2 : rtx_ssrc it.2 ∈ keys).
  { apply elem_of_cons. right. by apply list_elem_of_singleton. }
  split; [split; by apply Hkeys|].
  intros ops s1 Hops Hrun.
  destruct (run_keeps_keys _ _ _ _ _ _ _ Hops Hlive Hkeys Hrun)
    as [Hlive1 Hkeys1].
  split; [by apply Hkeys1|]. split; [by apply Hkeys1|done].
Qed.

(** ** The bitrate governor *)


(** C5. A call of [SetBitrateConfig] whose triple equals the stored one (a
    start that is not positive matching any stored start) changes nothing:
    the state, its trace included, is the one before, so [SetBweBitrates]
    is not called.  Any other call stores the new triple and calls
    [SetBweBitrates] once, with the new minimum, start and maximum. *)
Theorem SetBitrateConfig_suppresses_equal_triple s (c : BitrateConfig) :
  valid_bitrates E c ->
  (same_bitrates (bitrate_config_ s) c ->
   SetBitrateConfig E c s = Some (tt, s))
  /\ (~ same_bitrates (bitrate_config_ s) c ->
      SetBitrateConfig E c s
      = Some (tt, with_trace
                    (trace s ++ [EvSetBweBitrates (min_bitrate_bps c)
                                   (start_bitrate_bps c) (max_bitrate_bps c)])
                    (with_bitrate_config c s))).
Proof.
  intros Hvalid.
  assert (Hpre :
    SetBitrateConfig E c s
    = (let* s := get in
       if (min_bitrate_bps (bitrate_config_ s) =? min_bitrate_bps c)
          && ((start_bitrate_bps c <=? 0)
              || (start_bitrate_bps (bitrate_config_ s) =? start_bitrate_bps c))
          && (max_bitrate_bps (bitrate_config_ s) =? max_bitrate_bps c)
       then ret tt
       else modify (with_bitrate_config c) ;;;
            emit (EvSetBweBitrates (min_bitrate_bps c) (start_bitrate_bps c)
                    (max_bitrate_bps c))) s).
  { unfold SetBitrateConfig, valid_bitrates in *. unfold_m.
    destruct (dcheck_is_on E); [|by destruct (negb _)].
    destruct Hvalid as [Hmin Hmax]; [done|].
    destruct (Z.leb_spec 0 (min_bitrate_bps c)); [|lia].
    destruct (Z.eqb_spec (max_bitrate_bps c) (-1)); simpl; [done|].
    destruct (Z.ltb_spec 0 (max_bitrate_bps c)); [done|lia]. }
  rewrite Hpre. clear Hpre. unfold same_bitrates. unfold_m.
  split; intros H.
  - destruct H as (-> & Hstart & ->). rewrite !Z.eqb_refl. simpl.
    destruct Hstart as [Hle | ->].
    + destruct (Z.leb_spec (start_bitrate_bps c) 0); [done|lia].
    + rewrite Z.eqb_refl. by rewrite orb_true_r.
  - destruct (Z.eqb_spec (min_bitrate_bps (bitrate_config_ s))
                (min_bitrate_bps c)) as [Hmin|]; simpl; [|done].
    destruct (Z.eqb_spec (max_bitrate_bps (bitrate_config_ s))
                (max_bitrate_bps c)) as [Hmax|]; [|by rewrite andb_false_r].
    destruct (Z.leb_spec (start_bitrate_bps c) 0); simpl.
    { exfalso. apply H. auto. }
    destruct (Z.eqb_spec (start_bitrate_bps (bitrate_config_ s))
                (start_bitrate_bps c)); simpl; [|done].
    exfalso. apply H. auto.
Qed.

(** ** Packet delivery *)

(** C2. A buffer that is not RTCP and is shorter than twelve bytes is
    answered with [DELIVERY_PACKET_ERROR]; the state that comes back is the
    state that went in, whatever the registries hold, so no stream was
    handed the packet. *)
Theorem DeliverPacket_short_rtp s media_type (packet : list byte) packet_time :
  IsRtcp E packet = false ->
  (length packet < 12)%nat ->
  DeliverPacket E media_type packet packet_time s
  = Some (DELIVERY_PACKET_ERROR, s).
Proof.
  intros Hrtp Hlen. unfold DeliverPacket, DeliverRtp. rewrite Hrtp.
  destruct (Nat.ltb_spec (length packet) 12); [done|lia].
Qed.

(** C10. An RTCP buffer delivered as audio is offered to no stream: the
    answer is [DELIVERY_PACKET_ERROR] and the state, its trace included, is
    unchanged, whatever streams are registered. *)
Theorem DeliverPacket_audio_rtcp s (packet : list byte) packet_time :
  IsRtcp E packet = true ->
  DeliverPacket E AUDIO packet packet_time s
  = Some (DELIVERY_PACKET_ERROR, s).
Proof.
  intros Hrtcp. unfold DeliverPacket. by rewrite Hrtcp.
Qed.



Lemma StdSet_items_elem (X : gset ptr) p : p ∈ StdSet.items X <-> p ∈ X.
Proof.
  unfold StdSet.items. rewrite merge_sort_Permutation. apply elem_of_elements.
Qed.

Lemma StdSet_items_NoDup (X : gset ptr) : NoDup (StdSet.items X).
Proof.
  unfold StdSet.items. rewrite merge_sort_Permutation. apply NoDup_elements.
Qed.

(** ** The answers of the streams *)

Lemma answers_recorded_nil s : answers_recorded E s [].
Proof. intros pre e post H. by destruct pre. Qed.

Lemma answers_recorded_cons s e (evs : list (Event RtpState)) :
  answer_recorded E s e ->
  answers_recorded E (with_trace (trace s ++ [e]) s) evs ->
  answers_recorded E s (e :: evs).
Proof.
  intros Hhead Htail pre e0 post Heq. destruct pre as [|e1 pre].
  - simpl in Heq. injection Heq as <- _. by rewrite with_trace_nil.
  - simpl in Heq. injection Heq as <- Heq.
    specialize (Htail pre e0 post Heq). by rewrite with_trace_app in Htail.
Qed.

Lemma answers_recorded_uncons s e (evs : list (Event RtpState)) :
  answers_recorded E s (e :: evs) ->
  answer_recorded E s e
  /\ answers_recorded E (with_trace (trace s ++ [e]) s) evs.
Proof.
  intros H. split.
  - specialize (H [] e evs eq_refl). by rewrite with_trace_nil in H.
  - intros pre e0 post Heq. rewrite with_trace_app.
    apply (H (e :: pre) e0 post). by rewrite Heq.
Qed.

Lemma answers_recorded_app s (a b : list (Event RtpState)) :
  answers_recorded E s a ->
  answers_recorded E (with_trace (trace s ++ a) s) b ->
  answers_recorded E s (a ++ b).
Proof.
  revert s. induction a as [|e a IH]; intros s Ha Hb.
  - by rewrite with_trace_nil in Hb.
  - apply answers_recorded_uncons in Ha as [Hhead Htail].
    apply answers_recorded_cons; [done|]. apply IH; [done|].
    by rewrite with_trace_app.
Qed.

(** An offer among those of [evs] is one of the events of [evs]. *)
Lemma rtcp_offer_split (evs : list (Event RtpState)) k p b :
  (k, p, b) ∈ rtcp_offers evs ->
  exists pre packet post, evs = pre ++ EvDeliverRtcp k p packet b :: post.
Proof.
  induction evs as [|e evs IH]; simpl; [by intros ?%elem_of_nil|].
  assert (Hrest : (k, p, b) ∈ rtcp_offers evs ->
                  exists pre packet post,
                    e :: evs = pre ++ EvDeliverRtcp k p packet b :: post).
  { intros Hin. destruct (IH Hin) as (pre & packet & post & ->).
    by exists (e :: pre), packet, post. }
  destruct e; try exact Hrest.
  intros Hin. apply elem_of_cons in Hin as [Hin|Hin]; [|by apply Hrest].
  injection Hin as -> -> ->. by eexists [], _, _.
Qed.

Lemma rtcp_offer_flag (evs : list (Event RtpState)) k p :
  (k, p) ∈ (rtcp_offers evs).*1 -> exists b, (k, p, b) ∈ rtcp_offers evs.
Proof.
  intros Hin. apply list_elem_of_fmap in Hin as ([[k' p'] b] & [= -> ->] & Hin).
  by exists b.
Qed.

(** One turn of either loop of [DeliverRtcp]: the stream is offered the
    packet once, its answer is recorded, and the flag is raised when it
    accepts. *)
Lemma deliver_rtcp_receive_spec media_type packet acc p s :
  exists (b : bool) evs,
    deliver_rtcp_receive E media_type packet acc p s
    = Some (acc || b, with_trace (trace s ++ evs) s)
    /\ rtcp_offers evs = [(VideoReceive, p, b)]
    /\ answers_recorded E s evs
    /\ Forall (fun e => forall pkt, handed_packet e = Some pkt -> pkt = packet)
         evs.
Proof.
  unfold deliver_rtcp_receive. unfold_m. simpl.
  destruct (VideoReceiveStream_DeliverRtcp E s p packet) eqn:Hacc.
  - exists true. rewrite orb_true_r. destruct (event_log_ s); simpl.
    + exists [EvDeliverRtcp VideoReceive p packet true;
              EvLogRtcpPacket true media_type packet].
      split; [unfold with_trace; simpl; by rewrite <- app_assoc|].
      split; [done|]. split.
      * apply answers_recorded_cons; [done|].
        apply answers_recorded_cons; [done|]. apply answers_recorded_nil.
      * repeat constructor; by intros pkt [= <-].
    + exists [EvDeliverRtcp VideoReceive p packet true].
      split; [done|]. split; [done|]. split.
      * apply answers_recorded_cons; [done|]. apply answers_recorded_nil.
      * repeat constructor; by intros pkt [= <-].
  - exists false. rewrite orb_false_r.
    exists [EvDeliverRtcp VideoReceive p packet false].
    split; [done|]. split; [done|]. split.
    + apply answers_recorded_cons; [done|]. apply answers_recorded_nil.
    + repeat constructor; by intros pkt [= <-].
Qed.

Lemma deliver_rtcp_send_spec media_type packet acc p s :
  exists (b : bool) evs,
    deliver_rtcp_send E media_type packet acc p s
    = Some (acc || b, with_trace (trace s ++ evs) s)
    /\ rtcp_offers evs = [(VideoSend, p, b)]
    /\ answers_recorded E s evs
    /\ Forall (fun e => forall pkt, handed_packet e = Some pkt -> pkt = packet)
         evs.
Proof.
  unfold deliver_rtcp_send. unfold_m. simpl.
  destruct (VideoSendStream_DeliverRtcp E s p packet) eqn:Hacc.
  - exists true. rewrite orb_true_r. destruct (event_log_ s); simpl.
    + exists [EvDeliverRtcp VideoSend p packet true;
              EvLogRtcpPacket false media_type packet].
      split; [unfold with_trace; simpl; by rewrite <- app_assoc|].
      split; [done|]. split.
      * apply answers_recorded_cons; [done|].
        apply answers_recorded_cons; [done|]. apply answers_recorded_nil.
      * repeat constructor; by intros pkt [= <-].
    + exists [EvDeliverRtcp VideoSend p packet true].
      split; [done|]. split; [done|]. split.
      * apply answers_recorded_cons; [done|]. apply answers_recorded_nil.
      * repeat constructor; by intros pkt [= <-].
  - exists false. rewrite orb_false_r.
    exists [EvDeliverRtcp VideoSend p packet false].
    split; [done|]. split; [done|]. split.
    + apply answers_recorded_cons; [done|]. apply answers_recorded_nil.
    + repeat constructor; by intros pkt [= <-].
Qed.

(** A whole loop of [DeliverRtcp], for a body that behaves as above. *)
Lemma deliver_rtcp_loop k (packet : list byte)
  (body : bool -> ptr -> M (State RtpState) bool) :
  (forall acc p s, exists (b : bool) evs,
      body acc p s = Some (acc || b, with_trace (trace s ++ evs) s)
      /\ rtcp_offers evs = [(k, p, b)]
      /\ answers_recorded E s evs
      /\ Forall (fun e => forall pkt, handed_packet e = Some pkt ->
                                      pkt = packet) evs) ->
  forall l acc s, exists evs,
    for_each_acc l acc body s
    = Some (acc || existsb snd (rtcp_offers evs),
            with_trace (trace s ++ evs) s)
    /\ (rtcp_offers evs).*1 = pair k <$> l
    /\ answers_recorded E s evs
    /\ Forall (fun e => forall pkt, handed_packet e = Some pkt -> pkt = packet)
         evs.
Proof.
  intros Hbody l. induction l as [|p l IH]; intros acc s.
  - exists []. simpl. unfold ret. rewrite with_trace_nil, orb_false_r.
    split; [done|]. split; [done|]. split; [apply answers_recorded_nil|done].
  - destruct (Hbody acc p s) as (b & evs1 & Heq1 & Hoff1 & Hans1 & Hpkt1).
    destruct (IH (acc || b) (with_trace (trace s ++ evs1) s))
      as (evs2 & Heq2 & Hoff2 & Hans2 & Hpkt2).
    exists (evs1 ++ evs2). simpl. unfold bind at 1. rewrite Heq1, Heq2.
    rewrite with_trace_app, rtcp_offers_app, Hoff1.
    split; [simpl; by rewrite orb_assoc|]. split.
    + change ([(k, p, b)] ++ rtcp_offers evs2)
        with ((k, p, b) :: rtcp_offers evs2).
      rewrite !fmap_cons, Hoff2. done.
    + split; [by apply answers_recorded_app|by apply Forall_app].
Qed.

(** The two loops of [DeliverRtcp], one after the other. *)
Lemma DeliverRtcp_video s media_type (packet : list byte) :
  any_or_video media_type = true ->
  exists evs,
    DeliverRtcp E media_type packet s
    = Some (if existsb snd (rtcp_offers evs)
            then DELIVERY_OK else DELIVERY_PACKET_ERROR,
            with_trace (trace s ++ evs) s)
    /\ (rtcp_offers evs).*1
       = (pair VideoReceive <$> StdSet.items (video_receive_streams_ s))
         ++ (pair VideoSend <$> StdSet.items (video_send_streams_ s))
    /\ answers_recorded E s evs
    /\ Forall (fun e => forall pkt, handed_packet e = Some pkt -> pkt = packet)
         evs.
Proof.
  intros Hvideo. unfold DeliverRtcp. rewrite Hvideo.
  cbv zeta. unfold bind, get, ret.
  destruct (deliver_rtcp_loop VideoReceive packet
              (deliver_rtcp_receive E media_type packet)
              (deliver_rtcp_receive_spec media_type packet)
              (StdSet.items (video_receive_streams_ s)) false s)
    as (evs1 & Heq1 & Hoff1 & Hans1 & Hpkt1).
  rewrite Heq1. cbv beta iota.
  destruct (deliver_rtcp_loop VideoSend packet
              (deliver_rtcp_send E media_type packet)
              (deliver_rtcp_send_spec media_type packet)
              (StdSet.items (video_send_streams_ s))
              (false || existsb snd (rtcp_offers evs1))
              (with_trace (trace s ++ evs1) s))
    as (evs2 & Heq2 & Hoff2 & Hans2 & Hpkt2).
  change (video_send_streams_ (with_trace (trace s ++ evs1) s))
    with (video_send_streams_ s).
  rewrite Heq2, with_trace_app. simpl orb.
  exists (evs1 ++ evs2).
  rewrite rtcp_offers_app, existsb_app, fmap_app, Hoff1, Hoff2.
  split; [done|]. split; [done|].
  split; [by apply answers_recorded_app|by apply Forall_app].
Qed.

(** C4. An RTCP buffer delivered as video or as any media is offered to
    every stream of [video_receive_streams_] and then to every stream of
    [video_send_streams_], once each; the answer is [DELIVERY_OK] exactly
    when one of them accepted it, and [DELIVERY_PACKET_ERROR] otherwise.
    Every offer hands over the buffer itself, and the answer recorded with
    it is the one that [DeliverRtcp] of the stream gave at its turn; so,
    for streams whose answer to the buffer does not depend on the offers
    made before, the answer is [DELIVERY_OK] exactly when [DeliverRtcp] of
    some stream of the two sets answers [true]. *)
Theorem DeliverPacket_video_rtcp s media_type (packet : list byte) packet_time :
  IsRtcp E packet = true ->
  media_type = VIDEO \/ media_type = ANY ->
  exists status evs,
    DeliverPacket E media_type packet packet_time s
    = Some (status, with_trace (trace s ++ evs) s)
    /\ (rtcp_offers evs).*1
       = (pair VideoReceive <$> StdSet.items (video_receive_streams_ s))
         ++ (pair VideoSend <$> StdSet.items (video_send_streams_ s))
    /\ (forall p, p ∈ video_receive_streams_ s ->
                  (VideoReceive, p) ∈ (rtcp_offers evs).*1)
    /\ (forall p, p ∈ video_send_streams_ s ->
                  (VideoSend, p) ∈ (rtcp_offers evs).*1)
    /\ (status = DELIVERY_OK <-> exists k p, (k, p, true) ∈ rtcp_offers evs)
    /\ (status <> DELIVERY_OK -> status = DELIVERY_PACKET_ERROR)
    /\ (forall pre k p pkt accepted post,
          evs = pre ++ EvDeliverRtcp k p pkt accepted :: post ->
          pkt = packet
          /\ accepted
             = match k with
               | VideoReceive =>
                   VideoReceiveStream_DeliverRtcp E
                     (with_trace (trace s ++ pre) s) p packet
               | _ =>
                   VideoSendStream_DeliverRtcp E
                     (with_trace (trace s ++ pre) s) p packet
               end)
    /\ ((forall t p,
           VideoReceiveStream_DeliverRtcp E (with_trace t s) p packet
           = VideoReceiveStream_DeliverRtcp E s p packet) ->
        (forall t p,
           VideoSendStream_DeliverRtcp E (with_trace t s) p packet
           = VideoSendStream_DeliverRtcp E s p packet) ->
        (status = DELIVERY_OK
         <-> (exists p, p ∈ video_receive_streams_ s
                        /\ VideoReceiveStream_DeliverRtcp E s p packet = true)
             \/ (exists p, p ∈ video_send_streams_ s
                           /\ VideoSendStream_DeliverRtcp E s p packet
                              = true))).
Proof.
  intros Hrtcp Hmedia.
  assert (Hvideo : any_or_video media_type = true)
    by (destruct Hmedia as [-> | ->]; done).
  destruct (DeliverRtcp_video s media_type packet Hvideo)
    as (evs & Hrun & Hall & Hans & Hpkt).
  unfold DeliverPacket. rewrite Hrtcp, Hrun.
  eexists. exists evs. split; [reflexivity|].
  assert (Hrecv : forall p, p ∈ video_receive_streams_ s ->
                            (VideoReceive, p) ∈ (rtcp_offers evs).*1).
  { intros p Hp. rewrite Hall. apply elem_of_app. left.
    apply list_elem_of_fmap. exists p. split; [done|].
    by apply StdSet_items_elem. }
  assert (Hsend : forall p, p ∈ video_send_streams_ s ->
                            (VideoSend, p) ∈ (rtcp_offers evs).*1).
  { intros p Hp. rewrite Hall. apply elem_of_app. right.
    apply list_elem_of_fmap. exists p. split; [done|].
    by apply StdSet_items_elem. }
  assert (Hflag : (if existsb snd (rtcp_offers evs)
                   then DELIVERY_OK else DELIVERY_PACKET_ERROR) = DELIVERY_OK
                  <-> exists k p, (k, p, true) ∈ rtcp_offers evs).
  { destruct (existsb snd (rtcp_offers evs)) eqn:Hex.
    - split; [intros _|done].
      apply existsb_exists in Hex as ([[k p] b] & Hin & Hb).
      simpl in Hb. subst b. exists k, p. by apply list_elem_of_In.
    - split; [done|]. intros (k & p & Hin).
      assert (existsb snd (rtcp_offers evs) = true); [|congruence].
      apply existsb_exists. exists (k, p, true). split; [|done].
      by apply list_elem_of_In. }
  assert (Htied : forall pre k p pkt accepted post,
    evs = pre ++ EvDeliverRtcp k p pkt accepted :: post ->
    pkt = packet
    /\ accepted
       = match k with
         | VideoReceive =>
             VideoReceiveStream_DeliverRtcp E
               (with_trace (trace s ++ pre) s) p packet
         | _ =>
             VideoSendStream_DeliverRtcp E
               (with_trace (trace s ++ pre) s) p packet
         end).
  { intros pre k p pkt accepted post Heq.
    assert (pkt = packet) as ->.
    { rewrite Forall_forall in Hpkt. apply (Hpkt (EvDeliverRtcp k p pkt accepted)).
      - rewrite Heq. apply elem_of_app. right. by apply elem_of_cons; left.
      - done. }
    split; [done|]. exact (Hans pre _ post Heq). }
  split; [exact Hall|]. split; [exact Hrecv|]. split; [exact Hsend|].
  split; [exact Hflag|]. split.
  { destruct (existsb snd (rtcp_offers evs)); [congruence|done]. }
  split; [exact Htied|].
  intros Hsame_receive Hsame_send. rewrite Hflag. split.
  - intros (k & p & Hin).
    assert (Hkp : (k, p) ∈ (rtcp_offers evs).*1).
    { apply list_elem_of_fmap. by exists (k, p, true). }
    apply rtcp_offer_split in Hin as (pre & pkt & post & Heq).
    destruct (Htied _ _ _ _ _ _ Heq) as [_ Htrue].
    rewrite Hall in Hkp. apply elem_of_app in Hkp as [Hkp|Hkp];
      apply list_elem_of_fmap in Hkp as (q & [= -> ->] & Hq);
      apply StdSet_items_elem in Hq.
    + left. exists q. split; [done|]. simpl in Htrue.
      by rewrite Hsame_receive in Htrue.
    + right. exists q. split; [done|]. simpl in Htrue.
      by rewrite Hsame_send in Htrue.
  - intros [(p & Hp & Htrue)|(p & Hp & Htrue)].
    + destruct (rtcp_offer_flag _ _ _ (Hrecv p Hp)) as [b Hin].
      exists VideoReceive, p.
      destruct (rtcp_offer_split _ _ _ _ Hin) as (pre & pkt & post & Heq).
      destruct (Htied _ _ _ _ _ _ Heq) as [_ Hb].
      rewrite Hsame_receive, Htrue in Hb. by subst b.
    + destruct (rtcp_offer_flag _ _ _ (Hsend p Hp)) as [b Hin].
      exists VideoSend, p.
      destruct (rtcp_offer_split _ _ _ _ Hin) as (pre & pkt & post & Heq).
      destruct (Htied _ _ _ _ _ _ Heq) as [_ Hb].
      rewrite Hsame_send, Htrue in Hb. by subst b.
Qed.

End CallProperties.

(** * Properties of [ViEReceiver] *)

Section ReceiverProperties.

Context {PayloadUnion : Type}.
Variable E : ViEReceiver.Env PayloadUnion.

(** C9. A packet whose header is classified as RTX (and not as RED, which
    the receiver tests first) and whose length is the header length plus
    the padding length is accepted: the handler of encapsulated packets
    answers [true], and so does [ReceivePacket] when the registry reports
    the header as encapsulated.  The state that comes back is the state
    that went in: the buffer of the restored packet, the flag that guards
    it and the trace are untouched, so no restoration was attempted. *)
Theorem rtx_keepalive_accepted (fuel : nat) (packet : list byte)
  (packet_length : Z) (header : ViEReceiver.RTPHeader) (in_order : bool)
  (s : ViEReceiver.State) :
  ViEReceiver.IsRed E s header = false ->
  ViEReceiver.IsRtx E s header = true ->
  0 <= ViEReceiver.headerLength header ->
  0 <= ViEReceiver.paddingLength header ->
  packet_length < 2 ^ 64 ->
  ViEReceiver.headerLength header + ViEReceiver.paddingLength header
  = packet_length ->
  ViEReceiver.ParseAndHandleEncapsulatingHeader E fuel packet packet_length
    header s = Some (true, s)
  /\ (ViEReceiver.IsEncapsulated E s header = true ->
      ViEReceiver.ReceivePacket E fuel packet packet_length header in_order s
      = Some (true, s)).
Proof.
  intros Hred Hrtx Hh Hp Hmax Hlen.
  assert (Hhandle :
    ViEReceiver.ParseAndHandleEncapsulatingHeader E fuel packet packet_length
      header s = Some (true, s)).
  { unfold ViEReceiver.ParseAndHandleEncapsulatingHeader,
      ViEReceiver.ParseAndHandleEncapsulatingHeader_with.
    unfold bind at 1. unfold get. rewrite Hred, Hrtx.
    unfold ViEReceiver.size_t_add. rewrite Z.mod_small by lia.
    rewrite Hlen, Z.eqb_refl. reflexivity. }
  split; [exact Hhandle|].
  intros Henc. unfold ViEReceiver.ReceivePacket, ViEReceiver.ReceivePacket_with.
  unfold bind at 1. unfold get. rewrite Henc. exact Hhandle.
Qed.

End ReceiverProperties.

(** * The properties at concrete inputs *)

Import Examples.

(** With the network down, [CreateAudioReceiveStream] returns and the new
    stream has been signalled no network state: not the one [kNetworkDown]
    that C1 asks of every kind of stream. *)
Lemma CreateAudioReceiveStream_signals_nothing :
  exists s',
    network_enabled_ network_down = false
    /\ CreateAudioReceiveStream (accepting true) 5%positive audio_receive_g
         network_down = Some (5%positive, s')
    /\ network_signals 5%positive (events_since network_down s') = []
    /\ network_signals 5%positive (events_since network_down s')
       <> [kNetworkDown].
Proof.
  eexists. split; [reflexivity|]. split; [vm_compute; reflexivity|].
  split; [vm_compute; reflexivity|]. vm_compute. discriminate.
Qed.

Lemma create_signals_network_down_witness :
  exists s',
    network_enabled_ network_down = false
    /\ CreateAudioSendStream (accepting true) 7%positive audio_send_7
         network_down = Some (7%positive, s')
    /\ network_signals 7%positive (events_since network_down s')
       = [kNetworkDown].
Proof.
  eexists. split; [reflexivity|].
  assert (Hrun : CreateAudioSendStream (accepting true) 7%positive audio_send_7
                   network_down
                 = Some (7%positive,
                         match CreateAudioSendStream (accepting true)
                                 7%positive audio_send_7 network_down with
                         | Some (_, s') => s'
                         | None => network_down
                         end)) by (vm_compute; reflexivity).
  split; [exact Hrun|].
  exact (proj2 (proj1 (create_signals_network_down (accepting true)
                         network_down 7%positive eq_refl)
                  audio_send_7 _ _ Hrun)).
Defined.

Lemma DeliverPacket_short_rtp_witness :
  IsRtcp (accepting true) short_packet = false
  /\ (length short_packet < 12)%nat
  /\ DeliverPacket (accepting true) ANY short_packet no_time one_video_receive
     = Some (DELIVERY_PACKET_ERROR, one_video_receive).
Proof.
  assert (Hrtp : IsRtcp (accepting true) short_packet = false) by reflexivity.
  assert (Hlen : (length short_packet < 12)%nat) by (simpl; lia).
  split; [exact Hrtp|]. split; [exact Hlen|].
  exact (DeliverPacket_short_rtp (accepting true) one_video_receive ANY
           short_packet no_time Hrtp Hlen).
Defined.


(** One video receive stream that accepts the packet: the answer is
    [DELIVERY_OK]. *)
Lemma DeliverPacket_video_rtcp_witness :
  IsRtcp (accepting true) rtcp_packet = true
  /\ VideoReceiveStream_DeliverRtcp (accepting true) one_video_receive
       9%positive rtcp_packet = true
  /\ exists evs,
       DeliverPacket (accepting true) VIDEO rtcp_packet no_time
         one_video_receive
       = Some (DELIVERY_OK, with_trace (trace one_video_receive ++ evs)
                              one_video_receive)
       /\ (VideoReceive, 9%positive) ∈ (rtcp_offers evs).*1.
Proof.
  assert (Hrtcp : IsRtcp (accepting true) rtcp_packet = true) by reflexivity.
  split; [exact Hrtcp|]. split; [reflexivity|].
  destruct (DeliverPacket_video_rtcp (accepting true) one_video_receive VIDEO
              rtcp_packet no_time Hrtcp (or_introl eq_refl))
    as (status & evs & Hrun & _ & Hrecv & _ & _ & _ & _ & Hok).
  assert (Hmember : 9%positive ∈ video_receive_streams_ one_video_receive).
  { vm_compute. reflexivity. }
  assert (Hstatus : status = DELIVERY_OK).
  { apply Hok.
    - intros t p. reflexivity.
    - intros t p. reflexivity.
    - left. exists 9%positive. split; [exact Hmember|reflexivity]. }
  exists evs. rewrite <- Hstatus. split; [exact Hrun|].
  apply Hrecv. exact Hmember.
Defined.

(** The sixth scenario of the spec. *)
Lemma SetBitrateConfig_suppresses_equal_triple_witness :
  valid_bitrates (accepting true) same_bitrates_no_start
  /\ same_bitrates (bitrate_config_ idle) same_bitrates_no_start
  /\ SetBitrateConfig (accepting true) same_bitrates_no_start idle
     = Some (tt, idle).
Proof.
  assert (Hvalid : valid_bitrates (accepting true) same_bitrates_no_start).
  { intros _. simpl. lia. }
  assert (Hsame : same_bitrates (bitrate_config_ idle) same_bitrates_no_start).
  { unfold same_bitrates. simpl. lia. }
  split; [exact Hvalid|]. split; [exact Hsame|].
  exact (proj1 (SetBitrateConfig_suppresses_equal_triple (accepting true) idle
                  same_bitrates_no_start Hvalid) Hsame).
Defined.

(** The fifth scenario of the spec, up to the destruction: the stream
    reports the states 1100 and 1101 for its SSRCs 100 and 101; the first
    replaces the state 55 that was suspended before, and the state of the
    SSRC 7 stays. *)
Lemma DestroyVideoSendStream_suspends_witness :
  VideoSendStream_GetRtpStates (accepting true)
    (unregistered_video_send 4%positive one_video_send) 4%positive
  = {[ 100%N := 1100%N; 101%N := 1101%N ]}
  /\ suspended_video_send_ssrcs_ one_video_send !! 100%N = Some 55%N
  /\ exists s',
       DestroyVideoSendStream (accepting true) 4%positive one_video_send
       = Some (tt, s')
       /\ events_since one_video_send s'
          = [EvStop VideoSend 4%positive;
             EvGetRtpStates 4%positive {[ 100%N := 1100%N; 101%N := 1101%N ]};
             EvDelete VideoSend 4%positive]
       /\ suspended_video_send_ssrcs_ s' !! 100%N = Some 1100%N
       /\ suspended_video_send_ssrcs_ s' !! 101%N = Some 1101%N
       /\ suspended_video_send_ssrcs_ s' !! 7%N = Some 77%N.
Proof.
  split; [reflexivity|]. split; [vm_compute; reflexivity|].
  assert (Hlive : is_Some (video_send_heap one_video_send !! 4%positive)).
  { exists video_send_100_101. vm_compute. reflexivity. }
  assert (Hindex : exists ssrc,
             video_send_ssrcs_ one_video_send !! ssrc = Some 4%positive).
  { exists 100%N. vm_compute. reflexivity. }
  destruct (proj2 (DestroyVideoSendStream_suspends (accepting true)
                     one_video_send 4%positive) Hlive Hindex) as [s' Hrun].
  destruct (proj1 (DestroyVideoSendStream_suspends (accepting true)
                     one_video_send 4%positive) s' Hrun)
    as (Hevents & _ & Hin & Hout).
  exists s'. split; [exact Hrun|]. split; [exact Hevents|].
  split; [|split].
  - apply Hin. vm_compute. reflexivity.
  - apply Hin. vm_compute. reflexivity.
  - rewrite (Hout 7%N); vm_compute; reflexivity.
Defined.

(** A second stream whose RTX SSRC is the primary SSRC of the first takes
    the key over, in a build with [RTC_DCHECK] too: the first stream is
    still live, not destroyed, and its primary SSRC resolves to the second
    stream.  C7 has it resolve to the first until the first is destroyed. *)
Lemma rtx_key_taken_over :
  exists s,
    after true [OpCreateVideoReceiveStream 8%positive video_receive_a_b;
                OpCreateVideoReceiveStream 9%positive video_receive_c_a]
    = Some s
    /\ video_receive_heap s !! 8%positive = Some video_receive_a_b
    /\ video_receive_ssrcs_ s !! vr_rtp_remote_ssrc video_receive_a_b
       = Some 9%positive
    /\ video_receive_ssrcs_ s !! vr_rtp_remote_ssrc video_receive_a_b
       <> Some 8%positive.
Proof.
  eexists. split; [vm_compute; reflexivity|].
  split; [vm_compute; reflexivity|].
  split; [vm_compute; reflexivity|]. vm_compute. discriminate.
Qed.

(** The second scenario of the spec, followed by operations that leave the
    stream alone. *)
Lemma rtx_and_primary_resolve_to_stream_witness :
  StdMap.zbegin (vr_rtp_rtx video_receive_a_b) = Some first_rtx_a_b
  /\ CreateVideoReceiveStream (accepting true) 8%positive video_receive_a_b idle
     = Some (8%positive, with_a_b)
  /\ Forall (leaves_alone 8%positive [10%N; 11%N]) other_ops
  /\ run (accepting true) other_ops with_a_b = Some (tt, with_a_b_later)
  /\ video_receive_ssrcs_ with_a_b_later !! 10%N = Some 8%positive
  /\ video_receive_ssrcs_ with_a_b_later !! 11%N = Some 8%positive.
Proof.
  assert (Hrtx : StdMap.zbegin (vr_rtp_rtx video_receive_a_b)
                 = Some first_rtx_a_b) by (vm_compute; reflexivity).
  assert (Hcreate : CreateVideoReceiveStream (accepting true) 8%positive
                      video_receive_a_b idle = Some (8%positive, with_a_b))
    by (vm_compute; reflexivity).
  assert (Hrun : run (accepting true) other_ops with_a_b
                 = Some (tt, with_a_b_later)) by (vm_compute; reflexivity).
  assert (Hops : Forall (leaves_alone 8%positive [10%N; 11%N]) other_ops).
  { repeat constructor; try discriminate.
    intros k Hk. vm_compute in Hk.
    apply elem_of_cons in Hk as [-> | Hk].
    - intros Hin. apply elem_of_cons in Hin as [Hin | Hin]; [discriminate|].
      apply list_elem_of_singleton in Hin. discriminate.
    - apply list_elem_of_singleton in Hk as ->.
      intros Hin. apply elem_of_cons in Hin as [Hin | Hin]; [discriminate|].
      apply list_elem_of_singleton in Hin. discriminate. }
  pose proof (proj2 (rtx_and_primary_resolve_to_stream (accepting true) idle
                       8%positive video_receive_a_b first_rtx_a_b with_a_b
                       Hrtx Hcreate)
                other_ops with_a_b_later Hops Hrun) as (Hprimary & Hrtx' & _).
  repeat split; assumption.
Defined.

(** The two video streams of a group: the first enumerated is bound to the
    channel 3 of the audio anchor, the second is unbound. *)
Lemma ConfigureSync_binds_at_most_one_witness :
  Z.of_nat (length (StdSet.items (video_receive_streams_ one_audio_two_videos)))
  < 2 ^ 64
  /\ ConfigureSync "g" one_audio_two_videos = Some (tt, synced)
  /\ sync_channel_calls (events_since one_audio_two_videos synced)
     = [(8%positive, 3); (9%positive, -1)]
  /\ (length (binding_calls
                (sync_channel_calls (events_since one_audio_two_videos synced)))
      <= 1)%nat.
Proof.
  assert (Hsize : Z.of_nat (length (StdSet.items
                    (video_receive_streams_ one_audio_two_videos))) < 2 ^ 64)
    by (vm_compute; reflexivity).
  assert (Hrun : ConfigureSync "g" one_audio_two_videos = Some (tt, synced))
    by (vm_compute; reflexivity).
  split; [exact Hsize|]. split; [exact Hrun|].
  destruct (ConfigureSync_binds_at_most_one one_audio_two_videos "g" synced
              Hsize Hrun) as (Hcalls & _ & Hone).
  split; [|exact Hone].
  rewrite (proj1 (Hcalls eq_refl eq_refl)). vm_compute. reflexivity.
Defined.

Lemma rtx_keepalive_accepted_witness :
  ViEReceiver.ParseAndHandleEncapsulatingHeader rtx_only 0 rtp_packet 12
    keepalive_header receiver_idle = Some (true, receiver_idle)
  /\ ViEReceiver.ReceivePacket rtx_only 0 rtp_packet 12 keepalive_header true
       receiver_idle = Some (true, receiver_idle).
Proof.
  destruct (rtx_keepalive_accepted rtx_only 0 rtp_packet 12 keepalive_header
              true receiver_idle eq_refl eq_refl) as [Hhandle Hreceive].
  - simpl. lia.
  - simpl. lia.
  - lia.
  - reflexivity.
  - split; [exact Hhandle|]. exact (Hreceive eq_refl).
Defined.

Lemma DeliverPacket_audio_rtcp_witness :
  IsRtcp (accepting true) rtcp_packet = true
  /\ DeliverPacket (accepting true) AUDIO rtcp_packet no_time one_video_receive
     = Some (DELIVERY_PACKET_ERROR, one_video_receive).
Proof.
  assert (Hrtcp : IsRtcp (accepting true) rtcp_packet = true) by reflexivity.
  split; [exact Hrtcp|].
  exact (DeliverPacket_audio_rtcp (accepting true) one_video_receive
           rtcp_packet no_time Hrtcp).
Defined.

(** * Further properties of the call *)

Create HintDb stream_ops.

#[local] Hint Unfold new_object delete_object register_video_send_ssrc
  erase_video_send_entry erase_video_receive_entry suspend_rtp_state
  deliver_rtcp_receive deliver_rtcp_send deliver_rtp_to
  CreateAudioSendStream DestroyAudioSendStream CreateAudioReceiveStream
  DestroyAudioReceiveStream CreateVideoSendStream DestroyVideoSendStream
  CreateVideoReceiveStream DestroyVideoReceiveStream SetBitrateConfig
  SignalNetworkState OnSentPacket DeliverRtcp DeliverRtp DeliverPacket
  : stream_ops.

(** A component that an operation does not write: proved by following the
    shape of the operation. *)
Ltac leaves_auto :=
  repeat first
    [ apply preserves_deref
    | apply ConfigureSync_preserves; split; intros; reflexivity
    | preserves_step
    | progress autounfold with stream_ops ].

Section RegistryProperties.

Context {RtpState : Type}.
Variable E : Env RtpState.

Implicit Types s : State RtpState.

(** ** The election of the audio anchor *)

(** The scan returns the stream it was given, or else the first stream of
    the group in the order of the scan; it changes the trace only. *)
Lemma find_sync_audio_first sync_group (kvs : list (N * ptr)) acc s r s' :
  find_sync_audio sync_group kvs acc s = Some (r, s') ->
  r = match acc with
      | Some a => Some a
      | None => head (filter (fun a => audio_has_group s sync_group a = true)
                        kvs.*2)
      end.
Proof.
  revert acc. induction kvs as [|kv kvs IH]; intros acc H; simpl in H.
  - unfold ret in H. injection H as <- _. by destruct acc.
  - apply bind_Some in H as (cfg & s1 & Hderef & H).
    unfold deref in Hderef.
    destruct (audio_receive_heap s !! kv.2) as [cfg'|] eqn:Hheap; [|done].
    injection Hderef as -> <-.
    assert (Hgroup : audio_has_group s sync_group kv.2
                     = String.eqb (ar_sync_group cfg) sync_group).
    { unfold audio_has_group. by rewrite Hheap. }
    rewrite fmap_cons.
    destruct (String.eqb (ar_sync_group cfg) sync_group) eqn:Heq.
    + rewrite filter_cons_True by done.
      destruct acc as [a|].
      * unfold_m_in H. by injection H as <- _.
      * apply IH in H. done.
    + rewrite filter_cons_False by (rewrite Hgroup; done).
      by apply IH in H.
Qed.

(** What a run of the sync resolver does to the anchors: the anchor of
    another group is never touched, an anchor that is there stays, and a
    missing anchor is elected as the first indexed audio stream of the
    group in the order of the SSRCs. *)
Lemma ConfigureSync_mapping g s r s' :
  ConfigureSync g s = Some (r, s') ->
  (forall g', g' <> g ->
     sync_stream_mapping_ s' !! g' = sync_stream_mapping_ s !! g')
  /\ (is_Some (sync_stream_mapping_ s !! g) ->
      sync_stream_mapping_ s' = sync_stream_mapping_ s)
  /\ (voice_engine_ s = false \/ string_empty g = true ->
      sync_stream_mapping_ s' = sync_stream_mapping_ s)
  /\ (voice_engine_ s = true -> string_empty g = false ->
      sync_stream_mapping_ s !! g = None ->
      sync_stream_mapping_ s' !! g = head (audio_in_group s g)).
Proof.
  intros H. unfold ConfigureSync in H.
  apply bind_Some in H as (? & ? & Hget & H). unfold get in Hget.
  injection Hget as <- <-.
  destruct (voice_engine_ s) eqn:Hvoice; simpl in H.
  2:{ unfold ret in H. injection H as _ <-. repeat split; done. }
  destruct (string_empty g) eqn:Hempty.
  { unfold ret in H. injection H as _ <-. repeat split; done. }
  apply bind_Some in H as (anchor & s1 & Hanchor & H).
  apply bind_Some in H as ([] & s2 & Hstore & H).
  apply bind_Some in H as (? & ? & Hget & H). unfold get in Hget.
  injection Hget as <- <-.
  apply bind_Some in H as (n & s3 & Hloop & H).
  unfold ret in H. injection H as _ <-.
  assert (Hkeep : sync_stream_mapping_ s3 = sync_stream_mapping_ s2).
  { apply (preserves_for_each_acc sync_stream_mapping_ _ _ _
             (fun num v => sync_video_stream_preserves sync_stream_mapping_
                             g anchor num v ltac:(done)) _ _ _ Hloop). }
  rewrite Hkeep. clear Hloop Hkeep.
  destruct (sync_stream_mapping_ s !! g) as [a|] eqn:Hmap.
  - unfold ret in Hanchor. injection Hanchor as <- <-.
    unfold modify in Hstore. injection Hstore as <-. simpl.
    rewrite (insert_id _ _ _ Hmap).
    repeat split; done.
  - assert (Hfirst := find_sync_audio_first _ _ _ _ _ _ Hanchor).
    simpl in Hfirst. fold (audio_in_group s g) in Hfirst.
    assert (Hmap1 : sync_stream_mapping_ s1 = sync_stream_mapping_ s).
    { apply (find_sync_audio_preserves sync_stream_mapping_ _ _ _
               ltac:(done) _ _ _ Hanchor). }
    destruct anchor as [a|].
    + unfold modify in Hstore. injection Hstore as <-. simpl. rewrite Hmap1.
      split; [|split; [|split]].
      * intros g' Hne. by rewrite lookup_insert_ne.
      * by intros [? ?].
      * intros [|]; done.
      * intros _ _ _. by rewrite lookup_insert_eq.
    + unfold ret in Hstore. injection Hstore as <-. rewrite Hmap1.
      split; [done|]. split; [done|]. split; [done|].
      intros _ _ _. by rewrite Hmap.
Qed.

(** ** The registries, component by component *)

Lemma StdMap_erase_2 {V : Type} (k : N) (m : gmap N V) :
  (StdMap.erase k m).2 = delete k m.
Proof.
  unfold StdMap.erase. destruct (m !! k) eqn:Hk; [done|].
  simpl. symmetry. by apply delete_id.
Qed.

Lemma audio_send_ok_insert index heap p c :
  audio_send_ok index heap -> heap !! p = None ->
  audio_send_ok (<[as_rtp_ssrc c := p]> index) (<[p := c]> heap).
Proof.
  intros Hok Hfresh k q Hk.
  destruct (decide (as_rtp_ssrc c = k)) as [<-|Hne].
  - rewrite lookup_insert_eq in Hk. injection Hk as <-.
    exists c. by rewrite lookup_insert_eq.
  - rewrite lookup_insert_ne in Hk by done.
    destruct (Hok _ _ Hk) as (c' & Hq & Hssrc). exists c'.
    rewrite lookup_insert_ne; [done|]. intros <-. congruence.
Qed.

Lemma audio_send_ok_erase index heap p c :
  audio_send_ok index heap -> heap !! p = Some c ->
  audio_send_ok (delete (as_rtp_ssrc c) index) (delete p heap).
Proof.
  intros Hok Hlive k q Hk.
  destruct (decide (as_rtp_ssrc c = k)) as [<-|Hne].
  - by rewrite lookup_delete_eq in Hk.
  - rewrite lookup_delete_ne in Hk by done.
    destruct (Hok _ _ Hk) as (c' & Hq & Hssrc). exists c'.
    rewrite lookup_delete_ne; [done|]. intros <-. congruence.
Qed.

Lemma audio_receive_ok_insert index heap p c :
  audio_receive_ok index heap -> heap !! p = None ->
  audio_receive_ok (<[ar_rtp_remote_ssrc c := p]> index) (<[p := c]> heap).
Proof.
  intros Hok Hfresh k q Hk.
  destruct (decide (ar_rtp_remote_ssrc c = k)) as [<-|Hne].
  - rewrite lookup_insert_eq in Hk. injection Hk as <-.
    exists c. by rewrite lookup_insert_eq.
  - rewrite lookup_insert_ne in Hk by done.
    destruct (Hok _ _ Hk) as (c' & Hq & Hssrc). exists c'.
    rewrite lookup_insert_ne; [done|]. intros <-. congruence.
Qed.

Lemma audio_receive_ok_erase index heap p c :
  audio_receive_ok index heap -> heap !! p = Some c ->
  audio_receive_ok (delete (ar_rtp_remote_ssrc c) index) (delete p heap).
Proof.
  intros Hok Hlive k q Hk.
  destruct (decide (ar_rtp_remote_ssrc c = k)) as [<-|Hne].
  - by rewrite lookup_delete_eq in Hk.
  - rewrite lookup_delete_ne in Hk by done.
    destruct (Hok _ _ Hk) as (c' & Hq & Hssrc). exists c'.
    rewrite lookup_delete_ne; [done|]. intros <-. congruence.
Qed.

Lemma sync_anchor_ok_insert mapping heap p (c : AudioReceiveStream_Config) :
  sync_anchor_ok mapping heap -> heap !! p = None ->
  sync_anchor_ok mapping (<[p := c]> heap).
Proof.
  intros Hok Hfresh g a Ha. destruct (Hok _ _ Ha) as (c' & Hlive & Hg).
  exists c'. rewrite lookup_insert_ne; [done|]. intros <-. congruence.
Qed.

Lemma sync_anchor_ok_delete mapping heap p :
  sync_anchor_ok mapping heap ->
  (forall g, mapping !! g <> Some p) ->
  sync_anchor_ok mapping (delete p heap).
Proof.
  intros Hok Hnot g a Ha. destruct (Hok _ _ Ha) as (c' & Hlive & Hg).
  exists c'. rewrite lookup_delete_ne; [done|]. intros <-.
  by apply (Hnot g).
Qed.

Lemma erase_entries_lookup p (l : list (N * ptr)) (m : gmap N ptr) k :
  erase_entries p l m !! k
  = if decide ((k, p) ∈ l) then None else m !! k.
Proof.
  unfold erase_entries. revert m. induction l as [|kv l IH]; intros m.
  - cbn [foldl]. rewrite decide_False; [done|]. apply not_elem_of_nil.
  - cbn [foldl]. rewrite IH. destruct (decide ((k, p) ∈ l)) as [Hin|Hnotin].
    + rewrite decide_True; [done|]. by apply elem_of_cons; right.
    + destruct (Pos.eqb_spec kv.2 p) as [Heq|Hne].
      * destruct (decide (kv.1 = k)) as [Hk|Hk].
        -- rewrite decide_True.
           ++ subst k. by rewrite lookup_delete_eq.
           ++ apply elem_of_cons. left. destruct kv; simpl in *; congruence.
        -- rewrite lookup_delete_ne by done.
           rewrite decide_False; [done|].
           intros Hin. apply elem_of_cons in Hin as [Hin|Hin]; [|done].
           subst kv. done.
      * rewrite decide_False; [done|].
        intros Hin. apply elem_of_cons in Hin as [Hin|Hin]; [|done].
        subst kv. done.
Qed.

Lemma erase_entries_items p (m : gmap N ptr) k :
  erase_entries p (StdMap.items m) m !! k
  = if decide (m !! k = Some p) then None else m !! k.
Proof.
  rewrite erase_entries_lookup.
  destruct (decide ((k, p) ∈ StdMap.items m)) as [Hin|Hnotin].
  - apply StdMap_items_elem in Hin. by rewrite decide_True.
  - rewrite decide_False; [done|]. intros Hk. apply Hnotin.
    by apply StdMap_items_elem.
Qed.

Lemma video_send_ok_destroy index streams heap p :
  video_send_ok index streams heap ->
  video_send_ok (erase_entries p (StdMap.items index) index)
    (streams ∖ {[p]}) (delete p heap).
Proof.
  intros [Hindex Hset]. split.
  - intros k q Hk. rewrite erase_entries_items in Hk.
    destruct (decide (index !! k = Some p)) as [|Hne]; [done|].
    destruct (Hindex _ _ Hk) as (Hin & c & Hlive & Hkey).
    assert (q <> p) by congruence.
    split.
    { apply elem_of_difference. split; [done|].
      by apply not_elem_of_singleton. }
    exists c. by rewrite lookup_delete_ne.
  - intros q Hq. apply elem_of_difference in Hq as [Hq Hne].
    rewrite lookup_delete_ne; [by apply Hset|].
    intros ->. apply Hne. by apply elem_of_singleton.
Qed.

Lemma video_receive_ok_destroy index streams heap p :
  video_receive_ok index streams heap ->
  video_receive_ok (erase_entries p (StdMap.items index) index)
    (streams ∖ {[p]}) (delete p heap).
Proof.
  intros [Hindex Hset]. split.
  - intros k q Hk. rewrite erase_entries_items in Hk.
    destruct (decide (index !! k = Some p)) as [|Hne]; [done|].
    destruct (Hindex _ _ Hk) as (Hin & c & Hlive & Hkey).
    assert (q <> p) by congruence.
    split.
    { apply elem_of_difference. split; [done|].
      by apply not_elem_of_singleton. }
    exists c. by rewrite lookup_delete_ne.
  - intros q Hq. apply elem_of_difference in Hq as [Hq Hne].
    rewrite lookup_delete_ne; [by apply Hset|].
    intros ->. apply Hne. by apply elem_of_singleton.
Qed.

Lemma video_receive_ok_unindex index streams heap p :
  video_receive_ok index streams heap ->
  video_receive_ok (erase_entries p (StdMap.items index) index)
    (streams ∖ {[p]}) heap.
Proof.
  intros [Hindex Hset]. split.
  - intros k q Hk. rewrite erase_entries_items in Hk.
    destruct (decide (index !! k = Some p)) as [|Hne]; [done|].
    destruct (Hindex _ _ Hk) as (Hin & c & Hlive & Hkey).
    assert (q <> p) by congruence.
    split; [|by exists c].
    apply elem_of_difference. split; [done|].
    by apply not_elem_of_singleton.
  - intros q Hq. apply elem_of_difference in Hq as [Hq Hne].
    by apply Hset.
Qed.

Lemma register_entries_lookup p (ssrcs : list N) (m : gmap N ptr) k :
  register_entries p ssrcs m !! k
  = if decide (k ∈ ssrcs) then Some p else m !! k.
Proof.
  unfold register_entries. revert m.
  induction ssrcs as [|k' ssrcs IH]; intros m.
  - cbn [foldl]. rewrite decide_False; [done|]. apply not_elem_of_nil.
  - cbn [foldl]. rewrite IH. destruct (decide (k ∈ ssrcs)) as [Hin|Hnotin].
    + rewrite decide_True; [done|]. by apply elem_of_cons; right.
    + destruct (decide (k = k')) as [->|Hne].
      * rewrite lookup_insert_eq. rewrite decide_True; [done|].
        by apply elem_of_cons; left.
      * rewrite lookup_insert_ne by done. rewrite decide_False; [done|].
        intros Hin. apply elem_of_cons in Hin as [Hin|Hin]; done.
Qed.

Lemma video_send_ok_create index streams heap p c :
  video_send_ok index streams heap -> heap !! p = None ->
  video_send_ok (register_entries p (vs_rtp_ssrcs c) index)
    ({[p]} ∪ streams) (<[p := c]> heap).
Proof.
  intros [Hindex Hset] Hfresh. split.
  - intros k q Hk. rewrite register_entries_lookup in Hk.
    destruct (decide (k ∈ vs_rtp_ssrcs c)) as [Hin|Hnotin].
    + injection Hk as <-.
      split; [apply elem_of_union; left; by apply elem_of_singleton|].
      exists c. by rewrite lookup_insert_eq.
    + destruct (Hindex _ _ Hk) as (Hin & c' & Hlive & Hkey).
      split; [apply elem_of_union; by right|]. exists c'.
      rewrite lookup_insert_ne; [done|]. intros <-. congruence.
  - intros q Hq. apply elem_of_union in Hq as [Hq|Hq].
    + apply elem_of_singleton in Hq as ->. by rewrite lookup_insert_eq.
    + destruct (decide (p = q)) as [<-|Hne].
      * by rewrite lookup_insert_eq.
      * rewrite lookup_insert_ne by done. by apply Hset.
Qed.

Lemma receive_entries_lookup p c (m : gmap N ptr) k :
  receive_entries p c m !! k
  = if decide (k ∈ receive_keys c) then Some p else m !! k.
Proof.
  unfold receive_entries, receive_keys.
  destruct (StdMap.zbegin (vr_rtp_rtx c)) as [[pt rtx]|]; simpl.
  - destruct (decide (k = rtx_ssrc rtx)) as [->|Hne1].
    + rewrite lookup_insert_eq. rewrite decide_True; [done|].
      apply elem_of_cons. right. by apply elem_of_cons; left.
    + rewrite lookup_insert_ne by done.
      destruct (decide (k = vr_rtp_remote_ssrc c)) as [->|Hne2].
      * rewrite lookup_insert_eq. rewrite decide_True; [done|].
        by apply elem_of_cons; left.
      * rewrite lookup_insert_ne by done. rewrite decide_False; [done|].
        intros Hin. apply elem_of_cons in Hin as [Hin|Hin]; [done|].
        apply elem_of_cons in Hin as [Hin|Hin]; [done|].
        by apply elem_of_nil in Hin.
  - destruct (decide (k = vr_rtp_remote_ssrc c)) as [->|Hne2].
    + rewrite lookup_insert_eq. rewrite decide_True; [done|].
      by apply elem_of_cons; left.
    + rewrite lookup_insert_ne by done. rewrite decide_False; [done|].
      intros Hin. apply elem_of_cons in Hin as [Hin|Hin]; [done|].
      by apply elem_of_nil in Hin.
Qed.

Lemma video_receive_ok_create index streams heap p c :
  video_receive_ok index streams heap -> heap !! p = None ->
  video_receive_ok (receive_entries p c index)
    ({[p]} ∪ streams) (<[p := c]> heap).
Proof.
  intros [Hindex Hset] Hfresh. split.
  - intros k q Hk. rewrite receive_entries_lookup in Hk.
    destruct (decide (k ∈ receive_keys c)) as [Hin|Hnotin].
    + injection Hk as <-.
      split; [apply elem_of_union; left; by apply elem_of_singleton|].
      exists c. by rewrite lookup_insert_eq.
    + destruct (Hindex _ _ Hk) as (Hin & c' & Hlive & Hkey).
      split; [apply elem_of_union; by right|]. exists c'.
      rewrite lookup_insert_ne; [done|]. intros <-. congruence.
  - intros q Hq. apply elem_of_union in Hq as [Hq|Hq].
    + apply elem_of_singleton in Hq as ->. by rewrite lookup_insert_eq.
    + destruct (decide (p = q)) as [<-|Hne].
      * by rewrite lookup_insert_eq.
      * rewrite lookup_insert_ne by done. by apply Hset.
Qed.

(** ** The operations on audio send streams, as equations *)

Lemma is_live_audio_send s p :
  is_live s p = false -> audio_send_heap s !! p = None.
Proof.
  unfold is_live. destruct (audio_send_heap s !! p); [done|done].
Qed.

Lemma is_live_audio_receive s p :
  is_live s p = false -> audio_receive_heap s !! p = None.
Proof.
  unfold is_live. destruct (audio_receive_heap s !! p); [|done].
  simpl. by rewrite orb_true_r.
Qed.

Lemma is_live_video_send s p :
  is_live s p = false -> video_send_heap s !! p = None.
Proof.
  unfold is_live. destruct (video_send_heap s !! p); [|done].
  simpl. by rewrite !orb_true_r.
Qed.

Lemma is_live_video_receive s p :
  is_live s p = false -> video_receive_heap s !! p = None.
Proof.
  unfold is_live. destruct (video_receive_heap s !! p); [|done].
  simpl. by rewrite !orb_true_r.
Qed.

Lemma CreateAudioSendStream_eq p c s :
  CreateAudioSendStream E p c s
  = if is_live s p then None
    else if dcheck_is_on E
            && negb (is_end (audio_send_ssrcs_ s !! as_rtp_ssrc c))
    then None
    else Some (p, with_trace
                    (trace s ++ EvNew AudioSend p :: down_signal AudioSend p s)
                    (with_audio_send_ssrcs
                       (<[as_rtp_ssrc c := p]> (audio_send_ssrcs_ s))
                       (with_audio_send_heap
                          (<[p := c]> (audio_send_heap s)) s))).
Proof.
  unfold CreateAudioSendStream, new_object, down_signal. unfold_m.
  destruct (is_live s p); [done|]. simpl.
  destruct (dcheck_is_on E); simpl.
  - destruct (is_end (audio_send_ssrcs_ s !! as_rtp_ssrc c)); simpl; [|done].
    destruct (network_enabled_ s); simpl; unfold with_trace; simpl;
      by rewrite <- ?app_assoc.
  - destruct (network_enabled_ s); simpl; unfold with_trace; simpl;
      by rewrite <- ?app_assoc.
Qed.

Lemma DestroyAudioSendStream_eq p s :
  DestroyAudioSendStream E p s
  = match audio_send_heap s !! p with
    | None => None
    | Some c =>
        if dcheck_is_on E && is_end (audio_send_ssrcs_ s !! as_rtp_ssrc c)
        then None
        else Some (tt, with_trace
                         (trace s ++ [EvStop AudioSend p; EvDelete AudioSend p])
                         (with_audio_send_heap (delete p (audio_send_heap s))
                            (with_audio_send_ssrcs
                               (delete (as_rtp_ssrc c) (audio_send_ssrcs_ s))
                               s)))
    end.
Proof.
  unfold DestroyAudioSendStream, delete_object, deref. unfold_m.
  destruct (audio_send_heap s !! p) as [c|] eqn:Hheap; [|done].
  cbn [trace with_trace audio_send_heap audio_send_ssrcs_].
  rewrite Hheap. unfold StdMap.erase.
  cbn [trace with_trace audio_send_heap audio_send_ssrcs_].
  destruct (audio_send_ssrcs_ s !! as_rtp_ssrc c) eqn:Hk.
  - rewrite andb_false_r.
    destruct (dcheck_is_on E); simpl; unfold with_trace; simpl;
      by rewrite <- ?app_assoc.
  - rewrite andb_true_r.
    destruct (dcheck_is_on E); simpl; [done|]. unfold with_trace; simpl.
    by rewrite <- ?app_assoc, (delete_id _ _ Hk).
Qed.

(** ** The operations on audio receive streams *)

Lemma CreateAudioReceiveStream_inv p c s r s' :
  CreateAudioReceiveStream E p c s = Some (r, s') ->
  r = p /\ is_live s p = false
  /\ (dcheck_is_on E = true ->
      audio_receive_ssrcs_ s !! ar_rtp_remote_ssrc c = None)
  /\ ConfigureSync (ar_sync_group c)
       (with_audio_receive_ssrcs
          (<[ar_rtp_remote_ssrc c := p]> (audio_receive_ssrcs_ s))
          (with_trace (trace s ++ [EvNew AudioReceive p])
             (with_audio_receive_heap (<[p := c]> (audio_receive_heap s)) s)))
     = Some (tt, s').
Proof.
  intros H. unfold CreateAudioReceiveStream in H.
  apply bind_Some in H as ([] & s1 & Hnew & H).
  apply new_object_Some in Hnew as [Hlive ->].
  apply bind_Some in H as (? & ? & Hget & H).
  unfold get in Hget. injection Hget as <- <-.
  apply bind_Some in H as ([] & s2 & Hchk & H).
  assert (Hdcheck : dcheck_is_on E = true ->
            audio_receive_ssrcs_ s !! ar_rtp_remote_ssrc c = None).
  { intros Hon. unfold RTC_DCHECK in Hchk. rewrite Hon in Hchk. simpl in Hchk.
    destruct (audio_receive_ssrcs_ s !! ar_rtp_remote_ssrc c); [done|done]. }
  apply RTC_DCHECK_Some in Hchk as ->.
  apply bind_Some in H as ([] & s3 & Hmod & H).
  unfold modify in Hmod. injection Hmod as <-.
  apply bind_Some in H as ([] & s4 & Hsync & H).
  unfold ret in H. injection H as <- <-.
  repeat split; try done.
Qed.

Lemma DestroyAudioReceiveStream_inv p s r s' :
  DestroyAudioReceiveStream E p s = Some (r, s') ->
  exists c s2,
    audio_receive_heap s !! p = Some c
    /\ (dcheck_is_on E = true ->
        is_Some (audio_receive_ssrcs_ s !! ar_rtp_remote_ssrc c))
    /\ s' = with_trace (trace s2 ++ [EvDelete AudioReceive p])
              (with_audio_receive_heap (delete p (audio_receive_heap s2)) s2)
    /\ let s1 := with_audio_receive_ssrcs
                   (delete (ar_rtp_remote_ssrc c) (audio_receive_ssrcs_ s)) s in
       if decide (sync_stream_mapping_ s !! ar_sync_group c = Some p)
       then ConfigureSync (ar_sync_group c)
              (with_sync_stream_mapping
                 (delete (ar_sync_group c) (sync_stream_mapping_ s)) s1)
            = Some (tt, s2)
       else s2 = s1.
Proof.
  intros H. unfold DestroyAudioReceiveStream in H.
  apply bind_Some in H as (c & ? & Hderef & H).
  unfold deref in Hderef.
  destruct (audio_receive_heap s !! p) as [c'|] eqn:Hheap; [|done].
  injection Hderef as -> <-.
  apply bind_Some in H as (? & ? & Hget & H).
  unfold get in Hget. injection Hget as <- <-.
  apply bind_Some in H as ([] & s1 & Hmod & H).
  unfold modify in Hmod. injection Hmod as <-.
  rewrite StdMap_erase_2 in H.
  apply bind_Some in H as ([] & ? & Hchk & H).
  assert (Hdcheck : dcheck_is_on E = true ->
            is_Some (audio_receive_ssrcs_ s !! ar_rtp_remote_ssrc c)).
  { intros Hon. unfold RTC_DCHECK in Hchk. rewrite Hon in Hchk.
    unfold StdMap.erase in Hchk.
    destruct (audio_receive_ssrcs_ s !! ar_rtp_remote_ssrc c); [done|done]. }
  apply RTC_DCHECK_Some in Hchk as ->.
  apply bind_Some in H as (? & ? & Hget & H).
  unfold get in Hget. injection Hget as <- <-.
  apply bind_Some in H as ([] & s2 & Hsync & H).
  unfold delete_object in H. unfold_m_in H. injection H as _ <-.
  exists c, s2. split; [done|]. split; [done|].
  split; [unfold with_trace; simpl; done|].
  cbn zeta. simpl in Hsync.
  destruct (sync_stream_mapping_ s !! ar_sync_group c) as [a|] eqn:Hmap.
  - destruct (Pos.eqb_spec a p) as [->|Hne].
    + rewrite decide_True by done.
      apply bind_Some in Hsync as ([] & s3 & Hmod & Hsync).
      unfold modify in Hmod. injection Hmod as <-. exact Hsync.
    + rewrite decide_False by congruence.
      unfold ret in Hsync. by injection Hsync as <-.
  - rewrite decide_False by done.
    unfold ret in Hsync. by injection Hsync as <-.
Qed.

(** ** The operations on video send streams *)

Lemma with_video_receive_ssrcs_id s :
  with_video_receive_ssrcs (video_receive_ssrcs_ s) s = s.
Proof. by destruct s. Qed.

Lemma register_loop_inv p (ssrcs : list N) s r s' :
  for_each ssrcs (register_video_send_ssrc E p) s = Some (r, s') ->
  s' = with_video_send_ssrcs
         (register_entries p ssrcs (video_send_ssrcs_ s)) s
  /\ (dcheck_is_on E = true ->
      NoDup ssrcs /\ forall k, k ∈ ssrcs -> video_send_ssrcs_ s !! k = None).
Proof.
  revert s. induction ssrcs as [|k ssrcs IH]; intros s H; simpl in H.
  - unfold ret in H. injection H as _ <-. unfold register_entries. simpl.
    rewrite with_video_send_ssrcs_id. split; [done|]. intros _.
    split; [constructor|]. intros k Hk. by apply elem_of_nil in Hk.
  - apply bind_Some in H as ([] & s1 & Hbody & H).
    unfold register_video_send_ssrc in Hbody.
    apply bind_Some in Hbody as (? & ? & Hget & Hbody).
    unfold get in Hget. injection Hget as <- <-.
    apply bind_Some in Hbody as ([] & ? & Hchk & Hbody).
    assert (Hdcheck : dcheck_is_on E = true -> video_send_ssrcs_ s !! k = None).
    { intros Hon. unfold RTC_DCHECK in Hchk. rewrite Hon in Hchk.
      destruct (video_send_ssrcs_ s !! k); [done|done]. }
    apply RTC_DCHECK_Some in Hchk as ->.
    unfold modify in Hbody. injection Hbody as <-.
    apply IH in H as [-> Hrest]. split; [done|].
    intros Hon. destruct (Hrest Hon) as [Hnodup Habsent]. simpl in Habsent.
    assert (Hnotin : k ∉ ssrcs).
    { intros Hin. specialize (Habsent k Hin).
      by rewrite lookup_insert_eq in Habsent. }
    split; [by constructor|].
    intros k' Hk'. apply elem_of_cons in Hk' as [->|Hk']; [by apply Hdcheck|].
    specialize (Habsent k' Hk').
    rewrite lookup_insert_ne in Habsent; [done|]. by intros ->.
Qed.

Lemma register_loop_total p (ssrcs : list N) s :
  (dcheck_is_on E = true ->
   NoDup ssrcs /\ forall k, k ∈ ssrcs -> video_send_ssrcs_ s !! k = None) ->
  exists s', for_each ssrcs (register_video_send_ssrc E p) s = Some (tt, s').
Proof.
  revert s. induction ssrcs as [|k ssrcs IH]; intros s Hok; simpl.
  - by exists s.
  - unfold bind at 1. unfold register_video_send_ssrc at 1.
    unfold bind at 1. unfold get. unfold bind at 1.
    assert (Hchk : RTC_DCHECK E (is_end (video_send_ssrcs_ s !! k)) s
                   = Some (tt, s)).
    { unfold RTC_DCHECK, RTC_CHECK, ret.
      destruct (dcheck_is_on E) eqn:Hon; [|done].
      destruct (Hok eq_refl) as [_ Habsent].
      rewrite Habsent; [done|]. by apply elem_of_cons; left. }
    rewrite Hchk. unfold modify. apply IH. intros Hon.
    destruct (Hok Hon) as [Hnodup Habsent].
    apply NoDup_cons in Hnodup as [Hnotin Hnodup]. split; [done|].
    intros k' Hk'. simpl. rewrite lookup_insert_ne.
    + apply Habsent. by apply elem_of_cons; right.
    + by intros ->.
Qed.

Lemma CreateVideoSendStream_inv p c s r s' :
  CreateVideoSendStream E p c s = Some (r, s') ->
  r = p /\ is_live s p = false
  /\ (dcheck_is_on E = true ->
      NoDup (vs_rtp_ssrcs c)
      /\ forall k, k ∈ vs_rtp_ssrcs c -> video_send_ssrcs_ s !! k = None)
  /\ s' = with_trace
            (trace s
             ++ EvNew VideoSend p
                :: (if event_log_ s then [EvLogVideoSendStreamConfig p] else [])
                ++ down_signal VideoSend p s)
            (with_video_send_streams ({[p]} ∪ video_send_streams_ s)
               (with_video_send_ssrcs
                  (register_entries p (vs_rtp_ssrcs c) (video_send_ssrcs_ s))
                  (with_video_send_heap (<[p := c]> (video_send_heap s)) s))).
Proof.
  intros H. unfold CreateVideoSendStream in H.
  apply bind_Some in H as ([] & s1 & Hnew & H).
  apply new_object_Some in Hnew as [Hlive ->].
  apply bind_Some in H as ([] & s2 & Hloop & H).
  apply register_loop_inv in Hloop as [-> Hdcheck].
  unfold_m_in H. unfold down_signal.
  split; [|split; [done|split; [done|]]].
  - destruct (event_log_ s), (network_enabled_ s); simpl in H;
      by injection H as <- _.
  - destruct (event_log_ s), (network_enabled_ s); simpl in H;
      injection H as _ <-; unfold with_trace; simpl;
      by rewrite <- ?app_assoc.
Qed.

(** [DestroyVideoSendStream] returns exactly when the stream is live and
    some key points to it, and then it has erased every key that points to
    the stream, taken it from the set, stored the RTP states it reported
    and released it. *)
Lemma DestroyVideoSendStream_inv p s r s' :
  DestroyVideoSendStream E p s = Some (r, s') ->
  is_Some (video_send_heap s !! p)
  /\ (exists k, video_send_ssrcs_ s !! k = Some p)
  /\ exists snapshot,
       s' = with_trace
              (trace s ++ [EvStop VideoSend p; EvGetRtpStates p snapshot;
                           EvDelete VideoSend p])
              (with_video_send_heap (delete p (video_send_heap s))
                 (with_suspended_video_send_ssrcs
                    (foldl (fun m kv => <[kv.1 := kv.2]> m)
                       (suspended_video_send_ssrcs_ s)
                       (StdMap.items snapshot))
                    (with_video_send_streams (video_send_streams_ s ∖ {[p]})
                       (with_video_send_ssrcs
                          (erase_entries p
                             (StdMap.items (video_send_ssrcs_ s))
                             (video_send_ssrcs_ s)) s)))).
Proof.
  intros H. apply DestroyVideoSendStream_run in H as (Hlive & Hkey & ->).
  split; [done|]. split; [done|]. by eexists.
Qed.

(** ** The operations on video receive streams *)

Lemma CreateVideoReceiveStream_inv p c s r s' :
  CreateVideoReceiveStream E p c s = Some (r, s') ->
  r = p /\ is_live s p = false
  /\ (dcheck_is_on E = true ->
      video_receive_ssrcs_ s !! vr_rtp_remote_ssrc c = None)
  /\ exists s2,
       ConfigureSync (vr_sync_group c)
         (with_video_receive_streams ({[p]} ∪ video_receive_streams_ s)
            (with_video_receive_ssrcs
               (receive_entries p c (video_receive_ssrcs_ s))
               (with_trace (trace s ++ [EvNew VideoReceive p])
                  (with_video_receive_heap
                     (<[p := c]> (video_receive_heap s)) s))))
       = Some (tt, s2)
       /\ s' = with_trace
                 (trace s2 ++ down_signal VideoReceive p s
                  ++ (if event_log_ s
                      then [EvLogVideoReceiveStreamConfig p] else []))
                 s2.
Proof.
  intros H. unfold CreateVideoReceiveStream in H.
  apply bind_Some in H as ([] & s1 & Hnew & H).
  apply new_object_Some in Hnew as [Hlive ->].
  apply bind_Some in H as (? & ? & Hget & H).
  unfold get in Hget. injection Hget as <- <-.
  apply bind_Some in H as ([] & s2 & Hchk & H).
  assert (Hdcheck : dcheck_is_on E = true ->
            video_receive_ssrcs_ s !! vr_rtp_remote_ssrc c = None).
  { intros Hon. unfold RTC_DCHECK in Hchk. rewrite Hon in Hchk. simpl in Hchk.
    destruct (video_receive_ssrcs_ s !! vr_rtp_remote_ssrc c); [done|done]. }
  apply RTC_DCHECK_Some in Hchk as ->.
  apply bind_Some in H as ([] & s3 & Hmod1 & H).
  unfold modify in Hmod1. injection Hmod1 as <-.
  apply bind_Some in H as ([] & s4 & Hmod2 & H).
  apply bind_Some in H as ([] & s5 & Hmod3 & H).
  unfold modify in Hmod3. injection Hmod3 as <-.
  apply bind_Some in H as ([] & s6 & Hsync & H).
  assert (Hs4 : s4 = with_video_receive_ssrcs
                       (receive_entries p c (video_receive_ssrcs_ s))
                       (with_trace (trace s ++ [EvNew VideoReceive p])
                          (with_video_receive_heap
                             (<[p := c]> (video_receive_heap s)) s))).
  { unfold receive_entries.
    destruct (StdMap.zbegin (vr_rtp_rtx c)) as [it|].
    - unfold modify in Hmod2. by injection Hmod2 as <-.
    - unfold ret in Hmod2. by injection Hmod2 as <-. }
  subst s4.
  assert (Hnet : network_enabled_ s6 = network_enabled_ s
                 /\ event_log_ s6 = event_log_ s).
  { split.
    - by rewrite (ConfigureSync_preserves network_enabled_ _
                    ltac:(by split) _ _ _ Hsync).
    - by rewrite (ConfigureSync_preserves event_log_ _
                    ltac:(by split) _ _ _ Hsync). }
  destruct Hnet as [Hnet Hlog].
  split; [|split; [done|split; [done|]]].
  - unfold_m_in H.
    destruct (network_enabled_ s6), (event_log_ s6); simpl in H;
      by injection H as <- _.
  - exists s6. split; [exact Hsync|]. unfold down_signal.
    rewrite <- Hnet, <- Hlog. unfold_m_in H.
    destruct (network_enabled_ s6), (event_log_ s6); simpl in H;
      injection H as _ <-; unfold with_trace; simpl;
      rewrite <- ?app_assoc, ?app_nil_r; try done.
    by destruct s6.
Qed.

(** The check inside the loop of [DestroyVideoReceiveStream] never fails:
    the loop behaves as the one of [DestroyVideoSendStream]. *)
Lemma erase_video_receive_loop_inv p (l : list (N * ptr)) acc s r s' :
  (acc = None \/ acc = Some p) ->
  for_each_acc l acc (erase_video_receive_entry E p) s = Some (r, s') ->
  s' = with_video_receive_ssrcs
         (erase_entries p l (video_receive_ssrcs_ s)) s
  /\ r = (if decide (p ∈ l.*2) then Some p else acc).
Proof.
  revert acc s. induction l as [|kv l IH]; intros acc s Hacc H; simpl in H.
  - unfold ret in H. injection H as <- <-. unfold erase_entries.
    cbn [foldl]. rewrite with_video_receive_ssrcs_id. split; [done|].
    rewrite decide_False; [done|]. rewrite fmap_nil. apply not_elem_of_nil.
  - apply bind_Some in H as (acc1 & s1 & Hbody & H).
    unfold erase_video_receive_entry in Hbody. unfold erase_entries.
    cbn [foldl]. fold (erase_entries p l).
    destruct (Pos.eqb_spec kv.2 p) as [Heq|Hne].
    + apply bind_Some in Hbody as ([] & s2 & Hchk & Hbody).
      assert (s2 = s) as ->.
      { destruct acc; [by apply RTC_DCHECK_Some in Hchk|].
        unfold ret in Hchk. by injection Hchk as <-. }
      unfold_m_in Hbody. injection Hbody as <- <-.
      apply IH in H as [-> ->]; [|right; by rewrite Heq].
      split; [done|].
      rewrite fmap_cons. rewrite (decide_True (P := p ∈ kv.2 :: l.*2)).
      2:{ apply elem_of_cons. by left. }
      destruct (decide (p ∈ l.*2)); [done|by rewrite Heq].
    + unfold ret in Hbody. injection Hbody as <- <-.
      apply IH in H as [-> ->]; [|done]. split; [done|].
      rewrite fmap_cons.
      destruct (decide (p ∈ l.*2)) as [Hin|Hnotin].
      * rewrite decide_True; [done|]. by apply elem_of_cons; right.
      * rewrite decide_False; [done|].
        intros Hin. apply elem_of_cons in Hin as [Hin|Hin]; congruence.
Qed.

Lemma erase_video_receive_loop_total p (l : list (N * ptr)) acc s :
  (acc = None \/ acc = Some p) ->
  exists r s',
    for_each_acc l acc (erase_video_receive_entry E p) s = Some (r, s').
Proof.
  revert acc s. induction l as [|kv l IH]; intros acc s Hacc; simpl.
  - by exists acc, s.
  - unfold bind at 1. unfold erase_video_receive_entry at 1.
    destruct (Pos.eqb_spec kv.2 p) as [Heq|Hne].
    + unfold bind at 1.
      assert (Hchk : match acc with
                     | Some impl => RTC_DCHECK E (Pos.eqb impl kv.2)
                     | None => ret tt
                     end s = Some (tt, s)).
      { destruct Hacc as [-> | ->]; [done|].
        unfold RTC_DCHECK, RTC_CHECK, ret. rewrite Heq, Pos.eqb_refl.
        by destruct (dcheck_is_on E). }
      rewrite Hchk. unfold_m. apply IH. right. by rewrite Heq.
    + unfold ret. by apply IH.
Qed.

Lemma DestroyVideoReceiveStream_inv p s r s' :
  DestroyVideoReceiveStream E p s = Some (r, s') ->
  (exists k, video_receive_ssrcs_ s !! k = Some p)
  /\ exists c s2,
       video_receive_heap s !! p = Some c
       /\ ConfigureSync (vr_sync_group c)
            (with_video_receive_streams (video_receive_streams_ s ∖ {[p]})
               (with_video_receive_ssrcs
                  (erase_entries p (StdMap.items (video_receive_ssrcs_ s))
                     (video_receive_ssrcs_ s)) s))
          = Some (tt, s2)
       /\ s' = with_trace (trace s2 ++ [EvDelete VideoReceive p])
                 (with_video_receive_heap (delete p (video_receive_heap s2))
                    s2).
Proof.
  intros H. unfold DestroyVideoReceiveStream in H.
  apply bind_Some in H as (? & ? & Hget & H).
  unfold get in Hget. injection Hget as <- <-.
  apply bind_Some in H as (impl & s1 & Hloop & H).
  apply erase_video_receive_loop_inv in Hloop as [-> ->]; [|by left].
  destruct (decide (p ∈ (StdMap.items (video_receive_ssrcs_ s)).*2))
    as [Hin|Hnotin].
  2:{ apply bind_Some in H as ([] & ? & _ & H).
      apply bind_Some in H as ([] & ? & Hchk & _). done. }
  apply bind_Some in H as ([] & s3 & Herase & H).
  unfold modify in Herase. injection Herase as <-.
  apply bind_Some in H as ([] & ? & Hchk & H).
  unfold RTC_CHECK, ret in Hchk. simpl in Hchk. injection Hchk as <-.
  apply bind_Some in H as (c & ? & Hderef & H).
  unfold deref in Hderef. simpl in Hderef.
  destruct (video_receive_heap s !! p) as [c'|] eqn:Hheap; [|done].
  injection Hderef as -> <-.
  apply bind_Some in H as ([] & s4 & Hsync & H).
  unfold delete_object in H. unfold_m_in H. injection H as _ <-.
  split; [by apply StdMap_items_values|].
  exists c, s4. split; [done|]. split; [exact Hsync|].
  unfold with_trace; simpl. done.
Qed.

(** ** The sync resolver on well-formed registries *)

Lemma find_sync_audio_total sync_group (kvs : list (N * ptr)) acc s :
  (forall kv, kv ∈ kvs -> is_Some (audio_receive_heap s !! kv.2)) ->
  exists r s', find_sync_audio sync_group kvs acc s = Some (r, s').
Proof.
  revert acc. induction kvs as [|kv kvs IH]; intros acc Hlive; simpl.
  - by exists acc, s.
  - unfold bind at 1. unfold deref.
    destruct (Hlive kv ltac:(by apply elem_of_cons; left)) as [c Hc].
    rewrite Hc.
    assert (Hrest : forall kv', kv' ∈ kvs ->
              is_Some (audio_receive_heap s !! kv'.2)).
    { intros kv' Hin. apply Hlive. by apply elem_of_cons; right. }
    destruct (String.eqb _ _); [|by apply IH].
    destruct acc; [|by apply IH].
    unfold_m. eauto.
Qed.

Lemma sync_video_loop_total sync_group anchor (l : list ptr) n s :
  (forall v, v ∈ l -> is_Some (video_receive_heap s !! v)) ->
  (forall a, anchor = Some a -> is_Some (audio_receive_heap s !! a)) ->
  exists r s',
    for_each_acc l n (sync_video_stream sync_group anchor) s = Some (r, s').
Proof.
  revert n s. induction l as [|v l IH]; intros n s Hlive Hanchor; simpl.
  - by exists n, s.
  - unfold bind at 1.
    destruct (Hlive v ltac:(by apply elem_of_cons; left)) as [c Hc].
    assert (Hbody : exists n1 s1,
      sync_video_stream sync_group anchor n v s = Some (n1, s1)
      /\ video_receive_heap s1 = video_receive_heap s
      /\ audio_receive_heap s1 = audio_receive_heap s).
    { unfold sync_video_stream. unfold bind at 1. unfold deref at 1.
      rewrite Hc.
      destruct (negb _); [unfold ret; by eauto|]. cbv zeta.
      destruct anchor as [a|].
      - destruct (Hanchor a eq_refl) as [ac Hac].
        destruct (1 <? size_t_incr n), (size_t_incr n =? 1);
          unfold_m; unfold deref; simpl; rewrite ?Hac; by eauto.
      - destruct (1 <? size_t_incr n); unfold_m; by eauto. }
    destruct Hbody as (n1 & s1 & -> & Hv & Ha). apply IH.
    + intros v' Hv'. rewrite Hv. apply Hlive. by apply elem_of_cons; right.
    + intros a' Ha'. rewrite Ha. by apply Hanchor.
Qed.

(** On well-formed registries the sync resolver dereferences live streams
    only, so it returns. *)
Lemma ConfigureSync_total g s :
  audio_receive_ok (audio_receive_ssrcs_ s) (audio_receive_heap s) ->
  video_receive_ok (video_receive_ssrcs_ s) (video_receive_streams_ s)
    (video_receive_heap s) ->
  sync_anchor_ok (sync_stream_mapping_ s) (audio_receive_heap s) ->
  exists s', ConfigureSync g s = Some (tt, s').
Proof.
  intros Haudio [_ Hvideo] Hanchor. unfold ConfigureSync.
  unfold bind at 1. unfold get.
  destruct (negb (voice_engine_ s) || string_empty g); [by exists s|].
  unfold bind at 1.
  assert (Hscan : exists anchor evs,
    match sync_stream_mapping_ s !! g with
    | Some audio => ret (Some audio)
    | None => find_sync_audio g (StdMap.items (audio_receive_ssrcs_ s)) None
    end s = Some (anchor, with_trace (trace s ++ evs) s)
    /\ forall a, anchor = Some a -> is_Some (audio_receive_heap s !! a)).
  { destruct (sync_stream_mapping_ s !! g) as [a|] eqn:Hmap.
    - exists (Some a), []. unfold ret. rewrite with_trace_nil.
      split; [done|]. intros a' [= <-].
      destruct (Hanchor _ _ Hmap) as (c & Hc & _). by exists c.
    - destruct (find_sync_audio_total g
                  (StdMap.items (audio_receive_ssrcs_ s)) None s)
        as (r & s1 & Hfind).
      { intros [k q] Hin. apply StdMap_items_elem in Hin.
        destruct (Haudio _ _ Hin) as (c & Hc & _). by exists c. }
      pose proof (find_sync_audio_first _ _ _ _ _ _ Hfind) as Hr.
      simpl in Hr.
      apply find_sync_audio_Some in Hfind as Hshape.
      destruct Hshape as (evs & -> & _).
      exists r, evs. split; [done|]. intros a ->.
      symmetry in Hr. apply head_Some_elem_of in Hr.
      apply list_elem_of_filter in Hr as [Hgroup _].
      unfold audio_has_group in Hgroup.
      destruct (audio_receive_heap s !! a); [by eexists|done]. }
  destruct Hscan as (anchor & evs & -> & Hlive).
  unfold bind at 1.
  assert (Hstore : exists s2,
    match anchor with
    | Some audio =>
        modify (fun s => with_sync_stream_mapping
                           (<[g := audio]> (sync_stream_mapping_ s)) s)
    | None => ret tt
    end (with_trace (trace s ++ evs) s) = Some (tt, s2)
    /\ video_receive_streams_ s2 = video_receive_streams_ s
    /\ video_receive_heap s2 = video_receive_heap s
    /\ audio_receive_heap s2 = audio_receive_heap s).
  { destruct anchor; unfold_m; eexists; split; done. }
  destruct Hstore as (s2 & -> & Hset & Hvheap & Haheap).
  unfold bind at 1. unfold get. unfold bind at 1.
  destruct (sync_video_loop_total g anchor
              (StdSet.items (video_receive_streams_ s2)) 0 s2)
    as (r & s3 & ->).
  - intros v Hv. apply StdSet_items_elem in Hv. rewrite Hvheap.
    apply Hvideo. by rewrite <- Hset.
  - intros a Ha. rewrite Haheap. by apply Hlive.
  - unfold ret. eauto.
Qed.

(** ** The registries stay well formed *)

Ltac split_ok :=
  unfold registry_ok; split; [|split; [|split; [|split]]].

Lemma registry_ok_frame s s' :
  registries s' = registries s -> registry_ok s -> registry_ok s'.
Proof.
  unfold registries, registries_but_sync, registry_ok.
  intros Heq. injection Heq as -> -> -> -> -> -> _ -> -> -> -> ->. done.
Qed.

Lemma ConfigureSync_registries_but_sync g :
  preserves (registries_but_sync (RtpState := RtpState)) (ConfigureSync g).
Proof. apply ConfigureSync_preserves. by split. Qed.

Lemma head_audio_in_group s g a :
  head (audio_in_group s g) = Some a ->
  (exists k, audio_receive_ssrcs_ s !! k = Some a)
  /\ exists c, audio_receive_heap s !! a = Some c /\ ar_sync_group c = g.
Proof.
  intros H. apply head_Some_elem_of in H. unfold audio_in_group in H.
  apply list_elem_of_filter in H as [Hgroup Hin]. split.
  - apply list_elem_of_fmap in Hin as ([k q] & -> & Hin).
    exists k. by apply StdMap_items_elem.
  - unfold audio_has_group in Hgroup.
    destruct (audio_receive_heap s !! a) as [c|]; [|done].
    exists c. split; [done|]. by apply String.eqb_eq.
Qed.

Lemma ConfigureSync_registry_ok g s r s' :
  registry_ok s -> ConfigureSync g s = Some (r, s') -> registry_ok s'.
Proof.
  intros (Has & Har & Hvs & Hvr & Hanchor) H.
  pose proof (ConfigureSync_registries_but_sync g _ _ _ H) as Hframe.
  unfold registries_but_sync in Hframe.
  injection Hframe as Ha Hb Hc Hd He Hf _ Hg Hh Hi Hj.
  unfold registry_ok. rewrite Ha, Hb, Hc, Hd, He, Hf, Hg, Hh, Hi, Hj.
  split_ok; try done.
  destruct (ConfigureSync_mapping _ _ _ _ H)
    as (Hother & Hsticky & Hoff & Helect).
  intros g' a Hlookup.
  destruct (decide (g' = g)) as [->|Hne].
  2:{ rewrite Hother in Hlookup; [|done]. by apply Hanchor. }
  destruct (sync_stream_mapping_ s !! g) as [a0|] eqn:Hold.
  { rewrite Hsticky in Hlookup; [|by eexists]. by apply Hanchor. }
  destruct (voice_engine_ s) eqn:Hvoice.
  2:{ rewrite Hoff in Hlookup; [|by left]. congruence. }
  destruct (string_empty g) eqn:Hempty.
  { rewrite Hoff in Hlookup; [|by right]. congruence. }
  rewrite Helect in Hlookup; [|done..].
  by apply head_audio_in_group in Hlookup as [_ ?].
Qed.

(** A returning creation or destruction leaves the registries well
    formed. *)
Lemma CreateAudioSendStream_registry_ok p c s r s' :
  registry_ok s -> CreateAudioSendStream E p c s = Some (r, s') ->
  registry_ok s'.
Proof.
  intros (Has & Hrest) H. rewrite CreateAudioSendStream_eq in H.
  destruct (is_live s p) eqn:Hlive; [done|].
  destruct (_ && _); [done|]. injection H as _ <-.
  split; [|exact Hrest]. simpl.
  apply audio_send_ok_insert; [done|]. by apply is_live_audio_send.
Qed.

Lemma DestroyAudioSendStream_registry_ok p s r s' :
  registry_ok s -> DestroyAudioSendStream E p s = Some (r, s') ->
  registry_ok s'.
Proof.
  intros (Has & Hrest) H. rewrite DestroyAudioSendStream_eq in H.
  destruct (audio_send_heap s !! p) as [c|] eqn:Hheap; [|done].
  destruct (_ && _); [done|]. injection H as _ <-.
  split; [|exact Hrest]. simpl. by apply audio_send_ok_erase.
Qed.

Lemma CreateAudioReceiveStream_registry_ok p c s r s' :
  registry_ok s -> CreateAudioReceiveStream E p c s = Some (r, s') ->
  registry_ok s'.
Proof.
  intros (Has & Har & Hvs & Hvr & Hanchor) H.
  apply CreateAudioReceiveStream_inv in H as (_ & Hlive & _ & Hsync).
  apply ConfigureSync_registry_ok in Hsync; [done|].
  apply is_live_audio_receive in Hlive.
  split_ok; try done; simpl.
  - by apply audio_receive_ok_insert.
  - by apply sync_anchor_ok_insert.
Qed.

Lemma DestroyAudioReceiveStream_registry_ok p s r s' :
  registry_ok s -> DestroyAudioReceiveStream E p s = Some (r, s') ->
  registry_ok s'.
Proof.
  intros (Has & Har & Hvs & Hvr & Hanchor) H.
  apply DestroyAudioReceiveStream_inv in H
    as (c & s2 & Hheap & _ & -> & Hcase). cbv zeta in Hcase.
  assert (Hgone : forall k,
            delete (ar_rtp_remote_ssrc c) (audio_receive_ssrcs_ s) !! k
            <> Some p).
  { intros k Hk. apply lookup_delete_Some in Hk as [Hne Hk].
    destruct (Har _ _ Hk) as (c' & Hc' & Hkey). congruence. }
  (* the state before the release of the object *)
  assert (Hs2 : audio_send_ok (audio_send_ssrcs_ s2) (audio_send_heap s2)
    /\ audio_receive_ssrcs_ s2
       = delete (ar_rtp_remote_ssrc c) (audio_receive_ssrcs_ s)
    /\ audio_receive_heap s2 = audio_receive_heap s
    /\ video_send_ok (video_send_ssrcs_ s2) (video_send_streams_ s2)
         (video_send_heap s2)
    /\ video_receive_ok (video_receive_ssrcs_ s2) (video_receive_streams_ s2)
         (video_receive_heap s2)
    /\ sync_anchor_ok (sync_stream_mapping_ s2) (audio_receive_heap s)
    /\ forall g, sync_stream_mapping_ s2 !! g <> Some p).
  { destruct (decide (sync_stream_mapping_ s !! ar_sync_group c = Some p))
      as [Hanch|Hanch].
    - pose proof (ConfigureSync_registries_but_sync _ _ _ _ Hcase) as Hframe.
      unfold registries_but_sync in Hframe. simpl in Hframe.
      injection Hframe as Ha Hb Hc Hd He Hf _ Hg Hh Hi Hj.
      rewrite Ha, Hb, Hc, Hd, He, Hf, Hg, Hh, Hi, Hj.
      split; [done|]. split; [done|]. split; [done|]. split; [done|].
      split; [done|]. split.
      + destruct (ConfigureSync_mapping _ _ _ _ Hcase)
          as (Hother & _ & Hoff & Helect). simpl in *.
        intros g a Hlookup.
        destruct (decide (g = ar_sync_group c)) as [->|Hne].
        2:{ rewrite Hother in Hlookup; [|done].
            rewrite lookup_delete_ne in Hlookup; [|done].
            by apply Hanchor. }
        destruct (voice_engine_ s) eqn:Hvoice.
        2:{ rewrite Hoff in Hlookup; [|by left].
            by rewrite lookup_delete_eq in Hlookup. }
        destruct (string_empty (ar_sync_group c)) eqn:Hempty.
        { rewrite Hoff in Hlookup; [|by right].
          by rewrite lookup_delete_eq in Hlookup. }
        rewrite Helect in Hlookup; [|done|done|apply lookup_delete_eq].
        by apply head_audio_in_group in Hlookup as [_ ?].
      + destruct (ConfigureSync_mapping _ _ _ _ Hcase)
          as (Hother & _ & Hoff & Helect). simpl in *.
        intros g Hlookup.
        destruct (decide (g = ar_sync_group c)) as [->|Hne].
        2:{ rewrite Hother in Hlookup; [|done].
            rewrite lookup_delete_ne in Hlookup; [|done].
            destruct (Hanchor _ _ Hlookup) as (c' & Hc' & Hgroup).
            congruence. }
        destruct (voice_engine_ s) eqn:Hvoice.
        2:{ rewrite Hoff in Hlookup; [|by left].
            by rewrite lookup_delete_eq in Hlookup. }
        destruct (string_empty (ar_sync_group c)) eqn:Hempty.
        { rewrite Hoff in Hlookup; [|by right].
          by rewrite lookup_delete_eq in Hlookup. }
        rewrite Helect in Hlookup; [|done|done|apply lookup_delete_eq].
        apply head_audio_in_group in Hlookup as [[k Hk] _].
        simpl in Hk. by apply Hgone in Hk.
    - subst s2. simpl.
      split; [done|]. split; [done|]. split; [done|]. split; [done|].
      split; [done|]. split; [done|].
      intros g Hlookup.
      destruct (Hanchor _ _ Hlookup) as (c' & Hc' & Hgroup).
      assert (c' = c) as -> by congruence. by subst g. }
  destruct Hs2 as (Has2 & Hidx2 & Hheap2 & Hvs2 & Hvr2 & Hanchor2 & Hnot).
  split_ok; simpl; try done.
  - rewrite Hidx2, Hheap2. by apply audio_receive_ok_erase.
  - rewrite Hheap2. by apply sync_anchor_ok_delete.
Qed.

Lemma CreateVideoSendStream_registry_ok p c s r s' :
  registry_ok s -> CreateVideoSendStream E p c s = Some (r, s') ->
  registry_ok s'.
Proof.
  intros (Has & Har & Hvs & Hvr & Hanchor) H.
  apply CreateVideoSendStream_inv in H as (_ & Hlive & _ & ->).
  apply is_live_video_send in Hlive.
  split_ok; simpl; try done. by apply video_send_ok_create.
Qed.

Lemma DestroyVideoSendStream_registry_ok p s r s' :
  registry_ok s -> DestroyVideoSendStream E p s = Some (r, s') ->
  registry_ok s'.
Proof.
  intros (Has & Har & Hvs & Hvr & Hanchor) H.
  apply DestroyVideoSendStream_inv in H as (_ & _ & snapshot & ->).
  split_ok; simpl; try done. by apply video_send_ok_destroy.
Qed.

Lemma CreateVideoReceiveStream_registry_ok p c s r s' :
  registry_ok s -> CreateVideoReceiveStream E p c s = Some (r, s') ->
  registry_ok s'.
Proof.
  intros (Has & Har & Hvs & Hvr & Hanchor) H.
  apply CreateVideoReceiveStream_inv in H
    as (_ & Hlive & _ & s2 & Hsync & ->).
  apply is_live_video_receive in Hlive.
  apply ConfigureSync_registry_ok in Hsync.
  - revert Hsync. apply registry_ok_frame. done.
  - split_ok; simpl; try done. by apply video_receive_ok_create.
Qed.

Lemma DestroyVideoReceiveStream_registry_ok p s r s' :
  registry_ok s -> DestroyVideoReceiveStream E p s = Some (r, s') ->
  registry_ok s'.
Proof.
  intros (Has & Har & Hvs & Hvr & Hanchor) H.
  apply DestroyVideoReceiveStream_inv in H
    as (_ & c & s2 & Hheap & Hsync & ->).
  pose proof (ConfigureSync_registries_but_sync _ _ _ _ Hsync) as Hframe.
  unfold registries_but_sync in Hframe. simpl in Hframe.
  injection Hframe as Ha Hb Hc Hd He Hf _ Hg Hh Hi Hj.
  apply ConfigureSync_registry_ok in Hsync as (_ & _ & _ & _ & Hanchor2).
  2:{ split_ok; simpl; try done. by apply video_receive_ok_unindex. }
  unfold registry_ok. simpl. rewrite Ha, Hb, Hc, Hd, He, Hf, Hg, Hh, Hi, Hj.
  rewrite Hh in Hanchor2. simpl in Hanchor2.
  split_ok; try done. by apply video_receive_ok_destroy.
Qed.

(** The operations that create and destroy nothing leave the registries as
    they are. *)
Lemma step_registries (op : Op) :
  match op with
  | OpDeliverPacket _ _ _ | OpSetBitrateConfig _ | OpSignalNetworkState _
  | OpOnSentPacket _ _ => preserves registries (step E op)
  | _ => True
  end.
Proof. destruct op; try done; unfold step; leaves_auto. Qed.

Lemma step_registry_ok (op : Op) s r s' :
  registry_ok s -> step E op s = Some (r, s') -> registry_ok s'.
Proof.
  intros Hok H. pose proof (step_registries op) as Hframe.
  destruct op;
    try (by apply (registry_ok_frame s); [apply (Hframe _ _ _ H)|]);
    simpl in H.
  - apply bind_Some in H as (? & ? & H & Hret). unfold ret in Hret.
    injection Hret as _ <-. by eapply CreateAudioSendStream_registry_ok.
  - by eapply DestroyAudioSendStream_registry_ok.
  - apply bind_Some in H as (? & ? & H & Hret). unfold ret in Hret.
    injection Hret as _ <-. by eapply CreateAudioReceiveStream_registry_ok.
  - by eapply DestroyAudioReceiveStream_registry_ok.
  - apply bind_Some in H as (? & ? & H & Hret). unfold ret in Hret.
    injection Hret as _ <-. by eapply CreateVideoSendStream_registry_ok.
  - by eapply DestroyVideoSendStream_registry_ok.
  - apply bind_Some in H as (? & ? & H & Hret). unfold ret in Hret.
    injection Hret as _ <-. by eapply CreateVideoReceiveStream_registry_ok.
  - by eapply DestroyVideoReceiveStream_registry_ok.
Qed.

Lemma run_registry_ok (ops : list Op) s r s' :
  registry_ok s -> run E ops s = Some (r, s') -> registry_ok s'.
Proof.
  revert s. induction ops as [|op ops IH]; intros s Hok H;
    unfold run in H; simpl in H.
  - unfold ret in H. by injection H as _ <-.
  - apply bind_Some in H as ([] & s1 & Hstep & H).
    eapply IH; [|exact H]. by eapply step_registry_ok.
Qed.

Lemma Call_new_registries bitrate_config voice_engine voe_event_log s :
  Call_new E bitrate_config voice_engine voe_event_log = Some s ->
  registries s = (∅, ∅, ∅, ∅, ∅, ∅, ∅, (∅, ∅, ∅, ∅), ∅)
  /\ network_enabled_ s = true
  /\ voice_engine_ s = voice_engine
  /\ event_log_ s = voice_engine && voe_event_log.
Proof.
  unfold Call_new. intros H.
  match type of H with
  | match ?body ?s0 with _ => _ end = _ =>
      destruct (body s0) as [[[] s1]|] eqn:Hbody; [|done];
      assert (Hr : preserves registries body) by leaves_auto;
      assert (Hn : preserves network_enabled_ body) by leaves_auto;
      assert (Hv : preserves voice_engine_ body) by leaves_auto;
      assert (Hl : preserves event_log_ body) by leaves_auto;
      apply Hr in Hbody as Hr'; apply Hn in Hbody as Hn';
      apply Hv in Hbody as Hv'; apply Hl in Hbody as Hl'
  end.
  injection H as <-. by rewrite Hr', Hn', Hv', Hl'.
Qed.

Lemma Call_new_registry_ok bitrate_config voice_engine voe_event_log s :
  Call_new E bitrate_config voice_engine voe_event_log = Some s ->
  registry_ok s.
Proof.
  intros H. apply Call_new_registries in H as [H _].
  unfold registries, registries_but_sync in H.
  injection H as Ha Hb Hc Hd He Hf _ Hg Hh Hi Hj.
  unfold registry_ok. rewrite Ha, Hb, Hc, Hd, He, Hf, Hg, Hh, Hi, Hj, H.
  split_ok; try split; intros ? ?; try rewrite lookup_empty; done.
Qed.

(** ** When the operations on streams return *)

Lemma new_object_fresh k p store s :
  is_live s p = false ->
  new_object (RtpState := RtpState) k p store s
  = Some (tt, with_trace (trace (store s) ++ [EvNew k p]) (store s)).
Proof. intros Hlive. unfold new_object. unfold_m. by rewrite Hlive. Qed.

Lemma RTC_DCHECK_pass b s :
  (dcheck_is_on E = true -> b = true) -> RTC_DCHECK E b s = Some (tt, s).
Proof.
  intros Hb. unfold RTC_DCHECK, RTC_CHECK, ret.
  destruct (dcheck_is_on E); [|done]. by rewrite Hb.
Qed.

Lemma is_end_None {A : Type} (o : option A) : is_end o = true <-> o = None.
Proof. by destruct o. Qed.

Lemma CreateAudioReceiveStream_total p c s :
  registry_ok s -> is_live s p = false ->
  (dcheck_is_on E = true ->
   audio_receive_ssrcs_ s !! ar_rtp_remote_ssrc c = None) ->
  exists s', CreateAudioReceiveStream E p c s = Some (p, s').
Proof.
  intros (Has & Har & Hvs & Hvr & Hanchor) Hlive Hkey.
  unfold CreateAudioReceiveStream. unfold bind at 1.
  rewrite new_object_fresh by done. unfold bind at 1. unfold get.
  unfold bind at 1. rewrite RTC_DCHECK_pass.
  2:{ intros Hon. apply is_end_None. simpl. by apply Hkey. }
  unfold bind at 1. unfold modify at 1. unfold bind at 1.
  apply is_live_audio_receive in Hlive.
  match goal with
  | |- context [ConfigureSync ?g ?st] =>
      destruct (ConfigureSync_total g st) as [s' ->]; simpl
  end.
  - by apply audio_receive_ok_insert.
  - done.
  - by apply sync_anchor_ok_insert.
  - unfold ret. by eexists.
Qed.

Lemma CreateVideoSendStream_total p c s :
  is_live s p = false ->
  (dcheck_is_on E = true ->
   NoDup (vs_rtp_ssrcs c)
   /\ forall k, k ∈ vs_rtp_ssrcs c -> video_send_ssrcs_ s !! k = None) ->
  exists s', CreateVideoSendStream E p c s = Some (p, s').
Proof.
  intros Hlive Hkeys. unfold CreateVideoSendStream. unfold bind at 1.
  rewrite new_object_fresh by done. unfold bind at 1.
  match goal with
  | |- context [for_each ?l (register_video_send_ssrc E p) ?st] =>
      destruct (register_loop_total p l st) as [s1 ->]; [exact Hkeys|]
  end.
  unfold_m. simpl.
  destruct (event_log_ s1), (network_enabled_ s1); simpl; by eexists.
Qed.

Lemma CreateVideoReceiveStream_total p c s :
  registry_ok s -> is_live s p = false ->
  (dcheck_is_on E = true ->
   video_receive_ssrcs_ s !! vr_rtp_remote_ssrc c = None) ->
  exists s', CreateVideoReceiveStream E p c s = Some (p, s').
Proof.
  intros (Has & Har & Hvs & Hvr & Hanchor) Hlive Hkey.
  unfold CreateVideoReceiveStream. unfold bind at 1.
  rewrite new_object_fresh by done. unfold bind at 1. unfold get.
  unfold bind at 1. rewrite RTC_DCHECK_pass.
  2:{ intros Hon. apply is_end_None. simpl. by apply Hkey. }
  unfold bind at 1. unfold modify at 1. unfold bind at 1.
  apply is_live_video_receive in Hlive.
  assert (Hrtx : exists s1,
    match StdMap.zbegin (vr_rtp_rtx c) with
    | Some it =>
        modify (fun s => with_video_receive_ssrcs
                           (<[rtx_ssrc it.2 := p]> (video_receive_ssrcs_ s)) s)
    | None => ret tt
    end
      (with_video_receive_ssrcs
         (<[vr_rtp_remote_ssrc c := p]>
            (video_receive_ssrcs_
               (with_trace
                  (trace (with_video_receive_heap
                            (<[p := c]> (video_receive_heap s)) s)
                   ++ [EvNew VideoReceive p])
                  (with_video_receive_heap
                     (<[p := c]> (video_receive_heap s)) s))))
         (with_trace
            (trace (with_video_receive_heap
                      (<[p := c]> (video_receive_heap s)) s)
             ++ [EvNew VideoReceive p])
            (with_video_receive_heap (<[p := c]> (video_receive_heap s)) s)))
    = Some (tt, s1)
    /\ s1 = with_video_receive_ssrcs
              (receive_entries p c (video_receive_ssrcs_ s))
              (with_trace (trace s ++ [EvNew VideoReceive p])
                 (with_video_receive_heap
                    (<[p := c]> (video_receive_heap s)) s))).
  { unfold receive_entries. destruct (StdMap.zbegin (vr_rtp_rtx c));
      eexists; split; reflexivity. }
  destruct Hrtx as (s1 & -> & ->).
  unfold bind at 1. unfold modify at 1. unfold bind at 1.
  match goal with
  | |- context [ConfigureSync ?g ?st] =>
      destruct (ConfigureSync_total g st) as [s' ->]; simpl
  end.
  - done.
  - by apply video_receive_ok_create.
  - done.
  - unfold_m. simpl.
    destruct (event_log_ s'), (network_enabled_ s'); simpl; by eexists.
Qed.

Lemma DestroyAudioReceiveStream_total p c s :
  registry_ok s -> audio_receive_heap s !! p = Some c ->
  (dcheck_is_on E = true ->
   is_Some (audio_receive_ssrcs_ s !! ar_rtp_remote_ssrc c)) ->
  exists s', DestroyAudioReceiveStream E p s = Some (tt, s').
Proof.
  intros (Has & Har & Hvs & Hvr & Hanchor) Hheap Hkey.
  unfold DestroyAudioReceiveStream. unfold bind at 1. unfold deref at 1.
  rewrite Hheap. unfold bind at 1. unfold get at 1. cbv zeta.
  unfold bind at 1. unfold modify at 1. unfold bind at 1.
  rewrite RTC_DCHECK_pass.
  2:{ intros Hon. destruct (Hkey Hon) as [q Hq]. unfold StdMap.erase.
      by rewrite Hq. }
  unfold bind at 1. unfold get at 1. rewrite StdMap_erase_2.
  cbn [sync_stream_mapping_ with_audio_receive_ssrcs].
  assert (Hok1 : audio_receive_ok
            (delete (ar_rtp_remote_ssrc c) (audio_receive_ssrcs_ s))
            (audio_receive_heap s)).
  { intros k q Hk. apply lookup_delete_Some in Hk as [_ Hk]. by apply Har. }
  assert (Hsync : exists s1,
    match sync_stream_mapping_ s !! ar_sync_group c with
    | Some audio =>
        if Pos.eqb audio p
        then modify (fun s => with_sync_stream_mapping
                                (delete (ar_sync_group c)
                                   (sync_stream_mapping_ s)) s) ;;;
             ConfigureSync (ar_sync_group c)
        else ret tt
    | None => ret tt
    end (with_audio_receive_ssrcs
           (delete (ar_rtp_remote_ssrc c) (audio_receive_ssrcs_ s)) s)
    = Some (tt, s1)).
  { destruct (sync_stream_mapping_ s !! ar_sync_group c) as [a|];
      [|by eexists].
    destruct (Pos.eqb a p); [|by eexists].
    unfold bind, modify.
    match goal with
    | |- context [ConfigureSync ?g ?st] =>
        destruct (ConfigureSync_total g st) as [s1 ->]; simpl
    end; [done|done| |by eexists].
    intros g a' Hg. apply lookup_delete_Some in Hg as [_ Hg].
    by apply Hanchor. }
  unfold bind at 1. destruct Hsync as [s1 ->].
  unfold delete_object. unfold_m. by eexists.
Qed.

Lemma DestroyVideoReceiveStream_total p s :
  registry_ok s -> (exists k, video_receive_ssrcs_ s !! k = Some p) ->
  exists s', DestroyVideoReceiveStream E p s = Some (tt, s').
Proof.
  intros (Has & Har & Hvs & Hvr & Hanchor) [k Hk].
  unfold DestroyVideoReceiveStream. unfold bind at 1. unfold get at 1.
  unfold bind at 1.
  destruct (erase_video_receive_loop_total p
              (StdMap.items (video_receive_ssrcs_ s)) None s)
    as (impl & s1 & Hloop); [by left|].
  rewrite Hloop.
  apply erase_video_receive_loop_inv in Hloop as [-> ->]; [|by left].
  rewrite decide_True.
  2:{ apply list_elem_of_fmap. exists (k, p). split; [done|].
      by apply StdMap_items_elem. }
  unfold bind at 1. unfold modify at 1. unfold bind at 1.
  unfold RTC_CHECK at 1. cbn [is_end negb]. unfold ret at 1.
  destruct (proj1 Hvr _ _ Hk) as (_ & c & Hheap & _).
  unfold bind at 1. unfold deref at 1.
  cbn [video_receive_heap with_video_receive_streams
       with_video_receive_ssrcs]. rewrite Hheap.
  unfold bind at 1.
  match goal with
  | |- context [ConfigureSync ?g ?st] =>
      destruct (ConfigureSync_total g st) as [s2 ->]; simpl
  end; [done| |done|].
  - by apply video_receive_ok_unindex.
  - unfold delete_object. unfold_m. by eexists.
Qed.

Lemma DestroyVideoSendStream_total p s :
  is_Some (video_send_heap s !! p) ->
  (exists k, video_send_ssrcs_ s !! k = Some p) ->
  exists s', DestroyVideoSendStream E p s = Some (tt, s').
Proof.
  intros [config Hheap] [ssrc Hssrc]. unfold DestroyVideoSendStream.
  unfold bind at 1. unfold deref. rewrite Hheap.
  unfold bind at 1. unfold emit, modify.
  unfold bind at 1. unfold get.
  unfold bind at 1.
  destruct (erase_video_send_loop p
              (StdMap.items
                 (video_send_ssrcs_
                    (with_trace (trace s ++ [EvStop VideoSend p]) s)))
              None (with_trace (trace s ++ [EvStop VideoSend p]) s))
    as (r & s2 & Hloop & _ & Hfound).
  rewrite Hloop. rewrite Hfound.
  2:{ apply list_elem_of_fmap. exists (ssrc, p). split; [done|].
      by apply StdMap_items_elem. }
  unfold bind at 1. unfold modify.
  unfold bind at 1. unfold RTC_CHECK, ret. simpl.
  unfold bind at 1. unfold get.
  unfold bind at 1. unfold modify.
  unfold bind at 1.
  match goal with
  | |- context [for_each ?l suspend_rtp_state ?st] =>
      destruct (suspend_loop_total l st) as (s5 & Hcopy); rewrite Hcopy
  end.
  unfold delete_object. unfold_m. eauto.
Qed.

(** X1. In every state that a sequence of calls reaches from the
    constructor, no registry holds the address of a released stream: every
    SSRC index entry, every member of the two sets of video streams and
    every anchor of a sync group points to a live stream; an indexed stream
    is indexed under an SSRC of its own configuration, an indexed video
    stream is a member of its set, and an anchor is configured with the
    group it anchors. *)
Theorem reachable_registry_ok bitrate_config voice_engine voe_event_log
  (ops : list Op) s0 s :
  Call_new E bitrate_config voice_engine voe_event_log = Some s0 ->
  run E ops s0 = Some (tt, s) ->
  registry_ok s.
Proof.
  intros Hnew Hrun. eapply run_registry_ok; [|exact Hrun].
  by eapply Call_new_registry_ok.
Qed.

(** X2. On well-formed registries a creation returns exactly when the
    address is fresh and, in a build with [RTC_DCHECK], the SSRC of the
    configuration is not indexed yet: for a video send stream, when its
    SSRCs are distinct and none is indexed; for a video receive stream,
    when its remote SSRC is not indexed, whatever its RTX SSRC. *)
Theorem creation_returns_iff s p :
  registry_ok s ->
  (forall c,
     is_Some (CreateAudioSendStream E p c s)
     <-> is_live s p = false
         /\ (dcheck_is_on E = true ->
             audio_send_ssrcs_ s !! as_rtp_ssrc c = None))
  /\ (forall c,
        is_Some (CreateAudioReceiveStream E p c s)
        <-> is_live s p = false
            /\ (dcheck_is_on E = true ->
                audio_receive_ssrcs_ s !! ar_rtp_remote_ssrc c = None))
  /\ (forall c,
        is_Some (CreateVideoSendStream E p c s)
        <-> is_live s p = false
            /\ (dcheck_is_on E = true ->
                NoDup (vs_rtp_ssrcs c)
                /\ forall k, k ∈ vs_rtp_ssrcs c ->
                             video_send_ssrcs_ s !! k = None))
  /\ (forall c,
        is_Some (CreateVideoReceiveStream E p c s)
        <-> is_live s p = false
            /\ (dcheck_is_on E = true ->
                video_receive_ssrcs_ s !! vr_rtp_remote_ssrc c = None)).
Proof.
  intros Hok. split; [|split; [|split]]; intros c; split.
  - intros [[r s'] H]. rewrite CreateAudioSendStream_eq in H.
    destruct (is_live s p); [done|]. split; [done|]. intros Hon.
    rewrite Hon in H. simpl in H.
    by destruct (audio_send_ssrcs_ s !! as_rtp_ssrc c).
  - intros [Hlive Hkey]. rewrite CreateAudioSendStream_eq, Hlive.
    destruct (dcheck_is_on E); [|by eexists].
    rewrite Hkey by done. by eexists.
  - intros [[r s'] H].
    by apply CreateAudioReceiveStream_inv in H as (_ & ? & ? & _).
  - intros [Hlive Hkey].
    destruct (CreateAudioReceiveStream_total p c s Hok Hlive Hkey) as [s' ->].
    by eexists.
  - intros [[r s'] H].
    by apply CreateVideoSendStream_inv in H as (_ & ? & ? & _).
  - intros [Hlive Hkey].
    destruct (CreateVideoSendStream_total p c s Hlive Hkey) as [s' ->].
    by eexists.
  - intros [[r s'] H].
    by apply CreateVideoReceiveStream_inv in H as (_ & ? & ? & _).
  - intros [Hlive Hkey].
    destruct (CreateVideoReceiveStream_total p c s Hok Hlive Hkey) as [s' ->].
    by eexists.
Qed.

(** X3. On well-formed registries the destruction of an audio stream
    returns exactly when the stream is live and, in a build with
    [RTC_DCHECK], the SSRC of its configuration is indexed; the destruction
    of a video stream returns, in every build, exactly when an SSRC is
    indexed to the stream: without one the [RTC_CHECK] aborts. *)
Theorem destruction_returns_iff s p :
  registry_ok s ->
  (is_Some (DestroyAudioSendStream E p s)
   <-> exists c, audio_send_heap s !! p = Some c
                 /\ (dcheck_is_on E = true ->
                     is_Some (audio_send_ssrcs_ s !! as_rtp_ssrc c)))
  /\ (is_Some (DestroyAudioReceiveStream E p s)
      <-> exists c, audio_receive_heap s !! p = Some c
                    /\ (dcheck_is_on E = true ->
                        is_Some (audio_receive_ssrcs_ s
                                 !! ar_rtp_remote_ssrc c)))
  /\ (is_Some (DestroyVideoSendStream E p s)
      <-> exists k, video_send_ssrcs_ s !! k = Some p)
  /\ (is_Some (DestroyVideoReceiveStream E p s)
      <-> exists k, video_receive_ssrcs_ s !! k = Some p).
Proof.
  intros Hok. pose proof Hok as (Has & Har & Hvs & Hvr & Hanchor).
  split; [|split; [|split]]; split.
  - intros [[r s'] H]. rewrite DestroyAudioSendStream_eq in H.
    destruct (audio_send_heap s !! p) as [c|]; [|done].
    exists c. split; [done|]. intros Hon. rewrite Hon in H. simpl in H.
    by destruct (audio_send_ssrcs_ s !! as_rtp_ssrc c).
  - intros (c & Hheap & Hkey). rewrite DestroyAudioSendStream_eq, Hheap.
    destruct (dcheck_is_on E); [|by eexists].
    destruct (Hkey eq_refl) as [q ->]. by eexists.
  - intros [[r s'] H].
    apply DestroyAudioReceiveStream_inv in H as (c & _ & ? & ? & _).
    by exists c.
  - intros (c & Hheap & Hkey).
    destruct (DestroyAudioReceiveStream_total p c s Hok Hheap Hkey)
      as [s' ->].
    by eexists.
  - intros [[r s'] H].
    by apply DestroyVideoSendStream_inv in H as (_ & ? & _).
  - intros [k Hk].
    destruct (DestroyVideoSendStream_total p s) as [s' ->];
      [|by exists k|by eexists].
    destruct (proj1 Hvs _ _ Hk) as (_ & c & -> & _). by eexists.
  - intros [[r s'] H].
    by apply DestroyVideoReceiveStream_inv in H as (? & _).
  - intros Hk.
    destruct (DestroyVideoReceiveStream_total p s Hok Hk) as [s' ->].
    by eexists.
Qed.

(** ** A stream that is created and destroyed at once *)

Lemma erase_register_entries p (ssrcs : list N) (m : gmap N ptr) :
  (forall k, k ∈ ssrcs -> m !! k = None) ->
  (forall k, m !! k <> Some p) ->
  erase_entries p (StdMap.items (register_entries p ssrcs m))
    (register_entries p ssrcs m) = m.
Proof.
  intros Habsent Hfresh. apply map_eq. intros k.
  rewrite erase_entries_items, register_entries_lookup.
  destruct (decide (k ∈ ssrcs)) as [Hin|Hnotin].
  - rewrite decide_True by done. symmetry. by apply Habsent.
  - rewrite decide_False; [done|]. apply Hfresh.
Qed.

Lemma erase_receive_entries p c (m : gmap N ptr) :
  (forall k, k ∈ receive_keys c -> m !! k = None) ->
  (forall k, m !! k <> Some p) ->
  erase_entries p (StdMap.items (receive_entries p c m))
    (receive_entries p c m) = m.
Proof.
  intros Habsent Hfresh. apply map_eq. intros k.
  rewrite erase_entries_items, receive_entries_lookup.
  destruct (decide (k ∈ receive_keys c)) as [Hin|Hnotin].
  - rewrite decide_True by done. symmetry. by apply Habsent.
  - rewrite decide_False; [done|]. apply Hfresh.
Qed.

Lemma add_remove_stream (p : ptr) (X : gset ptr) :
  p ∉ X -> ({[p]} ∪ X) ∖ {[p]} = X.
Proof.
  intros Hp. apply set_eq. intros q.
  rewrite elem_of_difference, elem_of_union, elem_of_singleton.
  split.
  - intros [[->|Hq] Hne]; [by destruct Hne|done].
  - intros Hq. split; [by right|]. by intros ->.
Qed.

Lemma ConfigureSync_settings g :
  preserves (settings (RtpState := RtpState)) (ConfigureSync g).
Proof. apply ConfigureSync_preserves. by split. Qed.

(** X4. An audio send stream that is created under a new SSRC and then
    destroyed leaves the call as it was but for the trace: the destruction
    returns, and the index and the heap are those of before. *)
Theorem audio_send_round_trip s p c s1 :
  audio_send_ssrcs_ s !! as_rtp_ssrc c = None ->
  CreateAudioSendStream E p c s = Some (p, s1) ->
  DestroyAudioSendStream E p s1
  = Some (tt, with_trace
                (trace s ++ EvNew AudioSend p :: down_signal AudioSend p s
                 ++ [EvStop AudioSend p; EvDelete AudioSend p]) s).
Proof.
  intros Hkey H. rewrite CreateAudioSendStream_eq in H.
  destruct (is_live s p) eqn:Hlive; [done|].
  destruct (_ && _); [done|]. injection H as <-.
  apply is_live_audio_send in Hlive.
  rewrite DestroyAudioSendStream_eq. simpl.
  rewrite !lookup_insert_eq, andb_false_r.
  rewrite !delete_insert_id by done.
  do 2 f_equal. destruct s. unfold with_trace. simpl.
  by rewrite <- !app_assoc.
Qed.

(** X5. A video send stream that is created under new SSRCs, at least
    one, and then destroyed leaves the call as it was but for the trace and
    the suspended RTP states, which take up the snapshot of the stream: what
    [GetRtpStates] of the stream answers when it is asked, in the call as it
    was before the creation but for the trace and the stream, still live. *)
Theorem video_send_round_trip s p c s1 :
  registry_ok s ->
  vs_rtp_ssrcs c <> [] ->
  (forall k, k ∈ vs_rtp_ssrcs c -> video_send_ssrcs_ s !! k = None) ->
  CreateVideoSendStream E p c s = Some (p, s1) ->
  let asked :=
    with_trace (trace s1 ++ [EvStop VideoSend p])
      (with_video_send_heap (<[p := c]> (video_send_heap s)) s) in
  let snapshot := VideoSendStream_GetRtpStates E asked p in
  unregistered_video_send p s1 = asked
  /\ DestroyVideoSendStream E p s1
     = Some (tt,
             with_trace
               (trace s1 ++ [EvStop VideoSend p; EvGetRtpStates p snapshot;
                             EvDelete VideoSend p])
               (with_suspended_video_send_ssrcs
                  (foldl (fun m kv => <[kv.1 := kv.2]> m)
                     (suspended_video_send_ssrcs_ s) (StdMap.items snapshot))
                  s)).
Proof.
  intros (_ & _ & [Hindex Hset] & _) Hsome Hkeys H.
  apply CreateVideoSendStream_inv in H as (_ & Hlive & _ & ->).
  apply is_live_video_send in Hlive.
  assert (Hfresh : forall k, video_send_ssrcs_ s !! k <> Some p).
  { intros k Hk. destruct (Hindex _ _ Hk) as (_ & c' & Hc' & _). congruence. }
  assert (Hnotin : p ∉ video_send_streams_ s).
  { intros Hin. destruct (Hset _ Hin) as [c' Hc']. congruence. }
  cbv zeta.
  match goal with
  | |- unregistered_video_send p ?st = ?asked /\ _ =>
      assert (Hasked : unregistered_video_send p st = asked)
  end.
  { unfold unregistered_video_send. simpl.
    rewrite erase_register_entries by done.
    rewrite add_remove_stream by done.
    by destruct s. }
  split; [exact Hasked|].
  match goal with
  | |- context [DestroyVideoSendStream E p ?st] =>
      destruct (DestroyVideoSendStream_total p st) as [s2 Hs2]
  end.
  { simpl. rewrite lookup_insert_eq. by eexists. }
  { assert (Hk : exists k, k ∈ vs_rtp_ssrcs c).
    { destruct (vs_rtp_ssrcs c) as [|k ssrcs]; [done|].
      exists k. by apply elem_of_cons; left. }
    destruct Hk as [k Hk]. exists k.
    cbn [video_send_ssrcs_ with_trace with_video_send_streams
         with_video_send_ssrcs].
    rewrite register_entries_lookup. by rewrite decide_True. }
  rewrite Hs2.
  apply DestroyVideoSendStream_run in Hs2 as (_ & _ & ->).
  rewrite Hasked. simpl.
  rewrite erase_register_entries by done.
  rewrite add_remove_stream by done.
  rewrite delete_insert_id by done.
  do 2 f_equal.
Qed.

(** X6. An audio receive stream that is created under a new SSRC and
    then destroyed leaves every index, set, heap and setting of the call as
    it was: the destruction returns, and only the trace and the anchors of
    the sync groups may differ. *)
Theorem audio_receive_round_trip s p c s1 :
  registry_ok s ->
  audio_receive_ssrcs_ s !! ar_rtp_remote_ssrc c = None ->
  CreateAudioReceiveStream E p c s = Some (p, s1) ->
  exists s2,
    DestroyAudioReceiveStream E p s1 = Some (tt, s2)
    /\ registries_but_sync s2 = registries_but_sync s
    /\ settings s2 = settings s.
Proof.
  intros Hok Hkey H.
  pose proof (CreateAudioReceiveStream_registry_ok _ _ _ _ _ Hok H) as Hok1.
  apply CreateAudioReceiveStream_inv in H as (_ & Hlive & _ & Hsync).
  apply is_live_audio_receive in Hlive.
  pose proof (ConfigureSync_registries_but_sync _ _ _ _ Hsync) as Hreg1.
  pose proof (ConfigureSync_settings _ _ _ _ Hsync) as Hset1.
  unfold registries_but_sync in Hreg1. simpl in Hreg1.
  injection Hreg1 as Ha Hb Hc Hd He Hf Hsusp Hg Hh Hi Hj.
  destruct (DestroyAudioReceiveStream_total p c s1 Hok1) as [s2 Hs2].
  { by rewrite Hh, lookup_insert_eq. }
  { intros _. rewrite Hb, lookup_insert_eq. by eexists. }
  exists s2. split; [done|].
  apply DestroyAudioReceiveStream_inv in Hs2
    as (c' & s3 & Hheap & _ & -> & Hcase).
  assert (c' = c) as ->.
  { rewrite Hh, lookup_insert_eq in Hheap. congruence. }
  cbv zeta in Hcase.
  assert (Hs3 : registries_but_sync s3
                = registries_but_sync
                    (with_audio_receive_ssrcs
                       (delete (ar_rtp_remote_ssrc c)
                          (audio_receive_ssrcs_ s1)) s1)
                /\ settings s3 = settings s1).
  { destruct (decide _).
    - split.
      + by rewrite (ConfigureSync_registries_but_sync _ _ _ _ Hcase).
      + by rewrite (ConfigureSync_settings _ _ _ _ Hcase).
    - by subst s3. }
  destruct Hs3 as [Hreg3 Hset3].
  unfold registries_but_sync in Hreg3. simpl in Hreg3.
  injection Hreg3 as Ha3 Hb3 Hc3 Hd3 He3 Hf3 Hsusp3 Hg3 Hh3 Hi3 Hj3.
  split.
  - unfold registries_but_sync. simpl.
    rewrite Ha3, Hb3, Hc3, Hd3, He3, Hf3, Hsusp3, Hg3, Hh3, Hi3, Hj3.
    rewrite Ha, Hb, Hc, Hd, He, Hf, Hsusp, Hg, Hh, Hi, Hj.
    by rewrite !delete_insert_id.
  - unfold settings in *. simpl. by rewrite Hset3, Hset1.
Qed.

(** X7. A video receive stream that is created under new SSRCs and then
    destroyed leaves every index, set, heap and setting of the call as it
    was: the destruction returns, and only the trace and the anchors of the
    sync groups may differ. *)
Theorem video_receive_round_trip s p c s1 :
  registry_ok s ->
  (forall k, k ∈ receive_keys c -> video_receive_ssrcs_ s !! k = None) ->
  CreateVideoReceiveStream E p c s = Some (p, s1) ->
  exists s2,
    DestroyVideoReceiveStream E p s1 = Some (tt, s2)
    /\ registries_but_sync s2 = registries_but_sync s
    /\ settings s2 = settings s.
Proof.
  intros Hok Hkeys H.
  pose proof (CreateVideoReceiveStream_registry_ok _ _ _ _ _ Hok H) as Hok1.
  destruct Hok as (_ & _ & _ & [Hindex Hset] & _).
  apply CreateVideoReceiveStream_inv in H
    as (_ & Hlive & _ & s0 & Hsync & ->).
  apply is_live_video_receive in Hlive.
  assert (Hfresh : forall k, video_receive_ssrcs_ s !! k <> Some p).
  { intros k Hk. destruct (Hindex _ _ Hk) as (_ & c' & Hc' & _). congruence. }
  assert (Hnotin : p ∉ video_receive_streams_ s).
  { intros Hin. destruct (Hset _ Hin) as [c' Hc']. congruence. }
  pose proof (ConfigureSync_registries_but_sync _ _ _ _ Hsync) as Hreg1.
  pose proof (ConfigureSync_settings _ _ _ _ Hsync) as Hset1.
  unfold registries_but_sync in Hreg1. simpl in Hreg1.
  injection Hreg1 as Ha Hb Hc Hd He Hf Hsusp Hg Hh Hi Hj.
  match goal with
  | |- context [DestroyVideoReceiveStream E p ?st] =>
      destruct (DestroyVideoReceiveStream_total p st Hok1) as [s2 Hs2]
  end.
  { exists (vr_rtp_remote_ssrc c). simpl. rewrite Hd.
    rewrite receive_entries_lookup. rewrite decide_True; [done|].
    unfold receive_keys. by apply elem_of_cons; left. }
  exists s2. split; [done|].
  apply DestroyVideoReceiveStream_inv in Hs2
    as (_ & c' & s3 & Hheap & Hsync3 & ->).
  pose proof (ConfigureSync_registries_but_sync _ _ _ _ Hsync3) as Hreg3.
  pose proof (ConfigureSync_settings _ _ _ _ Hsync3) as Hset3.
  unfold registries_but_sync in Hreg3. simpl in Hreg3.
  injection Hreg3 as Ha3 Hb3 Hc3 Hd3 He3 Hf3 Hsusp3 Hg3 Hh3 Hi3 Hj3.
  split.
  - unfold registries_but_sync. simpl.
    rewrite Ha3, Hb3, Hc3, Hd3, He3, Hf3, Hsusp3, Hg3, Hh3, Hi3, Hj3.
    rewrite Ha, Hb, Hc, Hd, He, Hf, Hsusp, Hg, Hh, Hi, Hj.
    rewrite erase_receive_entries by done.
    rewrite add_remove_stream by done.
    by rewrite delete_insert_id.
  - unfold settings in *. simpl in *. by rewrite Hset3, Hset1.
Qed.

(** ** A video stream that no SSRC is indexed to *)

Lemma step_leaves_video_send (op : Op) :
  match op with
  | OpCreateVideoSendStream _ _ | OpDestroyVideoSendStream _ => True
  | _ =>
      preserves (fun s => (video_send_ssrcs_ s, video_send_streams_ s))
        (step E op)
  end.
Proof. destruct op; try done; unfold step; leaves_auto. Qed.

Lemma step_leaves_video_receive (op : Op) :
  match op with
  | OpCreateVideoReceiveStream _ _ | OpDestroyVideoReceiveStream _ => True
  | _ =>
      preserves (fun s => (video_receive_ssrcs_ s, video_receive_streams_ s))
        (step E op)
  end.
Proof. destruct op; try done; unfold step; leaves_auto. Qed.

Lemma step_stranded_send p (op : Op) s r s' :
  registry_ok s -> p ∈ video_send_streams_ s ->
  (forall k, video_send_ssrcs_ s !! k <> Some p) ->
  step E op s = Some (r, s') ->
  p ∈ video_send_streams_ s'
  /\ forall k, video_send_ssrcs_ s' !! k <> Some p.
Proof.
  intros (_ & _ & [Hindex Hset] & _) Hin Hnone H.
  pose proof (step_leaves_video_send op) as Hframe.
  destruct op;
    try (apply Hframe in H; injection H as -> ->; done); simpl in H.
  - apply bind_Some in H as (? & ? & H & Hret). unfold ret in Hret.
    injection Hret as _ <-.
    apply CreateVideoSendStream_inv in H as (_ & Hlive & _ & ->).
    apply is_live_video_send in Hlive. simpl. split.
    + apply elem_of_union. by right.
    + intros k. rewrite register_entries_lookup.
      destruct (decide _); [|apply Hnone].
      intros [= ->]. destruct (Hset _ Hin). congruence.
  - apply DestroyVideoSendStream_inv in H as (_ & [k0 Hk0] & snapshot & ->).
    simpl. split.
    + apply elem_of_difference. split; [done|].
      apply not_elem_of_singleton. intros ->. by apply (Hnone k0).
    + intros k. rewrite erase_entries_items.
      destruct (decide _); [done|apply Hnone].
Qed.

Lemma step_stranded_receive p (op : Op) s r s' :
  registry_ok s -> p ∈ video_receive_streams_ s ->
  (forall k, video_receive_ssrcs_ s !! k <> Some p) ->
  step E op s = Some (r, s') ->
  p ∈ video_receive_streams_ s'
  /\ forall k, video_receive_ssrcs_ s' !! k <> Some p.
Proof.
  intros (_ & _ & _ & [Hindex Hset] & _) Hin Hnone H.
  pose proof (step_leaves_video_receive op) as Hframe.
  destruct op;
    try (apply Hframe in H; injection H as -> ->; done); simpl in H.
  - apply bind_Some in H as (? & ? & H & Hret). unfold ret in Hret.
    injection Hret as _ <-.
    apply CreateVideoReceiveStream_inv in H
      as (_ & Hlive & _ & s2 & Hsync & ->).
    apply is_live_video_receive in Hlive.
    pose proof (ConfigureSync_registries_but_sync _ _ _ _ Hsync) as Hreg.
    unfold registries_but_sync in Hreg. simpl in Hreg.
    injection Hreg as _ _ _ Hd _ Hf _ _ _ _ _.
    simpl. rewrite Hd, Hf. split.
    + apply elem_of_union. by right.
    + intros k. rewrite receive_entries_lookup.
      destruct (decide _); [|apply Hnone].
      intros [= ->]. destruct (Hset _ Hin). congruence.
  - apply DestroyVideoReceiveStream_inv in H
      as ([k0 Hk0] & c & s2 & _ & Hsync & ->).
    pose proof (ConfigureSync_registries_but_sync _ _ _ _ Hsync) as Hreg.
    unfold registries_but_sync in Hreg. simpl in Hreg.
    injection Hreg as _ _ _ Hd _ Hf _ _ _ _ _.
    simpl. rewrite Hd, Hf. split.
    + apply elem_of_difference. split; [done|].
      apply not_elem_of_singleton. intros ->. by apply (Hnone k0).
    + intros k. rewrite erase_entries_items.
      destruct (decide _); [done|apply Hnone].
Qed.

Lemma Call_delete_video_send p s :
  p ∈ video_send_streams_ s -> Call_delete s = None.
Proof.
  intros Hin. unfold Call_delete. unfold_m.
  repeat (case_bool_decide; simpl; try done).
  match goal with H : video_send_streams_ s = ∅ |- _ => rewrite H in Hin end.
  by apply not_elem_of_empty in Hin.
Qed.

Lemma Call_delete_video_receive p s :
  p ∈ video_receive_streams_ s -> Call_delete s = None.
Proof.
  intros Hin. unfold Call_delete. unfold_m.
  repeat (case_bool_decide; simpl; try done).
  match goal with H : video_receive_streams_ s = ∅ |- _ => rewrite H in Hin end.
  by apply not_elem_of_empty in Hin.
Qed.

(** X8. A video stream of the set of its kind to which no SSRC is
    indexed stays so whatever is called: its destruction aborts in every
    build, no creation gives it an SSRC, and the checks of the destructor
    of the call fail. *)
Theorem unindexed_video_stream_is_stranded (ops : list Op) s s' p :
  registry_ok s ->
  run E ops s = Some (tt, s') ->
  (p ∈ video_send_streams_ s ->
   (forall k, video_send_ssrcs_ s !! k <> Some p) ->
   p ∈ video_send_streams_ s'
   /\ (forall k, video_send_ssrcs_ s' !! k <> Some p)
   /\ DestroyVideoSendStream E p s' = None
   /\ Call_delete s' = None)
  /\ (p ∈ video_receive_streams_ s ->
      (forall k, video_receive_ssrcs_ s !! k <> Some p) ->
      p ∈ video_receive_streams_ s'
      /\ (forall k, video_receive_ssrcs_ s' !! k <> Some p)
      /\ DestroyVideoReceiveStream E p s' = None
      /\ Call_delete s' = None).
Proof.
  intros Hok Hrun. split; intros Hin Hnone.
  - assert (Hkept : p ∈ video_send_streams_ s'
                    /\ forall k, video_send_ssrcs_ s' !! k <> Some p).
    { revert s Hok Hin Hnone Hrun.
      induction ops as [|op ops IH]; intros s Hok Hin Hnone Hrun;
        unfold run in Hrun; simpl in Hrun.
      - unfold ret in Hrun. by injection Hrun as <-.
      - apply bind_Some in Hrun as ([] & s1 & Hstep & Hrun).
        destruct (step_stranded_send _ _ _ _ _ Hok Hin Hnone Hstep).
        eapply IH; [|done|done|exact Hrun].
        by eapply step_registry_ok. }
    destruct Hkept as [Hin' Hnone']. split; [done|]. split; [done|]. split.
    + destruct (DestroyVideoSendStream E p s') as [[r s2]|] eqn:H; [|done].
      apply DestroyVideoSendStream_inv in H as (_ & [k Hk] & _).
      by destruct (Hnone' k).
    + by eapply Call_delete_video_send.
  - assert (Hkept : p ∈ video_receive_streams_ s'
                    /\ forall k, video_receive_ssrcs_ s' !! k <> Some p).
    { revert s Hok Hin Hnone Hrun.
      induction ops as [|op ops IH]; intros s Hok Hin Hnone Hrun;
        unfold run in Hrun; simpl in Hrun.
      - unfold ret in Hrun. by injection Hrun as <-.
      - apply bind_Some in Hrun as ([] & s1 & Hstep & Hrun).
        destruct (step_stranded_receive _ _ _ _ _ Hok Hin Hnone Hstep).
        eapply IH; [|done|done|exact Hrun].
        by eapply step_registry_ok. }
    destruct Hkept as [Hin' Hnone']. split; [done|]. split; [done|]. split.
    + destruct (DestroyVideoReceiveStream E p s') as [[r s2]|] eqn:H; [|done].
      apply DestroyVideoReceiveStream_inv in H as ([k Hk] & _).
      by destruct (Hnone' k).
    + by eapply Call_delete_video_receive.
Qed.

(** ** The state of the network *)

Lemma emit_loop {A : Type} (f : A -> Event RtpState) (l : list A) s :
  for_each l (fun x => emit (f x)) s
  = Some (tt, with_trace (trace s ++ (f <$> l)) s).
Proof.
  revert s. induction l as [|x l IH]; intros s; simpl.
  - unfold ret. by rewrite with_trace_nil.
  - unfold bind at 1. unfold emit at 1. unfold modify. rewrite IH.
    unfold with_trace. simpl. by rewrite <- app_assoc.
Qed.

Lemma SignalNetworkState_eq s state :
  SignalNetworkState state s
  = Some (tt,
          with_trace
            (trace s ++ EvCongestionSignalNetworkState state
             :: ((fun kp => EvSignalNetworkState kp.1 kp.2 state)
                 <$> signal_targets s))
            (with_network_enabled (NetworkState_eqb state kNetworkUp) s)).
Proof.
  unfold SignalNetworkState. unfold bind at 1. unfold modify at 1.
  unfold bind at 1. unfold emit at 1. unfold modify at 1.
  unfold bind at 1. unfold get at 1.
  unfold bind at 1. rewrite emit_loop.
  unfold bind at 1. rewrite emit_loop. rewrite emit_loop.
  unfold signal_targets, with_trace. simpl.
  rewrite !fmap_app, <- !list_fmap_compose, <- !app_assoc. simpl.
  done.
Qed.

(** X9. [SignalNetworkState] returns on every state; it stores the new
    state of the network, tells the congestion controller first and then
    notifies the streams of the indices of audio send, video send and video
    receive streams, in this order and once for every SSRC indexed: a
    stream indexed under two SSRCs is notified twice, an audio receive
    stream never. *)
Theorem SignalNetworkState_broadcast s state :
  SignalNetworkState state s
  = Some (tt,
          with_trace
            (trace s ++ EvCongestionSignalNetworkState state
             :: ((fun kp => EvSignalNetworkState kp.1 kp.2 state)
                 <$> signal_targets s))
            (with_network_enabled (NetworkState_eqb state kNetworkUp) s))
  /\ (forall p, (AudioReceive, p) ∉ signal_targets s)
  /\ (forall p,
        length (filter (fun kp => kp.2 = p) (signal_targets s))
        = (length (filter (fun kv => kv.2 = p)
                     (StdMap.items (audio_send_ssrcs_ s)))
           + length (filter (fun kv => kv.2 = p)
                       (StdMap.items (video_send_ssrcs_ s)))
           + length (filter (fun kv => kv.2 = p)
                       (StdMap.items (video_receive_ssrcs_ s))))%nat).
Proof.
  split; [apply SignalNetworkState_eq|]. split.
  - intros p Hin. unfold signal_targets in Hin.
    rewrite !elem_of_app in Hin.
    destruct Hin as [Hin|[Hin|Hin]];
      apply list_elem_of_fmap in Hin as (? & [=] & _).
  - intros p. unfold signal_targets.
    assert (Hcount : forall k (l : list (N * ptr)),
              length (filter (fun kp : StreamKind * ptr => kp.2 = p)
                        (pair k <$> l.*2))
              = length (filter (fun kv : N * ptr => kv.2 = p) l)).
    { intros k l. induction l as [|kv l IH]; [done|].
      rewrite !fmap_cons.
      destruct (decide (kv.2 = p)) as [Heq|Hne].
      - rewrite !filter_cons_True by done. simpl. by rewrite IH.
      - by rewrite !filter_cons_False. }
    rewrite !filter_app, !length_app, !Hcount. lia.
Qed.

Lemma step_network (op : Op) :
  match op with
  | OpSignalNetworkState _ => True
  | _ => preserves network_enabled_ (step E op)
  end.
Proof. destruct op; try done; unfold step; leaves_auto. Qed.

Lemma step_fixed_members (op : Op) :
  preserves (fixed_members (RtpState := RtpState)) (step E op).
Proof. destruct op; unfold step; leaves_auto. Qed.

(** X10. After any sequence of calls the network flag is the state of the
    last call of [SignalNetworkState], or what it was without such a call:
    no other operation writes it; and no operation writes whether the call
    has a voice engine or an event log. *)
Theorem network_flag_follows_last_signal (ops : list Op) s r s' :
  run E ops s = Some (r, s') ->
  network_enabled_ s' = last_network_state ops (network_enabled_ s)
  /\ fixed_members s' = fixed_members s.
Proof.
  revert s. induction ops as [|op ops IH]; intros s H;
    unfold run in H; simpl in H.
  - unfold ret in H. by injection H as _ <-.
  - apply bind_Some in H as ([] & s1 & Hstep & H).
    apply IH in H as [-> ->].
    rewrite (step_fixed_members op _ _ _ Hstep). split; [|done].
    pose proof (step_network op) as Hframe.
    destruct op; try (by rewrite (Hframe _ _ _ Hstep)).
    simpl in Hstep. rewrite SignalNetworkState_eq in Hstep.
    by injection Hstep as <-.
Qed.

Lemma signalled_app (a b : list (Event RtpState)) :
  signalled (a ++ b) = signalled a ++ signalled b.
Proof.
  induction a as [|e a IH]; [done|]. destruct e; simpl; by rewrite ?IH.
Qed.

Lemma sync_events_not_signalled (evs : list (Event RtpState)) :
  Forall sync_event evs -> signalled evs = [].
Proof. induction 1 as [|e evs He _ IH]; [done|]. by destruct e. Qed.

(** X11. A stream that is created while the network is up is not
    notified of the state of the network, and neither is any other stream:
    the creation makes no call of [SignalNetworkState]. *)
Theorem creation_with_network_up_is_silent s p :
  network_enabled_ s = true ->
  (forall c r s',
     CreateAudioSendStream E p c s = Some (r, s') ->
     signalled (events_since s s') = [])
  /\ (forall c r s',
        CreateAudioReceiveStream E p c s = Some (r, s') ->
        signalled (events_since s s') = [])
  /\ (forall c r s',
        CreateVideoSendStream E p c s = Some (r, s') ->
        signalled (events_since s s') = [])
  /\ (forall c r s',
        CreateVideoReceiveStream E p c s = Some (r, s') ->
        signalled (events_since s s') = []).
Proof.
  intros Hup. split; [|split; [|split]]; intros c r s' H.
  - rewrite CreateAudioSendStream_eq in H.
    destruct (is_live s p); [done|]. destruct (_ && _); [done|].
    injection H as _ <-.
    erewrite events_since_extends; [|simpl; reflexivity].
    unfold down_signal. by rewrite Hup.
  - apply CreateAudioReceiveStream_inv in H as (_ & _ & _ & Hsync).
    destruct (ConfigureSync_emits _ _ _ _ Hsync) as (evs & Htrace & Hevs).
    simpl in Htrace. rewrite <- app_assoc in Htrace.
    rewrite (events_since_extends _ _ _ Htrace).
    simpl. by apply sync_events_not_signalled.
  - apply CreateVideoSendStream_inv in H as (_ & _ & _ & ->).
    erewrite events_since_extends; [|simpl; reflexivity].
    unfold down_signal. rewrite Hup.
    by destruct (event_log_ s).
  - apply CreateVideoReceiveStream_inv in H as (_ & _ & _ & s2 & Hsync & ->).
    destruct (ConfigureSync_emits _ _ _ _ Hsync) as (evs & Htrace & Hevs).
    simpl in Htrace.
    erewrite events_since_extends.
    2:{ simpl. rewrite Htrace, <- !app_assoc. reflexivity. }
    unfold down_signal. rewrite Hup. simpl.
    rewrite signalled_app, sync_events_not_signalled by done.
    by destruct (event_log_ s).
Qed.

(** ** The suspended RTP states *)

Lemma step_keeps_rtp_states (op : Op) :
  match op with
  | OpDestroyVideoSendStream _ => True
  | _ => preserves suspended_video_send_ssrcs_ (step E op)
  end.
Proof. destruct op; try done; unfold step; leaves_auto. Qed.

Lemma foldl_insert_is_Some (l : list (N * RtpState)) (m : gmap N RtpState) k :
  is_Some (m !! k) ->
  is_Some (foldl (fun m kv => <[kv.1 := kv.2]> m) m l !! k).
Proof.
  revert m. induction l as [|kv l IH]; intros m Hk; [done|].
  simpl. apply IH. apply lookup_insert_is_Some.
  destruct (decide (kv.1 = k)); [by left|by right].
Qed.

(** X12. The RTP states that the call has suspended are never
    forgotten: whatever is called, an SSRC with a suspended state keeps
    one, and only the destruction of a video send stream writes the map. *)
Theorem suspended_rtp_states_are_kept (ops : list Op) s r s' :
  run E ops s = Some (r, s') ->
  (forall k, is_Some (suspended_video_send_ssrcs_ s !! k) ->
             is_Some (suspended_video_send_ssrcs_ s' !! k))
  /\ (Forall keeps_rtp_states ops ->
      suspended_video_send_ssrcs_ s' = suspended_video_send_ssrcs_ s).
Proof.
  revert s. induction ops as [|op ops IH]; intros s H;
    unfold run in H; simpl in H.
  - unfold ret in H. by injection H as _ <-.
  - apply bind_Some in H as ([] & s1 & Hstep & H).
    apply IH in H as [Hkept Hsame].
    pose proof (step_keeps_rtp_states op) as Hframe. split.
    + intros k Hk. apply Hkept.
      destruct op; try (by rewrite (Hframe _ _ _ Hstep)).
      simpl in Hstep.
      apply DestroyVideoSendStream_inv in Hstep as (_ & _ & snapshot & ->).
      simpl. by apply foldl_insert_is_Some.
    + intros Hops. apply Forall_cons in Hops as [Hop Hops].
      rewrite Hsame by done.
      destruct op; try done; by rewrite (Hframe _ _ _ Hstep).
Qed.

(** ** The anchors of the sync groups *)

(** X13. The sync resolver leaves the anchors of the other groups alone
    and keeps an anchor that the group has; without a voice engine, or for
    the empty group, it elects none; otherwise it elects the first audio
    receive stream of the group in the order of the indexed SSRCs, and none
    when no indexed audio receive stream is of the group. *)
Theorem sync_anchor_election g s s' :
  ConfigureSync g s = Some (tt, s') ->
  (forall g', g' <> g ->
     sync_stream_mapping_ s' !! g' = sync_stream_mapping_ s !! g')
  /\ (is_Some (sync_stream_mapping_ s !! g) ->
      sync_stream_mapping_ s' = sync_stream_mapping_ s)
  /\ (voice_engine_ s = false \/ string_empty g = true ->
      sync_stream_mapping_ s' = sync_stream_mapping_ s)
  /\ (voice_engine_ s = true -> string_empty g = false ->
      sync_stream_mapping_ s !! g = None ->
      sync_stream_mapping_ s' !! g = head (audio_in_group s g)).
Proof. apply ConfigureSync_mapping. Qed.

(** X14. The destruction of an audio receive stream that anchors no
    group leaves the anchors as they are. The destruction of the anchor of
    its group removes it as the anchor and, with a voice engine and a group
    that is not empty, elects the first audio receive stream of the group
    among those still indexed, in the order of their SSRCs; the anchors of
    the other groups stay. *)
Theorem sync_anchor_reelected_on_destroy s p c s' :
  audio_receive_heap s !! p = Some c ->
  DestroyAudioReceiveStream E p s = Some (tt, s') ->
  let g := ar_sync_group c in
  let rest :=
    with_audio_receive_ssrcs
      (delete (ar_rtp_remote_ssrc c) (audio_receive_ssrcs_ s)) s in
  (sync_stream_mapping_ s !! g <> Some p ->
   sync_stream_mapping_ s' = sync_stream_mapping_ s)
  /\ (sync_stream_mapping_ s !! g = Some p ->
      (forall g', g' <> g ->
         sync_stream_mapping_ s' !! g' = sync_stream_mapping_ s !! g')
      /\ sync_stream_mapping_ s' !! g
         = if voice_engine_ s && negb (string_empty g)
           then head (audio_in_group rest g)
           else None).
Proof.
  intros Hheap H. cbv zeta.
  apply DestroyAudioReceiveStream_inv in H
    as (c' & s2 & Hheap' & _ & -> & Hcase).
  assert (c' = c) as -> by congruence. cbv zeta in Hcase.
  destruct (decide (sync_stream_mapping_ s !! ar_sync_group c = Some p))
    as [Hanch|Hanch].
  - split; [done|]. intros _.
    destruct (ConfigureSync_mapping _ _ _ _ Hcase)
      as (Hother & _ & Hoff & Helect). simpl in *.
    split.
    + intros g' Hne. rewrite Hother by done. by rewrite lookup_delete_ne.
    + destruct (voice_engine_ s) eqn:Hvoice; simpl.
      2:{ rewrite Hoff; [|by left]. apply lookup_delete_eq. }
      destruct (string_empty (ar_sync_group c)) eqn:Hempty; simpl.
      { rewrite Hoff; [|by right]. apply lookup_delete_eq. }
      rewrite Helect; [done|done|done|apply lookup_delete_eq].
  - subst s2. split; [done|]. intros Hyes. by destruct Hanch.
Qed.

(** ** The bitrates *)

Lemma step_bitrates (op : Op) :
  match op with
  | OpSetBitrateConfig _ => True
  | _ => preserves bitrate_config_ (step E op)
  end.
Proof. destruct op; try done; unfold step; leaves_auto. Qed.

(** X15. In a build with [RTC_DCHECK] the constructor returns exactly
    for bitrates with [0 <= min <= start] and, unless [max] is [-1], with
    [start <= max]; [SetBitrateConfig] returns exactly for [0 <= min] and
    [max] either [-1] or positive, whatever the start bitrate. In a build
    without, both return always. *)
Theorem bitrate_checks (c : BitrateConfig) voice_engine voe_event_log s :
  (is_Some (Call_new E c voice_engine voe_event_log)
   <-> (dcheck_is_on E = true ->
        0 <= min_bitrate_bps c <= start_bitrate_bps c
        /\ (max_bitrate_bps c = -1
            \/ start_bitrate_bps c <= max_bitrate_bps c)))
  /\ (is_Some (SetBitrateConfig E c s)
      <-> (dcheck_is_on E = true ->
           0 <= min_bitrate_bps c
           /\ (max_bitrate_bps c = -1 \/ 0 < max_bitrate_bps c))).
Proof.
  split.
  - unfold Call_new. unfold_m. simpl.
    destruct (dcheck_is_on E).
    2:{ split; [done|]. intros _.
        destruct (negb _); by eexists. }
    destruct (Z.leb_spec 0 (min_bitrate_bps c)) as [Hmin|Hmin]; simpl.
    2:{ split; [by intros []|]. intros H. specialize (H eq_refl). lia. }
    destruct (Z.leb_spec (min_bitrate_bps c) (start_bitrate_bps c))
      as [Hstart|Hstart]; simpl.
    2:{ split; [by intros []|]. intros H. specialize (H eq_refl). lia. }
    destruct (Z.eqb_spec (max_bitrate_bps c) (-1)) as [Hmax|Hmax]; simpl.
    { split; [|by eexists]. intros _ _. split; [lia|by left]. }
    destruct (Z.leb_spec (start_bitrate_bps c) (max_bitrate_bps c))
      as [Hle|Hle]; simpl.
    + split; [|by eexists]. intros _ _. split; [lia|by right].
    + split; [by intros []|]. intros H. specialize (H eq_refl). lia.
  - unfold SetBitrateConfig. unfold_m. simpl.
    destruct (dcheck_is_on E).
    2:{ split; [done|]. intros _.
        destruct (negb _); destruct (_ && _); by eexists. }
    destruct (Z.leb_spec 0 (min_bitrate_bps c)) as [Hmin|Hmin]; simpl.
    2:{ split; [by intros []|]. intros H. specialize (H eq_refl). lia. }
    destruct (Z.eqb_spec (max_bitrate_bps c) (-1)) as [Hmax|Hmax]; simpl.
    { split; [|destruct (_ && _); by eexists].
      intros _ _. split; [lia|by left]. }
    destruct (Z.ltb_spec 0 (max_bitrate_bps c)) as [Hlt|Hlt]; simpl.
    + split; [|destruct (_ && _); by eexists].
      intros _ _. split; [lia|by right].
    + split; [by intros []|]. intros H. specialize (H eq_refl). lia.
Qed.

Lemma SetBitrateConfig_stored (c : BitrateConfig) s r s' :
  SetBitrateConfig E c s = Some (r, s') ->
  (dcheck_is_on E = true ->
   0 <= min_bitrate_bps c
   /\ (max_bitrate_bps c = -1 \/ 0 < max_bitrate_bps c))
  /\ min_bitrate_bps (bitrate_config_ s') = min_bitrate_bps c
  /\ max_bitrate_bps (bitrate_config_ s') = max_bitrate_bps c.
Proof.
  intros H. unfold SetBitrateConfig in H.
  apply bind_Some in H as ([] & s1 & Hchk1 & H).
  assert (Hmin : dcheck_is_on E = true -> 0 <= min_bitrate_bps c).
  { intros Hon. unfold RTC_DCHECK in Hchk1. rewrite Hon in Hchk1.
    unfold RTC_CHECK in Hchk1.
    destruct (Z.leb_spec 0 (min_bitrate_bps c)); [done|done]. }
  apply RTC_DCHECK_Some in Hchk1 as ->.
  apply bind_Some in H as ([] & s2 & Hchk2 & H).
  assert (Hmax : dcheck_is_on E = true ->
            max_bitrate_bps c = -1 \/ 0 < max_bitrate_bps c).
  { intros Hon. unfold when in Hchk2.
    destruct (Z.eqb_spec (max_bitrate_bps c) (-1)); [by left|].
    simpl in Hchk2. unfold RTC_DCHECK in Hchk2. rewrite Hon in Hchk2.
    unfold RTC_CHECK in Hchk2.
    destruct (Z.ltb_spec 0 (max_bitrate_bps c)); [by right|done]. }
  assert (s2 = s) as ->.
  { unfold when in Hchk2. destruct (negb _).
    - by apply RTC_DCHECK_Some in Hchk2.
    - unfold ret in Hchk2. by injection Hchk2 as <-. }
  split; [by split; auto|].
  apply bind_Some in H as (? & ? & Hget & H).
  unfold get in Hget. injection Hget as <- <-.
  destruct (_ && _) eqn:Hsame.
  - unfold ret in H. injection H as _ <-.
    apply andb_prop in Hsame as [Hsame Hmaxeq].
    apply andb_prop in Hsame as [Hmineq _].
    apply Z.eqb_eq in Hmineq, Hmaxeq. done.
  - unfold_m_in H. by injection H as _ <-.
Qed.

(** X16. In a build with [RTC_DCHECK], whatever is called after the
    constructor, the stored minimum bitrate is not negative and the stored
    maximum is [-1] or not negative. *)
Theorem stored_bitrates_stay_checked (c : BitrateConfig) voice_engine
  voe_event_log (ops : list Op) s0 s :
  dcheck_is_on E = true ->
  Call_new E c voice_engine voe_event_log = Some s0 ->
  run E ops s0 = Some (tt, s) ->
  0 <= min_bitrate_bps (bitrate_config_ s)
  /\ (max_bitrate_bps (bitrate_config_ s) = -1
      \/ 0 <= max_bitrate_bps (bitrate_config_ s)).
Proof.
  intros Hon Hnew Hrun.
  assert (H0 : 0 <= min_bitrate_bps (bitrate_config_ s0)
               /\ (max_bitrate_bps (bitrate_config_ s0) = -1
                   \/ 0 <= max_bitrate_bps (bitrate_config_ s0))).
  { assert (Hsome : is_Some (Call_new E c voice_engine voe_event_log))
      by (by eexists).
    assert (Hvalid :
      0 <= min_bitrate_bps c <= start_bitrate_bps c
      /\ (max_bitrate_bps c = -1
          \/ start_bitrate_bps c <= max_bitrate_bps c)).
    { revert Hsome. unfold Call_new. unfold_m. simpl. rewrite Hon.
      destruct (Z.leb_spec 0 (min_bitrate_bps c)); simpl; [|by intros []].
      destruct (Z.leb_spec (min_bitrate_bps c) (start_bitrate_bps c));
        simpl; [|by intros []].
      destruct (Z.eqb_spec (max_bitrate_bps c) (-1)); simpl;
        [intros _; split; [lia|by left]|].
      destruct (Z.leb_spec (start_bitrate_bps c) (max_bitrate_bps c));
        simpl; [|by intros []].
      intros _. split; [lia|by right]. }
    assert (Hstored : bitrate_config_ s0 = c).
    { revert Hnew. unfold Call_new.
      match goal with
      | |- match ?body ?st with _ => _ end = _ -> _ =>
          destruct (body st) as [[[] s1]|] eqn:Hbody; [|done];
          assert (Hb : preserves bitrate_config_ body) by leaves_auto;
          apply Hb in Hbody
      end.
      intros [= <-]. by rewrite Hbody. }
    rewrite Hstored. split; [lia|].
    destruct Hvalid as [? [?|?]]; [by left|right; lia]. }
  clear Hnew. revert s0 H0 Hrun.
  induction ops as [|op ops IH]; intros s0 H0 Hrun;
    unfold run in Hrun; simpl in Hrun.
  - unfold ret in Hrun. by injection Hrun as <-.
  - apply bind_Some in Hrun as ([] & s1 & Hstep & Hrun).
    eapply IH; [|exact Hrun].
    pose proof (step_bitrates op) as Hframe.
    destruct op; try (by rewrite (Hframe _ _ _ Hstep)).
    simpl in Hstep.
    apply SetBitrateConfig_stored in Hstep as (Hvalid & -> & ->).
    destruct (Hvalid Hon) as [? [?|?]]; split; try done;
      [by left|right; lia].
Qed.

(** ** What a delivery reaches and what it logs *)

Lemma logged_rtp_app (a b : list (Event RtpState)) :
  logged_rtp (a ++ b) = (logged_rtp a + logged_rtp b)%nat.
Proof.
  induction a as [|e a IH]; [done|]. destruct e; simpl; by rewrite ?IH.
Qed.

Lemma logged_rtcp_app (a b : list (Event RtpState)) :
  logged_rtcp (a ++ b) = (logged_rtcp a + logged_rtcp b)%nat.
Proof.
  induction a as [|e a IH]; [done|]. destruct e; simpl; by rewrite ?IH.
Qed.

(** The number of offers of an RTCP packet that were accepted. *)
Lemma accepted_offers_app (a b : list (StreamKind * ptr * bool)) :
  length (filter (fun o => o.2 = true) (a ++ b))
  = (length (filter (fun o => o.2 = true) a)
     + length (filter (fun o => o.2 = true) b))%nat.
Proof. by rewrite filter_app, length_app. Qed.

Lemma deliver_rtcp_loop_full k
  (body : bool -> ptr -> M (State RtpState) bool) :
  (forall acc p s, exists (b : bool) evs,
      body acc p s = Some (acc || b, with_trace (trace s ++ evs) s)
      /\ rtcp_loop_trace s k [p] evs
      /\ rtcp_offers evs = [(k, p, b)]) ->
  forall l acc s, exists evs,
    for_each_acc l acc body s
    = Some (acc || existsb snd (rtcp_offers evs),
            with_trace (trace s ++ evs) s)
    /\ rtcp_loop_trace s k l evs.
Proof.
  intros Hbody l. induction l as [|p l IH]; intros acc s.
  - exists []. simpl. unfold ret. rewrite with_trace_nil, orb_false_r.
    split; [done|]. unfold rtcp_loop_trace. simpl. by destruct (event_log_ s).
  - destruct (Hbody acc p s) as (b & evs1 & Heq1 & Hone & Hoff1).
    destruct (IH (acc || b) (with_trace (trace s ++ evs1) s))
      as (evs2 & Heq2 & Hrest).
    exists (evs1 ++ evs2). simpl. unfold bind at 1. rewrite Heq1, Heq2.
    rewrite with_trace_app. split.
    + rewrite rtcp_offers_app, existsb_app, Hoff1. simpl.
      by rewrite orb_false_r, orb_assoc.
    + destruct Hone as (Ha1 & Hb1 & Hc1 & Hd1).
      destruct Hrest as (Ha2 & Hb2 & Hc2 & Hd2). simpl in Hd2.
      unfold rtcp_loop_trace.
      rewrite rtcp_offers_app, fmap_app, Ha1, Ha2.
      rewrite rtp_deliveries_app, Hb1, Hb2.
      rewrite logged_rtp_app, Hc1, Hc2.
      rewrite logged_rtcp_app, Hd1, Hd2, accepted_offers_app.
      repeat split; try done. by destruct (event_log_ s).
Qed.

Lemma deliver_rtcp_receive_full media_type packet acc p s :
  exists (b : bool) evs,
    deliver_rtcp_receive E media_type packet acc p s
    = Some (acc || b, with_trace (trace s ++ evs) s)
    /\ rtcp_loop_trace s VideoReceive [p] evs
    /\ rtcp_offers evs = [(VideoReceive, p, b)].
Proof.
  unfold deliver_rtcp_receive, rtcp_loop_trace. unfold_m. simpl.
  destruct (VideoReceiveStream_DeliverRtcp E s p packet) eqn:Hacc.
  - exists true. rewrite orb_true_r. destruct (event_log_ s); simpl.
    + exists [EvDeliverRtcp VideoReceive p packet true;
              EvLogRtcpPacket true media_type packet].
      split; [|done]. unfold with_trace; simpl. by rewrite <- app_assoc.
    + exists [EvDeliverRtcp VideoReceive p packet true]. done.
  - exists false. rewrite orb_false_r.
    exists [EvDeliverRtcp VideoReceive p packet false].
    by destruct (event_log_ s).
Qed.

Lemma deliver_rtcp_send_full media_type packet acc p s :
  exists (b : bool) evs,
    deliver_rtcp_send E media_type packet acc p s
    = Some (acc || b, with_trace (trace s ++ evs) s)
    /\ rtcp_loop_trace s VideoSend [p] evs
    /\ rtcp_offers evs = [(VideoSend, p, b)].
Proof.
  unfold deliver_rtcp_send, rtcp_loop_trace. unfold_m. simpl.
  destruct (VideoSendStream_DeliverRtcp E s p packet) eqn:Hacc.
  - exists true. rewrite orb_true_r. destruct (event_log_ s); simpl.
    + exists [EvDeliverRtcp VideoSend p packet true;
              EvLogRtcpPacket false media_type packet].
      split; [|done]. unfold with_trace; simpl. by rewrite <- app_assoc.
    + exists [EvDeliverRtcp VideoSend p packet true]. done.
  - exists false. rewrite orb_false_r.
    exists [EvDeliverRtcp VideoSend p packet false].
    by destruct (event_log_ s).
Qed.

Lemma DeliverPacket_shape s media_type (packet : list byte) packet_time :
  exists status evs,
    DeliverPacket E media_type packet packet_time s
    = Some (status, with_trace (trace s ++ evs) s)
    /\ delivery_trace E s media_type packet status evs.
Proof.
  unfold DeliverPacket.
  destruct (IsRtcp E packet) eqn:Hrtcp.
  - unfold DeliverRtcp, delivery_trace. rewrite Hrtcp. cbv zeta.
    destruct (any_or_video media_type).
    2:{ exists DELIVERY_PACKET_ERROR, []. unfold_m. rewrite with_trace_nil.
        rewrite andb_false_r. simpl.
        repeat split; try done; try (by intros ? ? ?%elem_of_nil).
        by destruct (event_log_ s). }
    unfold bind at 1. unfold bind at 1. unfold get at 1.
    destruct (deliver_rtcp_loop_full VideoReceive
                (deliver_rtcp_receive E media_type packet)
                (deliver_rtcp_receive_full media_type packet)
                (StdSet.items (video_receive_streams_ s)) false s)
      as (evs1 & -> & Ha1 & Hb1 & Hc1 & Hd1).
    unfold bind at 1. unfold bind at 1. unfold get at 1.
    destruct (deliver_rtcp_loop_full VideoSend
                (deliver_rtcp_send E media_type packet)
                (deliver_rtcp_send_full media_type packet)
                (StdSet.items
                   (video_send_streams_ (with_trace (trace s ++ evs1) s)))
                (false || existsb snd (rtcp_offers evs1))
                (with_trace (trace s ++ evs1) s))
      as (evs2 & -> & Ha2 & Hb2 & Hc2 & Hd2).
    simpl in Ha2, Hd2. rewrite with_trace_app. unfold ret.
    eexists _, (evs1 ++ evs2). split; [reflexivity|].
    rewrite andb_false_r.
    rewrite rtp_deliveries_app, Hb1, Hb2.
    rewrite logged_rtp_app, Hc1, Hc2.
    rewrite logged_rtcp_app, Hd1, Hd2.
    rewrite rtcp_offers_app, accepted_offers_app, fmap_app, Ha1, Ha2.
    split; [by intros ? ? ?%elem_of_nil|]. split.
    { intros k p Hin. apply elem_of_app in Hin as [Hin|Hin];
        apply list_elem_of_fmap in Hin as (q & [= -> ->] & Hq);
        apply StdSet_items_elem in Hq; [by left|by right]. }
    split; [done|]. split; [by destruct (event_log_ s)|]. done.
  - unfold DeliverRtp.
    assert (Hquiet : forall status,
      match status with DELIVERY_OK => False | _ => True end ->
      delivery_trace E s media_type packet status []).
    { intros status Hstatus. unfold delivery_trace. simpl.
      repeat split; try done; try (by intros ? ? ?%elem_of_nil).
      - destruct (_ && _); [|done]. by destruct status.
      - by destruct (event_log_ s). }
    destruct (Nat.ltb (length packet) 12).
    { exists DELIVERY_PACKET_ERROR, []. unfold ret. rewrite with_trace_nil.
      split; [done|]. by apply Hquiet. }
    cbv zeta. unfold bind at 1. unfold get at 1.
    assert (Hto : forall k oracle stream,
      (k = AudioReceive
       /\ audio_receive_ssrcs_ s !! packet_ssrc packet = Some stream)
      \/ (k = VideoReceive
          /\ video_receive_ssrcs_ s !! packet_ssrc packet = Some stream) ->
      exists status evs,
        deliver_rtp_to k oracle media_type stream packet packet_time s
        = Some (status, with_trace (trace s ++ evs) s)
        /\ delivery_trace E s media_type packet status evs).
    { intros k oracle stream Hfound.
      unfold deliver_rtp_to, delivery_trace. rewrite Hrtcp, andb_true_r.
      unfold_m. simpl.
      assert (Hin : forall k' p,
                (k', p) ∈ [(k, stream)] ->
                (k' = AudioReceive
                 /\ audio_receive_ssrcs_ s !! packet_ssrc packet = Some p)
                \/ (k' = VideoReceive
                    /\ video_receive_ssrcs_ s !! packet_ssrc packet = Some p)).
      { intros k' p Hin. apply list_elem_of_singleton in Hin.
        by injection Hin as -> ->. }
      destruct (oracle s stream packet packet_time); simpl.
      - destruct (event_log_ s) eqn:Hlog; simpl.
        + exists DELIVERY_OK,
            [EvDeliverRtp k stream packet packet_time true;
             EvLogRtpHeader true media_type packet].
          split; [unfold with_trace; simpl; by rewrite <- app_assoc|].
          simpl. repeat split; try done. by intros ? ? ?%elem_of_nil.
        + exists DELIVERY_OK, [EvDeliverRtp k stream packet packet_time true].
          simpl. repeat split; try done. by intros ? ? ?%elem_of_nil.
      - exists DELIVERY_PACKET_ERROR,
          [EvDeliverRtp k stream packet packet_time false].
        simpl. repeat split; try done; try (by intros ? ? ?%elem_of_nil);
          by destruct (event_log_ s). }
    destruct (if any_or_audio media_type
              then audio_receive_ssrcs_ s !! packet_ssrc packet
              else None) as [stream|] eqn:Haudio.
    { apply Hto. left. split; [done|].
      by destruct (any_or_audio media_type). }
    destruct (if any_or_video media_type
              then video_receive_ssrcs_ s !! packet_ssrc packet
              else None) as [stream|] eqn:Hvideo.
    { apply Hto. right. split; [done|].
      by destruct (any_or_video media_type). }
    exists DELIVERY_UNKNOWN_SSRC, []. unfold ret. rewrite with_trace_nil.
    split; [done|]. by apply Hquiet.
Qed.


(** ** The answers behind the log *)

(** What [DeliverRtp] leaves in the trace: nothing, or the one delivery
    with the answer of the stream and, when the stream accepted and there
    is an event log, the header. *)
Lemma DeliverRtp_run s media_type (packet : list byte) packet_time :
  exists status evs,
    DeliverRtp E media_type packet packet_time s
    = Some (status, with_trace (trace s ++ evs) s)
    /\ ((evs = [] /\ status <> DELIVERY_OK)
        \/ exists k p,
             let accepted :=
               match k with
               | AudioReceive =>
                   AudioReceiveStream_DeliverRtp E s p packet packet_time
               | _ => VideoReceiveStream_DeliverRtp E s p packet packet_time
               end in
             evs = EvDeliverRtp k p packet packet_time accepted
                   :: (if accepted && event_log_ s
                       then [EvLogRtpHeader true media_type packet] else [])
             /\ status = (if accepted then DELIVERY_OK
                          else DELIVERY_PACKET_ERROR)).
Proof.
  unfold DeliverRtp.
  destruct (Nat.ltb (length packet) 12).
  { exists DELIVERY_PACKET_ERROR, []. unfold ret. rewrite with_trace_nil.
    split; [done|]. by left. }
  cbv zeta. unfold bind at 1. unfold get at 1.
  assert (Hto : forall k stream,
    exists status evs,
      deliver_rtp_to k
        match k with
        | AudioReceive => AudioReceiveStream_DeliverRtp E
        | _ => VideoReceiveStream_DeliverRtp E
        end media_type stream packet packet_time s
      = Some (status, with_trace (trace s ++ evs) s)
      /\ ((evs = [] /\ status <> DELIVERY_OK)
          \/ exists k p,
               let accepted :=
                 match k with
                 | AudioReceive =>
                     AudioReceiveStream_DeliverRtp E s p packet packet_time
                 | _ =>
                     VideoReceiveStream_DeliverRtp E s p packet packet_time
                 end in
               evs = EvDeliverRtp k p packet packet_time accepted
                     :: (if accepted && event_log_ s
                         then [EvLogRtpHeader true media_type packet]
                         else [])
               /\ status = (if accepted then DELIVERY_OK
                            else DELIVERY_PACKET_ERROR))).
  { intros k stream. unfold deliver_rtp_to. unfold_m. simpl.
    eexists _, _. split.
    2:{ right. exists k, stream. cbv zeta. split; reflexivity. }
    destruct k; simpl;
      match goal with
      | |- context [if ?b && event_log_ s then _ else _] =>
          destruct b; simpl; [destruct (event_log_ s); simpl|]
      end;
      unfold with_trace; simpl; by rewrite <- ?app_assoc. }
  destruct (if any_or_audio media_type
            then audio_receive_ssrcs_ s !! packet_ssrc packet
            else None) as [stream|].
  { apply (Hto AudioReceive). }
  destruct (if any_or_video media_type
            then video_receive_ssrcs_ s !! packet_ssrc packet
            else None) as [stream|].
  { apply (Hto VideoReceive). }
  exists DELIVERY_UNKNOWN_SSRC, []. unfold ret. rewrite with_trace_nil.
  split; [done|]. by left.
Qed.

(** The offers whose answers are given by [f], with their answers. *)
Lemma rtcp_offers_answers (f : StreamKind * ptr -> bool)
  (evs : list (Event RtpState)) :
  (forall pre k p pkt accepted post,
     evs = pre ++ EvDeliverRtcp k p pkt accepted :: post ->
     accepted = f (k, p)) ->
  rtcp_offers evs = (fun kp => (kp, f kp)) <$> (rtcp_offers evs).*1.
Proof.
  induction evs as [|e evs IH]; intros Hf; [done|].
  assert (Hrest : rtcp_offers evs
                  = (fun kp => (kp, f kp)) <$> (rtcp_offers evs).*1).
  { apply IH. intros pre k p pkt accepted post Heq.
    apply (Hf (e :: pre) k p pkt accepted post). by rewrite Heq. }
  destruct e; try exact Hrest.
  cbn [rtcp_offers]. rewrite !fmap_cons. cbn [fst]. rewrite <- Hrest.
  by rewrite (Hf [] _ _ _ _ _ eq_refl).
Qed.

Lemma accepted_offers_of (f : StreamKind * ptr -> bool) k (l : list ptr) :
  length (filter (fun o : StreamKind * ptr * bool => o.2 = true)
            ((fun kp => (kp, f kp)) <$> (pair k <$> l)))
  = length (filter (fun p => f (k, p) = true) l).
Proof.
  induction l as [|p l IH]; [done|].
  rewrite !fmap_cons. cbn beta. destruct (f (k, p)) eqn:Hf.
  - rewrite filter_cons_True by done.
    rewrite (filter_cons_True (fun p => f (k, p) = true)) by done.
    simpl. by rewrite IH.
  - rewrite filter_cons_False by done.
    rewrite (filter_cons_False (fun p => f (k, p) = true)) by congruence.
    done.
Qed.

(** X18. What a delivery hands to the event log: nothing without an
    event log; with one, the header of an RTP packet once when the stream
    accepted the packet and not otherwise, and an RTCP packet once for
    every stream that accepted it, so as often as it was accepted. The
    answers are those of the streams: an RTP delivery records what
    [DeliverRtp] of the stream answers, and the result follows it; every
    RTCP offer records what [DeliverRtcp] of the stream answers at its
    turn; so, for streams whose answer to the packet does not depend on the
    offers made before, the log takes an RTCP packet delivered as video or
    any media as often as there are streams in the two sets whose
    [DeliverRtcp] answers [true]. *)
Theorem DeliverPacket_logging s media_type (packet : list byte) packet_time :
  exists status evs,
    DeliverPacket E media_type packet packet_time s
    = Some (status, with_trace (trace s ++ evs) s)
    /\ logged_rtp evs
       = (if event_log_ s && negb (IsRtcp E packet)
          then match status with DELIVERY_OK => 1%nat | _ => 0%nat end
          else 0%nat)
    /\ logged_rtcp evs
       = (if event_log_ s
          then length (filter (fun o => o.2 = true) (rtcp_offers evs))
          else 0%nat)
    /\ (IsRtcp E packet = false -> logged_rtcp evs = 0%nat)
    /\ (IsRtcp E packet = false ->
        (evs = [] /\ status <> DELIVERY_OK)
        \/ exists k p,
             let accepted :=
               match k with
               | AudioReceive =>
                   AudioReceiveStream_DeliverRtp E s p packet packet_time
               | _ => VideoReceiveStream_DeliverRtp E s p packet packet_time
               end in
             evs = EvDeliverRtp k p packet packet_time accepted
                   :: (if accepted && event_log_ s
                       then [EvLogRtpHeader true media_type packet] else [])
             /\ status = (if accepted then DELIVERY_OK
                          else DELIVERY_PACKET_ERROR))
    /\ (forall pre k p pkt accepted post,
          evs = pre ++ EvDeliverRtcp k p pkt accepted :: post ->
          pkt = packet
          /\ accepted
             = match k with
               | VideoReceive =>
                   VideoReceiveStream_DeliverRtcp E
                     (with_trace (trace s ++ pre) s) p packet
               | _ =>
                   VideoSendStream_DeliverRtcp E
                     (with_trace (trace s ++ pre) s) p packet
               end)
    /\ (IsRtcp E packet = true ->
        any_or_video media_type = true ->
        (forall t p,
           VideoReceiveStream_DeliverRtcp E (with_trace t s) p packet
           = VideoReceiveStream_DeliverRtcp E s p packet) ->
        (forall t p,
           VideoSendStream_DeliverRtcp E (with_trace t s) p packet
           = VideoSendStream_DeliverRtcp E s p packet) ->
        logged_rtcp evs
        = if event_log_ s
          then (length (filter (fun p => VideoReceiveStream_DeliverRtcp E s p
                                           packet = true)
                          (StdSet.items (video_receive_streams_ s)))
                + length (filter (fun p => VideoSendStream_DeliverRtcp E s p
                                             packet = true)
                            (StdSet.items (video_send_streams_ s))))%nat
          else 0%nat).
Proof.
  destruct (DeliverPacket_shape s media_type packet packet_time)
    as (status & evs & Heq & _ & _ & Hrtp & Hrtcp & _ & Hnone).
  exists status, evs.
  split; [exact Heq|]. split; [exact Hrtp|]. split; [exact Hrtcp|].
  split.
  { intros Hkind. rewrite Hrtcp, (Hnone Hkind). by destruct (event_log_ s). }
  split.
  { intros Hkind. unfold DeliverPacket in Heq. rewrite Hkind in Heq.
    destruct (DeliverRtp_run s media_type packet packet_time)
      as (status' & evs' & Heq' & Hshape).
    rewrite Heq' in Heq. injection Heq as -> Hevs.
    apply app_inv_head in Hevs as ->. exact Hshape. }
  assert (Htied : forall pre k p pkt accepted post,
    evs = pre ++ EvDeliverRtcp k p pkt accepted :: post ->
    IsRtcp E packet = true /\ any_or_video media_type = true
    /\ pkt = packet
    /\ accepted
       = match k with
         | VideoReceive =>
             VideoReceiveStream_DeliverRtcp E
               (with_trace (trace s ++ pre) s) p packet
         | _ =>
             VideoSendStream_DeliverRtcp E
               (with_trace (trace s ++ pre) s) p packet
         end).
  { intros pre k p pkt accepted post Hevs.
    destruct (IsRtcp E packet) eqn:Hkind.
    2:{ specialize (Hnone eq_refl). rewrite Hevs, rtcp_offers_app in Hnone.
        simpl in Hnone. by destruct (rtcp_offers pre). }
    unfold DeliverPacket in Heq. rewrite Hkind in Heq.
    destruct (any_or_video media_type) eqn:Hvideo.
    2:{ unfold DeliverRtcp in Heq. rewrite Hvideo in Heq.
        unfold_m_in Heq. injection Heq as _ Hs.
        apply (f_equal trace) in Hs. simpl in Hs.
        rewrite <- (app_nil_r (trace s)) in Hs at 1.
        apply app_inv_head in Hs. rewrite Hevs in Hs. by destruct pre. }
    destruct (DeliverRtcp_video E s media_type packet Hvideo)
      as (evs' & Heq' & _ & Hans & Hpkt).
    rewrite Heq' in Heq. injection Heq as _ Hsame.
    apply app_inv_head in Hsame as ->.
    split; [done|]. split; [done|].
    assert (pkt = packet) as ->.
    { rewrite Forall_forall in Hpkt.
      apply (Hpkt (EvDeliverRtcp k p pkt accepted)); [|done].
      rewrite Hevs. apply elem_of_app. right. by apply elem_of_cons; left. }
    split; [done|]. exact (Hans pre _ post Hevs). }
  split.
  { intros pre k p pkt accepted post Hevs.
    by destruct (Htied _ _ _ _ _ _ Hevs) as (_ & _ & ? & ?). }
  intros Hkind Hvideo Hsame_receive Hsame_send. rewrite Hrtcp.
  destruct (event_log_ s); [|done].
  set (f := fun kp : StreamKind * ptr =>
              match kp.1 with
              | VideoReceive => VideoReceiveStream_DeliverRtcp E s kp.2 packet
              | _ => VideoSendStream_DeliverRtcp E s kp.2 packet
              end).
  rewrite (rtcp_offers_answers f).
  2:{ intros pre k p pkt accepted post Hevs.
      destruct (Htied _ _ _ _ _ _ Hevs) as (_ & _ & _ & ->). unfold f. simpl.
      destruct k; by rewrite ?Hsame_receive, ?Hsame_send. }
  unfold DeliverPacket in Heq. rewrite Hkind in Heq.
  destruct (DeliverRtcp_video E s media_type packet Hvideo)
    as (evs' & Heq' & Hall & _).
  rewrite Heq' in Heq. injection Heq as _ Hsame.
  apply app_inv_head in Hsame as ->.
  rewrite Hall, fmap_app, accepted_offers_app.
  by rewrite !accepted_offers_of.
Qed.

(** ** The round-trip time of the statistics *)

Lemma rtt_fold (GetRtt : ptr -> Z) (l : list (N * ptr)) (rtt_ms : Z) :
  foldl (fun stats_rtt_ms kv =>
           let rtt_ms := GetRtt kv.2 in
           if 0 <? rtt_ms then rtt_ms else stats_rtt_ms) rtt_ms l
  = match last (filter (fun kv => 0 < GetRtt kv.2) l) with
    | Some kv => GetRtt kv.2
    | None => rtt_ms
    end.
Proof.
  induction l as [|kv l IH] using rev_ind; [done|].
  rewrite foldl_app, filter_app, IH. cbn [foldl].
  destruct (Z.ltb_spec 0 (GetRtt kv.2)) as [Hpos|Hneg].
  - rewrite filter_cons_True by done. rewrite filter_nil.
    by rewrite last_snoc.
  - rewrite filter_cons_False by lia. rewrite filter_nil.
    by rewrite app_nil_r.
Qed.

(** X24. The round-trip time that [GetStats] reports is that of the
    last SSRC of the index of video send streams, in the order of the
    SSRCs, whose stream reports a positive one; so it is positive as soon as
    one indexed stream reports a positive time, and it is the value of a
    new [Stats] when none does. *)
Theorem GetStats_reports_last_positive_rtt (rtt_ms : Z) (GetRtt : ptr -> Z)
  s :
  GetStats_rtt_ms rtt_ms GetRtt s
  = match last (filter (fun kv => 0 < GetRtt kv.2)
                  (StdMap.items (video_send_ssrcs_ s))) with
    | Some kv => GetRtt kv.2
    | None => rtt_ms
    end
  /\ ((exists k p, video_send_ssrcs_ s !! k = Some p /\ 0 < GetRtt p) ->
      0 < GetStats_rtt_ms rtt_ms GetRtt s
      /\ exists k p, video_send_ssrcs_ s !! k = Some p
                     /\ GetStats_rtt_ms rtt_ms GetRtt s = GetRtt p)
  /\ ((forall k p, video_send_ssrcs_ s !! k = Some p -> GetRtt p <= 0) ->
      GetStats_rtt_ms rtt_ms GetRtt s = rtt_ms).
Proof.
  unfold GetStats_rtt_ms. rewrite rtt_fold. split; [done|]. split.
  - intros (k & p & Hk & Hpos).
    destruct (last _) as [kv|] eqn:Hlast.
    + apply last_Some_elem_of in Hlast.
      apply list_elem_of_filter in Hlast as [Hkv Hin].
      split; [done|]. destruct kv as [k' p'].
      apply StdMap_items_elem in Hin. by exists k', p'.
    + apply last_None in Hlast.
      assert (Hin : (k, p) ∈ filter (fun kv : N * ptr => 0 < GetRtt kv.2)
                      (StdMap.items (video_send_ssrcs_ s))).
      { apply list_elem_of_filter. split; [done|].
        by apply StdMap_items_elem. }
      rewrite Hlast in Hin. by apply elem_of_nil in Hin.
  - intros Hnone. destruct (last _) as [[k p]|] eqn:Hlast; [|done].
    apply last_Some_elem_of in Hlast.
    apply list_elem_of_filter in Hlast as [Hkv Hin].
    apply StdMap_items_elem in Hin. specialize (Hnone _ _ Hin).
    simpl in Hkv. lia.
Qed.

End RegistryProperties.

(** * More properties of [ViEReceiver] *)

Section ReceiverGuard.

Context {PayloadUnion : Type}.
Variable E : ViEReceiver.Env PayloadUnion.

Lemma restore_calls_app (a b : list ViEReceiver.Event) :
  restore_calls (a ++ b) = restore_calls a ++ restore_calls b.
Proof.
  induction a as [|e a IH]; [done|]. destruct e; simpl; by rewrite ?IH.
Qed.

Lemma received_since_extends (s s' : ViEReceiver.State) evs :
  ViEReceiver.trace s' = ViEReceiver.trace s ++ evs ->
  received_since s s' = evs.
Proof.
  intros H. unfold received_since. rewrite H. by rewrite drop_app_length.
Qed.

Lemma keeps_guard_ret {A : Type} (a : A) : keeps_guard E (ret a).
Proof.
  intros s a' s' H. unfold ret in H. injection H as _ <-.
  split; [done|]. exists []. rewrite app_nil_r. by repeat split.
Qed.

Lemma keeps_guard_abort {A : Type} :
  keeps_guard E (abort : M ViEReceiver.State A).
Proof. intros s a s' H. done. Qed.

Lemma keeps_guard_get : keeps_guard E get.
Proof.
  intros s a s' H. unfold get in H. injection H as _ <-.
  split; [done|]. exists []. rewrite app_nil_r. by repeat split.
Qed.

Lemma keeps_guard_get_bind {A : Type}
  (k : ViEReceiver.State -> M ViEReceiver.State A) :
  (forall s, guard_at E s (k s)) -> keeps_guard E (bind get k).
Proof. intros Hk s a s' H. unfold bind, get in H. by apply (Hk s a s'). Qed.

Lemma keeps_guard_bind {A B : Type} (m : M ViEReceiver.State A)
  (k : A -> M ViEReceiver.State B) :
  keeps_guard E m -> (forall a, keeps_guard E (k a)) ->
  keeps_guard E (bind m k).
Proof.
  intros Hm Hk s b s' H. apply bind_Some in H as (a & s1 & H1 & H2).
  destruct (Hm _ _ _ H1) as (Hflag1 & evs1 & Ht1 & Hfit1 & Hset1).
  destruct (Hk a _ _ _ H2) as (Hflag2 & evs2 & Ht2 & Hfit2 & Hset2).
  split; [congruence|]. exists (evs1 ++ evs2).
  split; [by rewrite Ht2, Ht1, app_assoc|].
  rewrite restore_calls_app. split; [by apply Forall_app|].
  intros Hset. destruct (Hset1 Hset) as [Hbuf1 Hnone1].
  destruct Hset2 as [Hbuf2 Hnone2]; [congruence|].
  split; [congruence|]. by rewrite Hnone1, Hnone2.
Qed.

(** An event other than a call of [RestoreOriginalPacket]. *)
Lemma keeps_guard_emit (e : ViEReceiver.Event) :
  restore_calls [e] = [] -> keeps_guard E (ViEReceiver.emit e).
Proof.
  intros He s a s' H. unfold ViEReceiver.emit, modify in H.
  injection H as _ <-. split; [done|]. exists [e].
  split; [done|]. rewrite He. by repeat split.
Qed.

Lemma keeps_guard_when (b : bool) (m : M ViEReceiver.State unit) :
  keeps_guard E m -> keeps_guard E (when b m).
Proof. destruct b; [done|]. intros _. apply keeps_guard_ret. Qed.

Lemma keeps_guard_for_each_acc {A B : Type} (l : list A) (acc : B)
  (body : B -> A -> M ViEReceiver.State B) :
  (forall acc x, keeps_guard E (body acc x)) ->
  keeps_guard E (for_each_acc l acc body).
Proof.
  intros Hbody. revert acc. induction l as [|x l IH]; intros acc; simpl.
  - apply keeps_guard_ret.
  - apply keeps_guard_bind; [apply Hbody|]. intros acc'. apply IH.
Qed.

Lemma keeps_guard_assert (b : bool) : keeps_guard E (ViEReceiver.assert_ E b).
Proof.
  unfold ViEReceiver.assert_, RTC_CHECK.
  destruct (ViEReceiver.assert_is_on E); [|apply keeps_guard_ret].
  destruct b; [apply keeps_guard_ret|apply keeps_guard_abort].
Qed.

Lemma keeps_guard_IsPacketInOrder header :
  keeps_guard E (ViEReceiver.IsPacketInOrder E header).
Proof.
  unfold ViEReceiver.IsPacketInOrder.
  apply keeps_guard_bind; [apply keeps_guard_get|]. intros s.
  destruct (ViEReceiver.StatisticianIsPacketInOrder E s _);
    apply keeps_guard_ret.
Qed.

Lemma keeps_guard_OnReceivedPayloadData payload size header :
  keeps_guard E (ViEReceiver.OnReceivedPayloadData E payload size header).
Proof.
  unfold ViEReceiver.OnReceivedPayloadData.
  apply keeps_guard_bind; [apply keeps_guard_get|]. intros s.
  cbv zeta. apply keeps_guard_bind; [by apply keeps_guard_emit|].
  intros _. apply keeps_guard_ret.
Qed.

Lemma keeps_guard_NotifyReceiverOfFecPacket header :
  keeps_guard E (ViEReceiver.NotifyReceiverOfFecPacket E header).
Proof.
  unfold ViEReceiver.NotifyReceiverOfFecPacket.
  apply keeps_guard_bind; [apply keeps_guard_get|]. intros s. cbv zeta.
  destruct (_ <? 0); [by apply keeps_guard_emit|].
  destruct (ViEReceiver.GetPayloadSpecifics E s _);
    [|by apply keeps_guard_emit].
  apply keeps_guard_bind; [apply keeps_guard_OnReceivedPayloadData|].
  intros _. apply keeps_guard_ret.
Qed.

Lemma keeps_guard_ProcessReceivedFec
  (OnRecoveredPacket : list byte -> Z -> M ViEReceiver.State bool) :
  (forall packet n, keeps_guard E (OnRecoveredPacket packet n)) ->
  keeps_guard E (ViEReceiver.ProcessReceivedFec E OnRecoveredPacket).
Proof.
  intros Hcb. unfold ViEReceiver.ProcessReceivedFec.
  apply keeps_guard_bind; [apply keeps_guard_get|]. intros s.
  apply keeps_guard_bind.
  { apply keeps_guard_for_each_acc. intros ok pkt.
    apply keeps_guard_bind; [apply Hcb|]. intros ?. apply keeps_guard_ret. }
  intros ok. apply keeps_guard_bind; [apply keeps_guard_get|]. intros s1.
  cbv zeta. apply keeps_guard_bind; [by apply keeps_guard_emit|].
  intros _. apply keeps_guard_ret.
Qed.

Lemma keeps_guard_ParseAndHandle
  (OnRecoveredPacket : list byte -> Z -> M ViEReceiver.State bool)
  packet packet_length header :
  (forall packet n, keeps_guard E (OnRecoveredPacket packet n)) ->
  keeps_guard E
    (ViEReceiver.ParseAndHandleEncapsulatingHeader_with E OnRecoveredPacket
       packet packet_length header).
Proof.
  intros Hcb. unfold ViEReceiver.ParseAndHandleEncapsulatingHeader_with.
  apply keeps_guard_get_bind. intros s.
  destruct (ViEReceiver.IsRed E s header).
  { apply keeps_guard_bind.
    { apply keeps_guard_when.
      apply keeps_guard_bind; [by apply keeps_guard_emit|]. intros _.
      apply keeps_guard_NotifyReceiverOfFecPacket. }
    intros _. apply keeps_guard_bind; [apply keeps_guard_get|]. intros s1.
    cbv zeta.
    apply keeps_guard_bind; [by apply keeps_guard_emit|]. intros _.
    destruct (negb _); [apply keeps_guard_ret|].
    apply keeps_guard_bind; [by apply keeps_guard_ProcessReceivedFec|].
    intros ?. apply keeps_guard_ret. }
  destruct (ViEReceiver.IsRtx E s header); [|apply keeps_guard_ret].
  destruct (_ =? packet_length); [apply keeps_guard_ret|].
  destruct (Z.ltb_spec packet_length (ViEReceiver.headerLength header))
    as [Hshort|Hlong]; [apply keeps_guard_ret|].
  destruct (Z.ltb_spec (ViEReceiver.restored_packet_size E) packet_length)
    as [Hbig|Hfits]; [apply keeps_guard_ret|].
  destruct (ViEReceiver.restored_packet_in_use_ s) eqn:Hflag.
  { apply keeps_guard_bind; [by apply keeps_guard_emit|]. intros _.
    apply keeps_guard_ret. }
  intros r s' H.
  cbv zeta in H.
  apply bind_Some in H as ([] & s1 & Hwrite & H).
  unfold modify in Hwrite. injection Hwrite as <-.
  apply bind_Some in H as ([] & s2 & Hemit & H).
  unfold ViEReceiver.emit, modify in Hemit. injection Hemit as <-.
  match type of H with
  | context [ViEReceiver.RestoreOriginalPacket E s packet packet_length
               ?ssrc header] =>
      set (restored := ViEReceiver.RestoreOriginalPacket E s packet
                         packet_length ssrc header) in *;
      set (original_ssrc := ssrc) in *
  end.
  destruct (negb restored.2).
  - apply bind_Some in H as ([] & s3 & Hwarn & H).
    unfold ViEReceiver.emit, modify in Hwarn. injection Hwarn as <-.
    unfold ret in H. injection H as _ <-. simpl.
    split; [done|].
    exists [ViEReceiver.EvRestoreOriginalPacket packet packet_length
              original_ssrc header restored.2; ViEReceiver.EvLogWarning].
    split; [by rewrite <- app_assoc|]. rewrite Hflag. simpl.
    split; [|done]. constructor; [|done]. unfold fits_buffer. simpl. lia.
  - apply bind_Some in H as ([] & s3 & Hset & H).
    unfold modify in Hset. injection Hset as <-.
    apply bind_Some in H as (? & ? & Hget & H).
    unfold get in Hget. injection Hget as <- <-.
    apply bind_Some in H as (ret_ & s4 & Hcall & H).
    apply bind_Some in H as ([] & s5 & Hclear & H).
    unfold modify in Hclear. injection Hclear as <-.
    unfold ret in H. injection H as _ <-.
    destruct (Hcb _ _ _ _ _ Hcall) as (_ & evs & Htrace & _ & Hguard).
    destruct (Hguard eq_refl) as [_ Hnone]. simpl in Htrace.
    simpl. rewrite Hflag. split; [done|].
    exists (ViEReceiver.EvRestoreOriginalPacket packet packet_length
              original_ssrc header restored.2 :: evs).
    split; [by rewrite Htrace, <- app_assoc|]. simpl. rewrite Hnone.
    split; [|done]. constructor; [|done]. unfold fits_buffer. simpl. lia.
Qed.

Lemma keeps_guard_ReceivePacket
  (OnRecoveredPacket : list byte -> Z -> M ViEReceiver.State bool)
  packet packet_length header in_order :
  (forall packet n, keeps_guard E (OnRecoveredPacket packet n)) ->
  keeps_guard E
    (ViEReceiver.ReceivePacket_with E OnRecoveredPacket packet packet_length
       header in_order).
Proof.
  intros Hcb. unfold ViEReceiver.ReceivePacket_with.
  apply keeps_guard_bind; [apply keeps_guard_get|]. intros s.
  destruct (ViEReceiver.IsEncapsulated E s header);
    [by apply keeps_guard_ParseAndHandle|].
  cbv zeta. apply keeps_guard_bind; [apply keeps_guard_assert|]. intros _.
  destruct (ViEReceiver.GetPayloadSpecifics E s _); [|apply keeps_guard_ret].
  apply keeps_guard_bind; [by apply keeps_guard_emit|]. intros _.
  apply keeps_guard_ret.
Qed.

Lemma keeps_guard_OnRecoveredPacket (fuel : nat) packet n :
  keeps_guard E (ViEReceiver.OnRecoveredPacket E fuel packet n).
Proof.
  revert packet n. induction fuel as [|fuel IH]; intros packet n; simpl.
  - apply keeps_guard_abort.
  - apply keeps_guard_bind; [apply keeps_guard_get|]. intros s.
    destruct (ViEReceiver.Parse E s packet n); [|apply keeps_guard_ret].
    cbv zeta.
    apply keeps_guard_bind; [apply keeps_guard_IsPacketInOrder|].
    intros in_order. by apply keeps_guard_ReceivePacket.
Qed.

(** X19. The guard of the buffer of the restored packet: [ReceivePacket]
    and [OnRecoveredPacket] hand [restored_packet_in_use_] back as they
    found it, at every depth of the re-entry through restored and recovered
    packets; and when the flag is set as they are entered, they do not
    write the buffer and do not call [RestoreOriginalPacket]: a packet that
    was restored is not restored again. *)
Theorem restored_packet_guard (fuel : nat) (packet : list byte)
  (packet_length : Z) (header : ViEReceiver.RTPHeader) (in_order : bool)
  (s : ViEReceiver.State) :
  (forall r s',
     ViEReceiver.ReceivePacket E fuel packet packet_length header in_order s
     = Some (r, s') ->
     ViEReceiver.restored_packet_in_use_ s'
     = ViEReceiver.restored_packet_in_use_ s
     /\ (ViEReceiver.restored_packet_in_use_ s = true ->
         ViEReceiver.restored_packet_ s' = ViEReceiver.restored_packet_ s
         /\ restore_calls (received_since s s') = []))
  /\ (forall r s',
        ViEReceiver.OnRecoveredPacket E fuel packet packet_length s
        = Some (r, s') ->
        ViEReceiver.restored_packet_in_use_ s'
        = ViEReceiver.restored_packet_in_use_ s
        /\ (ViEReceiver.restored_packet_in_use_ s = true ->
            ViEReceiver.restored_packet_ s' = ViEReceiver.restored_packet_ s
            /\ restore_calls (received_since s s') = [])).
Proof.
  split; intros r s' H.
  - apply keeps_guard_ReceivePacket in H
      as (Hflag & evs & Htrace & _ & Hguard);
      [|apply keeps_guard_OnRecoveredPacket].
    split; [done|]. intros Hset.
    rewrite (received_since_extends _ _ _ Htrace). by apply Hguard.
  - apply keeps_guard_OnRecoveredPacket in H
      as (Hflag & evs & Htrace & _ & Hguard).
    split; [done|]. intros Hset.
    rewrite (received_since_extends _ _ _ Htrace). by apply Hguard.
Qed.

(** X20. Every packet that [ReceivePacket] hands to
    [RestoreOriginalPacket], at every depth of the re-entry, holds its
    header and fits the buffer of the restored packet:
    [headerLength <= packet_length <= sizeof(restored_packet_)]. *)
Theorem restored_packets_fit_buffer (fuel : nat) (packet : list byte)
  (packet_length : Z) (header : ViEReceiver.RTPHeader) (in_order : bool)
  (s : ViEReceiver.State) r s' :
  ViEReceiver.ReceivePacket E fuel packet packet_length header in_order s
  = Some (r, s') ->
  Forall (fits_buffer E) (restore_calls (received_since s s')).
Proof.
  intros H.
  apply keeps_guard_ReceivePacket in H as (_ & evs & Htrace & Hfit & _);
    [|apply keeps_guard_OnRecoveredPacket].
  by rewrite (received_since_extends _ _ _ Htrace).
Qed.

(** ** The packets that are turned away *)

Ltac enter_handler Hred :=
  unfold ViEReceiver.ParseAndHandleEncapsulatingHeader,
    ViEReceiver.ParseAndHandleEncapsulatingHeader_with;
  unfold bind at 1; unfold get at 1; rewrite Hred.

(** X21. A packet classified as RTX, not as RED, that is more than its
    header and padding: when it is shorter than its header or longer than
    the buffer of the restored packet it is turned away and nothing
    happens; when the buffer is in use it is turned away with a warning;
    when [RestoreOriginalPacket] fails it is turned away with a warning,
    the buffer holding what the call wrote. In none of these cases is
    [OnRecoveredPacket] entered, and the flag stays as it was. A packet
    that is neither RED nor RTX is turned away and nothing happens. *)
Theorem rtx_packet_turned_away (fuel : nat) (packet : list byte)
  (packet_length : Z) (header : ViEReceiver.RTPHeader)
  (s : ViEReceiver.State) :
  ViEReceiver.IsRed E s header = false ->
  (ViEReceiver.IsRtx E s header = false ->
   ViEReceiver.ParseAndHandleEncapsulatingHeader E fuel packet packet_length
     header s = Some (false, s))
  /\ (ViEReceiver.IsRtx E s header = true ->
      ViEReceiver.size_t_add (ViEReceiver.headerLength header)
        (ViEReceiver.paddingLength header) <> packet_length ->
      (packet_length < ViEReceiver.headerLength header
       \/ ViEReceiver.restored_packet_size E < packet_length ->
       ViEReceiver.ParseAndHandleEncapsulatingHeader E fuel packet
         packet_length header s = Some (false, s))
      /\ (ViEReceiver.headerLength header <= packet_length
          <= ViEReceiver.restored_packet_size E ->
          (ViEReceiver.restored_packet_in_use_ s = true ->
           ViEReceiver.ParseAndHandleEncapsulatingHeader E fuel packet
             packet_length header s
           = Some (false,
                   ViEReceiver.with_trace
                     (ViEReceiver.trace s ++ [ViEReceiver.EvLogWarning]) s))
          /\ (ViEReceiver.restored_packet_in_use_ s = false ->
              let original_ssrc := ViEReceiver.rtp_receiver_SSRC E s in
              let restored :=
                ViEReceiver.RestoreOriginalPacket E s packet packet_length
                  original_ssrc header in
              restored.2 = false ->
              ViEReceiver.ParseAndHandleEncapsulatingHeader E fuel packet
                packet_length header s
              = Some (false,
                      ViEReceiver.with_trace
                        (ViEReceiver.trace s
                         ++ [ViEReceiver.EvRestoreOriginalPacket packet
                               packet_length original_ssrc header false;
                             ViEReceiver.EvLogWarning])
                        (ViEReceiver.with_restored_packet restored.1.1 s))))).
Proof.
  intros Hred. split.
  { intros Hrtx. enter_handler Hred. by rewrite Hrtx. }
  intros Hrtx Hmore.
  assert (Hne : (ViEReceiver.size_t_add (ViEReceiver.headerLength header)
                   (ViEReceiver.paddingLength header) =? packet_length)
                = false) by (by apply Z.eqb_neq).
  split.
  - intros Hout. enter_handler Hred. rewrite Hrtx, Hne.
    destruct (Z.ltb_spec packet_length (ViEReceiver.headerLength header));
      [done|].
    destruct (Z.ltb_spec (ViEReceiver.restored_packet_size E) packet_length);
      [done|lia].
  - intros [Hlow Hhigh].
    assert (Hlow' : (packet_length <? ViEReceiver.headerLength header)
                    = false) by (apply Z.ltb_ge; lia).
    assert (Hhigh' : (ViEReceiver.restored_packet_size E <? packet_length)
                     = false) by (apply Z.ltb_ge; lia).
    split.
    + intros Hflag. enter_handler Hred.
      by rewrite Hrtx, Hne, Hlow', Hhigh', Hflag.
    + intros Hflag. cbv zeta. intros Hfail. enter_handler Hred.
      rewrite Hrtx, Hne, Hlow', Hhigh', Hflag. cbv zeta.
      unfold bind, modify, ViEReceiver.emit, ret. simpl.
      rewrite Hfail. simpl. unfold ViEReceiver.with_trace. simpl.
      by rewrite <- app_assoc.
Qed.

(** X22. A packet that is not encapsulated. In a build with [assert] a
    packet that is shorter than its header aborts; a packet that holds its
    header is turned away, and nothing happens, when the registry does not
    know its payload type, and is otherwise handed once to the RTP receiver
    with the bytes after the header and their number, whose answer is
    returned. In a build without [assert] the number of bytes handed over
    for a packet shorter than its header wraps around to
    [2^64 + packet_length - headerLength]. *)
Theorem plain_packet_delivery (fuel : nat) (packet : list byte)
  (packet_length : Z) (header : ViEReceiver.RTPHeader) (in_order : bool)
  (s : ViEReceiver.State) :
  ViEReceiver.IsEncapsulated E s header = false ->
  let payload := drop (Z.to_nat (ViEReceiver.headerLength header)) packet in
  let delivered payload_length :=
    match ViEReceiver.GetPayloadSpecifics E s
            (ViEReceiver.payloadType header) with
    | None => Some (false, s)
    | Some payload_specific =>
        let accepted :=
          ViEReceiver.IncomingRtpPacket E s header payload payload_length
            payload_specific in_order in
        Some (accepted,
              ViEReceiver.with_trace
                (ViEReceiver.trace s
                 ++ [ViEReceiver.EvIncomingRtpPacket header payload
                       payload_length in_order accepted]) s)
    end in
  (ViEReceiver.assert_is_on E = true ->
   packet_length < ViEReceiver.headerLength header ->
   ViEReceiver.ReceivePacket E fuel packet packet_length header in_order s
   = None)
  /\ (0 <= ViEReceiver.headerLength header <= packet_length ->
      packet_length < 2 ^ 64 ->
      ViEReceiver.ReceivePacket E fuel packet packet_length header in_order s
      = delivered (packet_length - ViEReceiver.headerLength header))
  /\ (ViEReceiver.assert_is_on E = false ->
      0 <= packet_length < ViEReceiver.headerLength header ->
      ViEReceiver.headerLength header < 2 ^ 64 ->
      ViEReceiver.ReceivePacket E fuel packet packet_length header in_order s
      = delivered
          (2 ^ 64 + packet_length - ViEReceiver.headerLength header)).
Proof.
  intros Hplain. cbv zeta.
  assert (Henter :
    ViEReceiver.ReceivePacket E fuel packet packet_length header in_order s
    = if ViEReceiver.assert_is_on E
         && negb (ViEReceiver.headerLength header <=? packet_length)
      then None
      else
        match ViEReceiver.GetPayloadSpecifics E s
                (ViEReceiver.payloadType header) with
        | None => Some (false, s)
        | Some payload_specific =>
            let payload_length :=
              ViEReceiver.size_t_sub packet_length
                (ViEReceiver.headerLength header) in
            let payload :=
              drop (Z.to_nat (ViEReceiver.headerLength header)) packet in
            let accepted :=
              ViEReceiver.IncomingRtpPacket E s header payload payload_length
                payload_specific in_order in
            Some (accepted,
                  ViEReceiver.with_trace
                    (ViEReceiver.trace s
                     ++ [ViEReceiver.EvIncomingRtpPacket header payload
                           payload_length in_order accepted]) s)
        end).
  { unfold ViEReceiver.ReceivePacket, ViEReceiver.ReceivePacket_with.
    unfold bind at 1. unfold get at 1. rewrite Hplain. cbv zeta.
    unfold bind at 1. unfold ViEReceiver.assert_, RTC_CHECK.
    destruct (ViEReceiver.assert_is_on E); simpl.
    - destruct (_ <=? _); simpl; [|done].
      by destruct (ViEReceiver.GetPayloadSpecifics E s _).
    - by destruct (ViEReceiver.GetPayloadSpecifics E s _). }
  rewrite Henter. split; [|split].
  - intros -> Hshort.
    by destruct (Z.leb_spec (ViEReceiver.headerLength header) packet_length);
      [lia|].
  - intros [Hlow Hhigh] Hmax.
    destruct (Z.leb_spec (ViEReceiver.headerLength header) packet_length);
      [|lia].
    rewrite andb_false_r. unfold ViEReceiver.size_t_sub.
    by rewrite Z.mod_small by lia.
  - intros -> Hshort Hmax. simpl.
    unfold ViEReceiver.size_t_sub.
    replace ((packet_length - ViEReceiver.headerLength header) mod 2 ^ 64)
      with (2 ^ 64 + packet_length - ViEReceiver.headerLength header);
      [done|].
    symmetry.
    rewrite <- (Z.mod_small
                  (2 ^ 64 + packet_length
                   - ViEReceiver.headerLength header) (2 ^ 64)) by lia.
    replace (2 ^ 64 + packet_length - ViEReceiver.headerLength header)
      with (packet_length - ViEReceiver.headerLength header
            + 1 * 2 ^ 64) by lia.
    by rewrite Z.mod_add.
Qed.

(** ** The clock rate that the RTP receiver sees *)

Lemma receiver_emits_ret {A : Type} P (a : A) : receiver_emits P (ret a).
Proof.
  intros s a' s' H. unfold ret in H. injection H as _ <-.
  exists []. by rewrite app_nil_r.
Qed.

Lemma receiver_emits_get P : receiver_emits P get.
Proof.
  intros s a' s' H. unfold get in H. injection H as _ <-.
  exists []. by rewrite app_nil_r.
Qed.

Lemma receiver_emits_bind {A B : Type} P (m : M ViEReceiver.State A)
  (k : A -> M ViEReceiver.State B) :
  receiver_emits P m -> (forall a, receiver_emits P (k a)) ->
  receiver_emits P (bind m k).
Proof.
  intros Hm Hk s b s' H. apply bind_Some in H as (a & s1 & H1 & H2).
  destruct (Hm _ _ _ H1) as (evs1 & Ht1 & HP1).
  destruct (Hk a _ _ _ H2) as (evs2 & Ht2 & HP2).
  exists (evs1 ++ evs2). split; [by rewrite Ht2, Ht1, app_assoc|].
  by apply Forall_app.
Qed.

Lemma receiver_emits_emit (P : ViEReceiver.Event -> Prop) e :
  P e -> receiver_emits P (ViEReceiver.emit e).
Proof.
  intros He s a s' H. unfold ViEReceiver.emit, modify in H.
  injection H as _ <-. exists [e]. split; [done|]. by constructor.
Qed.

Lemma receiver_emits_modify P (f : ViEReceiver.State -> ViEReceiver.State) :
  (forall s, ViEReceiver.trace (f s) = ViEReceiver.trace s) ->
  receiver_emits P (modify f).
Proof.
  intros Hf s a s' H. unfold modify in H. injection H as _ <-.
  exists []. by rewrite app_nil_r, Hf.
Qed.

Lemma receiver_emits_for_each_acc {A B : Type} P (l : list A) (acc : B)
  (body : B -> A -> M ViEReceiver.State B) :
  (forall acc x, receiver_emits P (body acc x)) ->
  receiver_emits P (for_each_acc l acc body).
Proof.
  intros Hbody. revert acc. induction l as [|x l IH]; intros acc; simpl.
  - apply receiver_emits_ret.
  - apply receiver_emits_bind; [apply Hbody|]. intros acc'. apply IH.
Qed.

Lemma frequency_ParseAndHandle
  (OnRecoveredPacket : list byte -> Z -> M ViEReceiver.State bool)
  packet packet_length header :
  (forall packet n,
     receiver_emits at_video_frequency (OnRecoveredPacket packet n)) ->
  receiver_emits at_video_frequency
    (ViEReceiver.ParseAndHandleEncapsulatingHeader_with E OnRecoveredPacket
       packet packet_length header).
Proof.
  intros Hcb. unfold ViEReceiver.ParseAndHandleEncapsulatingHeader_with.
  apply receiver_emits_bind; [apply receiver_emits_get|]. intros s.
  destruct (ViEReceiver.IsRed E s header).
  { cbv zeta. apply receiver_emits_bind.
    { unfold when. destruct (_ =? _); [|apply receiver_emits_ret].
      apply receiver_emits_bind; [by apply receiver_emits_emit|]. intros _.
      unfold ViEReceiver.NotifyReceiverOfFecPacket.
      apply receiver_emits_bind; [apply receiver_emits_get|]. intros s1.
      cbv zeta. destruct (_ <? 0); [by apply receiver_emits_emit|].
      destruct (ViEReceiver.GetPayloadSpecifics E s1 _);
        [|by apply receiver_emits_emit].
      apply receiver_emits_bind; [|intros; apply receiver_emits_ret].
      unfold ViEReceiver.OnReceivedPayloadData.
      apply receiver_emits_bind; [apply receiver_emits_get|]. intros s2.
      cbv zeta. apply receiver_emits_bind; [by apply receiver_emits_emit|].
      intros _. apply receiver_emits_ret. }
    intros _. apply receiver_emits_bind; [apply receiver_emits_get|].
    intros s1. apply receiver_emits_bind; [by apply receiver_emits_emit|].
    intros _. destruct (negb _); [apply receiver_emits_ret|].
    apply receiver_emits_bind; [|intros; apply receiver_emits_ret].
    unfold ViEReceiver.ProcessReceivedFec.
    apply receiver_emits_bind; [apply receiver_emits_get|]. intros s2.
    apply receiver_emits_bind.
    { apply receiver_emits_for_each_acc. intros ok pkt.
      apply receiver_emits_bind; [apply Hcb|]. intros ?.
      apply receiver_emits_ret. }
    intros ok. apply receiver_emits_bind; [apply receiver_emits_get|].
    intros s3. cbv zeta.
    apply receiver_emits_bind; [by apply receiver_emits_emit|].
    intros _. apply receiver_emits_ret. }
  destruct (ViEReceiver.IsRtx E s header); [|apply receiver_emits_ret].
  destruct (_ =? packet_length); [apply receiver_emits_ret|].
  destruct (_ <? _); [apply receiver_emits_ret|].
  destruct (_ <? _); [apply receiver_emits_ret|].
  destruct (ViEReceiver.restored_packet_in_use_ s).
  { apply receiver_emits_bind; [by apply receiver_emits_emit|]. intros _.
    apply receiver_emits_ret. }
  cbv zeta. apply receiver_emits_bind; [by apply receiver_emits_modify|].
  intros _. apply receiver_emits_bind; [by apply receiver_emits_emit|].
  intros _. destruct (negb _).
  { apply receiver_emits_bind; [by apply receiver_emits_emit|]. intros _.
    apply receiver_emits_ret. }
  apply receiver_emits_bind; [by apply receiver_emits_modify|]. intros _.
  apply receiver_emits_bind; [apply receiver_emits_get|]. intros s1.
  apply receiver_emits_bind; [apply Hcb|]. intros ret_.
  apply receiver_emits_bind; [by apply receiver_emits_modify|]. intros _.
  apply receiver_emits_ret.
Qed.

Lemma frequency_ReceivePacket
  (OnRecoveredPacket : list byte -> Z -> M ViEReceiver.State bool)
  packet packet_length header in_order :
  ViEReceiver.payload_type_frequency header
  = ViEReceiver.kVideoPayloadTypeFrequency ->
  (forall packet n,
     receiver_emits at_video_frequency (OnRecoveredPacket packet n)) ->
  receiver_emits at_video_frequency
    (ViEReceiver.ReceivePacket_with E OnRecoveredPacket packet packet_length
       header in_order).
Proof.
  intros Hfreq Hcb. unfold ViEReceiver.ReceivePacket_with.
  apply receiver_emits_bind; [apply receiver_emits_get|]. intros s.
  destruct (ViEReceiver.IsEncapsulated E s header);
    [by apply frequency_ParseAndHandle|].
  cbv zeta. apply receiver_emits_bind.
  { unfold ViEReceiver.assert_, RTC_CHECK.
    destruct (ViEReceiver.assert_is_on E); [|apply receiver_emits_ret].
    destruct (_ <=? _); [apply receiver_emits_ret|]. by intros ? ? ? ?. }
  intros _.
  destruct (ViEReceiver.GetPayloadSpecifics E s _);
    [|apply receiver_emits_ret].
  apply receiver_emits_bind; [by apply receiver_emits_emit|]. intros _.
  apply receiver_emits_ret.
Qed.

Lemma frequency_OnRecoveredPacket (fuel : nat) packet n :
  receiver_emits at_video_frequency
    (ViEReceiver.OnRecoveredPacket E fuel packet n).
Proof.
  revert packet n. induction fuel as [|fuel IH]; intros packet n; simpl.
  - by intros ? ? ? ?.
  - apply receiver_emits_bind; [apply receiver_emits_get|]. intros s.
    destruct (ViEReceiver.Parse E s packet n); [|apply receiver_emits_ret].
    cbv zeta. apply receiver_emits_bind.
    { unfold ViEReceiver.IsPacketInOrder.
      apply receiver_emits_bind; [apply receiver_emits_get|]. intros s1.
      destruct (ViEReceiver.StatisticianIsPacketInOrder E s1 _);
        apply receiver_emits_ret. }
    intros in_order. by apply frequency_ReceivePacket.
Qed.

(** X23. Every packet that reaches the RTP receiver through
    [OnRecoveredPacket], at every depth of the re-entry, carries the clock
    rate of video, 90000, as its payload type frequency, whatever the
    parser left in the field; and so does every packet that reaches it
    through [ReceivePacket] when the header given has it. *)
Theorem rtp_receiver_sees_video_frequency (fuel : nat) (packet : list byte)
  (packet_length : Z) (s : ViEReceiver.State) :
  (forall r s',
     ViEReceiver.OnRecoveredPacket E fuel packet packet_length s
     = Some (r, s') ->
     Forall at_video_frequency (received_since s s'))
  /\ (forall header in_order r s',
        ViEReceiver.payload_type_frequency header = 90000 ->
        ViEReceiver.ReceivePacket E fuel packet packet_length header
          in_order s = Some (r, s') ->
        Forall at_video_frequency (received_since s s')).
Proof.
  split.
  - intros r s' H.
    apply frequency_OnRecoveredPacket in H as (evs & Htrace & Hevs).
    by rewrite (received_since_extends _ _ _ Htrace).
  - intros header in_order r s' Hfreq H.
    apply frequency_ReceivePacket in H as (evs & Htrace & Hevs);
      [|done|apply frequency_OnRecoveredPacket].
    by rewrite (received_since_extends _ _ _ Htrace).
Qed.

End ReceiverGuard.

(** * Properties of the way in of the packets *)

Section IngressProperties.

Import ViEReceiverIngress.

Context {PayloadUnion : Type}.
Variable E : Env PayloadUnion.

Lemma with_calls_nil s : with_calls (calls s ++ []) s = s.
Proof. destruct s. unfold with_calls. simpl. by rewrite app_nil_r. Qed.

Lemma calls_since_extends s s' evs :
  calls s' = calls s ++ evs -> calls_since s s' = evs.
Proof.
  intros H. unfold calls_since. rewrite H. by rewrite drop_app_length.
Qed.

(** A method of [ViEReceiver] that leaves the inner state as it is makes
    no call. *)
Lemma lift_quiet {A : Type} (m : M ViEReceiver.State A) (a : A) s :
  m (receiver_ s) = Some (a, receiver_ s) -> lift m s = Some (a, s).
Proof.
  intros H. unfold lift. rewrite H. rewrite drop_all. simpl.
  do 2 f_equal. destruct s. unfold with_calls, with_receiver. simpl.
  by rewrite app_nil_r.
Qed.

Lemma IsPacketInOrder_quiet header (r : ViEReceiver.State) :
  exists in_order,
    ViEReceiver.IsPacketInOrder (receiver_env E) header r
    = Some (in_order, r).
Proof.
  unfold ViEReceiver.IsPacketInOrder. unfold bind, get.
  destruct (ViEReceiver.StatisticianIsPacketInOrder _ _ _); by eexists.
Qed.

Lemma IsPacketRetransmitted_Some header in_order s r s' :
  IsPacketRetransmitted E header in_order s = Some (r, s') ->
  s' = s
  /\ (r = true ->
      in_order = false /\ RtxEnabled E s = false /\ is_Some (rtp_rtcp_ s)).
Proof.
  unfold IsPacketRetransmitted. unfold bind, get.
  destruct (RtxEnabled E s); [by intros [= <- <-]|].
  destruct (StatisticianIsRetransmitOfOldPacket E s _) as [f|];
    [|by intros [= <- <-]].
  destruct (rtp_rtcp_ s) as [module|]; [|done].
  unfold ret. intros [= <- <-]. split; [done|].
  intros Htrue. apply andb_prop in Htrue as [Hord _].
  destruct in_order; [done|]. split; [done|]. split; [done|]. by eexists.
Qed.

(** X25. A receiver that is not receiving turns every packet away with
    [-1] and nothing happens: no parser, estimator, module or statistics is
    called. This is so from the constructor to the first [StartReceive] and
    after every [StopReceive]. *)
Theorem stopped_receiver_drops_packets (fuel : nat) (packet : list byte)
  (packet_length : Z) (packet_time : PacketTime) :
  (forall s,
     receiving_ s = false ->
     InsertRTPPacket E fuel packet packet_length packet_time s = Some (-1, s)
     /\ InsertRTCPPacket E packet packet_length s = Some (-1, s))
  /\ (forall s, exists s1,
        StopReceive s = Some (tt, s1)
        /\ InsertRTPPacket E fuel packet packet_length packet_time s1
           = Some (-1, s1)
        /\ InsertRTCPPacket E packet packet_length s1 = Some (-1, s1))
  /\ (forall remote_bitrate_estimator s0,
        ViEReceiver_new E remote_bitrate_estimator = Some s0 ->
        InsertRTPPacket E fuel packet packet_length packet_time s0
        = Some (-1, s0)
        /\ InsertRTCPPacket E packet packet_length s0 = Some (-1, s0)).
Proof.
  assert (Hdrop : forall s,
    receiving_ s = false ->
    InsertRTPPacket E fuel packet packet_length packet_time s = Some (-1, s)
    /\ InsertRTCPPacket E packet packet_length s = Some (-1, s)).
  { intros s Hoff. unfold InsertRTPPacket, InsertRTCPPacket.
    unfold bind, get. by rewrite Hoff. }
  split; [exact Hdrop|]. split.
  - intros s. exists (with_receiving false s). split; [done|].
    by apply Hdrop.
  - intros rbe s0 Hnew. apply Hdrop. unfold ViEReceiver_new in Hnew.
    destruct (_ && _); [done|]. by injection Hnew as <-.
Qed.

(** What a returning call of [InsertRTPPacket] on a parsed packet did. *)
Lemma InsertRTPPacket_inv (fuel : nat) (packet : list byte)
  (packet_length : Z) (packet_time : PacketTime) header s r s' :
  receiving_ s = true ->
  ViEReceiver.Parse (receiver_env E) (receiver_ s) packet packet_length
  = Some header ->
  InsertRTPPacket E fuel packet packet_length packet_time s = Some (r, s') ->
  let now_ms := TimeInMilliseconds E s in
  let header' :=
    ViEReceiver.with_payload_type_frequency
      ViEReceiver.kVideoPayloadTypeFrequency header in
  exists arrival in_order received retransmitted,
    arrival_time_ms packet_time now_ms = Some arrival
    /\ ViEReceiver.IsPacketInOrder (receiver_env E) header' (receiver_ s)
       = Some (in_order, receiver_ s)
    /\ ViEReceiver.ReceivePacket (receiver_env E) fuel packet packet_length
         header' in_order (receiver_ s) = Some (received, receiver_ s')
    /\ r = (if received then 0 else -1)
    /\ calls s'
       = calls s
         ++ (if kPacketLogIntervalMs <? now_ms - last_packet_log_ms_ s
             then [EvLogInfo header arrival] else [])
         ++ [EvRbeIncomingPacket arrival
               (ViEReceiver.size_t_sub packet_length
                  (ViEReceiver.headerLength header)) header;
             EvSetIncomingPayloadType header']
         ++ (EvReceiver
             <$> received_since (receiver_ s) (receiver_ s'))
         ++ [EvStatisticsIncomingPacket header' packet_length retransmitted]
    /\ last_packet_log_ms_ s'
       = (if kPacketLogIntervalMs <? now_ms - last_packet_log_ms_ s
          then now_ms else last_packet_log_ms_ s)
    /\ receiving_ s' = true
    /\ rtp_rtcp_ s' = rtp_rtcp_ s
    /\ rtp_rtcp_simulcast_ s' = rtp_rtcp_simulcast_ s
    /\ exists before,
         IsPacketRetransmitted E header' in_order before
         = Some (retransmitted, before)
         /\ s' = with_calls
                   (calls before
                    ++ [EvStatisticsIncomingPacket header' packet_length
                          retransmitted]) before.
Proof.
  intros Hon Hparse H. cbv zeta. unfold InsertRTPPacket in H.
  apply bind_Some in H as (? & ? & Hget & H).
  unfold get in Hget. injection Hget as <- <-.
  rewrite Hon, Hparse in H. simpl in H.
  destruct (arrival_time_ms packet_time (TimeInMilliseconds E s))
    as [arrival|]; [|done].
  apply bind_Some in H as ([] & s1 & Hdef & H).
  assert (s1 = s) as ->.
  { unfold defined in Hdef. destruct (in_int64 _); [|done].
    unfold ret in Hdef. by injection Hdef as <-. }
  apply bind_Some in H as ([] & s2 & Hlog & H).
  assert (Hs2 : s2 = with_last_packet_log_ms
                       (if kPacketLogIntervalMs
                           <? TimeInMilliseconds E s - last_packet_log_ms_ s
                        then TimeInMilliseconds E s
                        else last_packet_log_ms_ s)
                       (with_calls
                          (calls s
                           ++ (if kPacketLogIntervalMs
                                  <? TimeInMilliseconds E s
                                     - last_packet_log_ms_ s
                               then [EvLogInfo header arrival] else []))
                          s)).
  { unfold when in Hlog. destruct (kPacketLogIntervalMs <? _).
    - unfold bind, emit, modify in Hlog. by injection Hlog as <-.
    - unfold ret in Hlog. injection Hlog as <-. destruct s.
      unfold with_last_packet_log_ms, with_calls. simpl.
      by rewrite app_nil_r. }
  apply bind_Some in H as ([] & s3 & Hrbe & H).
  unfold emit, modify in Hrbe. injection Hrbe as <-.
  apply bind_Some in H as (in_order & s4 & Horder & H).
  destruct (IsPacketInOrder_quiet
              (ViEReceiver.with_payload_type_frequency
                 ViEReceiver.kVideoPayloadTypeFrequency header)
              (receiver_ s)) as [in_order' Hquiet].
  rewrite (lift_quiet _ in_order') in Horder.
  2:{ subst s2. simpl. exact Hquiet. }
  injection Horder as <- <-.
  apply bind_Some in H as ([] & s5 & Hset & H).
  unfold emit, modify in Hset. injection Hset as <-.
  apply bind_Some in H as (received & s6 & Hrecv & H).
  unfold lift in Hrecv. subst s2. simpl in Hrecv.
  destruct (ViEReceiver.ReceivePacket _ _ _ _ _ _ _)
    as [[received' r1]|] eqn:Hcore; [|done].
  injection Hrecv as <- <-.
  apply bind_Some in H as (retransmitted & s7 & Hretr & H).
  pose proof Hretr as Hsame.
  apply IsPacketRetransmitted_Some in Hsame as [-> _].
  apply bind_Some in H as ([] & s8 & Hstat & H).
  unfold emit, modify in Hstat. injection Hstat as <-.
  unfold ret in H. injection H as <- <-.
  exists arrival, in_order', received', retransmitted. simpl.
  split; [done|]. split; [done|]. split; [done|]. split; [done|].
  split; [unfold received_since; by rewrite <- !app_assoc|].
  split; [done|]. split; [done|]. split; [done|]. split; [done|].
  eexists. split; [exact Hretr|]. reflexivity.
Qed.

(** X26. What [InsertRTPPacket] does with a packet that the parser
    accepts, when it returns: the bitrate estimator is told first, with the
    header as it was parsed and with the arrival time, which is that of the
    packet time or else of the clock; then the payload registry, with the
    clock rate of video in the header; then the packet goes through
    [ReceivePacket], with the answer of [IsPacketInOrder] for the header,
    and the calls of [ReceivePacket] follow; and last the receive statistics
    are updated, once, whatever [ReceivePacket] answered, with the answer
    that [IsPacketRetransmitted] gives at that moment. The header is logged
    first when the log is due. The result is [0] when [ReceivePacket]
    answered [true] and [-1] otherwise. *)
Theorem InsertRTPPacket_sequence (fuel : nat) (packet : list byte)
  (packet_length : Z) (packet_time : PacketTime) header s r s' :
  receiving_ s = true ->
  ViEReceiver.Parse (receiver_env E) (receiver_ s) packet packet_length
  = Some header ->
  InsertRTPPacket E fuel packet packet_length packet_time s = Some (r, s') ->
  let now_ms := TimeInMilliseconds E s in
  let header' :=
    ViEReceiver.with_payload_type_frequency
      ViEReceiver.kVideoPayloadTypeFrequency header in
  exists arrival in_order received retransmitted before,
    arrival_time_ms packet_time now_ms = Some arrival
    /\ ViEReceiver.IsPacketInOrder (receiver_env E) header' (receiver_ s)
       = Some (in_order, receiver_ s)
    /\ ViEReceiver.ReceivePacket (receiver_env E) fuel packet packet_length
         header' in_order (receiver_ s) = Some (received, receiver_ s')
    /\ r = (if received then 0 else -1)
    /\ IsPacketRetransmitted E header' in_order before
       = Some (retransmitted, before)
    /\ s' = with_calls
              (calls before
               ++ [EvStatisticsIncomingPacket header' packet_length
                     retransmitted]) before
    /\ calls_since s s'
       = (if kPacketLogIntervalMs <? now_ms - last_packet_log_ms_ s
          then [EvLogInfo header arrival] else [])
         ++ [EvRbeIncomingPacket arrival
               (ViEReceiver.size_t_sub packet_length
                  (ViEReceiver.headerLength header)) header;
             EvSetIncomingPayloadType header']
         ++ (EvReceiver <$> received_since (receiver_ s) (receiver_ s'))
         ++ [EvStatisticsIncomingPacket header' packet_length retransmitted].
Proof.
  intros Hon Hparse H. cbv zeta.
  apply (InsertRTPPacket_inv _ _ _ _ _ _ _ _ Hon Hparse) in H
    as (arrival & in_order & received & retransmitted & Harrival & Horder
        & Hcore & Hr & Hcalls & _ & _ & _ & _ & before & Hretr & Hs').
  exists arrival, in_order, received, retransmitted, before.
  split; [exact Harrival|]. split; [exact Horder|]. split; [exact Hcore|].
  split; [exact Hr|]. split; [exact Hretr|]. split; [exact Hs'|].
  by apply calls_since_extends.
Qed.

(** X27. The arrival time that the bitrate estimator is given: the clock
    when the packet carries no timestamp ([-1]); for a timestamp in
    microseconds that is not negative, the nearest millisecond, halves
    rounded up; nothing defined when [timestamp + 500] leaves the range of
    [int64_t]. *)
Theorem arrival_time_is_rounded (packet_time : PacketTime) (now_ms : Z) :
  (timestamp packet_time = -1 ->
   arrival_time_ms packet_time now_ms = Some now_ms)
  /\ (0 <= timestamp packet_time < 2 ^ 63 - 500 ->
      exists arrival,
        arrival_time_ms packet_time now_ms = Some arrival
        /\ timestamp packet_time - 500 < 1000 * arrival
           <= timestamp packet_time + 500)
  /\ (2 ^ 63 - 500 <= timestamp packet_time ->
      arrival_time_ms packet_time now_ms = None).
Proof.
  unfold arrival_time_ms, in_int64. split; [by intros ->|]. split.
  - intros [Hlow Hhigh].
    destruct (Z.eqb_spec (timestamp packet_time) (-1)); [lia|]. simpl.
    destruct (Z.leb_spec (- 2 ^ 63) (timestamp packet_time + 500)); [|lia].
    destruct (Z.ltb_spec (timestamp packet_time + 500) (2 ^ 63)); [|lia].
    simpl. eexists. split; [done|].
    rewrite Z.quot_div_nonneg by lia.
    pose proof (Z.div_mod (timestamp packet_time + 500) 1000 ltac:(lia)).
    pose proof (Z.mod_pos_bound (timestamp packet_time + 500) 1000
                  ltac:(lia)).
    lia.
  - intros Hbig.
    destruct (Z.eqb_spec (timestamp packet_time) (-1)); [lia|]. simpl.
    destruct (Z.ltb_spec (timestamp packet_time + 500) (2 ^ 63)); [lia|].
    by rewrite andb_false_r.
Qed.

Lemma logged_headers_app (a b : list (Event)) :
  logged_headers (a ++ b) = (logged_headers a + logged_headers b)%nat.
Proof.
  induction a as [|e a IH]; [done|]. destruct e; simpl; by rewrite ?IH.
Qed.

Lemma logged_headers_receiver (l : list ViEReceiver.Event) :
  logged_headers (EvReceiver <$> l) = 0%nat.
Proof. induction l as [|e l IH]; [done|]. done. Qed.

(** X28. The headers of incoming packets are logged at most once in ten
    seconds of the clock: a returning [InsertRTPPacket] on a parsed packet
    logs the header, once, exactly when more than [kPacketLogIntervalMs]
    have passed since the last logged header, and then remembers the time;
    so afterwards no more than the interval has passed since that time. *)
Theorem packet_log_is_throttled (fuel : nat) (packet : list byte)
  (packet_length : Z) (packet_time : PacketTime) header s r s' :
  receiving_ s = true ->
  ViEReceiver.Parse (receiver_env E) (receiver_ s) packet packet_length
  = Some header ->
  InsertRTPPacket E fuel packet packet_length packet_time s = Some (r, s') ->
  let now_ms := TimeInMilliseconds E s in
  (kPacketLogIntervalMs < now_ms - last_packet_log_ms_ s ->
   logged_headers (calls_since s s') = 1%nat
   /\ last_packet_log_ms_ s' = now_ms)
  /\ (now_ms - last_packet_log_ms_ s <= kPacketLogIntervalMs ->
      logged_headers (calls_since s s') = 0%nat
      /\ last_packet_log_ms_ s' = last_packet_log_ms_ s)
  /\ now_ms - last_packet_log_ms_ s' <= kPacketLogIntervalMs.
Proof.
  intros Hon Hparse H. cbv zeta.
  apply (InsertRTPPacket_inv _ _ _ _ _ _ _ _ Hon Hparse) in H
    as (arrival & in_order & received & retransmitted & _ & _ & _ & _
        & Hcalls & Hlast & _).
  rewrite (calls_since_extends _ _ _ Hcalls), Hlast.
  rewrite !logged_headers_app, logged_headers_receiver.
  unfold kPacketLogIntervalMs in *.
  destruct (Z.ltb_spec 10000
              (TimeInMilliseconds E s - last_packet_log_ms_ s));
    simpl; repeat split; intros; lia.
Qed.

Lemma rtcp_modules_app (a b : list Event) :
  rtcp_modules (a ++ b) = rtcp_modules a ++ rtcp_modules b.
Proof.
  induction a as [|e a IH]; [done|]. destruct e; simpl; by rewrite ?IH.
Qed.

Lemma ntp_updates_app (a b : list Event) :
  ntp_updates (a ++ b) = ntp_updates a ++ ntp_updates b.
Proof.
  induction a as [|e a IH]; [done|]. destruct e; simpl; by rewrite ?IH.
Qed.

Lemma with_calls_app s (a b : list Event) :
  with_calls (calls (with_calls (calls s ++ a) s) ++ b)
    (with_calls (calls s ++ a) s)
  = with_calls (calls s ++ a ++ b) s.
Proof. unfold with_calls. simpl. by rewrite app_assoc. Qed.

(** The loop over the simulcast modules: every module is handed the
    packet, in order, and what is recorded is its answer at its turn. *)
Lemma simulcast_loop (packet : list byte) (packet_length : Z)
  (modules : list ptr) s :
  exists evs,
    for_each modules
      (fun rtp_rtcp =>
         let* s := get in
         emit (EvIncomingRtcpPacket rtp_rtcp packet packet_length
                 (IncomingRtcpPacket E s rtp_rtcp packet packet_length))) s
    = Some (tt, with_calls (calls s ++ evs) s)
    /\ rtcp_modules evs = modules
    /\ ntp_updates evs = []
    /\ (forall pre e post,
          evs = pre ++ e :: post ->
          exists module,
            e = EvIncomingRtcpPacket module packet packet_length
                  (IncomingRtcpPacket E (with_calls (calls s ++ pre) s)
                     module packet packet_length)).
Proof.
  revert s. induction modules as [|m modules IH]; intros s; simpl.
  - exists []. unfold ret. rewrite with_calls_nil.
    split; [done|]. split; [done|]. split; [done|].
    intros pre e post Heq. by destruct pre.
  - unfold bind at 1. unfold bind at 1. unfold get at 1.
    unfold emit at 1. unfold modify at 1.
    match goal with
    | |- context [for_each modules ?body ?st] =>
        destruct (IH st) as (evs & -> & Hmods & Hntp & Htied)
    end.
    eexists (_ :: evs). split; [by rewrite with_calls_app|].
    split; [simpl; by rewrite Hmods|]. split; [done|].
    intros pre e post Heq. destruct pre as [|e0 pre].
    + simpl in Heq. injection Heq as <- _. exists m.
      by rewrite with_calls_nil.
    + simpl in Heq. injection Heq as <- Heq.
      destruct (Htied pre e post Heq) as [module ->]. exists module.
      by rewrite with_calls_app.
Qed.

Lemma InsertRTCPPacket_run (packet : list byte) (packet_length : Z) s base
  evs :
  receiving_ s = true -> rtp_rtcp_ s = Some base ->
  for_each (rtp_rtcp_simulcast_ s)
    (fun rtp_rtcp =>
       let* s := get in
       emit (EvIncomingRtcpPacket rtp_rtcp packet packet_length
               (IncomingRtcpPacket E s rtp_rtcp packet packet_length))) s
  = Some (tt, with_calls (calls s ++ evs) s) ->
  InsertRTCPPacket E packet packet_length s
  = let answer :=
      IncomingRtcpPacket E (with_calls (calls s ++ evs) s) base packet
        packet_length in
    let offered :=
      evs ++ [EvIncomingRtcpPacket base packet packet_length answer] in
    let s2 := with_calls (calls s ++ offered) s in
    if negb (answer =? 0) then Some (answer, s2)
    else
      let rtt :=
        (RTT E s2 base
           (ViEReceiver.rtp_receiver_SSRC (receiver_env E) (receiver_ s2))).1
      in
      if rtt =? 0 then Some (0, s2)
      else
        let ntp := RemoteNTP E s2 base in
        if negb (ntp.1 =? 0) then Some (0, s2)
        else
          Some (0,
                with_calls
                  (calls s
                   ++ offered
                   ++ [EvUpdateRtcpTimestamp rtt ntp.2.1.1 ntp.2.1.2
                         ntp.2.2]) s).
Proof.
  intros Hon Hbase Hloop. unfold InsertRTCPPacket.
  unfold bind at 1. unfold get at 1. rewrite Hon. cbn [negb].
  unfold bind at 1. rewrite -> Hloop.
  unfold bind at 1. unfold get at 1.
  cbn [rtp_rtcp_ with_calls]. rewrite Hbase. cbv zeta.
  unfold bind at 1. unfold emit at 1. unfold modify at 1.
  assert (Hs2 : forall answer,
    with_calls
      (calls (with_calls (calls s ++ evs) s)
       ++ [EvIncomingRtcpPacket base packet packet_length answer])
      (with_calls (calls s ++ evs) s)
    = with_calls
        (calls s
         ++ evs ++ [EvIncomingRtcpPacket base packet packet_length answer])
        s).
  { intros answer. unfold with_calls. simpl. by rewrite <- app_assoc. }
  rewrite Hs2. destruct (negb _); [done|].
  unfold bind at 1. unfold get at 1.
  destruct (_ =? 0); [done|]. destruct (negb _); [done|].
  unfold bind, emit, modify, ret. unfold with_calls. simpl.
  by rewrite <- !app_assoc.
Qed.

(** X29. A receiving receiver hands an RTCP packet to every simulcast
    module, in their order, and then to the base module, each once, and
    records what [IncomingRtcpPacket] of the module answers at its turn;
    without a base module the call does not return. The result of the call
    is the answer of the base module, whatever it is. When that answer is
    not [0] nothing follows; when it is [0], the NTP estimator is updated,
    once, with the round-trip time, exactly when the round-trip time that
    the base module reports is not [0] and [RemoteNTP] answers [0]. So
    after the owner has set the base module, registered the modules with
    the base module first and started the receiver, every registered module
    is handed every RTCP packet once. *)
Theorem InsertRTCPPacket_reaches_every_module (packet : list byte)
  (packet_length : Z) :
  (forall s,
     receiving_ s = true -> rtp_rtcp_ s = None ->
     InsertRTCPPacket E packet packet_length s = None)
  /\ (forall s base,
        receiving_ s = true -> rtp_rtcp_ s = Some base ->
        exists simulcast rest,
          let answer :=
            IncomingRtcpPacket E (with_calls (calls s ++ simulcast) s) base
              packet packet_length in
          let offered :=
            simulcast
            ++ [EvIncomingRtcpPacket base packet packet_length answer] in
          let s2 := with_calls (calls s ++ offered) s in
          let rtt :=
            (RTT E s2 base
               (ViEReceiver.rtp_receiver_SSRC (receiver_env E)
                  (receiver_ s2))).1 in
          let ntp := RemoteNTP E s2 base in
          InsertRTCPPacket E packet packet_length s
          = Some (answer, with_calls (calls s ++ offered ++ rest) s)
          /\ rtcp_modules simulcast = rtp_rtcp_simulcast_ s
          /\ (forall pre e post,
                simulcast = pre ++ e :: post ->
                exists module,
                  e = EvIncomingRtcpPacket module packet packet_length
                        (IncomingRtcpPacket E
                           (with_calls (calls s ++ pre) s) module packet
                           packet_length))
          /\ rest
             = (if (answer =? 0) && negb (rtt =? 0) && (ntp.1 =? 0)
                then [EvUpdateRtcpTimestamp rtt ntp.2.1.1 ntp.2.1.2 ntp.2.2]
                else [])
          /\ rtcp_modules (offered ++ rest) = rtp_rtcp_simulcast_ s ++ [base]
          /\ ntp_updates (offered ++ rest)
             = (if (answer =? 0) && negb (rtt =? 0) && (ntp.1 =? 0)
                then [rtt] else [])
          /\ (length (ntp_updates (offered ++ rest)) <= 1)%nat
          /\ (forall rtt', rtt' ∈ ntp_updates (offered ++ rest) ->
                           answer = 0 /\ rtt' = rtt /\ rtt' <> 0)
          /\ (answer <> 0 ->
              rest = []
              /\ last (offered ++ rest)
                 = Some (EvIncomingRtcpPacket base packet packet_length
                           answer)))
  /\ (forall base simulcast s0 s1,
        (SetRtpRtcpModule (Some base) ;;;
         RegisterRtpRtcpModules (base :: simulcast) ;;;
         StartReceive) s0 = Some (tt, s1) ->
        exists r evs,
          InsertRTCPPacket E packet packet_length s1
          = Some (r, with_calls (calls s1 ++ evs) s1)
          /\ rtcp_modules evs = simulcast ++ [base]).
Proof.
  assert (Hnone : forall s,
    receiving_ s = true -> rtp_rtcp_ s = None ->
    InsertRTCPPacket E packet packet_length s = None).
  { intros s Hon Hnone.
    destruct (simulcast_loop packet packet_length (rtp_rtcp_simulcast_ s) s)
      as (evs & Hloop & Hmods & Hntp & _).
    unfold InsertRTCPPacket.
    unfold bind at 1. unfold get at 1. rewrite Hon. cbn [negb].
    unfold bind at 1. rewrite -> Hloop.
    unfold bind, get. simpl. by rewrite Hnone. }
  assert (Hsome : forall s base,
    receiving_ s = true -> rtp_rtcp_ s = Some base ->
    exists simulcast rest,
      let answer :=
        IncomingRtcpPacket E (with_calls (calls s ++ simulcast) s) base
          packet packet_length in
      let offered :=
        simulcast
        ++ [EvIncomingRtcpPacket base packet packet_length answer] in
      let s2 := with_calls (calls s ++ offered) s in
      let rtt :=
        (RTT E s2 base
           (ViEReceiver.rtp_receiver_SSRC (receiver_env E)
              (receiver_ s2))).1 in
      let ntp := RemoteNTP E s2 base in
      InsertRTCPPacket E packet packet_length s
      = Some (answer, with_calls (calls s ++ offered ++ rest) s)
      /\ rtcp_modules simulcast = rtp_rtcp_simulcast_ s
      /\ (forall pre e post,
            simulcast = pre ++ e :: post ->
            exists module,
              e = EvIncomingRtcpPacket module packet packet_length
                    (IncomingRtcpPacket E
                       (with_calls (calls s ++ pre) s) module packet
                       packet_length))
      /\ rest
         = (if (answer =? 0) && negb (rtt =? 0) && (ntp.1 =? 0)
            then [EvUpdateRtcpTimestamp rtt ntp.2.1.1 ntp.2.1.2 ntp.2.2]
            else [])
      /\ rtcp_modules (offered ++ rest) = rtp_rtcp_simulcast_ s ++ [base]
      /\ ntp_updates (offered ++ rest)
         = (if (answer =? 0) && negb (rtt =? 0) && (ntp.1 =? 0)
            then [rtt] else [])
      /\ (length (ntp_updates (offered ++ rest)) <= 1)%nat
      /\ (forall rtt', rtt' ∈ ntp_updates (offered ++ rest) ->
                       answer = 0 /\ rtt' = rtt /\ rtt' <> 0)
      /\ (answer <> 0 ->
          rest = []
          /\ last (offered ++ rest)
             = Some (EvIncomingRtcpPacket base packet packet_length
                       answer))).
  { intros s base Hon Hbase.
    destruct (simulcast_loop packet packet_length (rtp_rtcp_simulcast_ s) s)
      as (evs & Hloop & Hmods & Hntp & Htied).
    pose proof (InsertRTCPPacket_run _ _ _ _ _ Hon Hbase Hloop) as Hrun.
    cbv zeta in Hrun. exists evs. cbv zeta.
    set (answer := IncomingRtcpPacket E (with_calls (calls s ++ evs) s) base
                     packet packet_length) in *.
    set (offered := evs ++ [EvIncomingRtcpPacket base packet packet_length
                              answer]) in *.
    set (rtt := (RTT E (with_calls (calls s ++ offered) s) base
                   (ViEReceiver.rtp_receiver_SSRC (receiver_env E)
                      (receiver_ (with_calls (calls s ++ offered) s)))).1)
      in *.
    set (ntp := RemoteNTP E (with_calls (calls s ++ offered) s) base) in *.
    assert (Hoffered : rtcp_modules offered = rtp_rtcp_simulcast_ s ++ [base]
                       /\ ntp_updates offered = []).
    { unfold offered. by rewrite rtcp_modules_app, ntp_updates_app, Hmods, Hntp. }
    destruct Hoffered as [Hmods2 Hntp2].
    assert (Hquiet :
      InsertRTCPPacket E packet packet_length s
      = Some (answer, with_calls (calls s ++ offered) s) ->
      (answer =? 0) && negb (rtt =? 0) && (ntp.1 =? 0) = false ->
      exists rest,
        InsertRTCPPacket E packet packet_length s
        = Some (answer, with_calls (calls s ++ offered ++ rest) s)
        /\ rtcp_modules evs = rtp_rtcp_simulcast_ s
        /\ (forall pre e post,
              evs = pre ++ e :: post ->
              exists module,
                e = EvIncomingRtcpPacket module packet packet_length
                      (IncomingRtcpPacket E
                         (with_calls (calls s ++ pre) s) module packet
                         packet_length))
        /\ rest
           = (if (answer =? 0) && negb (rtt =? 0) && (ntp.1 =? 0)
              then [EvUpdateRtcpTimestamp rtt ntp.2.1.1 ntp.2.1.2 ntp.2.2]
              else [])
        /\ rtcp_modules (offered ++ rest) = rtp_rtcp_simulcast_ s ++ [base]
        /\ ntp_updates (offered ++ rest)
           = (if (answer =? 0) && negb (rtt =? 0) && (ntp.1 =? 0)
              then [rtt] else [])
        /\ (length (ntp_updates (offered ++ rest)) <= 1)%nat
        /\ (forall rtt', rtt' ∈ ntp_updates (offered ++ rest) ->
                         answer = 0 /\ rtt' = rtt /\ rtt' <> 0)
        /\ (answer <> 0 ->
            rest = []
            /\ last (offered ++ rest)
               = Some (EvIncomingRtcpPacket base packet packet_length
                         answer))).
    { intros Hreturn Hcond. exists []. rewrite Hcond, app_nil_r.
      split; [exact Hreturn|]. split; [exact Hmods|]. split; [exact Htied|].
      split; [done|]. split; [exact Hmods2|]. rewrite Hntp2.
      split; [done|].
      split; [simpl; lia|]. split; [by intros ? ?%elem_of_nil|].
      intros _. split; [done|]. unfold offered. by rewrite last_snoc. }
    destruct (Z.eqb_spec answer 0) as [Hzero|Hnonzero]; simpl in Hrun.
    2:{ apply Hquiet; [exact Hrun|done]. }
    destruct (Z.eqb_spec rtt 0) as [Hrtt|Hrtt].
    { apply Hquiet; [|done]. rewrite Hrun. by rewrite Hzero. }
    simpl in Hrun. destruct (Z.eqb_spec ntp.1 0) as [Hntp0|Hntp0];
      simpl in Hrun.
    2:{ apply Hquiet; [|done]. rewrite Hrun. by rewrite Hzero. }
    exists [EvUpdateRtcpTimestamp rtt ntp.2.1.1 ntp.2.1.2 ntp.2.2].
    split; [rewrite Hrun; by rewrite Hzero|].
    split; [exact Hmods|]. split; [exact Htied|]. split; [done|].
    rewrite rtcp_modules_app, ntp_updates_app, Hmods2, Hntp2. simpl.
    rewrite app_nil_r.
    split; [done|]. split; [done|]. split; [lia|]. split.
    - intros rtt' Hin. apply list_elem_of_singleton in Hin as ->. done.
    - intros Hne. by destruct Hne. }
  split; [exact Hnone|]. split; [exact Hsome|].
  intros base simulcast s0 s1 Hsetup.
  unfold SetRtpRtcpModule, RegisterRtpRtcpModules, StartReceive in Hsetup.
  unfold bind, modify in Hsetup. injection Hsetup as <-.
  destruct (Hsome (with_receiving true
                     (with_rtp_rtcp_simulcast simulcast
                        (with_rtp_rtcp (Some base) s0))) base eq_refl eq_refl)
    as (evs & rest & Hrun & _ & _ & _ & Hmods & _).
  eexists _, _. split; [exact Hrun|exact Hmods].
Qed.

(** X30. [IsPacketRetransmitted] changes nothing; it answers [false]
    when RTX is enabled, when the statistics know no stream of the SSRC,
    and for every packet that is in order; with RTX disabled and a stream
    known it reads the round-trip time through [rtp_rtcp_], and does not
    return when that is null. *)
Theorem IsPacketRetransmitted_cases (header : ViEReceiver.RTPHeader)
  (in_order : bool) s :
  (RtxEnabled E s = true ->
   IsPacketRetransmitted E header in_order s = Some (false, s))
  /\ (RtxEnabled E s = false ->
      (StatisticianIsRetransmitOfOldPacket E s (ViEReceiver.ssrc header)
       = None ->
       IsPacketRetransmitted E header in_order s = Some (false, s))
      /\ (forall IsRetransmitOfOldPacket,
            StatisticianIsRetransmitOfOldPacket E s (ViEReceiver.ssrc header)
            = Some IsRetransmitOfOldPacket ->
            (rtp_rtcp_ s = None ->
             IsPacketRetransmitted E header in_order s = None)
            /\ (forall module,
                  rtp_rtcp_ s = Some module ->
                  IsPacketRetransmitted E header in_order s
                  = Some (negb in_order
                          && IsRetransmitOfOldPacket header
                               (RTT E s module
                                  (ViEReceiver.rtp_receiver_SSRC
                                     (receiver_env E) (receiver_ s))).2,
                          s))))
  /\ (forall r s',
        IsPacketRetransmitted E header true s = Some (r, s') -> r = false).
Proof.
  unfold IsPacketRetransmitted. unfold bind, get.
  split; [by intros ->|]. split.
  - intros ->. split; [by intros ->|].
    intros f ->. split; [by intros ->|]. by intros module ->.
  - intros r s'. destruct (RtxEnabled E s); [by intros [= <- _]|].
    destruct (StatisticianIsRetransmitOfOldPacket E s _);
      [|by intros [= <- _]].
    destruct (rtp_rtcp_ s); [|done]. by intros [= <- _].
Qed.

End IngressProperties.

(** * The further properties at concrete inputs *)

Import Scenarios.

Lemma registry_ok_idle : registry_ok idle.
Proof.
  unfold registry_ok. simpl. split; [|split; [|split; [|split]]].
  - intros k p H. by rewrite lookup_empty in H.
  - intros k p H. by rewrite lookup_empty in H.
  - split; [intros k p H; by rewrite lookup_empty in H|].
    intros p H. by apply not_elem_of_empty in H.
  - split; [intros k p H; by rewrite lookup_empty in H|].
    intros p H. by apply not_elem_of_empty in H.
  - intros g a H. by rewrite lookup_empty in H.
Qed.

(** No entry of a concrete index points to [p]. *)
Lemma unindexed_by_items (m : gmap N ptr) (p : ptr) :
  forallb (fun kv => negb (Pos.eqb kv.2 p)) (StdMap.items m) = true ->
  forall k, m !! k <> Some p.
Proof.
  intros Hall k Hk. apply StdMap_items_elem in Hk.
  rewrite forallb_forall in Hall.
  apply list_elem_of_In in Hk. specialize (Hall _ Hk). simpl in Hall.
  by rewrite Pos.eqb_refl in Hall.
Qed.

Lemma reachable_registry_ok_witness : registry_ok lifecycle_end.
Proof.
  apply (reachable_registry_ok (accepting true) stored_bitrates true true
           lifecycle fresh lifecycle_end);
    vm_compute; reflexivity.
Defined.

Lemma creation_returns_iff_witness :
  registry_ok idle
  /\ is_Some (CreateVideoReceiveStream (accepting true) 8%positive
                video_receive_a_b idle)
  /\ ~ is_Some (CreateVideoReceiveStream (accepting true) 8%positive
                  video_receive_c_d with_a_b).
Proof.
  split; [exact registry_ok_idle|]. split.
  - apply (proj2 (proj2 (proj2 (creation_returns_iff (accepting true) idle
                                  8%positive registry_ok_idle)))
             video_receive_a_b).
    split; [reflexivity|]. intros _. vm_compute. reflexivity.
  - assert (Hok : registry_ok with_a_b).
    { apply (CreateVideoReceiveStream_registry_ok (accepting true) 8%positive
               video_receive_a_b idle 8%positive with_a_b registry_ok_idle).
      vm_compute. reflexivity. }
    intros Hsome.
    apply (proj2 (proj2 (proj2 (creation_returns_iff (accepting true)
                                  with_a_b 8%positive Hok)))
             video_receive_c_d) in Hsome as [Hfresh _].
    vm_compute in Hfresh. discriminate.
Defined.

Lemma destruction_returns_iff_witness :
  registry_ok key_lost
  /\ is_Some (DestroyVideoReceiveStream (accepting true) 9%positive key_lost)
  /\ ~ is_Some (DestroyVideoReceiveStream (accepting true) 8%positive
                  key_lost).
Proof.
  assert (Hok : registry_ok key_lost).
  { apply (run_registry_ok (accepting true)
             [OpCreateVideoReceiveStream 8%positive video_receive_a;
              OpCreateVideoReceiveStream 9%positive video_receive_c_a]
             idle tt key_lost registry_ok_idle).
    vm_compute. reflexivity. }
  split; [exact Hok|]. split.
  - apply (proj2 (proj2 (proj2 (destruction_returns_iff (accepting true)
                                  key_lost 9%positive Hok)))).
    exists 10%N. vm_compute. reflexivity.
  - intros Hsome.
    apply (proj2 (proj2 (proj2 (destruction_returns_iff (accepting true)
                                  key_lost 8%positive Hok)))) in Hsome
      as [k Hk].
    revert k Hk. apply unindexed_by_items. vm_compute. reflexivity.
Defined.

Lemma audio_send_round_trip_witness :
  audio_send_ssrcs_ idle !! as_rtp_ssrc audio_send_7 = None
  /\ CreateAudioSendStream (accepting true) 3%positive audio_send_7 idle
     = Some (3%positive, with_audio_send_7)
  /\ DestroyAudioSendStream (accepting true) 3%positive with_audio_send_7
     = Some (tt, with_trace
                   [EvNew AudioSend 3%positive; EvStop AudioSend 3%positive;
                    EvDelete AudioSend 3%positive] idle).
Proof.
  assert (Hkey : audio_send_ssrcs_ idle !! as_rtp_ssrc audio_send_7 = None)
    by (vm_compute; reflexivity).
  assert (Hcreate : CreateAudioSendStream (accepting true) 3%positive
                      audio_send_7 idle
                    = Some (3%positive, with_audio_send_7))
    by (vm_compute; reflexivity).
  split; [exact Hkey|]. split; [exact Hcreate|].
  exact (audio_send_round_trip (accepting true) idle 3%positive audio_send_7
           with_audio_send_7 Hkey Hcreate).
Defined.

Lemma video_send_round_trip_witness :
  registry_ok idle
  /\ vs_rtp_ssrcs video_send_100_101 <> []
  /\ CreateVideoSendStream (accepting true) 4%positive video_send_100_101 idle
     = Some (4%positive, with_video_send_100_101)
  /\ exists s2,
       DestroyVideoSendStream (accepting true) 4%positive
         with_video_send_100_101 = Some (tt, s2)
       /\ registries_but_sync s2
          = registries_but_sync
              (with_suspended_video_send_ssrcs
                 (foldl (fun m kv => <[kv.1 := kv.2]> m)
                    (suspended_video_send_ssrcs_ idle)
                    (StdMap.items
                       (VideoSendStream_GetRtpStates (accepting true)
                          (unregistered_video_send 4%positive
                             with_video_send_100_101) 4%positive))) idle)
       /\ suspended_video_send_ssrcs_ s2 !! 100%N = Some 1100%N
       /\ suspended_video_send_ssrcs_ s2 !! 101%N = Some 1101%N.
Proof.
  assert (Hsome : vs_rtp_ssrcs video_send_100_101 <> []) by discriminate.
  assert (Hkeys : forall k, k ∈ vs_rtp_ssrcs video_send_100_101 ->
                            video_send_ssrcs_ idle !! k = None).
  { intros k _. apply lookup_empty. }
  assert (Hcreate : CreateVideoSendStream (accepting true) 4%positive
                      video_send_100_101 idle
                    = Some (4%positive, with_video_send_100_101))
    by (vm_compute; reflexivity).
  split; [exact registry_ok_idle|]. split; [exact Hsome|].
  split; [exact Hcreate|].
  destruct (video_send_round_trip (accepting true) idle 4%positive
              video_send_100_101 with_video_send_100_101 registry_ok_idle
              Hsome Hkeys Hcreate) as [Hasked Hdestroy].
  eexists. split; [exact Hdestroy|].
  split; [reflexivity|]. split; vm_compute; reflexivity.
Defined.

Lemma audio_receive_round_trip_witness :
  registry_ok idle
  /\ audio_receive_ssrcs_ idle !! ar_rtp_remote_ssrc audio_receive_g = None
  /\ CreateAudioReceiveStream (accepting true) 5%positive audio_receive_g idle
     = Some (5%positive, with_audio_receive_g)
  /\ exists s2,
       DestroyAudioReceiveStream (accepting true) 5%positive
         with_audio_receive_g = Some (tt, s2)
       /\ registries_but_sync s2 = registries_but_sync idle.
Proof.
  assert (Hkey : audio_receive_ssrcs_ idle
                 !! ar_rtp_remote_ssrc audio_receive_g = None)
    by (vm_compute; reflexivity).
  assert (Hcreate : CreateAudioReceiveStream (accepting true) 5%positive
                      audio_receive_g idle
                    = Some (5%positive, with_audio_receive_g))
    by (vm_compute; reflexivity).
  split; [exact registry_ok_idle|]. split; [exact Hkey|].
  split; [exact Hcreate|].
  destruct (audio_receive_round_trip (accepting true) idle 5%positive
              audio_receive_g with_audio_receive_g registry_ok_idle Hkey
              Hcreate) as (s2 & Hdestroy & Hsame & _).
  exists s2. split; [exact Hdestroy|exact Hsame].
Defined.

Lemma video_receive_round_trip_witness :
  registry_ok idle
  /\ CreateVideoReceiveStream (accepting true) 8%positive video_receive_a_b
       idle = Some (8%positive, with_a_b)
  /\ exists s2,
       DestroyVideoReceiveStream (accepting true) 8%positive with_a_b
       = Some (tt, s2)
       /\ registries_but_sync s2 = registries_but_sync idle.
Proof.
  assert (Hkeys : forall k, k ∈ receive_keys video_receive_a_b ->
                            video_receive_ssrcs_ idle !! k = None).
  { intros k _. apply lookup_empty. }
  assert (Hcreate : CreateVideoReceiveStream (accepting true) 8%positive
                      video_receive_a_b idle = Some (8%positive, with_a_b))
    by (vm_compute; reflexivity).
  split; [exact registry_ok_idle|]. split; [exact Hcreate|].
  destruct (video_receive_round_trip (accepting true) idle 8%positive
              video_receive_a_b with_a_b registry_ok_idle Hkeys Hcreate)
    as (s2 & Hdestroy & Hsame & _).
  exists s2. split; [exact Hdestroy|exact Hsame].
Defined.

(** In a build with [RTC_DCHECK] the stream at 8, whose only SSRC the RTX
    SSRC of the stream at 9 took over, cannot be destroyed any more, and
    the call cannot be destructed. *)
Lemma unindexed_video_stream_is_stranded_witness :
  registry_ok key_lost
  /\ run (accepting true) later key_lost = Some (tt, key_lost_later)
  /\ 8%positive ∈ video_receive_streams_ key_lost
  /\ (forall k, video_receive_ssrcs_ key_lost !! k <> Some 8%positive)
  /\ DestroyVideoReceiveStream (accepting true) 8%positive key_lost_later
     = None
  /\ Call_delete key_lost_later = None.
Proof.
  assert (Hok : registry_ok key_lost).
  { apply (run_registry_ok (accepting true)
             [OpCreateVideoReceiveStream 8%positive video_receive_a;
              OpCreateVideoReceiveStream 9%positive video_receive_c_a]
             idle tt key_lost registry_ok_idle).
    vm_compute. reflexivity. }
  assert (Hrun : run (accepting true) later key_lost
                 = Some (tt, key_lost_later)) by (vm_compute; reflexivity).
  assert (Hin : 8%positive ∈ video_receive_streams_ key_lost)
    by (vm_compute; reflexivity).
  assert (Hnone : forall k,
            video_receive_ssrcs_ key_lost !! k <> Some 8%positive).
  { apply unindexed_by_items. vm_compute. reflexivity. }
  split; [exact Hok|]. split; [exact Hrun|]. split; [exact Hin|].
  split; [exact Hnone|].
  destruct (proj2 (unindexed_video_stream_is_stranded (accepting true) later
                     key_lost key_lost_later 8%positive Hok Hrun) Hin Hnone)
    as (_ & _ & Hdestroy & Hdelete).
  split; [exact Hdestroy|exact Hdelete].
Defined.

Lemma SignalNetworkState_broadcast_witness :
  exists s',
    SignalNetworkState kNetworkDown one_video_send = Some (tt, s')
    /\ network_enabled_ s' = false
    /\ network_signals 4%positive (events_since one_video_send s')
       = [kNetworkDown; kNetworkDown].
Proof.
  eexists. split.
  - exact (proj1 (SignalNetworkState_broadcast one_video_send kNetworkDown)).
  - split; vm_compute; reflexivity.
Defined.

Lemma network_flag_follows_last_signal_witness :
  run (accepting true) other_ops with_a_b = Some (tt, with_a_b_later)
  /\ network_enabled_ with_a_b_later = false.
Proof.
  assert (Hrun : run (accepting true) other_ops with_a_b
                 = Some (tt, with_a_b_later)) by (vm_compute; reflexivity).
  split; [exact Hrun|].
  rewrite (proj1 (network_flag_follows_last_signal (accepting true) other_ops
                    with_a_b tt with_a_b_later Hrun)).
  reflexivity.
Defined.

Lemma creation_with_network_up_is_silent_witness :
  network_enabled_ idle = true
  /\ CreateVideoReceiveStream (accepting true) 8%positive video_receive_a_b
       idle = Some (8%positive, with_a_b)
  /\ signalled (events_since idle with_a_b) = [].
Proof.
  assert (Hcreate : CreateVideoReceiveStream (accepting true) 8%positive
                      video_receive_a_b idle = Some (8%positive, with_a_b))
    by (vm_compute; reflexivity).
  split; [reflexivity|]. split; [exact Hcreate|].
  exact (proj2 (proj2 (proj2 (creation_with_network_up_is_silent
                                (accepting true) idle 8%positive eq_refl)))
           video_receive_a_b 8%positive with_a_b Hcreate).
Defined.

(** The state of the SSRC 7, suspended before, outlives the destruction of
    a stream that has no such SSRC. *)
Lemma suspended_rtp_states_are_kept_witness :
  run (accepting true) [OpDestroyVideoSendStream 4%positive] one_video_send
  = Some (tt, video_send_gone)
  /\ is_Some (suspended_video_send_ssrcs_ one_video_send !! 7%N)
  /\ is_Some (suspended_video_send_ssrcs_ video_send_gone !! 7%N).
Proof.
  assert (Hrun : run (accepting true) [OpDestroyVideoSendStream 4%positive]
                   one_video_send = Some (tt, video_send_gone))
    by (vm_compute; reflexivity).
  assert (Hbefore : is_Some (suspended_video_send_ssrcs_ one_video_send
                             !! 7%N)).
  { exists 77%N. vm_compute. reflexivity. }
  split; [exact Hrun|]. split; [exact Hbefore|].
  exact (proj1 (suspended_rtp_states_are_kept (accepting true)
                  [OpDestroyVideoSendStream 4%positive] one_video_send tt
                  video_send_gone Hrun) 7%N Hbefore).
Defined.

Lemma sync_anchor_election_witness :
  ConfigureSync "g" one_audio_two_videos = Some (tt, synced)
  /\ sync_stream_mapping_ one_audio_two_videos !! "g" = None
  /\ sync_stream_mapping_ synced !! "g" = Some 5%positive.
Proof.
  assert (Hrun : ConfigureSync "g" one_audio_two_videos = Some (tt, synced))
    by (vm_compute; reflexivity).
  assert (Hnone : sync_stream_mapping_ one_audio_two_videos !! "g" = None)
    by (vm_compute; reflexivity).
  split; [exact Hrun|]. split; [exact Hnone|].
  rewrite (proj2 (proj2 (proj2 (sync_anchor_election "g"
                                  one_audio_two_videos synced Hrun)))
             eq_refl eq_refl Hnone).
  vm_compute. reflexivity.
Defined.

Lemma sync_anchor_reelected_on_destroy_witness :
  audio_receive_heap synced !! 5%positive = Some audio_receive_g
  /\ DestroyAudioReceiveStream (accepting true) 5%positive synced
     = Some (tt, anchor_gone)
  /\ sync_stream_mapping_ synced !! "g" = Some 5%positive
  /\ sync_stream_mapping_ anchor_gone !! "g" = None.
Proof.
  assert (Hheap : audio_receive_heap synced !! 5%positive
                  = Some audio_receive_g) by (vm_compute; reflexivity).
  assert (Hrun : DestroyAudioReceiveStream (accepting true) 5%positive synced
                 = Some (tt, anchor_gone)) by (vm_compute; reflexivity).
  assert (Hanchor : sync_stream_mapping_ synced !! "g" = Some 5%positive)
    by (vm_compute; reflexivity).
  split; [exact Hheap|]. split; [exact Hrun|]. split; [exact Hanchor|].
  change (sync_stream_mapping_ anchor_gone !! "g")
    with (sync_stream_mapping_ anchor_gone !! ar_sync_group audio_receive_g).
  rewrite (proj2 (proj2 (sync_anchor_reelected_on_destroy (accepting true)
                           synced 5%positive audio_receive_g anchor_gone
                           Hheap Hrun) Hanchor)).
  vm_compute. reflexivity.
Defined.

(** Bitrates whose start is above the maximum: the constructor turns them
    away in a build with [RTC_DCHECK], [SetBitrateConfig] takes them. *)
Lemma bitrate_checks_witness :
  ~ is_Some (Call_new (accepting true) start_above_max true true)
  /\ is_Some (SetBitrateConfig (accepting true) start_above_max idle).
Proof.
  split.
  - intros Hsome.
    destruct (proj1 (proj1 (bitrate_checks (accepting true) start_above_max
                              true true idle)) Hsome eq_refl)
      as [_ [Hmax|Hmax]]; simpl in Hmax; lia.
  - apply (proj2 (bitrate_checks (accepting true) start_above_max true true
                    idle)).
    intros _. simpl. lia.
Defined.

Lemma stored_bitrates_stay_checked_witness :
  dcheck_is_on (accepting true) = true
  /\ Call_new (accepting true) stored_bitrates true true = Some fresh
  /\ run (accepting true) lifecycle fresh = Some (tt, lifecycle_end)
  /\ 0 <= min_bitrate_bps (bitrate_config_ lifecycle_end).
Proof.
  assert (Hnew : Call_new (accepting true) stored_bitrates true true
                 = Some fresh) by (vm_compute; reflexivity).
  assert (Hrun : run (accepting true) lifecycle fresh
                 = Some (tt, lifecycle_end)) by (vm_compute; reflexivity).
  split; [reflexivity|]. split; [exact Hnew|]. split; [exact Hrun|].
  exact (proj1 (stored_bitrates_stay_checked (accepting true) stored_bitrates
                  true true lifecycle fresh lifecycle_end eq_refl Hnew Hrun)).
Defined.


(** With an event log and one video receive stream that accepts: an RTP
    packet for the stream puts its header in the log, once, and no RTCP
    packet; an RTCP packet is logged once. *)
Lemma DeliverPacket_logging_witness :
  IsRtcp (accepting true) packet_to_a = false
  /\ IsRtcp (accepting true) rtcp_packet = true
  /\ (exists evs,
        DeliverPacket (accepting true) ANY packet_to_a no_time with_a_b
        = Some (DELIVERY_OK, with_trace (trace with_a_b ++ evs) with_a_b)
        /\ logged_rtp evs = 1%nat
        /\ logged_rtcp evs = 0%nat)
  /\ (exists status evs,
        DeliverPacket (accepting true) ANY rtcp_packet no_time with_a_b
        = Some (status, with_trace (trace with_a_b ++ evs) with_a_b)
        /\ logged_rtcp evs = 1%nat).
Proof.
  split; [reflexivity|]. split; [reflexivity|]. split.
  - destruct (DeliverPacket_logging (accepting true) with_a_b ANY packet_to_a
                no_time)
      as (status & evs & Hrun & Hrtp & _ & Hnone & Hshape & _).
    assert (Hstatus : status = DELIVERY_OK).
    { destruct (Hshape eq_refl) as [[Hevs _]|(k & p & _ & Hstatus)].
      - rewrite Hevs in Hrun. vm_compute in Hrun. discriminate Hrun.
      - rewrite Hstatus. by destruct k. }
    rewrite Hstatus in Hrun, Hrtp.
    exists evs. split; [exact Hrun|]. split; [exact Hrtp|exact (Hnone eq_refl)].
  - destruct (DeliverPacket_logging (accepting true) with_a_b ANY rtcp_packet
                no_time)
      as (status & evs & Hrun & _ & _ & _ & _ & _ & Hcount).
    exists status, evs. split; [exact Hrun|].
    rewrite (Hcount eq_refl eq_refl (fun _ _ => eq_refl) (fun _ _ => eq_refl)).
    vm_compute. reflexivity.
Defined.

Lemma GetStats_reports_last_positive_rtt_witness :
  0 < GetStats_rtt_ms (-1) (fun _ => 25) one_video_send.
Proof.
  apply (proj1 (proj2 (GetStats_reports_last_positive_rtt (-1)
                         (fun _ => 25) one_video_send))).
  exists 100%N, 4%positive. split; [vm_compute; reflexivity|lia].
Defined.

(** An RTX packet of fourteen bytes is restored and handed on as a media
    packet; the flag is down again afterwards. A second RTX packet that
    comes while the buffer is in use leaves the buffer alone. *)
Lemma restored_packet_guard_witness :
  ViEReceiver.ReceivePacket restoring 1 rtp_packet 14 keepalive_header true
    receiver_idle = Some (true, restored_once)
  /\ ViEReceiver.restored_packet_in_use_ restored_once = false
  /\ ViEReceiver.ReceivePacket restoring 1 rtp_packet 14 keepalive_header true
       receiver_busy = Some (false, receiver_busy_warned)
  /\ ViEReceiver.restored_packet_ receiver_busy_warned
     = ViEReceiver.restored_packet_ receiver_busy
  /\ restore_calls (received_since receiver_busy receiver_busy_warned) = [].
Proof.
  assert (Hrun : ViEReceiver.ReceivePacket restoring 1 rtp_packet 14
                   keepalive_header true receiver_idle
                 = Some (true, restored_once)) by (vm_compute; reflexivity).
  assert (Hbusy : ViEReceiver.ReceivePacket restoring 1 rtp_packet 14
                    keepalive_header true receiver_busy
                  = Some (false, receiver_busy_warned))
    by (vm_compute; reflexivity).
  split; [exact Hrun|]. split.
  { exact (proj1 (proj1 (restored_packet_guard restoring 1 rtp_packet 14
                           keepalive_header true receiver_idle)
                    true restored_once Hrun)). }
  split; [exact Hbusy|].
  exact (proj2 (proj1 (restored_packet_guard restoring 1 rtp_packet 14
                         keepalive_header true receiver_busy)
                  false receiver_busy_warned Hbusy) eq_refl).
Defined.

Lemma restored_packets_fit_buffer_witness :
  ViEReceiver.ReceivePacket restoring 1 rtp_packet 14 keepalive_header true
    receiver_idle = Some (true, restored_once)
  /\ restore_calls (received_since receiver_idle restored_once)
     = [(14, keepalive_header)]
  /\ Forall (fits_buffer restoring)
       (restore_calls (received_since receiver_idle restored_once)).
Proof.
  assert (Hrun : ViEReceiver.ReceivePacket restoring 1 rtp_packet 14
                   keepalive_header true receiver_idle
                 = Some (true, restored_once)) by (vm_compute; reflexivity).
  split; [exact Hrun|]. split; [vm_compute; reflexivity|].
  exact (restored_packets_fit_buffer restoring 1 rtp_packet 14
           keepalive_header true receiver_idle true restored_once Hrun).
Defined.

Lemma rtx_packet_turned_away_witness :
  ViEReceiver.IsRed rtx_only receiver_idle keepalive_header = false
  /\ ViEReceiver.ParseAndHandleEncapsulatingHeader rtx_only 1 rtp_packet 8
       keepalive_header receiver_idle = Some (false, receiver_idle).
Proof.
  split; [reflexivity|].
  apply (proj1 (proj2 (rtx_packet_turned_away rtx_only 1 rtp_packet 8
                         keepalive_header receiver_idle eq_refl)
                  eq_refl ltac:(vm_compute; discriminate))).
  left. simpl. lia.
Defined.

Lemma plain_packet_delivery_witness :
  ViEReceiver.IsEncapsulated restoring receiver_idle media_header = false
  /\ ViEReceiver.ReceivePacket restoring 0 rtp_packet 12 media_header true
       receiver_idle
     = Some (true,
             ViEReceiver.with_trace
               [ViEReceiver.EvIncomingRtpPacket media_header [] 0 true true]
               receiver_idle)
  /\ ViEReceiver.ReceivePacket restoring 0 rtp_packet 8 media_header true
       receiver_idle = None.
Proof.
  split; [reflexivity|].
  destruct (plain_packet_delivery restoring 0 rtp_packet 12 media_header true
              receiver_idle eq_refl) as (_ & Hfits & _).
  destruct (plain_packet_delivery restoring 0 rtp_packet 8 media_header true
              receiver_idle eq_refl) as (Hshort & _ & _).
  split.
  - rewrite Hfits; [reflexivity|simpl; lia|lia].
  - apply Hshort; [reflexivity|simpl; lia].
Defined.

Lemma rtp_receiver_sees_video_frequency_witness :
  ViEReceiver.payload_type_frequency media_header = 0
  /\ ViEReceiver.OnRecoveredPacket restoring 1 rtp_packet 12 receiver_idle
     = Some (true, recovered_once)
  /\ length (received_since receiver_idle recovered_once) = 1%nat
  /\ Forall at_video_frequency (received_since receiver_idle recovered_once).
Proof.
  assert (Hrun : ViEReceiver.OnRecoveredPacket restoring 1 rtp_packet 12
                   receiver_idle = Some (true, recovered_once))
    by (vm_compute; reflexivity).
  split; [reflexivity|]. split; [exact Hrun|]. split; [reflexivity|].
  exact (proj1 (rtp_receiver_sees_video_frequency restoring 1 rtp_packet 12
                  receiver_idle) true recovered_once Hrun).
Defined.

Lemma stopped_receiver_drops_packets_witness :
  ViEReceiverIngress.ViEReceiver_new way_in true = Some stopped
  /\ ViEReceiverIngress.InsertRTPPacket way_in 1 rtp_packet 12 at_1500_us
       stopped = Some (-1, stopped)
  /\ ViEReceiverIngress.InsertRTCPPacket way_in rtcp_packet 8 stopped
     = Some (-1, stopped).
Proof.
  assert (Hnew : ViEReceiverIngress.ViEReceiver_new way_in true
                 = Some stopped) by (vm_compute; reflexivity).
  split; [exact Hnew|].
  destruct (proj2 (proj2 (stopped_receiver_drops_packets way_in 1 rtp_packet
                            12 at_1500_us)) true stopped Hnew)
    as [Hrtp _].
  destruct (proj2 (proj2 (stopped_receiver_drops_packets way_in 1 rtcp_packet
                            8 at_1500_us)) true stopped Hnew)
    as [_ Hrtcp].
  split; [exact Hrtp|exact Hrtcp].
Defined.

Lemma InsertRTPPacket_sequence_witness :
  ViEReceiverIngress.receiving_ started = true
  /\ ViEReceiver.Parse restoring receiver_idle rtp_packet 12
     = Some media_header
  /\ ViEReceiverIngress.InsertRTPPacket way_in 1 rtp_packet 12 at_1500_us
       started = Some (0, inserted)
  /\ ViEReceiverIngress.calls_since started inserted
     = [ViEReceiverIngress.EvLogInfo media_header 2;
        ViEReceiverIngress.EvRbeIncomingPacket 2
          (ViEReceiver.size_t_sub 12 (ViEReceiver.headerLength media_header))
          media_header;
        ViEReceiverIngress.EvSetIncomingPayloadType
          (ViEReceiver.with_payload_type_frequency
             ViEReceiver.kVideoPayloadTypeFrequency media_header)]
       ++ (ViEReceiverIngress.EvReceiver
           <$> received_since (ViEReceiverIngress.receiver_ started)
                 (ViEReceiverIngress.receiver_ inserted))
       ++ [ViEReceiverIngress.EvStatisticsIncomingPacket
             (ViEReceiver.with_payload_type_frequency
                ViEReceiver.kVideoPayloadTypeFrequency media_header)
             12 false].
Proof.
  assert (Hrun : ViEReceiverIngress.InsertRTPPacket way_in 1 rtp_packet 12
                   at_1500_us started = Some (0, inserted))
    by (vm_compute; reflexivity).
  split; [reflexivity|]. split; [reflexivity|]. split; [exact Hrun|].
  destruct (InsertRTPPacket_sequence way_in 1 rtp_packet 12
              at_1500_us media_header started 0 inserted eq_refl eq_refl Hrun)
    as (arrival & in_order & received & retransmitted & before & Harrival
        & _ & _ & _ & Hretr & _ & Hcalls).
  assert (Htwo : arrival = 2).
  { vm_compute in Harrival. by injection Harrival as <-. }
  assert (Hnot : retransmitted = false).
  { unfold ViEReceiverIngress.IsPacketRetransmitted in Hretr.
    unfold bind, get, ret in Hretr. simpl in Hretr.
    by injection Hretr as <-. }
  rewrite Htwo, Hnot in Hcalls. exact Hcalls.
Defined.

Lemma arrival_time_is_rounded_witness :
  ViEReceiverIngress.arrival_time_ms at_1500_us 20000 = Some 2.
Proof.
  destruct (proj1 (proj2 (arrival_time_is_rounded at_1500_us 20000)))
    as (arrival & Heq & Hlow & Hhigh).
  - simpl. lia.
  - rewrite Heq. f_equal. simpl in Hlow, Hhigh. lia.
Defined.

Lemma packet_log_is_throttled_witness :
  ViEReceiverIngress.InsertRTPPacket way_in 1 rtp_packet 12 at_1500_us
    started = Some (0, inserted)
  /\ ViEReceiverIngress.logged_headers
       (ViEReceiverIngress.calls_since started inserted) = 1%nat
  /\ ViEReceiverIngress.last_packet_log_ms_ inserted = 20000.
Proof.
  assert (Hrun : ViEReceiverIngress.InsertRTPPacket way_in 1 rtp_packet 12
                   at_1500_us started = Some (0, inserted))
    by (vm_compute; reflexivity).
  split; [exact Hrun|].
  apply (proj1 (packet_log_is_throttled way_in 1 rtp_packet 12 at_1500_us
                  media_header started 0 inserted eq_refl eq_refl Hrun)).
  vm_compute. reflexivity.
Defined.

Lemma InsertRTCPPacket_reaches_every_module_witness :
  ViEReceiverIngress.receiving_ started = true
  /\ (ViEReceiverIngress.SetRtpRtcpModule (Some 1%positive) ;;;
      ViEReceiverIngress.RegisterRtpRtcpModules
        [1%positive; 2%positive; 3%positive] ;;;
      ViEReceiverIngress.StartReceive) stopped = Some (tt, started)
  /\ (exists evs,
        ViEReceiverIngress.InsertRTCPPacket way_in rtcp_packet 8 started
        = Some (0, ViEReceiverIngress.with_calls
                     (ViEReceiverIngress.calls started ++ evs) started)
        /\ ViEReceiverIngress.rtcp_modules evs
           = [2%positive; 3%positive; 1%positive]
        /\ ViEReceiverIngress.ntp_updates evs = [30])
  /\ (exists evs,
        ViEReceiverIngress.InsertRTCPPacket base_refuses rtcp_packet 8 started
        = Some (-1, ViEReceiverIngress.with_calls
                      (ViEReceiverIngress.calls started ++ evs) started)
        /\ ViEReceiverIngress.rtcp_modules evs
           = [2%positive; 3%positive; 1%positive]
        /\ ViEReceiverIngress.ntp_updates evs = []).
Proof.
  assert (Hsetup :
    (ViEReceiverIngress.SetRtpRtcpModule (Some 1%positive) ;;;
     ViEReceiverIngress.RegisterRtpRtcpModules
       [1%positive; 2%positive; 3%positive] ;;;
     ViEReceiverIngress.StartReceive) stopped = Some (tt, started))
    by reflexivity.
  split; [reflexivity|]. split; [exact Hsetup|]. split.
  - destruct (proj1 (proj2 (InsertRTCPPacket_reaches_every_module way_in
                              rtcp_packet 8))
                started 1%positive eq_refl eq_refl)
      as (simulcast & rest & Hrun & _ & _ & _ & Hmods & Hntp & _).
    eexists. split; [exact Hrun|]. split; [exact Hmods|exact Hntp].
  - destruct (proj1 (proj2 (InsertRTCPPacket_reaches_every_module
                              base_refuses rtcp_packet 8))
                started 1%positive eq_refl eq_refl)
      as (simulcast & rest & Hrun & _ & _ & _ & Hmods & Hntp & _).
    eexists. split; [exact Hrun|]. split; [exact Hmods|exact Hntp].
Defined.

Lemma IsPacketRetransmitted_cases_witness :
  ViEReceiverIngress.RtxEnabled way_in started = true
  /\ ViEReceiverIngress.IsPacketRetransmitted way_in media_header false
       started = Some (false, started).
Proof.
  split; [reflexivity|].
  exact (proj1 (IsPacketRetransmitted_cases way_in media_header false started)
           eq_refl).
Defined.
